(** * Xeros kernel nucleus: a shallow embedding of the C sources

    The kernel of the repository (queue.c, deltalist.c, disp.c, msg.c,
    sleep.c, signal.c, create.c, di_calls.c, kbd.c, mem.c) is embedded as
    Rocq functions over an explicit kernel state.  Pointers to PCBs are
    indices into the PCB store ([None] is the C [NULL]); a dereference of
    [NULL] and a failed [assert] stop the kernel and are modelled as
    faults of a small state-and-error monad. *)

From stdpp Require Import base list numbers.
From Stdlib Require Import ZArith Lia.
Local Open Scope Z_scope.

(** ** Machine integers (32-bit x86) *)

Definition wrap32 (z : Z) : Z := z mod 4294967296.

(** The value of a 32-bit pattern read as a C [int]. *)
Definition to_int (z : Z) : Z :=
  let u := wrap32 z in if u <? 2147483648 then u else u - 4294967296.

Definition INT_MAX : Z := 2147483647.

(** ** Constants of xeroskernel.h and kbd.h *)

Definition PCB_TABLE_SIZE : Z := 32.
Definition NUM_PRIORITIES : Z := 4.
Definition INIT_PRIORITY : Z := 3.
Definition IDLE_PROC_PID : Z := 0.
Definition BUFFER_SIZE : Z := 4.
Definition TIME_SLICE : Z := 10.
Definition PROCESS_STACK_SIZE : Z := 8192.
Definition IDLE_PROCESS_STACK_SIZE : Z := 512.
Definition EFLAGS : Z := 12800.
Definition SIGNAL_TABLE_SIZE : Z := 32.
Definition FD_TABLE_SIZE : Z := 4.
Definition DEVICE_TABLE_SIZE : Z := 2.
Definition KBD_0 : Z := 0.
Definition KBD_1 : Z := 1.
Definition DEFAULT_EOF : Z := 4.
Definition KBD_BUFFER_SIZE : Z := 5.
Definition IOCTL_CHANGE_EOF : Z := 53.
Definition IOCTL_ECHO_OFF : Z := 55.
Definition IOCTL_ECHO_ON : Z := 56.

(** sizeof(context_frame_t): eleven 32-bit registers;
    sizeof(signal_delivery_context_t): the frame plus five words. *)
Definition SIZEOF_CONTEXT_FRAME : Z := 44.
Definition SIZEOF_SIGNAL_DELIVERY_CONTEXT : Z := 64.

(** ** Byte-addressed memory, little endian *)

Definition mem : Type := Z -> Z.

Definition load8 (m : mem) (a : Z) : Z := m (wrap32 a) mod 256.
Definition store8 (m : mem) (a b : Z) : mem :=
  fun x => if x =? wrap32 a then b mod 256 else m x.

Definition load32 (m : mem) (a : Z) : Z :=
  load8 m a + 256 * load8 m (a + 1) + 65536 * load8 m (a + 2)
  + 16777216 * load8 m (a + 3).

Definition byte_of (v : Z) (i : Z) : Z := (wrap32 v / 256 ^ i) mod 256.

Definition store32 (m : mem) (a v : Z) : mem :=
  store8 (store8 (store8 (store8 m a (byte_of v 0)) (a + 1) (byte_of v 1))
                 (a + 2) (byte_of v 2)) (a + 3) (byte_of v 3).

Fixpoint load_bytes (m : mem) (a : Z) (n : nat) : list Z :=
  match n with
  | O => []
  | S n' => load8 m a :: load_bytes m (a + 1) n'
  end.

Fixpoint store_bytes (m : mem) (a : Z) (bs : list Z) : mem :=
  match bs with
  | [] => m
  | b :: bs' => store_bytes (store8 m a b) (a + 1) bs'
  end.

Definition bytes_of_word (v : Z) : list Z :=
  [byte_of v 0; byte_of v 1; byte_of v 2; byte_of v 3].

(** ** Data model (xeroskernel.h) *)

Inductive process_state_t := RUNNING | READY | BLOCKED | STOPPED.

Inductive blocked_queue_t :=
  SENDER | RECEIVER | WAIT | RECEIVE_ANY | SLEEP | READ | NONE.

(** A [pcb_t *]: an index into the PCB store, or [NULL]. *)
Definition pcb_ptr : Type := option nat.

Module Q.
Record Queue := mk { size : Z; head : pcb_ptr; tail : pcb_ptr }.
Definition set_size (v : Z) (r : Queue) : Queue :=
  {| size := v; head := head r; tail := tail r |}.
Definition set_head (v : pcb_ptr) (r : Queue) : Queue :=
  {| size := size r; head := v; tail := tail r |}.
Definition set_tail (v : pcb_ptr) (r : Queue) : Queue :=
  {| size := size r; head := head r; tail := v |}.
End Q.
Abbreviation Queue := Q.Queue.

Module D.
Record DeltaList := mk { size : Z; head : pcb_ptr }.
Definition set_size (v : Z) (r : DeltaList) : DeltaList :=
  {| size := v; head := head r |}.
Definition set_head (v : pcb_ptr) (r : DeltaList) : DeltaList :=
  {| size := size r; head := v |}.
End D.
Abbreviation DeltaList := D.DeltaList.

Module P.
Record pcb_t := mk {
  pid : Z;
  state : process_state_t;
  prev : pcb_ptr;
  next : pcb_ptr;
  mem_start : Z;
  esp : Z;
  result_code : Z;
  priority : Z;
  blocked_on : pcb_ptr;
  blocked_queue : blocked_queue_t;
  blocked_queues : list Queue;
  ipc_args : Z;
  key : Z;
  cpuTime : Z;
  signal_table : list Z;
  pending_signals : Z;
  last_signal_delivered : Z;
  fd_table : list (option nat)
}.
Definition set_pid (v : Z) (r : pcb_t) : pcb_t :=
  {| pid := v; state := state r; prev := prev r; next := next r;
     mem_start := mem_start r; esp := esp r; result_code := result_code r;
     priority := priority r; blocked_on := blocked_on r;
     blocked_queue := blocked_queue r; blocked_queues := blocked_queues r;
     ipc_args := ipc_args r; key := key r; cpuTime := cpuTime r;
     signal_table := signal_table r; pending_signals := pending_signals r;
     last_signal_delivered := last_signal_delivered r; fd_table := fd_table r |}.
Definition set_state (v : process_state_t) (r : pcb_t) : pcb_t :=
  {| pid := pid r; state := v; prev := prev r; next := next r; mem_start := mem_start r;
     esp := esp r; result_code := result_code r; priority := priority r;
     blocked_on := blocked_on r; blocked_queue := blocked_queue r;
     blocked_queues := blocked_queues r; ipc_args := ipc_args r; key := key r;
     cpuTime := cpuTime r; signal_table := signal_table r;
     pending_signals := pending_signals r;
     last_signal_delivered := last_signal_delivered r; fd_table := fd_table r |}.
Definition set_prev (v : pcb_ptr) (r : pcb_t) : pcb_t :=
  {| pid := pid r; state := state r; prev := v; next := next r;
     mem_start := mem_start r; esp := esp r; result_code := result_code r;
     priority := priority r; blocked_on := blocked_on r;
     blocked_queue := blocked_queue r; blocked_queues := blocked_queues r;
     ipc_args := ipc_args r; key := key r; cpuTime := cpuTime r;
     signal_table := signal_table r; pending_signals := pending_signals r;
     last_signal_delivered := last_signal_delivered r; fd_table := fd_table r |}.
Definition set_next (v : pcb_ptr) (r : pcb_t) : pcb_t :=
  {| pid := pid r; state := state r; prev := prev r; next := v;
     mem_start := mem_start r; esp := esp r; result_code := result_code r;
     priority := priority r; blocked_on := blocked_on r;
     blocked_queue := blocked_queue r; blocked_queues := blocked_queues r;
     ipc_args := ipc_args r; key := key r; cpuTime := cpuTime r;
     signal_table := signal_table r; pending_signals := pending_signals r;
     last_signal_delivered := last_signal_delivered r; fd_table := fd_table r |}.
Definition set_mem_start (v : Z) (r : pcb_t) : pcb_t :=
  {| pid := pid r; state := state r; prev := prev r; next := next r; mem_start := v;
     esp := esp r; result_code := result_code r; priority := priority r;
     blocked_on := blocked_on r; blocked_queue := blocked_queue r;
     blocked_queues := blocked_queues r; ipc_args := ipc_args r; key := key r;
     cpuTime := cpuTime r; signal_table := signal_table r;
     pending_signals := pending_signals r;
     last_signal_delivered := last_signal_delivered r; fd_table := fd_table r |}.
Definition set_esp (v : Z) (r : pcb_t) : pcb_t :=
  {| pid := pid r; state := state r; prev := prev r; next := next r;
     mem_start := mem_start r; esp := v; result_code := result_code r;
     priority := priority r; blocked_on := blocked_on r;
     blocked_queue := blocked_queue r; blocked_queues := blocked_queues r;
     ipc_args := ipc_args r; key := key r; cpuTime := cpuTime r;
     signal_table := signal_table r; pending_signals := pending_signals r;
     last_signal_delivered := last_signal_delivered r; fd_table := fd_table r |}.
Definition set_result_code (v : Z) (r : pcb_t) : pcb_t :=
  {| pid := pid r; state := state r; prev := prev r; next := next r;
     mem_start := mem_start r; esp := esp r; result_code := v; priority := priority r;
     blocked_on := blocked_on r; blocked_queue := blocked_queue r;
     blocked_queues := blocked_queues r; ipc_args := ipc_args r; key := key r;
     cpuTime := cpuTime r; signal_table := signal_table r;
     pending_signals := pending_signals r;
     last_signal_delivered := last_signal_delivered r; fd_table := fd_table r |}.
Definition set_priority (v : Z) (r : pcb_t) : pcb_t :=
  {| pid := pid r; state := state r; prev := prev r; next := next r;
     mem_start := mem_start r; esp := esp r; result_code := result_code r;
     priority := v; blocked_on := blocked_on r; blocked_queue := blocked_queue r;
     blocked_queues := blocked_queues r; ipc_args := ipc_args r; key := key r;
     cpuTime := cpuTime r; signal_table := signal_table r;
     pending_signals := pending_signals r;
     last_signal_delivered := last_signal_delivered r; fd_table := fd_table r |}.
Definition set_blocked_on (v : pcb_ptr) (r : pcb_t) : pcb_t :=
  {| pid := pid r; state := state r; prev := prev r; next := next r;
     mem_start := mem_start r; esp := esp r; result_code := result_code r;
     priority := priority r; blocked_on := v; blocked_queue := blocked_queue r;
     blocked_queues := blocked_queues r; ipc_args := ipc_args r; key := key r;
     cpuTime := cpuTime r; signal_table := signal_table r;
     pending_signals := pending_signals r;
     last_signal_delivered := last_signal_delivered r; fd_table := fd_table r |}.
Definition set_blocked_queue (v : blocked_queue_t) (r : pcb_t) : pcb_t :=
  {| pid := pid r; state := state r; prev := prev r; next := next r;
     mem_start := mem_start r; esp := esp r; result_code := result_code r;
     priority := priority r; blocked_on := blocked_on r; blocked_queue := v;
     blocked_queues := blocked_queues r; ipc_args := ipc_args r; key := key r;
     cpuTime := cpuTime r; signal_table := signal_table r;
     pending_signals := pending_signals r;
     last_signal_delivered := last_signal_delivered r; fd_table := fd_table r |}.
Definition set_blocked_queues (v : list Queue) (r : pcb_t) : pcb_t :=
  {| pid := pid r; state := state r; prev := prev r; next := next r;
     mem_start := mem_start r; esp := esp r; result_code := result_code r;
     priority := priority r; blocked_on := blocked_on r;
     blocked_queue := blocked_queue r; blocked_queues := v; ipc_args := ipc_args r;
     key := key r; cpuTime := cpuTime r; signal_table := signal_table r;
     pending_signals := pending_signals r;
     last_signal_delivered := last_signal_delivered r; fd_table := fd_table r |}.
Definition set_ipc_args (v : Z) (r : pcb_t) : pcb_t :=
  {| pid := pid r; state := state r; prev := prev r; next := next r;
     mem_start := mem_start r; esp := esp r; result_code := result_code r;
     priority := priority r; blocked_on := blocked_on r;
     blocked_queue := blocked_queue r; blocked_queues := blocked_queues r;
     ipc_args := v; key := key r; cpuTime := cpuTime r; signal_table := signal_table r;
     pending_signals := pending_signals r;
     last_signal_delivered := last_signal_delivered r; fd_table := fd_table r |}.
Definition set_key (v : Z) (r : pcb_t) : pcb_t :=
  {| pid := pid r; state := state r; prev := prev r; next := next r;
     mem_start := mem_start r; esp := esp r; result_code := result_code r;
     priority := priority r; blocked_on := blocked_on r;
     blocked_queue := blocked_queue r; blocked_queues := blocked_queues r;
     ipc_args := ipc_args r; key := v; cpuTime := cpuTime r;
     signal_table := signal_table r; pending_signals := pending_signals r;
     last_signal_delivered := last_signal_delivered r; fd_table := fd_table r |}.
Definition set_cpuTime (v : Z) (r : pcb_t) : pcb_t :=
  {| pid := pid r; state := state r; prev := prev r; next := next r;
     mem_start := mem_start r; esp := esp r; result_code := result_code r;
     priority := priority r; blocked_on := blocked_on r;
     blocked_queue := blocked_queue r; blocked_queues := blocked_queues r;
     ipc_args := ipc_args r; key := key r; cpuTime := v; signal_table := signal_table r;
     pending_signals := pending_signals r;
     last_signal_delivered := last_signal_delivered r; fd_table := fd_table r |}.
Definition set_signal_table (v : list Z) (r : pcb_t) : pcb_t :=
  {| pid := pid r; state := state r; prev := prev r; next := next r;
     mem_start := mem_start r; esp := esp r; result_code := result_code r;
     priority := priority r; blocked_on := blocked_on r;
     blocked_queue := blocked_queue r; blocked_queues := blocked_queues r;
     ipc_args := ipc_args r; key := key r; cpuTime := cpuTime r; signal_table := v;
     pending_signals := pending_signals r;
     last_signal_delivered := last_signal_delivered r; fd_table := fd_table r |}.
Definition set_pending_signals (v : Z) (r : pcb_t) : pcb_t :=
  {| pid := pid r; state := state r; prev := prev r; next := next r;
     mem_start := mem_start r; esp := esp r; result_code := result_code r;
     priority := priority r; blocked_on := blocked_on r;
     blocked_queue := blocked_queue r; blocked_queues := blocked_queues r;
     ipc_args := ipc_args r; key := key r; cpuTime := cpuTime r;
     signal_table := signal_table r; pending_signals := v;
     last_signal_delivered := last_signal_delivered r; fd_table := fd_table r |}.
Definition set_last_signal_delivered (v : Z) (r : pcb_t) : pcb_t :=
  {| pid := pid r; state := state r; prev := prev r; next := next r;
     mem_start := mem_start r; esp := esp r; result_code := result_code r;
     priority := priority r; blocked_on := blocked_on r;
     blocked_queue := blocked_queue r; blocked_queues := blocked_queues r;
     ipc_args := ipc_args r; key := key r; cpuTime := cpuTime r;
     signal_table := signal_table r; pending_signals := pending_signals r;
     last_signal_delivered := v; fd_table := fd_table r |}.
Definition set_fd_table (v : list (option nat)) (r : pcb_t) : pcb_t :=
  {| pid := pid r; state := state r; prev := prev r; next := next r;
     mem_start := mem_start r; esp := esp r; result_code := result_code r;
     priority := priority r; blocked_on := blocked_on r;
     blocked_queue := blocked_queue r; blocked_queues := blocked_queues r;
     ipc_args := ipc_args r; key := key r; cpuTime := cpuTime r;
     signal_table := signal_table r; pending_signals := pending_signals r;
     last_signal_delivered := last_signal_delivered r; fd_table := v |}.
End P.
Abbreviation pcb_t := P.pcb_t.

(** The statics of kbd.c; [hw_enabled] stands for the keyboard controller
    and its interrupt line (the [outb]/[enable_irq] pair). *)
Module KB.
Record kbd_t := mk {
  kbd_buf : list Z;
  kbd_buf_head : Z;
  kbd_buf_tail : Z;
  read_buf : Z;
  read_buflen : Z;
  chars_transferred : Z;
  read_finished : Z;
  eof : Z;
  eof_flag : Z;
  echo_flag : Z;
  kbd_proc : pcb_ptr;
  kbd_state : Z;
  hw_enabled : bool
}.
Definition set_kbd_buf (v : list Z) (r : kbd_t) : kbd_t :=
  {| kbd_buf := v; kbd_buf_head := kbd_buf_head r; kbd_buf_tail := kbd_buf_tail r;
     read_buf := read_buf r; read_buflen := read_buflen r;
     chars_transferred := chars_transferred r; read_finished := read_finished r;
     eof := eof r; eof_flag := eof_flag r; echo_flag := echo_flag r;
     kbd_proc := kbd_proc r; kbd_state := kbd_state r; hw_enabled := hw_enabled r |}.
Definition set_kbd_buf_head (v : Z) (r : kbd_t) : kbd_t :=
  {| kbd_buf := kbd_buf r; kbd_buf_head := v; kbd_buf_tail := kbd_buf_tail r;
     read_buf := read_buf r; read_buflen := read_buflen r;
     chars_transferred := chars_transferred r; read_finished := read_finished r;
     eof := eof r; eof_flag := eof_flag r; echo_flag := echo_flag r;
     kbd_proc := kbd_proc r; kbd_state := kbd_state r; hw_enabled := hw_enabled r |}.
Definition set_kbd_buf_tail (v : Z) (r : kbd_t) : kbd_t :=
  {| kbd_buf := kbd_buf r; kbd_buf_head := kbd_buf_head r; kbd_buf_tail := v;
     read_buf := read_buf r; read_buflen := read_buflen r;
     chars_transferred := chars_transferred r; read_finished := read_finished r;
     eof := eof r; eof_flag := eof_flag r; echo_flag := echo_flag r;
     kbd_proc := kbd_proc r; kbd_state := kbd_state r; hw_enabled := hw_enabled r |}.
Definition set_read_buf (v : Z) (r : kbd_t) : kbd_t :=
  {| kbd_buf := kbd_buf r; kbd_buf_head := kbd_buf_head r;
     kbd_buf_tail := kbd_buf_tail r; read_buf := v; read_buflen := read_buflen r;
     chars_transferred := chars_transferred r; read_finished := read_finished r;
     eof := eof r; eof_flag := eof_flag r; echo_flag := echo_flag r;
     kbd_proc := kbd_proc r; kbd_state := kbd_state r; hw_enabled := hw_enabled r |}.
Definition set_read_buflen (v : Z) (r : kbd_t) : kbd_t :=
  {| kbd_buf := kbd_buf r; kbd_buf_head := kbd_buf_head r;
     kbd_buf_tail := kbd_buf_tail r; read_buf := read_buf r; read_buflen := v;
     chars_transferred := chars_transferred r; read_finished := read_finished r;
     eof := eof r; eof_flag := eof_flag r; echo_flag := echo_flag r;
     kbd_proc := kbd_proc r; kbd_state := kbd_state r; hw_enabled := hw_enabled r |}.
Definition set_chars_transferred (v : Z) (r : kbd_t) : kbd_t :=
  {| kbd_buf := kbd_buf r; kbd_buf_head := kbd_buf_head r;
     kbd_buf_tail := kbd_buf_tail r; read_buf := read_buf r;
     read_buflen := read_buflen r; chars_transferred := v;
     read_finished := read_finished r; eof := eof r; eof_flag := eof_flag r;
     echo_flag := echo_flag r; kbd_proc := kbd_proc r; kbd_state := kbd_state r;
     hw_enabled := hw_enabled r |}.
Definition set_read_finished (v : Z) (r : kbd_t) : kbd_t :=
  {| kbd_buf := kbd_buf r; kbd_buf_head := kbd_buf_head r;
     kbd_buf_tail := kbd_buf_tail r; read_buf := read_buf r;
     read_buflen := read_buflen r; chars_transferred := chars_transferred r;
     read_finished := v; eof := eof r; eof_flag := eof_flag r; echo_flag := echo_flag r;
     kbd_proc := kbd_proc r; kbd_state := kbd_state r; hw_enabled := hw_enabled r |}.
Definition set_eof (v : Z) (r : kbd_t) : kbd_t :=
  {| kbd_buf := kbd_buf r; kbd_buf_head := kbd_buf_head r;
     kbd_buf_tail := kbd_buf_tail r; read_buf := read_buf r;
     read_buflen := read_buflen r; chars_transferred := chars_transferred r;
     read_finished := read_finished r; eof := v; eof_flag := eof_flag r;
     echo_flag := echo_flag r; kbd_proc := kbd_proc r; kbd_state := kbd_state r;
     hw_enabled := hw_enabled r |}.
Definition set_eof_flag (v : Z) (r : kbd_t) : kbd_t :=
  {| kbd_buf := kbd_buf r; kbd_buf_head := kbd_buf_head r;
     kbd_buf_tail := kbd_buf_tail r; read_buf := read_buf r;
     read_buflen := read_buflen r; chars_transferred := chars_transferred r;
     read_finished := read_finished r; eof := eof r; eof_flag := v;
     echo_flag := echo_flag r; kbd_proc := kbd_proc r; kbd_state := kbd_state r;
     hw_enabled := hw_enabled r |}.
Definition set_echo_flag (v : Z) (r : kbd_t) : kbd_t :=
  {| kbd_buf := kbd_buf r; kbd_buf_head := kbd_buf_head r;
     kbd_buf_tail := kbd_buf_tail r; read_buf := read_buf r;
     read_buflen := read_buflen r; chars_transferred := chars_transferred r;
     read_finished := read_finished r; eof := eof r; eof_flag := eof_flag r;
     echo_flag := v; kbd_proc := kbd_proc r; kbd_state := kbd_state r;
     hw_enabled := hw_enabled r |}.
Definition set_kbd_proc (v : pcb_ptr) (r : kbd_t) : kbd_t :=
  {| kbd_buf := kbd_buf r; kbd_buf_head := kbd_buf_head r;
     kbd_buf_tail := kbd_buf_tail r; read_buf := read_buf r;
     read_buflen := read_buflen r; chars_transferred := chars_transferred r;
     read_finished := read_finished r; eof := eof r; eof_flag := eof_flag r;
     echo_flag := echo_flag r; kbd_proc := v; kbd_state := kbd_state r;
     hw_enabled := hw_enabled r |}.
Definition set_kbd_state (v : Z) (r : kbd_t) : kbd_t :=
  {| kbd_buf := kbd_buf r; kbd_buf_head := kbd_buf_head r;
     kbd_buf_tail := kbd_buf_tail r; read_buf := read_buf r;
     read_buflen := read_buflen r; chars_transferred := chars_transferred r;
     read_finished := read_finished r; eof := eof r; eof_flag := eof_flag r;
     echo_flag := echo_flag r; kbd_proc := kbd_proc r; kbd_state := v;
     hw_enabled := hw_enabled r |}.
Definition set_hw_enabled (v : bool) (r : kbd_t) : kbd_t :=
  {| kbd_buf := kbd_buf r; kbd_buf_head := kbd_buf_head r;
     kbd_buf_tail := kbd_buf_tail r; read_buf := read_buf r;
     read_buflen := read_buflen r; chars_transferred := chars_transferred r;
     read_finished := read_finished r; eof := eof r; eof_flag := eof_flag r;
     echo_flag := echo_flag r; kbd_proc := kbd_proc r; kbd_state := kbd_state r;
     hw_enabled := v |}.
End KB.
Abbreviation kbd_t := KB.kbd_t.

(** Memory layout constants of i386.h / i386.c and link-time addresses,
    which are not part of the sources at hand: they are carried in the
    state as parameters. *)
Record layout_t := mk_layout {
  HOLESTART : Z;
  HOLEEND : Z;
  maxaddr : Z;
  freemem_aligned : Z;
  (* addresses of sysstop, sigtramp and idleproc in the kernel image, and
     the code segment selector returned by getCS() *)
  sysstop_addr : Z;
  sigtramp_addr : Z;
  idleproc_addr : Z;
  code_segment : Z
}.

(** The kernel state: the statics of disp.c, msg.c, sleep.c and kbd.c, the
    system call argument pointer set by the context switcher, and memory.
    [pcbs] holds [pcb_table[0..31]] followed by [idle_proc] at index 32.
    [freed] logs the blocks handed back to the allocator by [kfree]. *)
Module K.
Record kernel := mk {
  pcbs : list pcb_t;
  ready_queues : list Queue;
  stopped_queue : Queue;
  receive_any_queue : Queue;
  sleep_queue : DeltaList;
  current_proc : pcb_ptr;
  user_proc_count : Z;
  args : Z;
  memory : mem;
  kbd : kbd_t;
  layout : layout_t;
  freed : list Z
}.
Definition set_pcbs (v : list pcb_t) (r : kernel) : kernel :=
  {| pcbs := v; ready_queues := ready_queues r; stopped_queue := stopped_queue r;
     receive_any_queue := receive_any_queue r; sleep_queue := sleep_queue r;
     current_proc := current_proc r; user_proc_count := user_proc_count r;
     args := args r; memory := memory r; kbd := kbd r; layout := layout r;
     freed := freed r |}.
Definition set_ready_queues (v : list Queue) (r : kernel) : kernel :=
  {| pcbs := pcbs r; ready_queues := v; stopped_queue := stopped_queue r;
     receive_any_queue := receive_any_queue r; sleep_queue := sleep_queue r;
     current_proc := current_proc r; user_proc_count := user_proc_count r;
     args := args r; memory := memory r; kbd := kbd r; layout := layout r;
     freed := freed r |}.
Definition set_stopped_queue (v : Queue) (r : kernel) : kernel :=
  {| pcbs := pcbs r; ready_queues := ready_queues r; stopped_queue := v;
     receive_any_queue := receive_any_queue r; sleep_queue := sleep_queue r;
     current_proc := current_proc r; user_proc_count := user_proc_count r;
     args := args r; memory := memory r; kbd := kbd r; layout := layout r;
     freed := freed r |}.
Definition set_receive_any_queue (v : Queue) (r : kernel) : kernel :=
  {| pcbs := pcbs r; ready_queues := ready_queues r; stopped_queue := stopped_queue r;
     receive_any_queue := v; sleep_queue := sleep_queue r;
     current_proc := current_proc r; user_proc_count := user_proc_count r;
     args := args r; memory := memory r; kbd := kbd r; layout := layout r;
     freed := freed r |}.
Definition set_sleep_queue (v : DeltaList) (r : kernel) : kernel :=
  {| pcbs := pcbs r; ready_queues := ready_queues r; stopped_queue := stopped_queue r;
     receive_any_queue := receive_any_queue r; sleep_queue := v;
     current_proc := current_proc r; user_proc_count := user_proc_count r;
     args := args r; memory := memory r; kbd := kbd r; layout := layout r;
     freed := freed r |}.
Definition set_current_proc (v : pcb_ptr) (r : kernel) : kernel :=
  {| pcbs := pcbs r; ready_queues := ready_queues r; stopped_queue := stopped_queue r;
     receive_any_queue := receive_any_queue r; sleep_queue := sleep_queue r;
     current_proc := v; user_proc_count := user_proc_count r; args := args r;
     memory := memory r; kbd := kbd r; layout := layout r; freed := freed r |}.
Definition set_user_proc_count (v : Z) (r : kernel) : kernel :=
  {| pcbs := pcbs r; ready_queues := ready_queues r; stopped_queue := stopped_queue r;
     receive_any_queue := receive_any_queue r; sleep_queue := sleep_queue r;
     current_proc := current_proc r; user_proc_count := v; args := args r;
     memory := memory r; kbd := kbd r; layout := layout r; freed := freed r |}.
Definition set_args (v : Z) (r : kernel) : kernel :=
  {| pcbs := pcbs r; ready_queues := ready_queues r; stopped_queue := stopped_queue r;
     receive_any_queue := receive_any_queue r; sleep_queue := sleep_queue r;
     current_proc := current_proc r; user_proc_count := user_proc_count r; args := v;
     memory := memory r; kbd := kbd r; layout := layout r; freed := freed r |}.
Definition set_memory (v : mem) (r : kernel) : kernel :=
  {| pcbs := pcbs r; ready_queues := ready_queues r; stopped_queue := stopped_queue r;
     receive_any_queue := receive_any_queue r; sleep_queue := sleep_queue r;
     current_proc := current_proc r; user_proc_count := user_proc_count r;
     args := args r; memory := v; kbd := kbd r; layout := layout r; freed := freed r |}.
Definition set_kbd (v : kbd_t) (r : kernel) : kernel :=
  {| pcbs := pcbs r; ready_queues := ready_queues r; stopped_queue := stopped_queue r;
     receive_any_queue := receive_any_queue r; sleep_queue := sleep_queue r;
     current_proc := current_proc r; user_proc_count := user_proc_count r;
     args := args r; memory := memory r; kbd := v; layout := layout r; freed := freed r |}.
Definition set_layout (v : layout_t) (r : kernel) : kernel :=
  {| pcbs := pcbs r; ready_queues := ready_queues r; stopped_queue := stopped_queue r;
     receive_any_queue := receive_any_queue r; sleep_queue := sleep_queue r;
     current_proc := current_proc r; user_proc_count := user_proc_count r;
     args := args r; memory := memory r; kbd := kbd r; layout := v; freed := freed r |}.
Definition set_freed (v : list Z) (r : kernel) : kernel :=
  {| pcbs := pcbs r; ready_queues := ready_queues r; stopped_queue := stopped_queue r;
     receive_any_queue := receive_any_queue r; sleep_queue := sleep_queue r;
     current_proc := current_proc r; user_proc_count := user_proc_count r;
     args := args r; memory := memory r; kbd := kbd r; layout := layout r; freed := v |}.
End K.
Abbreviation kernel := K.kernel.

Definition IDLE_SLOT : nat := 32.

(** ** The kernel monad: state passing with faults

    A computation ends with a fault where the kernel stops ([assert]
    prints and spins) or where the embedding has no state to go on with: a
    PCB pointer outside the store, an index outside an array, a loop over
    a list that does not end.  The kernel image is linked at address 0 and
    runs without paging, so an access through a null pointer is an access
    to low memory and the kernel goes on; the one such access the kernel
    makes on its way, [proc->next->key] in [poll], is embedded as that
    memory access.  The other PCB accesses follow pointers that are
    non-null wherever the lists are well formed; there a null pointer is
    left as a fault. *)

Inductive fault := NullDeref | AssertFail | OutOfBounds | OutOfFuel.

Inductive Res (A : Type) := Ok (a : A) | Fault (f : fault).
Arguments Ok {A} a.
Arguments Fault {A} f.

Definition M (A : Type) : Type := kernel -> Res (A * kernel).

Definition ret {A} (a : A) : M A := fun k => Ok (a, k).

Definition bind {A B} (m : M A) (f : A -> M B) : M B :=
  fun k => match m k with
           | Ok (a, k') => f a k'
           | Fault e => Fault e
           end.

Definition fail {A} (e : fault) : M A := fun _ => Fault e.

Notation "x <- m ;; f" := (bind m (fun x => f))
  (at level 100, m at next level, right associativity).
Notation "m ;;; f" := (bind m (fun _ => f))
  (at level 100, right associativity).

Definition gets {A} (f : kernel -> A) : M A := fun k => Ok (f k, k).
Definition modify (f : kernel -> kernel) : M unit := fun k => Ok (tt, f k).

(** [assert] of util.c prints and spins forever: the kernel stops. *)
Definition assert (b : bool) : M unit :=
  if b then ret tt else fail AssertFail.

Definition is_null (p : pcb_ptr) : bool :=
  match p with None => true | Some _ => false end.

Definition ptr_eqb (p q : pcb_ptr) : bool :=
  match p, q with
  | None, None => true
  | Some i, Some j => Nat.eqb i j
  | _, _ => false
  end.

(** [*p] as an rvalue and a field assignment [p->f = v]. *)
Definition rd (p : pcb_ptr) : M pcb_t := fun k =>
  match p with
  | None => Fault NullDeref
  | Some i => match K.pcbs k !! i with
              | Some pc => Ok (pc, k)
              | None => Fault OutOfBounds
              end
  end.

Definition wr (p : pcb_ptr) (f : pcb_t -> pcb_t) : M unit := fun k =>
  match p with
  | None => Fault NullDeref
  | Some i => match K.pcbs k !! i with
              | Some pc => Ok (tt, K.set_pcbs (<[i := f pc]> (K.pcbs k)) k)
              | None => Fault OutOfBounds
              end
  end.

(** A [Queue *] of the kernel: one of the statics or a blocked queue
    embedded in a PCB. *)
Inductive queue_ref :=
| ReadyQ (i : nat)
| StoppedQ
| ReceiveAnyQ
| BlockedQ (p : pcb_ptr) (b : nat).

Definition bq_index (b : blocked_queue_t) : nat :=
  match b with
  | SENDER => 0 | RECEIVER => 1 | WAIT => 2 | RECEIVE_ANY => 3
  | SLEEP => 4 | READ => 5 | NONE => 6
  end%nat.

Definition bq_eqb (a b : blocked_queue_t) : bool :=
  Nat.eqb (bq_index a) (bq_index b).

Definition state_eqb (a b : process_state_t) : bool :=
  match a, b with
  | RUNNING, RUNNING | READY, READY | BLOCKED, BLOCKED | STOPPED, STOPPED => true
  | _, _ => false
  end.

Definition getq (r : queue_ref) : M Queue :=
  match r with
  | ReadyQ i => fun k => match K.ready_queues k !! i with
                         | Some q => Ok (q, k)
                         | None => Fault OutOfBounds
                         end
  | StoppedQ => gets K.stopped_queue
  | ReceiveAnyQ => gets K.receive_any_queue
  | BlockedQ p b =>
      pc <- rd p ;;
      match P.blocked_queues pc !! b with
      | Some q => ret q
      | None => fail OutOfBounds
      end
  end.

Definition modq (r : queue_ref) (f : Queue -> Queue) : M unit :=
  match r with
  | ReadyQ i => fun k => match K.ready_queues k !! i with
                         | Some q => Ok (tt, K.set_ready_queues
                                               (<[i := f q]> (K.ready_queues k)) k)
                         | None => Fault OutOfBounds
                         end
  | StoppedQ => modify (fun k => K.set_stopped_queue (f (K.stopped_queue k)) k)
  | ReceiveAnyQ =>
      modify (fun k => K.set_receive_any_queue (f (K.receive_any_queue k)) k)
  | BlockedQ p b =>
      pc <- rd p ;;
      match P.blocked_queues pc !! b with
      | Some q => wr p (P.set_blocked_queues (<[b := f q]> (P.blocked_queues pc)))
      | None => fail OutOfBounds
      end
  end.

Definition inc_size (q : Queue) : Queue := Q.set_size (wrap32 (Q.size q + 1)) q.
Definition dec_size (q : Queue) : Queue := Q.set_size (wrap32 (Q.size q - 1)) q.

(** ** queue.c *)

Module queue.

Definition init_queue (queue : queue_ref) : M unit :=
  modq queue (Q.set_size 0) ;;;
  modq queue (Q.set_head None) ;;;
  modq queue (Q.set_tail None).

Definition enqueue (queue : queue_ref) (proc : pcb_ptr) : M unit :=
  assert (negb (is_null proc)) ;;;
  q <- getq queue ;;
  (match Q.tail q with
   | None =>
       wr proc (P.set_prev None) ;;;
       wr proc (P.set_next None) ;;;
       modq queue (Q.set_head proc) ;;;
       modq queue (Q.set_tail proc)
   | Some _ =>
       wr proc (P.set_prev (Q.tail q)) ;;;
       pc <- rd proc ;;
       wr (P.prev pc) (P.set_next proc) ;;;
       wr proc (P.set_next None) ;;;
       modq queue (Q.set_tail proc)
   end) ;;;
  modq queue inc_size.

Definition dequeue (queue : queue_ref) : M pcb_ptr :=
  q <- getq queue ;;
  if Q.size q =? 0 then ret None
  else
    let proc := Q.head q in
    pc <- rd proc ;;
    modq queue (Q.set_head (P.next pc)) ;;;
    (match P.next pc with
     | Some _ => wr (P.next pc) (P.set_prev (P.prev pc))
     | None => modq queue (Q.set_tail (P.prev pc))
     end) ;;;
    wr proc (P.set_prev None) ;;;
    wr proc (P.set_next None) ;;;
    modq queue dec_size ;;;
    ret proc.

Definition peek_tail (queue : queue_ref) : M pcb_ptr :=
  q <- getq queue ;;
  if Q.size q =? 0 then ret None else ret (Q.tail q).

Definition is_empty (queue : queue_ref) : M bool :=
  q <- getq queue ;; ret (Q.size q =? 0).

Definition size (queue : queue_ref) : M Z :=
  q <- getq queue ;; ret (to_int (Q.size q)).

Definition remove (queue : queue_ref) (proc : pcb_ptr) : M unit :=
  assert (negb (is_null proc)) ;;;
  q <- getq queue ;;
  assert (negb (Q.size q =? 0)) ;;;
  pc <- rd proc ;;
  (match P.prev pc with
   | Some _ => wr (P.prev pc) (P.set_next (P.next pc))
   | None => modq queue (Q.set_head (P.next pc))
   end) ;;;
  pc <- rd proc ;;
  (match P.next pc with
   | Some _ => wr (P.next pc) (P.set_prev (P.prev pc))
   | None => modq queue (Q.set_tail (P.prev pc))
   end) ;;;
  wr proc (P.set_prev None) ;;;
  wr proc (P.set_next None) ;;;
  modq queue dec_size.

End queue.

(** ** deltalist.c

    The functions are embedded over the delta list and the PCB store of
    the state: in the kernel proper the [DeltaList *] argument always
    points to [sleep_queue]. *)

(** [offsetof(pcb_t, key)]: [pid], [state], [prev], [next], [mem_start],
    [esp], [result_code], [priority], [blocked_on], [blocked_queue] (4 bytes
    each), [blocked_queues] (3 queues of 12 bytes) and [ipc_args] come
    first. *)
Definition KEY_OFFSET : Z := 80.

(** The address a null [pcb_t *] holds. *)
Definition NULL : Z := 0.

Module deltalist.

Definition mod_list (f : DeltaList -> DeltaList) : M unit :=
  modify (fun k => K.set_sleep_queue (f (K.sleep_queue k)) k).

Definition inc_size : M unit :=
  mod_list (fun l => D.set_size (wrap32 (D.size l + 1)) l).
Definition dec_size : M unit :=
  mod_list (fun l => D.set_size (wrap32 (D.size l - 1)) l).

Definition init_delta_list : M unit :=
  mod_list (D.set_size 0) ;;; mod_list (D.set_head None).

(** The [while (curr != NULL)] loop of [insert] and the tail insertion
    after it.  The loop follows [next] pointers, so it is given fuel. *)
Fixpoint insert_loop (fuel : nat) (proc prev curr : pcb_ptr) (delay : Z)
  : M unit :=
  match fuel with
  | O => fail OutOfFuel
  | S n =>
      match curr with
      | None =>
          wr proc (P.set_key delay) ;;;
          wr prev (P.set_next proc) ;;;
          inc_size
      | Some _ =>
          c <- rd curr ;;
          if delay <? P.key c then
            wr proc (P.set_key delay) ;;;
            (match prev with
             | Some _ => wr prev (P.set_next proc)
             | None => mod_list (D.set_head proc)
             end) ;;;
            wr proc (P.set_next curr) ;;;
            c' <- rd curr ;;
            wr curr (P.set_key (to_int (P.key c' - delay))) ;;;
            inc_size
          else
            insert_loop n proc curr (P.next c) (to_int (delay - P.key c))
      end
  end.

Definition insert (proc : pcb_ptr) (delay : Z) : M unit :=
  assert (negb (is_null proc)) ;;;
  assert (0 <=? delay) ;;;
  pc <- rd proc ;;
  assert (is_null (P.next pc)) ;;;
  l <- gets K.sleep_queue ;;
  match D.head l with
  | None =>
      wr proc (P.set_key delay) ;;;
      mod_list (D.set_head proc) ;;;
      inc_size
  | Some _ =>
      insert_loop (S (Z.to_nat (D.size l))) proc None (D.head l) delay
  end.

Definition poll : M pcb_ptr :=
  l <- gets K.sleep_queue ;;
  if D.size l =? 0 then ret None
  else
    let proc := D.head l in
    pc <- rd proc ;;
    mod_list (D.set_head (P.next pc)) ;;;
    (* proc->next->key += proc->key; with no successor the statement
       works on the word at NULL + offsetof(pcb_t, key) *)
    pc <- rd proc ;;
    (match P.next pc with
     | Some _ =>
         nx <- rd (P.next pc) ;;
         wr (P.next pc) (P.set_key (to_int (P.key nx + P.key pc)))
     | None =>
         v <- gets (fun k => load32 (K.memory k) (NULL + KEY_OFFSET)) ;;
         modify (fun k =>
           K.set_memory (store32 (K.memory k) (NULL + KEY_OFFSET)
                                 (v + P.key pc)) k)
     end) ;;;
    dec_size ;;;
    wr proc (P.set_prev None) ;;;
    wr proc (P.set_next None) ;;;
    ret proc.

Definition delta_peek : M pcb_ptr :=
  l <- gets K.sleep_queue ;;
  if D.size l =? 0 then ret None else ret (D.head l).

Definition delta_is_empty : M bool :=
  l <- gets K.sleep_queue ;; ret (D.size l =? 0).

Definition delta_size : M Z :=
  l <- gets K.sleep_queue ;; ret (to_int (D.size l)).

(** The search loop of [delta_remove]; falling out of it is [assert(0)]. *)
Fixpoint delta_remove_loop (fuel : nat) (proc prev curr : pcb_ptr) (acc : Z)
  : M Z :=
  match fuel with
  | O => fail OutOfFuel
  | S n =>
      match curr with
      | None => fail AssertFail
      | Some _ =>
          if ptr_eqb curr proc then
            c <- rd curr ;;
            wr prev (P.set_next (P.next c)) ;;;
            dec_size ;;;
            c <- rd curr ;;
            (match P.next c with
             | Some _ =>
                 nx <- rd (P.next c) ;;
                 wr (P.next c) (P.set_key (to_int (P.key nx + P.key c)))
             | None => ret tt
             end) ;;;
            wr proc (P.set_next None) ;;;
            pc <- rd proc ;;
            ret (to_int (acc + P.key pc))
          else
            c <- rd curr ;;
            delta_remove_loop n proc curr (P.next c) (to_int (acc + P.key c))
      end
  end.

Definition delta_remove (proc : pcb_ptr) : M Z :=
  assert (negb (is_null proc)) ;;;
  l <- gets K.sleep_queue ;;
  assert (negb (D.size l =? 0)) ;;;
  if ptr_eqb (D.head l) proc then
    poll ;;;
    pc <- rd proc ;;
    ret (P.key pc)
  else
    h <- rd (D.head l) ;;
    delta_remove_loop (S (Z.to_nat (D.size l))) proc (D.head l) (P.next h)
                      (P.key h).

End deltalist.

(** ** Helpers shared by the embedded files *)

(** [for (i = 0; i < n; i++) body(i)] *)
Fixpoint for_loop_from (i : nat) (n : nat) (body : nat -> M unit) : M unit :=
  match n with
  | O => ret tt
  | S n' => body i ;;; for_loop_from (S i) n' body
  end.
Definition for_loop (n : nat) (body : nat -> M unit) : M unit :=
  for_loop_from 0 n body.

(** Indexing a C array of [n] elements with an [int]. *)
Definition array_index (n : Z) (i : Z) : M nat :=
  if (0 <=? i) && (i <? n) then ret (Z.to_nat i) else fail OutOfBounds.

Definition mem_load32 (a : Z) : M Z := gets (fun k => load32 (K.memory k) a).
Definition mem_store32 (a v : Z) : M unit :=
  modify (fun k => K.set_memory (store32 (K.memory k) a v) k).
Definition mem_store8 (a v : Z) : M unit :=
  modify (fun k => K.set_memory (store8 (K.memory k) a v) k).
Definition mem_store_bytes (a : Z) (bs : list Z) : M unit :=
  modify (fun k => K.set_memory (store_bytes (K.memory k) a bs) k).
Definition mem_load_bytes (a : Z) (n : nat) : M (list Z) :=
  gets (fun k => load_bytes (K.memory k) a n).

(** [args[i]]: the i-th word of the system call arguments. *)
Definition arg (i : Z) : M Z :=
  a <- gets K.args ;; mem_load32 (a + 4 * i).

Definition mod_kbd (f : kbd_t -> kbd_t) : M unit :=
  modify (fun k => K.set_kbd (f (K.kbd k)) k).

(** Modelled from the spec: [strncpy] is declared in xeroslib.h, whose
    implementation is not among the sources; the spec is silent on it, so
    the ISO C contract of [strncpy] is taken: bytes are copied up to and
    including the first NUL, and the rest of the [n] bytes are filled
    with NUL. *)
Fixpoint strncpy_bytes (src : list Z) (n : nat) : list Z :=
  match n with
  | O => []
  | S n' =>
      match src with
      | [] => replicate n 0
      | b :: src' => if b =? 0 then replicate n 0 else b :: strncpy_bytes src' n'
      end
  end.

(** ** mem.c: pointer validation; the allocator itself is external *)

Module kmem.

Definition in_memory_range (ly : layout_t) (addr : Z) : bool :=
  let in_pre_hole := (0 <? addr) && (addr <? HOLESTART ly) in
  let in_post_hole := (HOLEEND ly <=? addr) && (addr <? maxaddr ly) in
  in_pre_hole || in_post_hole.

Definition in_kernel_memory_range (ly : layout_t) (addr : Z) : bool :=
  (0 <? addr) && (addr <? freemem_aligned ly).

Definition valid_ptr (ly : layout_t) (ptr : Z) : bool :=
  negb (ptr =? 0) && in_memory_range ly ptr.

Definition valid_buf (ly : layout_t) (ptr length : Z) : bool :=
  if valid_ptr ly ptr && negb (in_kernel_memory_range ly ptr) && (0 <? length)
  then
    let buf_start := ptr in
    let buf_end := wrap32 (buf_start + length) in
    in_memory_range ly buf_end && negb (in_kernel_memory_range ly buf_end)
  else false.

(** [kfree] returns the block to the allocator; only the call is logged. *)
Definition kfree (ptr : Z) : M unit :=
  modify (fun k => K.set_freed (ptr :: K.freed k) k).

End kmem.

(** ** disp.c, first part: the functions the other files call *)

Module disp.

Definition only_process : M bool :=
  c <- gets K.user_proc_count ;; ret (c =? 1).

Definition ready (proc : pcb_ptr) : M unit :=
  pc <- rd proc ;;
  if negb (P.pid pc =? IDLE_PROC_PID) then
    wr proc (P.set_blocked_on None) ;;;
    wr proc (P.set_blocked_queue NONE) ;;;
    wr proc (P.set_state READY) ;;;
    pc <- rd proc ;;
    i <- array_index NUM_PRIORITIES (P.priority pc) ;;
    queue.enqueue (ReadyQ i) proc
  else ret tt.

Definition clear_signal_table (t : list Z) : list Z :=
  foldl (fun t i => <[i := 0]> t) t (seq 0 31).

Definition get_unused_pcb : M pcb_ptr :=
  e <- queue.is_empty StoppedQ ;;
  if e then ret None
  else
    unused_pcb <- queue.dequeue StoppedQ ;;
    pc <- rd unused_pcb ;;
    let prev_pid := P.pid pc in
    let new_pid := to_int (prev_pid + PCB_TABLE_SIZE) in
    let new_pid := if new_pid <? 1 then Z.rem prev_pid PCB_TABLE_SIZE
                   else new_pid in
    assert (1 <=? new_pid) ;;;
    wr unused_pcb (P.set_pid new_pid) ;;;
    wr unused_pcb (P.set_cpuTime 0) ;;;
    sysstop <- gets (fun k => sysstop_addr (K.layout k)) ;;
    wr unused_pcb (fun pc =>
      P.set_signal_table (<[31%nat := sysstop]> (clear_signal_table (P.signal_table pc))) pc) ;;;
    wr unused_pcb (P.set_pending_signals 0) ;;;
    wr unused_pcb (P.set_last_signal_delivered (-1)) ;;;
    wr unused_pcb (fun pc =>
      P.set_fd_table (foldl (fun t i => <[i := None]> t) (P.fd_table pc) (seq 0 4)) pc) ;;;
    ret unused_pcb.

(** [pid] is a [PID_t], an unsigned 32-bit value; the stored [int] pid is
    converted to unsigned for the comparison. *)
Definition get_pcb (pid : Z) : M pcb_ptr :=
  if 1 <=? pid then
    let proc := Some (Z.to_nat ((pid - 1) mod PCB_TABLE_SIZE)) in
    pc <- rd proc ;;
    if (wrap32 (P.pid pc) =? pid) && negb (state_eqb (P.state pc) STOPPED)
    then ret proc
    else ret None
  else ret None.

(** The scan of [next]: [n] priorities are left, starting at [i]. *)
Fixpoint next_scan (n : nat) (i : nat) : M pcb_ptr :=
  match n with
  | O => ret None
  | S n' =>
      e <- queue.is_empty (ReadyQ i) ;;
      proc <- (if negb e then queue.dequeue (ReadyQ i) else ret None) ;;
      match proc with
      | Some _ => ret proc
      | None => next_scan n' (S i)
      end
  end.

Definition next : M pcb_ptr :=
  proc <- next_scan 4 0 ;;
  let proc := if is_null proc then Some IDLE_SLOT else proc in
  wr proc (P.set_state RUNNING) ;;;
  ret proc.

Definition stop (proc : pcb_ptr) : M unit :=
  wr proc (P.set_state STOPPED) ;;;
  queue.enqueue StoppedQ proc ;;;
  modify (fun k => K.set_user_proc_count (to_int (K.user_proc_count k - 1)) k).

Definition unblock (proc : pcb_ptr) (result_code : Z) : M unit :=
  wr proc (P.set_result_code result_code) ;;;
  ready proc.

Definition enqueue_blocked_queue (proc blocked_on_proc : pcb_ptr)
    (blocked_queue : blocked_queue_t) : M unit :=
  queue.enqueue (BlockedQ blocked_on_proc (bq_index blocked_queue)) proc ;;;
  wr proc (P.set_blocked_on blocked_on_proc) ;;;
  wr proc (P.set_blocked_queue blocked_queue) ;;;
  wr proc (P.set_state BLOCKED).

Definition remove_from_blocked_queue (proc blocked_on_proc : pcb_ptr)
    (blocked_queue : blocked_queue_t) : M bool :=
  pc <- rd proc ;;
  if ptr_eqb (P.blocked_on pc) blocked_on_proc
     && bq_eqb (P.blocked_queue pc) blocked_queue
  then
    queue.remove (BlockedQ blocked_on_proc (bq_index blocked_queue)) proc ;;;
    ret true
  else ret false.

Definition remove_from_receive_any_queue (proc : pcb_ptr) : M bool :=
  pc <- rd proc ;;
  if bq_eqb (P.blocked_queue pc) RECEIVE_ANY then
    queue.remove ReceiveAnyQ proc ;;;
    ret true
  else ret false.

End disp.

(** ** msg.c *)

Module msg.

(** [strncpy((char * ) dst, (char * ) src, BUFFER_SIZE)] with the source
    bytes at hand. *)
Definition strncpy_to (dst : Z) (src : list Z) : M unit :=
  mem_store_bytes dst (strncpy_bytes src (Z.to_nat BUFFER_SIZE)).

(** [send_buf] points to the dispatcher's local copy of the word to send;
    [num] is that word. *)
Definition send (send_proc recv_proc : pcb_ptr) (num : Z) : M Z :=
  r1 <- disp.remove_from_blocked_queue recv_proc send_proc RECEIVER ;;
  r <- (if r1 then ret true else disp.remove_from_receive_any_queue recv_proc) ;;
  if r then
    rp <- rd recv_proc ;;
    from_pid <- mem_load32 (P.ipc_args rp) ;;
    recv_buff <- mem_load32 (P.ipc_args rp + 4) ;;
    sp <- rd send_proc ;;
    mem_store32 from_pid (P.pid sp) ;;;
    strncpy_to recv_buff (bytes_of_word num) ;;;
    wr recv_proc (P.set_result_code 0) ;;;
    disp.ready recv_proc ;;;
    ret 0
  else
    disp.enqueue_blocked_queue send_proc recv_proc SENDER ;;;
    ret (-1).

(** The word of a blocked sender is read in place: [&send_proc->ipc_args[1]]. *)
Definition copy_from_sender (send_proc : pcb_ptr) (recv_buf : Z) : M unit :=
  sp <- rd send_proc ;;
  src <- mem_load_bytes (P.ipc_args sp + 4) (Z.to_nat BUFFER_SIZE) ;;
  strncpy_to recv_buf src.

Definition recv (recv_proc send_proc : pcb_ptr) (from_pid recv_buf : Z) : M Z :=
  match send_proc with
  | Some _ =>
      r <- disp.remove_from_blocked_queue send_proc recv_proc SENDER ;;
      if r then
        copy_from_sender send_proc recv_buf ;;;
        wr send_proc (P.set_result_code 0) ;;;
        disp.ready send_proc ;;;
        ret 0
      else
        disp.enqueue_blocked_queue recv_proc send_proc RECEIVER ;;;
        ret (-1)
  | None =>
      send_proc <- queue.dequeue (BlockedQ recv_proc (bq_index SENDER)) ;;
      match send_proc with
      | Some _ =>
          copy_from_sender send_proc recv_buf ;;;
          sp <- rd send_proc ;;
          mem_store32 from_pid (P.pid sp) ;;;
          wr send_proc (P.set_result_code 0) ;;;
          disp.ready send_proc ;;;
          ret 0
      | None =>
          wr recv_proc (P.set_state BLOCKED) ;;;
          wr recv_proc (P.set_blocked_queue RECEIVE_ANY) ;;;
          queue.enqueue ReceiveAnyQ recv_proc ;;;
          ret (-1)
      end
  end.

End msg.

(** ** sleep.c *)

Module sleep.

Definition ksleepinit : M unit := deltalist.init_delta_list.

(** [milliseconds] is an [unsigned int]; the result is converted to [int]. *)
Definition ms_to_time_slices (milliseconds : Z) : Z :=
  to_int (milliseconds / TIME_SLICE
          + (if negb (milliseconds mod TIME_SLICE =? 0) then 1 else 0)).

Definition sleep (proc : pcb_ptr) (milliseconds : Z) : M unit :=
  let time_slices_to_sleep := ms_to_time_slices milliseconds in
  deltalist.insert proc time_slices_to_sleep ;;;
  wr proc (P.set_state BLOCKED) ;;;
  wr proc (P.set_blocked_queue SLEEP).

(** The [while (proc != NULL && proc->key <= 0)] loop of [tick]; every
    round polls the list, so the list size bounds the rounds. *)
Fixpoint tick_loop (fuel : nat) (proc : pcb_ptr) : M unit :=
  match fuel with
  | O => fail OutOfFuel
  | S n =>
      match proc with
      | None => ret tt
      | Some _ =>
          pc <- rd proc ;;
          if P.key pc <=? 0 then
            proc_to_wake <- deltalist.poll ;;
            wr proc_to_wake (P.set_result_code 0) ;;;
            disp.ready proc_to_wake ;;;
            proc <- deltalist.delta_peek ;;
            tick_loop n proc
          else ret tt
      end
  end.

Definition tick : M unit :=
  proc <- deltalist.delta_peek ;;
  match proc with
  | Some _ =>
      pc <- rd proc ;;
      wr proc (P.set_key (to_int (P.key pc - 1))) ;;;
      l <- gets K.sleep_queue ;;
      tick_loop (S (Z.to_nat (D.size l))) proc
  | None => ret tt
  end.

End sleep.

(** ** signal.c *)

Module signal.

Definition set_signal_bit (bitmask signal_number : Z) : Z :=
  Z.lor bitmask (to_int (Z.shiftl 1 signal_number)).

Definition is_signal_bit_set (bitmask signal_number : Z) : Z :=
  Z.land 1 (Z.shiftr bitmask signal_number).

Definition clear_signal_bit (bitmask signal_number : Z) : Z :=
  Z.land bitmask (Z.lnot (to_int (Z.shiftl 1 signal_number))).

Definition unblock_on_signal (proc_to_signal : pcb_ptr) : M unit :=
  pc <- rd proc_to_signal ;;
  assert (state_eqb (P.state pc) BLOCKED) ;;;
  let interrupted_by_signal := -666 in
  (match P.blocked_queue pc with
   | SENDER =>
       disp.remove_from_blocked_queue proc_to_signal (P.blocked_on pc) SENDER ;;;
       wr proc_to_signal (P.set_result_code interrupted_by_signal)
   | RECEIVER =>
       disp.remove_from_blocked_queue proc_to_signal (P.blocked_on pc) RECEIVER ;;;
       wr proc_to_signal (P.set_result_code interrupted_by_signal)
   | RECEIVE_ANY =>
       disp.remove_from_receive_any_queue proc_to_signal ;;;
       wr proc_to_signal (P.set_result_code interrupted_by_signal)
   | SLEEP =>
       time_left <- deltalist.delta_remove proc_to_signal ;;
       wr proc_to_signal (P.set_result_code (to_int (time_left * TIME_SLICE)))
   | WAIT =>
       disp.remove_from_blocked_queue proc_to_signal (P.blocked_on pc) WAIT ;;;
       wr proc_to_signal (P.set_result_code interrupted_by_signal)
   | READ =>
       chars_transferred <- gets (fun k => KB.chars_transferred (K.kbd k)) ;;
       if chars_transferred =? 0 then
         wr proc_to_signal (P.set_result_code interrupted_by_signal)
       else
         wr proc_to_signal (P.set_result_code chars_transferred)
   | NONE => fail AssertFail
   end) ;;;
  wr proc_to_signal (P.set_blocked_on None) ;;;
  wr proc_to_signal (P.set_blocked_queue NONE).

Definition signal (proc_to_signal : pcb_ptr) (signal_number : Z) : M Z :=
  if negb (is_null proc_to_signal) then
    if (0 <=? signal_number) && (signal_number <? SIGNAL_TABLE_SIZE) then
      pc <- rd proc_to_signal ;;
      match P.signal_table pc !! Z.to_nat signal_number with
      | None => fail OutOfBounds
      | Some handler =>
          if negb (handler =? 0) then
            wr proc_to_signal
               (P.set_pending_signals
                  (set_signal_bit (P.pending_signals pc) signal_number)) ;;;
            (if state_eqb (P.state pc) BLOCKED then
               unblock_on_signal proc_to_signal ;;;
               disp.ready proc_to_signal
             else ret tt) ;;;
            ret 0
          else ret 0
      end
    else ret (-583)
  else ret (-514).

(** The downward scan of [handle_pending_signals], starting at 31. *)
Fixpoint scan_pending (fuel : nat) (pending signal_number : Z) : Z :=
  match fuel with
  | O => signal_number
  | S n =>
      if (is_signal_bit_set pending signal_number =? 0)
         && negb (signal_number =? -1)
      then scan_pending n pending (signal_number - 1)
      else signal_number
  end.

Definition handle_pending_signals (proc : pcb_ptr) : M unit :=
  pc <- rd proc ;;
  let signal_number := scan_pending 33 (P.pending_signals pc) (SIGNAL_TABLE_SIZE - 1) in
  if negb (signal_number =? -1) then
    if P.last_signal_delivered pc <? signal_number then
      wr proc (P.set_pending_signals
                 (clear_signal_bit (P.pending_signals pc) signal_number)) ;;;
      let old_esp := P.esp pc in
      let new_esp := wrap32 (old_esp - SIZEOF_SIGNAL_DELIVERY_CONTEXT) in
      wr proc (P.set_esp new_esp) ;;;
      (* memset(signal_delivery_context, 0, sizeof(signal_delivery_context)):
         the size of a pointer *)
      mem_store_bytes new_esp [0; 0; 0; 0] ;;;
      mem_store32 (new_esp + 8) (new_esp + SIZEOF_CONTEXT_FRAME) ;;;
      ly <- gets K.layout ;;
      mem_store32 (new_esp + 32) (sigtramp_addr ly) ;;;
      mem_store32 (new_esp + 36) (code_segment ly) ;;;
      mem_store32 (new_esp + 40) EFLAGS ;;;
      pc <- rd proc ;;
      match P.signal_table pc !! Z.to_nat signal_number with
      | None => fail OutOfBounds
      | Some handler =>
          mem_store32 (new_esp + 48) handler ;;;
          mem_store32 (new_esp + 52) old_esp ;;;
          mem_store32 (new_esp + 56) (P.last_signal_delivered pc) ;;;
          mem_store32 (new_esp + 60) (P.result_code pc) ;;;
          wr proc (P.set_last_signal_delivered signal_number)
      end
    else ret tt
  else ret tt.

End signal.

(** ** create.c

    [kmalloc] belongs to the external allocator: the address it returns
    (0 when it fails) is an input of the functions that call it. *)

Module create.

Definition init_context_frame (esp eip : Z) (with_ebp : bool) : M unit :=
  (* memset(context_frame, 0, sizeof(context_frame)): the size of a pointer *)
  mem_store_bytes esp [0; 0; 0; 0] ;;;
  (if with_ebp then mem_store32 (esp + 8) (esp + 4) else ret tt) ;;;
  ly <- gets K.layout ;;
  mem_store32 (esp + 32) eip ;;;
  mem_store32 (esp + 36) (code_segment ly) ;;;
  mem_store32 (esp + 40) EFLAGS.

Definition create (func stack : Z) (kmalloc_result : Z) : M Z :=
  ly <- gets K.layout ;;
  if negb (kmem.valid_ptr ly func) then ret 0
  else
    let stack := if stack <? PROCESS_STACK_SIZE then PROCESS_STACK_SIZE else stack in
    let proc_mem_start := kmalloc_result in
    if proc_mem_start =? 0 then ret 0
    else
      proc <- disp.get_unused_pcb ;;
      if is_null proc then kmem.kfree proc_mem_start ;;; ret 0
      else
        wr proc (P.set_mem_start proc_mem_start) ;;;
        wr proc (P.set_priority INIT_PRIORITY) ;;;
        let mem_end := wrap32 (proc_mem_start + stack) in
        let return_addr := wrap32 (mem_end - 4) in
        mem_store32 return_addr (sysstop_addr ly) ;;;
        let esp := wrap32 (return_addr - SIZEOF_CONTEXT_FRAME) in
        wr proc (P.set_esp esp) ;;;
        init_context_frame esp func true ;;;
        disp.ready proc ;;;
        modify (fun k => K.set_user_proc_count (to_int (K.user_proc_count k + 1)) k) ;;;
        ret 1.

Definition create_idle_proc (idle_proc : pcb_ptr) (kmalloc_result : Z) : M unit :=
  let proc_mem_start := kmalloc_result in
  assert (negb (proc_mem_start =? 0)) ;;;
  let mem_end := wrap32 (proc_mem_start + IDLE_PROCESS_STACK_SIZE) in
  let esp := wrap32 (mem_end - SIZEOF_CONTEXT_FRAME) in
  wr idle_proc (P.set_esp esp) ;;;
  wr idle_proc (P.set_pid 0) ;;;
  ly <- gets K.layout ;;
  init_context_frame esp (idleproc_addr ly) false.

End create.

(** ** kbd.c *)

Module kbd.

Definition KEY_UP : Z := 128.
Definition LSHIFT : Z := 42.
Definition RSHIFT : Z := 54.
Definition LMETA : Z := 56.
Definition LCTL : Z := 29.
Definition CAPSL : Z := 58.
Definition INCTL : Z := 1.
Definition INSHIFT : Z := 2.
Definition CAPSLOCK : Z := 4.
Definition INMETA : Z := 8.
Definition NOCHAR : Z := 256.
Definition CONTROL_PORT_READY_MASK : Z := 1.

Definition kbcode : list Z :=
  [0; 27; 49; 50; 51; 52; 53; 54; 55; 56; 57; 48; 45; 61; 8; 9; 113; 119;
   101; 114; 116; 121; 117; 105; 111; 112; 91; 93; 10; 0; 97; 115; 100; 102;
   103; 104; 106; 107; 108; 59; 39; 96; 0; 92; 122; 120; 99; 118; 98; 110;
   109; 44; 46; 47; 0; 0; 0; 32].
Definition kbshift : list Z :=
  [0; 0; 33; 64; 35; 36; 37; 94; 38; 42; 40; 41; 95; 43; 8; 9; 81; 87; 69;
   82; 84; 89; 85; 73; 79; 80; 123; 125; 10; 0; 65; 83; 68; 70; 71; 72; 74;
   75; 76; 58; 34; 126; 0; 124; 90; 88; 67; 86; 66; 78; 77; 60; 62; 63; 0;
   0; 0; 32].
Definition kbctl : list Z :=
  [0; 0; 0; 0; 0; 0; 0; 0; 0; 0; 0; 0; 31; 0; 8; 9; 17; 23; 5; 18; 20; 25;
   21; 9; 15; 16; 27; 29; 10; 0; 1; 19; 4; 6; 7; 8; 10; 11; 12; 0; 0; 0; 0;
   28; 26; 24; 3; 22; 2; 14; 13].

Definition table_get (t : list Z) (code : Z) : Z :=
  default 0 (t !! Z.to_nat code).

Definition set_state_bits (f : Z -> Z) : M unit :=
  mod_kbd (fun kb => KB.set_kbd_state (f (KB.kbd_state kb)) kb).

(** [kbtoa]: scan code (an [unsigned char]) to ASCII, tracking modifiers. *)
Definition kbtoa (code : Z) : M Z :=
  if negb (Z.land code KEY_UP =? 0) then
    let c := Z.land code 127 in
    (if (c =? LSHIFT) || (c =? RSHIFT) then
       set_state_bits (fun s => Z.land s (Z.lnot INSHIFT))
     else if c =? CAPSL then
       set_state_bits (fun s => Z.land s (Z.lnot CAPSLOCK))
     else if c =? LCTL then
       set_state_bits (fun s => Z.land s (Z.lnot INCTL))
     else if c =? LMETA then
       set_state_bits (fun s => Z.land s (Z.lnot INMETA))
     else ret tt) ;;;
    ret NOCHAR
  else if (code =? LSHIFT) || (code =? RSHIFT) then
    set_state_bits (fun s => Z.lor s INSHIFT) ;;; ret NOCHAR
  else if code =? CAPSL then
    set_state_bits (fun s => Z.lor s CAPSLOCK) ;;; ret NOCHAR
  else if code =? LCTL then
    set_state_bits (fun s => Z.lor s INCTL) ;;; ret NOCHAR
  else if code =? LMETA then
    set_state_bits (fun s => Z.lor s INMETA) ;;; ret NOCHAR
  else
    s <- gets (fun k => KB.kbd_state (K.kbd k)) ;;
    let on (bit : Z) := negb (Z.land s bit =? 0) in
    let ch := NOCHAR in
    let ch := if code <? 58 then
                if on CAPSLOCK then table_get kbshift code
                else table_get kbcode code
              else ch in
    if on INSHIFT && (58 <=? code) then ret NOCHAR
    else
      let ch := if on INSHIFT then
                  if on CAPSLOCK then table_get kbcode code
                  else table_get kbshift code
                else ch in
      if on INCTL && (51 <=? code) then ret NOCHAR
      else
        let ch := if on INCTL then table_get kbctl code else ch in
        let ch := if on INMETA then wrap32 (ch + 128) else ch in
        ret ch.

Definition flush_kbd_buf : M unit :=
  for_loop (Z.to_nat KBD_BUFFER_SIZE)
    (fun i => mod_kbd (fun kb => KB.set_kbd_buf (<[i := 0]> (KB.kbd_buf kb)) kb)) ;;;
  mod_kbd (KB.set_kbd_buf_head 0) ;;;
  mod_kbd (KB.set_kbd_buf_tail 0).

Definition kbd_reset : M unit :=
  flush_kbd_buf ;;;
  mod_kbd (KB.set_read_buf 0) ;;;
  mod_kbd (KB.set_read_buflen 0) ;;;
  mod_kbd (KB.set_chars_transferred 0) ;;;
  mod_kbd (KB.set_read_finished 0) ;;;
  mod_kbd (KB.set_eof DEFAULT_EOF) ;;;
  mod_kbd (KB.set_eof_flag 0) ;;;
  mod_kbd (KB.set_kbd_state 0).

Definition disable_keyboard_hardware : M unit :=
  mod_kbd (KB.set_hw_enabled false).

Definition handle_eof : M unit :=
  disable_keyboard_hardware ;;;
  mod_kbd (KB.set_eof_flag 1).

Definition copy_char_to_read_buf (c : Z) : M bool :=
  kb <- gets K.kbd ;;
  mem_store8 (KB.read_buf kb + KB.chars_transferred kb) c ;;;
  mod_kbd (fun kb => KB.set_chars_transferred (to_int (KB.chars_transferred kb + 1)) kb) ;;;
  kb <- gets K.kbd ;;
  ret ((KB.chars_transferred kb =? KB.read_buflen kb) || (c =? 10)).

(** The [while (kbd_buf_tail != kbd_buf_head)] loop of
    [transfer_to_read_buf]. *)
Fixpoint transfer_loop (fuel : nat) : M Z :=
  match fuel with
  | O => fail OutOfFuel
  | S n =>
      kb <- gets K.kbd ;;
      if negb (KB.kbd_buf_tail kb =? KB.kbd_buf_head kb) then
        i <- array_index KBD_BUFFER_SIZE (KB.kbd_buf_tail kb) ;;
        let c := default 0 (KB.kbd_buf kb !! i) in
        mod_kbd (KB.set_kbd_buf_tail (Z.rem (KB.kbd_buf_tail kb + 1) KBD_BUFFER_SIZE)) ;;;
        if c =? KB.eof kb then handle_eof ;;; ret 1
        else
          done <- copy_char_to_read_buf c ;;
          if done then ret 1 else transfer_loop n
      else ret 0
  end.

Definition transfer_to_read_buf : M Z :=
  kb <- gets K.kbd ;;
  assert (negb (is_null (KB.kbd_proc kb))) ;;;
  assert (negb (KB.read_buf kb =? 0)) ;;;
  transfer_loop (S (Z.to_nat KBD_BUFFER_SIZE)).

Definition kbdinit : M Z := kbd_reset ;;; ret 0.

Definition kbdopen (proc : pcb_ptr) (device_no : Z) : M Z :=
  kb <- gets K.kbd ;;
  if negb (is_null (KB.kbd_proc kb)) then ret (-1)
  else
    kbd_reset ;;;
    mod_kbd (KB.set_echo_flag (if device_no =? KBD_0 then 0 else 1)) ;;;
    mod_kbd (KB.set_kbd_proc proc) ;;;
    mod_kbd (KB.set_hw_enabled true) ;;;
    ret 0.

Definition kbdclose (proc : pcb_ptr) : M Z :=
  kbd_reset ;;;
  mod_kbd (KB.set_echo_flag 0) ;;;
  mod_kbd (KB.set_kbd_proc None) ;;;
  disable_keyboard_hardware ;;;
  ret 0.

Definition kbdwrite (proc : pcb_ptr) (buf buflen : Z) : M Z := ret (-1).

Definition kbdread (proc : pcb_ptr) (buf buflen : Z) : M Z :=
  kb <- gets K.kbd ;;
  if negb (KB.eof_flag kb =? 0) then ret 0
  else
    mod_kbd (KB.set_read_buf buf) ;;;
    mod_kbd (KB.set_read_buflen buflen) ;;;
    transfer_to_read_buf ;;;
    kb <- gets K.kbd ;;
    if KB.chars_transferred kb =? KB.read_buflen kb then ret (KB.read_buflen kb)
    else
      mod_kbd (KB.set_read_finished 0) ;;;
      ret (-2).

Definition kbdioctl_change_eof (ioctl_args : Z) : M Z :=
  if ioctl_args =? 0 then ret (-1)
  else
    w <- mem_load32 ioctl_args ;;
    let c := to_int w in
    if (0 <? c) && (c <=? 127) then
      mod_kbd (KB.set_eof c) ;;; ret 0
    else ret (-1).

Definition kbdioctl (proc : pcb_ptr) (command ioctl_args : Z) : M Z :=
  if command =? IOCTL_CHANGE_EOF then kbdioctl_change_eof ioctl_args
  else if command =? IOCTL_ECHO_OFF then mod_kbd (KB.set_echo_flag 0) ;;; ret 0
  else if command =? IOCTL_ECHO_ON then mod_kbd (KB.set_echo_flag 1) ;;; ret 0
  else ret (-1).

Definition finish_read : M unit :=
  kb <- gets K.kbd ;;
  wr (KB.kbd_proc kb) (P.set_result_code (KB.chars_transferred kb)) ;;;
  mod_kbd (KB.set_chars_transferred 0) ;;;
  disp.ready (KB.kbd_proc kb).

Definition is_kbd_buf_full : M bool :=
  kb <- gets K.kbd ;;
  ret (Z.rem (KB.kbd_buf_head kb + 1) KBD_BUFFER_SIZE =? KB.kbd_buf_tail kb).

Definition write_to_kbd_buf (c : Z) : M unit :=
  full <- is_kbd_buf_full ;;
  if negb full then
    kb <- gets K.kbd ;;
    i <- array_index KBD_BUFFER_SIZE (KB.kbd_buf_head kb) ;;
    mod_kbd (fun kb => KB.set_kbd_buf (<[i := c]> (KB.kbd_buf kb)) kb) ;;;
    mod_kbd (fun kb => KB.set_kbd_buf_head (Z.rem (KB.kbd_buf_head kb + 1) KBD_BUFFER_SIZE) kb)
  else ret tt.

(** [status] and [data] are the bytes the controller presents on the
    control and data ports; the echo to the console is not modelled. *)
Definition kbd_isr (status data : Z) : M unit :=
  kb <- gets K.kbd ;;
  assert (negb (is_null (KB.kbd_proc kb))) ;;;
  let is_data_present := Z.land CONTROL_PORT_READY_MASK status in
  if negb (is_data_present =? 0) then
    c <- kbtoa (data mod 256) ;;
    if (0 <? c) && (c <=? 127) then
      write_to_kbd_buf c ;;;
      kb <- gets K.kbd ;;
      if negb (KB.read_buf kb =? 0) && (KB.read_finished kb =? 0) then
        r <- transfer_to_read_buf ;;
        mod_kbd (KB.set_read_finished r) ;;;
        if negb (r =? 0) then
          kp <- rd (KB.kbd_proc kb) ;;
          if bq_eqb (P.blocked_queue kp) READ then finish_read else ret tt
        else ret tt
      else ret tt
    else ret tt
  else ret tt.

End kbd.

(** ** di_calls.c

    Both entries of the device table are the keyboard: every [dv...]
    function pointer is the matching [kbd...] function, so an open
    descriptor holds the major device number. *)

Module di_calls.

Definition kdiinit : M unit :=
  kbd.kbdinit ;;; kbd.kbdinit ;;; ret tt.

Definition is_valid_fd (proc : pcb_ptr) (fd : Z) : M bool :=
  if (0 <=? fd) && (fd <? FD_TABLE_SIZE) then
    pc <- rd proc ;;
    ret (match P.fd_table pc !! Z.to_nat fd with
         | Some (Some _) => true
         | _ => false
         end)
  else ret false.

(** [for (fd = 0; fd < FD_TABLE_SIZE; fd++) if (fd_table[fd] == NULL) break;] *)
Fixpoint first_free_fd (t : list (option nat)) (fd : nat) (n : nat) : nat :=
  match n with
  | O => fd
  | S n' =>
      match t !! fd with
      | Some (Some _) => first_free_fd t (S fd) n'
      | _ => fd
      end
  end.

Definition di_open (proc : pcb_ptr) (device_no : Z) : M Z :=
  if (0 <=? device_no) && (device_no <? DEVICE_TABLE_SIZE) then
    pc <- rd proc ;;
    let fd := first_free_fd (P.fd_table pc) 0 (Z.to_nat FD_TABLE_SIZE) in
    if Z.of_nat fd =? FD_TABLE_SIZE then ret (-1)
    else
      r <- kbd.kbdopen proc device_no ;;
      if negb (r =? 0) then ret (-1)
      else
        wr proc (fun pc =>
          P.set_fd_table (<[fd := Some (Z.to_nat device_no)]> (P.fd_table pc)) pc) ;;;
        ret (Z.of_nat fd)
  else ret (-1).

Definition di_close (proc : pcb_ptr) (fd : Z) : M Z :=
  v <- is_valid_fd proc fd ;;
  if v then
    r <- kbd.kbdclose proc ;;
    if negb (r =? 0) then ret (-1)
    else
      wr proc (fun pc =>
        P.set_fd_table (<[Z.to_nat fd := None]> (P.fd_table pc)) pc) ;;;
      ret 0
  else ret (-1).

Definition di_write (proc : pcb_ptr) (fd buf buflen : Z) : M Z :=
  ly <- gets K.layout ;;
  if kmem.valid_buf ly buf (wrap32 buflen) then
    v <- is_valid_fd proc fd ;;
    if v then kbd.kbdwrite proc buf buflen else ret (-1)
  else ret (-1).

Definition di_read (proc : pcb_ptr) (fd buf buflen : Z) : M Z :=
  ly <- gets K.layout ;;
  if kmem.valid_buf ly buf (wrap32 buflen) then
    v <- is_valid_fd proc fd ;;
    if v then kbd.kbdread proc buf buflen else ret (-1)
  else ret (-1).

Definition di_ioctl (proc : pcb_ptr) (fd command ioctl_args : Z) : M Z :=
  v <- is_valid_fd proc fd ;;
  if v then kbd.kbdioctl proc command ioctl_args else ret (-1).

End di_calls.

(** ** The self-tests that [initproc] runs (queuetest.c, deltalisttest.c)

    Both tests work on a queue or delta list and an array of PCBs that
    are local to the test.  The embedded functions work on the store and
    the lists of the state, so a test runs with its locals in place of
    [pcbs], [stopped_queue] and [sleep_queue], which are put back when it
    returns; memory is shared with the rest of the kernel.  The local
    array is taken as zeroed: the tests write each field before they read
    it. *)

Definition zero_queue : Queue := Q.mk 0 None None.
Definition zero_pcb : pcb_t :=
  P.mk 0 RUNNING None None 0 0 0 0 None SENDER (replicate 3 zero_queue) 0 0 0
       (replicate 32 0) 0 0 (replicate 4 None).

Definition on_locals {A} (pcbs : list pcb_t) (m : M A) : M A := fun k =>
  match m (K.set_stopped_queue zero_queue
             (K.set_sleep_queue (D.mk 0 None) (K.set_pcbs pcbs k))) with
  | Ok (a, k') =>
      Ok (a, K.set_stopped_queue (K.stopped_queue k)
               (K.set_sleep_queue (K.sleep_queue k) (K.set_pcbs (K.pcbs k) k')))
  | Fault e => Fault e
  end.

(** [assert_equal] prints and spins forever when the values differ. *)
Definition assert_equal (actual expected : Z) : M unit :=
  assert (actual =? expected).

Definition int_of_bool (b : bool) : Z := if b then 1 else 0.

Module queuetest.

(** [for (i = n - 1; i >= 0; i--) body(i)] *)
Fixpoint for_loop_down (n : nat) (body : nat -> M unit) : M unit :=
  match n with
  | O => ret tt
  | S n' => body n' ;;; for_loop_down n' body
  end.

Definition run_queue_test : M unit :=
  let q := StoppedQ in
  let size := Z.to_nat PCB_TABLE_SIZE in
  on_locals (replicate (2 * size) zero_pcb)
    (queue.init_queue q ;;;
     e <- queue.is_empty q ;;
     assert_equal (int_of_bool e) 1 ;;;
     for_loop (2 * size) (fun i => wr (Some i) (P.set_pid (Z.of_nat i))) ;;;
     for_loop size (fun i => queue.enqueue q (Some i)) ;;;
     n <- queue.size q ;;
     assert_equal n PCB_TABLE_SIZE ;;;
     proc <- queue.peek_tail q ;;
     assert (negb (is_null proc)) ;;;
     pc <- rd proc ;;
     assert_equal (P.pid pc) (PCB_TABLE_SIZE - 1) ;;;
     e <- queue.is_empty q ;;
     assert_equal (int_of_bool e) 0 ;;;
     for_loop size (fun i =>
       queue.dequeue q ;;; queue.enqueue q (Some (size + i)%nat)) ;;;
     n <- queue.size q ;;
     assert_equal n PCB_TABLE_SIZE ;;;
     for_loop size (fun _ => queue.dequeue q ;;; ret tt) ;;;
     proc <- queue.dequeue q ;;
     assert (is_null proc) ;;;
     n <- queue.size q ;;
     assert_equal n 0 ;;;
     proc <- queue.peek_tail q ;;
     assert (is_null proc) ;;;
     for_loop size (fun i => queue.enqueue q (Some i)) ;;;
     for_loop_down size (fun i => queue.remove q (Some i))).

End queuetest.

Module deltalisttest.

(** The [while (curr != NULL)] loop of [check_sleep_time_in_delta_list]. *)
Fixpoint check_sleep_time_loop (fuel : nat) (curr : pcb_ptr)
    (accumulated_sleep_time : Z) : M unit :=
  match fuel with
  | O => fail OutOfFuel
  | S f =>
      match curr with
      | None => ret tt
      | Some _ =>
          c <- rd curr ;;
          let pid := P.pid c in
          let expected_sleep_time := to_int (pid * pid) in
          let accumulated_sleep_time :=
            to_int (accumulated_sleep_time + P.key c) in
          assert (accumulated_sleep_time =? expected_sleep_time) ;;;
          check_sleep_time_loop f (P.next c) accumulated_sleep_time
      end
  end.

Definition check_sleep_time_in_delta_list : M unit :=
  l <- gets K.sleep_queue ;;
  if D.size l =? 0 then ret tt
  else check_sleep_time_loop (S (Z.to_nat (D.size l))) (D.head l) 0.

Definition run_deltalist_test : M unit :=
  let n := 5%nat in
  let sq (i : nat) := Z.of_nat i * Z.of_nat i in
  on_locals (replicate (2 * n) zero_pcb)
    (deltalist.init_delta_list ;;;
     e <- deltalist.delta_is_empty ;;
     assert_equal (int_of_bool e) 1 ;;;
     for_loop (2 * n) (fun i =>
       wr (Some i) (P.set_pid (Z.of_nat i)) ;;;
       wr (Some i) (P.set_next None)) ;;;
     for_loop n (fun i => deltalist.insert (Some i) (sq i)) ;;;
     s <- deltalist.delta_size ;;
     assert_equal s (Z.of_nat n) ;;;
     proc <- deltalist.delta_peek ;;
     assert (negb (is_null proc)) ;;;
     pc <- rd proc ;;
     assert_equal (P.pid pc) 0 ;;;
     e <- deltalist.delta_is_empty ;;
     assert_equal (int_of_bool e) 0 ;;;
     let base_sleep_time := sq (n - 1)%nat in
     for_loop n (fun i =>
       deltalist.poll ;;;
       deltalist.insert (Some (n + i)%nat) (base_sleep_time + Z.of_nat i)) ;;;
     s <- deltalist.delta_size ;;
     assert_equal s (Z.of_nat n) ;;;
     for_loop n (fun _ => deltalist.poll ;;; ret tt) ;;;
     proc <- deltalist.poll ;;
     assert (is_null proc) ;;;
     s <- deltalist.delta_size ;;
     assert_equal s 0 ;;;
     proc <- deltalist.delta_peek ;;
     assert (is_null proc) ;;;
     for_loop n (fun i => deltalist.insert (Some i) (sq i)) ;;;
     t <- deltalist.delta_remove (Some (n - 3)%nat) ;;
     assert_equal t (sq (n - 3)%nat) ;;;
     check_sleep_time_in_delta_list ;;;
     t <- deltalist.delta_remove (Some (n - 1)%nat) ;;
     assert_equal t (sq (n - 1)%nat) ;;;
     check_sleep_time_in_delta_list ;;;
     t <- deltalist.delta_remove (Some 0%nat) ;;
     assert_equal t 0 ;;;
     check_sleep_time_in_delta_list ;;;
     t <- deltalist.delta_remove (Some 1%nat) ;;
     assert_equal t 1 ;;;
     check_sleep_time_in_delta_list).

End deltalisttest.

(** ** disp.c, second part: request handlers and the dispatch loop *)

Inductive request_t :=
| SYSCREATE | SYSYIELD | SYSSTOP | SYSGETPID | SYSPUTS | SYSKILL
| SYSSETPRIO | SYSSEND | SYSRECV | SYSSLEEP | SYSGETCPUTIMES
| SYSSIGHANDLER | SYSSIGRETURN | SYSWAIT | SYSOPEN | SYSCLOSE
| SYSWRITE | SYSREAD | SYSIOCTL | TIMER_INT | KEYBOARD_INT.

(** What the world outside the kernel contributes to one round of the
    dispatch loop: the process runs and re-enters the kernel with a
    request, leaving memory (a function of the memory it found), its
    stack pointer, [%eax] and [%edx] as it pleases; the allocator answers a possible [kmalloc]; the keyboard
    controller presents its ports. *)
Record event := mk_event {
  ev_request : request_t;
  ev_memory : mem -> mem;
  ev_esp : Z;
  ev_eax : Z;
  ev_edx : Z;
  ev_kmalloc : Z;
  ev_kbd_status : Z;
  ev_kbd_data : Z
}.

Module dispatcher.

Definition cur : M pcb_ptr := gets K.current_proc.
Definition set_cur (p : pcb_ptr) : M unit := modify (K.set_current_proc p).
Definition set_result (v : Z) : M unit :=
  c <- cur ;; wr c (P.set_result_code v).

(** [EAX = proc->result_code]: the value a process finds in [%eax] when
    it is resumed, i.e. the value its system call returns. *)
Definition resume_value (proc : pcb_ptr) : M Z :=
  pc <- rd proc ;; ret (P.result_code pc).

Definition contextswitch (ev : event) : M request_t :=
  proc <- cur ;;
  modify (fun k => K.set_memory (ev_memory ev (K.memory k)) k) ;;;
  (match ev_request ev with
   | TIMER_INT | KEYBOARD_INT => wr proc (P.set_result_code (to_int (ev_eax ev)))
   | _ => ret tt
   end) ;;;
  modify (K.set_args (wrap32 (ev_edx ev))) ;;;
  wr proc (P.set_esp (wrap32 (ev_esp ev))) ;;;
  ret (ev_request ev).

Definition kdispinit (kmalloc_result : Z) : M unit :=
  for_loop (Z.to_nat NUM_PRIORITIES) (fun i => queue.init_queue (ReadyQ i)) ;;;
  queue.init_queue StoppedQ ;;;
  for_loop (Z.to_nat PCB_TABLE_SIZE) (fun i =>
    let proc := Some i in
    wr proc (P.set_pid (Z.of_nat i + 1)) ;;;
    queue.init_queue (BlockedQ proc 0) ;;;
    queue.init_queue (BlockedQ proc 1) ;;;
    disp.stop proc) ;;;
  queue.init_queue ReceiveAnyQ ;;;
  create.create_idle_proc (Some IDLE_SLOT) kmalloc_result ;;;
  modify (K.set_user_proc_count 0).

Definition yield : M unit :=
  c <- cur ;; disp.ready c ;;;
  n <- disp.next ;; set_cur n.

Definition service_syscreate (kmalloc_result : Z) : M unit :=
  func <- arg 0 ;;
  stack <- arg 1 ;;
  create_result_code <- create.create func (to_int stack) kmalloc_result ;;
  if create_result_code =? 1 then
    created_proc <- queue.peek_tail (ReadyQ (Z.to_nat INIT_PRIORITY)) ;;
    cp <- rd created_proc ;;
    set_result (P.pid cp)
  else set_result (-1).

(** [kprintf] of a valid string: console output is not part of the state. *)
Definition service_sysputs : M unit := ret tt.

Definition service_syskill : M unit :=
  pid <- arg 0 ;;
  signal_number <- arg 1 ;;
  proc_to_signal <- disp.get_pcb pid ;;
  r <- signal.signal proc_to_signal (to_int signal_number) ;;
  set_result r.

Definition service_syssetprio : M unit :=
  c <- cur ;;
  pc <- rd c ;;
  let current_priority := P.priority pc in
  a <- arg 0 ;;
  let req_priority := to_int a in
  let valid_req_priority := (0 <=? req_priority) && (req_priority <=? 3) in
  (if valid_req_priority then wr c (P.set_priority req_priority) else ret tt) ;;;
  if valid_req_priority || (req_priority =? -1)
  then set_result current_priority
  else set_result (-1).

Definition service_syssend : M unit :=
  c <- cur ;;
  a <- gets K.args ;;
  wr c (P.set_ipc_args a) ;;;
  dest_pid <- arg 0 ;;
  num <- arg 1 ;;
  pc <- rd c ;;
  send_result_code <-
    (if wrap32 (P.pid pc) =? dest_pid then ret (-3)
     else
       receiving_proc <- disp.get_pcb dest_pid ;;
       if is_null receiving_proc then ret (-2)
       else msg.send c receiving_proc num) ;;
  set_result send_result_code ;;;
  if send_result_code =? -1 then n <- disp.next ;; set_cur n else ret tt.

Definition service_sysrecv : M unit :=
  c <- cur ;;
  a <- gets K.args ;;
  wr c (P.set_ipc_args a) ;;;
  from_pid <- arg 0 ;;
  num <- arg 1 ;;
  ly <- gets K.layout ;;
  recv_result_code <-
    (if negb (kmem.valid_buf ly from_pid BUFFER_SIZE) then ret (-5)
     else if negb (kmem.valid_buf ly num BUFFER_SIZE) then ret (-4)
     else
       sender_pid <- mem_load32 from_pid ;;
       if sender_pid =? 0 then
         o <- disp.only_process ;;
         if o then ret (-10) else msg.recv c None from_pid num
       else
         pc <- rd c ;;
         if wrap32 (P.pid pc) =? sender_pid then ret (-3)
         else
           sending_proc <- disp.get_pcb sender_pid ;;
           if is_null sending_proc then ret (-2)
           else msg.recv c sending_proc from_pid num) ;;
  set_result recv_result_code ;;;
  if recv_result_code =? -1 then n <- disp.next ;; set_cur n else ret tt.

Definition service_syssleep : M unit :=
  milliseconds <- arg 0 ;;
  if 0 <? milliseconds then
    c <- cur ;;
    sleep.sleep c milliseconds ;;;
    n <- disp.next ;; set_cur n
  else ret tt.

Definition state_code (s : process_state_t) : Z :=
  match s with RUNNING => 0 | READY => 1 | BLOCKED => 2 | STOPPED => 3 end.

(** Offsets of the arrays of [processStatuses]. *)
Definition PS_PID : Z := 4.
Definition PS_STATE : Z := 132.
Definition PS_BLOCKED_QUEUE : Z := 260.
Definition PS_CPUTIME : Z := 388.
Definition SIZEOF_PROCESS_STATUSES : Z := 516.

Fixpoint cpu_times_loop (i n : nat) (ps currentSlot : Z) : M Z :=
  match n with
  | O => ret currentSlot
  | S n' =>
      pc <- rd (Some i) ;;
      if negb (state_eqb (P.state pc) STOPPED) then
        let currentSlot := currentSlot + 1 in
        c <- cur ;;
        cpc <- rd c ;;
        mem_store32 (ps + PS_PID + 4 * currentSlot) (P.pid pc) ;;;
        mem_store32 (ps + PS_STATE + 4 * currentSlot)
          (if P.pid cpc =? P.pid pc then state_code RUNNING
           else state_code (P.state pc)) ;;;
        mem_store32 (ps + PS_BLOCKED_QUEUE + 4 * currentSlot)
          (Z.of_nat (bq_index (P.blocked_queue pc))) ;;;
        mem_store32 (ps + PS_CPUTIME + 4 * currentSlot)
          (P.cpuTime pc * TIME_SLICE) ;;;
        cpu_times_loop (S i) n' ps currentSlot
      else cpu_times_loop (S i) n' ps currentSlot
  end.

Definition get_cpu_times (ps : Z) : M Z :=
  ly <- gets K.layout ;;
  if (HOLESTART ly <=? ps) && (ps <=? HOLEEND ly) then ret (-1)
  else if maxaddr ly <? wrap32 (ps + SIZEOF_PROCESS_STATUSES) then ret (-2)
  else
    currentSlot <- cpu_times_loop 0 (Z.to_nat PCB_TABLE_SIZE) ps (-1) ;;
    let currentSlot := currentSlot + 1 in
    idle <- rd (Some IDLE_SLOT) ;;
    mem_store32 (ps + PS_PID + 4 * currentSlot) 0 ;;;
    mem_store32 (ps + PS_STATE + 4 * currentSlot) (state_code READY) ;;;
    mem_store32 (ps + PS_CPUTIME + 4 * currentSlot) (P.cpuTime idle * TIME_SLICE) ;;;
    ret currentSlot.

Definition service_sysgetcputimes : M unit :=
  ps <- arg 0 ;;
  result_code <- get_cpu_times ps ;;
  set_result result_code.

Definition service_syssighandler : M unit :=
  a0 <- arg 0 ;;
  let signal := to_int a0 in
  new_handler <- arg 1 ;;
  old_handler <- arg 2 ;;
  ly <- gets K.layout ;;
  let signal_31 := SIGNAL_TABLE_SIZE - 1 in
  if (signal <? 0) || (signal_31 <=? signal) then set_result (-1)
  else if negb (new_handler =? 0) && negb (kmem.valid_ptr ly new_handler)
  then set_result (-2)
  else if negb (kmem.valid_ptr ly old_handler) then set_result (-3)
  else
    c <- cur ;;
    pc <- rd c ;;
    match P.signal_table pc !! Z.to_nat signal with
    | None => fail OutOfBounds
    | Some old =>
        mem_store32 old_handler old ;;;
        wr c (fun pc =>
          P.set_signal_table (<[Z.to_nat signal := new_handler]> (P.signal_table pc)) pc) ;;;
        set_result 0
    end.

Definition service_syssigreturn : M unit :=
  old_sp <- arg 0 ;;
  c <- cur ;;
  wr c (P.set_esp old_sp) ;;;
  saved <- mem_load32 (old_sp - 4) ;;
  wr c (P.set_result_code (to_int saved)) ;;;
  last <- mem_load32 (old_sp - 8) ;;
  wr c (P.set_last_signal_delivered (to_int last)).

Definition service_syswait : M unit :=
  pid <- arg 0 ;;
  proc_to_wait_on <- disp.get_pcb pid ;;
  c <- cur ;;
  pc <- rd c ;;
  if negb (is_null proc_to_wait_on) && negb (to_int pid =? P.pid pc) then
    wr c (P.set_state BLOCKED) ;;;
    disp.enqueue_blocked_queue c proc_to_wait_on WAIT ;;;
    n <- disp.next ;; set_cur n
  else set_result (-1).

Definition service_sysopen : M unit :=
  device_no <- arg 0 ;;
  c <- cur ;;
  r <- di_calls.di_open c (to_int device_no) ;;
  set_result r.

Definition service_sysclose : M unit :=
  fd <- arg 0 ;;
  c <- cur ;;
  r <- di_calls.di_close c (to_int fd) ;;
  set_result r.

Definition service_syswrite : M unit :=
  fd <- arg 0 ;;
  buf <- arg 1 ;;
  buflen <- arg 2 ;;
  c <- cur ;;
  r <- di_calls.di_write c (to_int fd) buf (to_int buflen) ;;
  set_result r.

Definition service_sysread : M unit :=
  fd <- arg 0 ;;
  buf <- arg 1 ;;
  buflen <- arg 2 ;;
  c <- cur ;;
  di_read_return <- di_calls.di_read c (to_int fd) buf (to_int buflen) ;;
  if di_read_return =? -2 then
    wr c (P.set_state BLOCKED) ;;;
    wr c (P.set_blocked_queue READ) ;;;
    n <- disp.next ;; set_cur n
  else set_result di_read_return.

Definition service_sysioctl : M unit :=
  fd <- arg 0 ;;
  command <- arg 1 ;;
  ioctl_args <- arg 2 ;;
  c <- cur ;;
  r <- di_calls.di_ioctl c (to_int fd) command ioctl_args ;;
  set_result r.

(** The loop [p = dequeue(q); while (p != NULL) { unblock(p, code);
    p = dequeue(q); }] of [cleanup]; every round shrinks the queue. *)
Fixpoint drain (fuel : nat) (q : queue_ref) (code : Z) : M unit :=
  match fuel with
  | O => fail OutOfFuel
  | S n =>
      blocked <- queue.dequeue q ;;
      match blocked with
      | Some _ => disp.unblock blocked code ;;; drain n q code
      | None => ret tt
      end
  end.

Definition drain_queue (q : queue_ref) (code : Z) : M unit :=
  qv <- getq q ;;
  drain (S (Z.to_nat (Q.size qv))) q code.

Definition cleanup (proc : pcb_ptr) : M unit :=
  drain_queue (BlockedQ proc (bq_index SENDER)) (-1) ;;;
  drain_queue (BlockedQ proc (bq_index RECEIVER)) (-1) ;;;
  drain_queue (BlockedQ proc (bq_index WAIT)) 0 ;;;
  disp.stop proc ;;;
  o <- disp.only_process ;;
  sz <- (if o then queue.size ReceiveAnyQ else ret 0) ;;
  (if o && (sz =? 1) then
     blocked_receive_any <- queue.dequeue ReceiveAnyQ ;;
     disp.unblock blocked_receive_any (-10)
   else ret tt) ;;;
  pc <- rd proc ;;
  kmem.kfree (P.mem_start pc).

Definition cleanup_current_process_and_next : M unit :=
  c <- cur ;; cleanup c ;;;
  n <- disp.next ;; set_cur n.

Definition service_timer : M unit :=
  c <- cur ;;
  pc <- rd c ;;
  wr c (P.set_cpuTime (to_int (P.cpuTime pc + 1))) ;;;
  sleep.tick ;;;
  yield.

(** One round of the [for (;;)] loop of [dispatch]. *)
Definition dispatch_round (ev : event) : M unit :=
  c <- cur ;;
  signal.handle_pending_signals c ;;;
  request <- contextswitch ev ;;
  match request with
  | SYSCREATE => service_syscreate (ev_kmalloc ev)
  | SYSYIELD => yield
  | SYSSTOP => cleanup_current_process_and_next
  | SYSGETPID => c <- cur ;; pc <- rd c ;; wr c (P.set_result_code (P.pid pc))
  | SYSPUTS => service_sysputs
  | SYSKILL => service_syskill
  | SYSSETPRIO => service_syssetprio
  | SYSSEND => service_syssend
  | SYSRECV => service_sysrecv
  | SYSSLEEP => service_syssleep
  | SYSGETCPUTIMES => service_sysgetcputimes
  | SYSSIGHANDLER => service_syssighandler
  | SYSSIGRETURN => service_syssigreturn
  | SYSWAIT => service_syswait
  | SYSOPEN => service_sysopen
  | SYSCLOSE => service_sysclose
  | SYSWRITE => service_syswrite
  | SYSREAD => service_sysread
  | SYSIOCTL => service_sysioctl
  | TIMER_INT => service_timer
  | KEYBOARD_INT => kbd.kbd_isr (ev_kbd_status ev) (ev_kbd_data ev)
  end.

(** [initproc] of initialize.c up to the first scheduling decision of
    [dispatch]; [init] is the address of the root process.  [kmeminit] and
    [run_mem_test] belong to the allocator, [contextinit] and [initPIT]
    program the interrupt hardware: they have no part in the state. *)
Definition initproc (init kmalloc_idle kmalloc_init : Z) : M unit :=
  queuetest.run_queue_test ;;;
  deltalisttest.run_deltalist_test ;;;
  kdispinit kmalloc_idle ;;;
  sleep.ksleepinit ;;;
  di_calls.kdiinit ;;;
  create.create init PROCESS_STACK_SIZE kmalloc_init ;;;
  n <- disp.next ;; set_cur n.

End dispatcher.

(** Static storage before [initproc]: all zero. *)
Definition zero_kbd : kbd_t :=
  KB.mk (replicate 5 0) 0 0 0 0 0 0 0 0 0 None 0 false.
Definition zero_kernel (ly : layout_t) (m : mem) : kernel :=
  K.mk (replicate 33 zero_pcb) (replicate 4 zero_queue) zero_queue zero_queue
       (D.mk 0 None) None 0 0 m zero_kbd ly [].

(** The states the kernel can be in at the top of its dispatch loop. *)
Inductive reachable : kernel -> Prop :=
| reach_boot ly m init kmalloc_idle kmalloc_init k :
    dispatcher.initproc init kmalloc_idle kmalloc_init (zero_kernel ly m)
      = Ok (tt, k) ->
    reachable k
| reach_round k ev k' :
    reachable k ->
    dispatcher.dispatch_round ev k = Ok (tt, k') ->
    reachable k'.


(** * Scenarios

    Concrete kernel states, obtained by running the embedded kernel from
    its zeroed statics; they serve as inputs where a statement is checked
    by evaluation. *)

(** The state a computation leaves behind (the start state on a fault). *)
Definition run {A} (m : M A) (k : kernel) : kernel :=
  match m k with
  | Ok (_, k') => k'
  | Fault _ => k
  end.

(** The result of a computation, when there is one. *)
Definition result {A} (m : M A) (k : kernel) : option A :=
  match m k with
  | Ok (a, _) => Some a
  | Fault _ => None
  end.

(** A memory layout in the style of the original platform: 4 MB of
    memory, the hardware hole from 640 KB, the kernel image below the
    first free address. *)
Definition ly0 : layout_t :=
  mk_layout 655360 1662976 4194304 131072 20480 20736 20992 8.

Definition m0 : mem := fun _ => 0.

(** A process pushes [words] at [argp] and traps with request [req]. *)
Fixpoint push_words (m : mem) (a : Z) (ws : list Z) : mem :=
  match ws with
  | [] => m
  | w :: ws' => push_words (store32 m a w) (a + 4) ws'
  end.

Definition syscall_event (req : request_t) (argp : Z) (words : list Z)
    (pokes : list (Z * Z)) (kmalloc : Z) : event :=
  mk_event req
    (fun m => push_words (foldl (fun m p => store32 m (fst p) (snd p)) m pokes)
                         argp words)
    (argp - 64) 0 argp kmalloc 0 0.

Definition timer_event : event :=
  mk_event TIMER_INT (fun m => m) 3000000 0 0 0 0 0.

Definition key_event (scan_code : Z) : event :=
  mk_event KEYBOARD_INT (fun m => m) 3000000 0 0 0 1 scan_code.

Definition round (ev : event) (k : kernel) : kernel :=
  run (dispatcher.dispatch_round ev) k.

(** After boot the root process (slot 0, pid 33) is running. *)
Definition k_boot : kernel :=
  run (dispatcher.initproc 24576 1700000 1800000) (zero_kernel ly0 m0).

(** The root process sleeps for 30 ms: it is the only sleeper and the
    idle process runs. *)
Definition k_one_sleeper : kernel :=
  round (syscall_event SYSSLEEP 1805000 [30] [] 0) k_boot.

(** The root process has called [sysgetpid] (result 33) and then sleeps
    for 30 ms. *)
Definition k_sleeps_30ms : kernel :=
  round (syscall_event SYSSLEEP 1805000 [30] [] 0)
        (round (syscall_event SYSGETPID 1805000 [] [] 0) k_boot).

(** Three time slices later the 30 ms are over. *)
Definition k_slept_30ms : kernel :=
  round timer_event (round timer_event (round timer_event k_sleeps_30ms)).

(** The first half of a dispatch round: pending signals are handled, the
    process runs and re-enters the kernel; the request is not yet served. *)
Definition enter_kernel (ev : event) : M request_t :=
  c <- dispatcher.cur ;;
  signal.handle_pending_signals c ;;;
  dispatcher.contextswitch ev.

(** The root process has called [sysgetpid] (result 33) and now enters the
    kernel with [syssleep(0)]. *)
Definition k_sleep_zero : kernel :=
  run (enter_kernel (syscall_event SYSSLEEP 1805000 [0] [] 0))
      (round (syscall_event SYSGETPID 1805000 [] [] 0) k_boot).

(** The root process enters the kernel with
    [syssighandler(5, 24700, 1805100)]. *)
Definition k_sighandler : kernel :=
  run (enter_kernel (syscall_event SYSSIGHANDLER 1805000 [5; 24700; 1805100] [] 0))
      k_boot.

(** ** Vocabulary of the statements *)

(** Signal [s] is the highest-numbered signal pending in [bits]. *)
Definition highest_pending (bits s : Z) : Prop :=
  0 <= s <= 31 /\ Z.testbit bits s = true
  /\ forall t, s < t <= 31 -> Z.testbit bits t = false.

Definition none_pending (bits : Z) : Prop :=
  forall t, 0 <= t <= 31 -> Z.testbit bits t = false.

(** The memory after the trampoline frame has been written at [new_esp]. *)
Definition signal_frame (ly : layout_t) (m : mem)
    (new_esp handler old_esp last rc : Z) : mem :=
  store32 (store32 (store32 (store32
    (store32 (store32 (store32 (store32
       (store_bytes m new_esp [0; 0; 0; 0])
       (new_esp + 8) (new_esp + SIZEOF_CONTEXT_FRAME))
       (new_esp + 32) (sigtramp_addr ly))
       (new_esp + 36) (code_segment ly))
       (new_esp + 40) EFLAGS)
    (new_esp + 48) handler)
    (new_esp + 52) old_esp)
    (new_esp + 56) last)
    (new_esp + 60) rc.

(** The root process has installed a handler for signal 5 and has sent
    that signal to itself: it is pending at its next resumption. *)
Definition k_sig_pending : kernel :=
  round (syscall_event SYSKILL 1805000 [33; 5] [] 0)
        (round (syscall_event SYSSIGHANDLER 1805000 [5; 24700; 1805100] [] 0)
               k_boot).

Definition pc_sig : pcb_t := default zero_pcb (K.pcbs k_sig_pending !! 0%nat).

(** *** Keyboard scenarios *)

(** The root process opens the echoing keyboard (fd 0). *)
Definition k_kbd_open : kernel :=
  round (syscall_event SYSOPEN 1805000 [1] [] 0) k_boot.

(** 'a' (scan code 30), then Ctrl-D: left control down (29), 'd' (32). *)
Definition k_typed_a_eof : kernel :=
  round (key_event 32) (round (key_event 29) (round (key_event 30) k_kbd_open)).

(** 'a', then Enter (scan code 28). *)
Definition k_typed_a_newline : kernel :=
  round (key_event 28) (round (key_event 30) k_kbd_open).

(** [sysread(0, 1806000, 10)] *)
Definition ev_read10 : event :=
  syscall_event SYSREAD 1805000 [0; 1806000; 10] [] 0.

(** *** Message passing scenarios

    The root process P1 (slot 0, pid 33) creates P2 (slot 1, pid 34).
    P2's receive buffer is at 1905104 and its [from_pid] cell at 1905100. *)

Definition k_two_procs : kernel :=
  round (syscall_event SYSCREATE 1805000 [24600; 8192] [] 1900000) k_boot.

Definition ev_yield : event := syscall_event SYSYIELD 1805000 [] [] 0.

Definition ev_send (dest num : Z) : event :=
  syscall_event SYSSEND 1805000 [dest; num] [] 0.

(** P2 calls [sysrecv(&from, &num)] with [from] preset; its buffer holds
    the pattern 0xFFFFFFFF before the call. *)
Definition ev_recv (from : Z) : event :=
  syscall_event SYSRECV 1905000 [1905100; 1905104]
                [(1905100, from); (1905104, 4294967295)] 0.

(** P2 blocks in [recv(from = P1)]; P1 then sends [v]. *)
Definition k_recv_then_send (v : Z) : kernel :=
  round (ev_send 34 v) (round (ev_recv 33) (round ev_yield k_two_procs)).

(** P2 blocks in receive-any; P1 then sends [v]. *)
Definition k_recv_any_then_send (v : Z) : kernel :=
  round (ev_send 34 v) (round (ev_recv 0) (round ev_yield k_two_procs)).

(** P1 blocks in [send(P2, v)]; P2 then receives from P1. *)
Definition k_send_then_recv (v : Z) : kernel :=
  round (ev_recv 33) (round (ev_send 34 v) k_two_procs).

(** P1 blocks in [send(P2, v)]; P2 then receives from anyone. *)
Definition k_send_then_recv_any (v : Z) : kernel :=
  round (ev_recv 0) (round (ev_send 34 v) k_two_procs).

(** What an observer sees of a process and of P2's receive cells. *)
Definition proc_view (k : kernel) (i : nat) :=
  match K.pcbs k !! i with
  | Some pc => Some (P.pid pc, P.state pc, P.blocked_queue pc, P.result_code pc)
  | None => None
  end.

Definition recv_cells (k : kernel) : Z * Z :=
  (load32 (K.memory k) 1905100, load32 (K.memory k) 1905104).

(** The state in which the handler of a request starts: the process has
    entered the kernel with that request. *)
Definition k_read_entry_eof : kernel := run (enter_kernel ev_read10) k_typed_a_eof.
Definition k_read_entry_newline : kernel :=
  run (enter_kernel ev_read10) k_typed_a_newline.

(** The state [poll] leaves when the head [h] of the delta list, with PCB
    [pc], has no successor: the key of [h] has been added to the word at
    [NULL + offsetof(pcb_t, key)], the list has no head and [h] no links. *)
Definition polled_last (k : kernel) (h : nat) (pc : pcb_t) : kernel :=
  K.set_pcbs (<[h := P.set_next None (P.set_prev None pc)]> (K.pcbs k))
    (K.set_sleep_queue
       (D.mk (wrap32 (D.size (K.sleep_queue k) - 1)) None)
       (K.set_memory
          (store32 (K.memory k) (NULL + KEY_OFFSET)
                   (load32 (K.memory k) (NULL + KEY_OFFSET) + P.key pc)) k)).

(** [n] timer ticks of the sleep device in a row. *)
Fixpoint ticks (n : nat) : M unit :=
  match n with
  | O => ret tt
  | S n' => sleep.tick ;;; ticks n'
  end.

(** The facts that hold of a kernel in which [p] is the only sleeper. *)
Definition sole_sleeper (p : nat) (k : kernel) (pc : pcb_t) : Prop :=
  D.head (K.sleep_queue k) = Some p
  /\ D.size (K.sleep_queue k) = 1
  /\ K.pcbs k !! p = Some pc
  /\ P.next pc = None
  /\ P.state pc = BLOCKED
  /\ P.blocked_queue pc = SLEEP.

Definition pc_root : pcb_t := default zero_pcb (K.pcbs k_boot !! 0%nat).

(** The root process has a handler for signal 5 and sleeps for 100 ms; P2
    runs and enters the kernel with [syskill(33, 5)]. *)
Definition k_kill_sleeper_entry : kernel :=
  run (enter_kernel (syscall_event SYSKILL 1905000 [33; 5] [] 0))
    (round (syscall_event SYSSLEEP 1805000 [100] [] 0)
       (round (syscall_event SYSCREATE 1805000 [24600; 8192] [] 1900000)
          (round (syscall_event SYSSIGHANDLER 1805000 [5; 24700; 1805100] [] 0)
             k_boot))).


(** The PID policy: every stored PID is an [int]; the PID stored in table
    slot [i] is at least 1 and indexes slot [i]. The idle PCB (index 32) is
    outside the table. *)
Definition pid_policy (k : kernel) : Prop :=
  length (K.pcbs k) = 33%nat
  /\ (forall (i : nat) (pc : pcb_t),
        K.pcbs k !! i = Some pc -> - INT_MAX - 1 <= P.pid pc <= INT_MAX)
  /\ (forall (i : nat) (pc : pcb_t),
        (i < 32)%nat -> K.pcbs k !! i = Some pc ->
        1 <= P.pid pc /\ (P.pid pc - 1) mod 32 = Z.of_nat i).

(** The same as a check that can be run on a concrete state. *)
Definition pid_intb (pc : pcb_t) : bool :=
  (- INT_MAX - 1 <=? P.pid pc) && (P.pid pc <=? INT_MAX).

Definition pid_okb (i : nat) (pc : pcb_t) : bool :=
  (1 <=? P.pid pc) && ((P.pid pc - 1) mod 32 =? Z.of_nat i).

Fixpoint pids_okb (i : nat) (l : list pcb_t) (n : nat) : bool :=
  match n with
  | O => true
  | S n' =>
      match l with
      | [] => true
      | pc :: l' => pid_okb i pc && pids_okb (S i) l' n'
      end
  end.

Definition pid_policyb (k : kernel) : bool :=
  Nat.eqb (length (K.pcbs k)) 33
  && forallb pid_intb (K.pcbs k)
  && pids_okb 0 (K.pcbs k) 32.

(** Two states store the same PIDs. *)
Definition same_pids (k k' : kernel) : Prop :=
  P.pid <$> K.pcbs k' = P.pid <$> K.pcbs k.

(** A computation leaves every PID alone. *)
Definition frames {A} (m : M A) : Prop :=
  forall k a k', m k = Ok (a, k') -> same_pids k k'.

(** A computation preserves the PID policy. *)
Definition pres {A} (m : M A) : Prop :=
  forall k a k', pid_policy k -> m k = Ok (a, k') -> pid_policy k'.

(** The PID given to a reused slot whose previous PID was [prev_pid]. *)
Definition reuse_pid (prev_pid : Z) : Z :=
  if prev_pid + 32 <=? INT_MAX then prev_pid + 32 else prev_pid mod 32.

(** The PID the code computes for a slot taken from the stopped queue. *)
Definition new_pid_code (prev_pid : Z) : Z :=
  let new_pid := to_int (prev_pid + PCB_TABLE_SIZE) in
  if new_pid <? 1 then Z.rem prev_pid PCB_TABLE_SIZE else new_pid.



(** ** Process termination

    P1 (slot 0, pid 33) creates P2, P3 and P4 (slots 1 to 3, pids 34 to
    36). P1 blocks sending to P2, P3 blocks receiving from P2 and P4 blocks
    waiting for P2; P2 is running. *)

Definition ev_create (kmalloc : Z) : event :=
  syscall_event SYSCREATE 1805000 [24600; 8192] [] kmalloc.

Definition k_four_procs : kernel :=
  round (ev_create 2100000) (round (ev_create 2000000) k_two_procs).

Definition k_blocked_on_p2 : kernel :=
  round (syscall_event SYSWAIT 2105000 [34] [] 0)
    (round (syscall_event SYSRECV 2005000 [2005100; 2005104] [(2005100, 34)] 0)
       (round (syscall_event SYSYIELD 1905000 [] [] 0)
          (round (ev_send 34 7) k_four_procs))).

(** The queue a process keeps of the processes blocked on it. *)
Definition blocked_queue_of (k : kernel) (i : nat) (b : blocked_queue_t)
    : option Queue :=
  match K.pcbs k !! i with
  | Some pc => P.blocked_queues pc !! bq_index b
  | None => None
  end.

(** A [pcb_t *] is null or points into the PCB store. *)
Definition slot_ok (pcbs : list pcb_t) (t : pcb_ptr) : bool :=
  match t with
  | Some i => Nat.ltb i (length pcbs)
  | None => true
  end.

(** The PCBs linked from [first] through [next] are exactly [l]. *)
Fixpoint chainb (pcbs : list pcb_t) (first : pcb_ptr) (l : list nat) : bool :=
  match l with
  | [] => is_null first
  | x :: l' =>
      ptr_eqb first (Some x)
      && match pcbs !! x with
         | Some pc => chainb pcbs (P.next pc) l'
         | None => false
         end
  end.

(** Queue [q] holds the PCBs [l], in this order; its size is an [int]. *)
Definition queueb (pcbs : list pcb_t) (q : Queue) (l : list nat) : bool :=
  (Q.size q =? Z.of_nat (length l)) && (Q.size q <=? INT_MAX)
  && chainb pcbs (Q.head q) l.

(** [ready] can put PCB [x] on a ready queue: it is not the idle process
    and its priority indexes the array of ready queues. *)
Definition wakeableb (pcbs : list pcb_t) (x : nat) : bool :=
  match pcbs !! x with
  | Some pc =>
      negb (P.pid pc =? IDLE_PROC_PID)
      && (0 <=? P.priority pc) && (P.priority pc <? NUM_PRIORITIES)
  | None => false
  end.

Definition memb (x : nat) (l : list nat) : bool := existsb (Nat.eqb x) l.

Fixpoint nodupb (l : list nat) : bool :=
  match l with
  | [] => true
  | x :: l' => negb (memb x l') && nodupb l'
  end.

(** The tail of a ready queue is in the store and is none of [busy]. *)
Definition tail_okb (pcbs : list pcb_t) (busy : list nat) (q : Queue) : bool :=
  match Q.tail q with
  | Some t => Nat.ltb t (length pcbs) && negb (memb t busy)
  | None => true
  end.

(** The test [only_process() && size(&receive_any_queue) == 1] as it comes
    out after [stop] has decremented the count of user processes. *)
Definition last_receiver_test (k : kernel) : bool :=
  (to_int (K.user_proc_count k - 1) =? 1)
  && (to_int (Q.size (K.receive_any_queue k)) =? 1).

(** When that test succeeds the head of the receive-any queue can be
    woken; it is none of [busy] and not the tail of a ready queue. *)
Definition receive_any_okb (k : kernel) (busy : list nat) : bool :=
  if last_receiver_test k then
    match Q.head (K.receive_any_queue k) with
    | Some h =>
        negb (memb h busy) && wakeableb (K.pcbs k) h
        && forallb (fun q => negb (ptr_eqb (Q.tail q) (Some h)))
                   (K.ready_queues k)
    | None => false
    end
  else true.

(** What [cleanup] relies on when it runs for PCB [p] whose sender,
    receiver and waiter queues hold [ls], [lr] and [lw]: the three queues
    are linked lists of distinct PCBs other than [p], each of which can be
    woken; every [next] pointer is null or in the store; there are four
    ready queues and their tails, like the tail of the stopped queue, are in
    the store, the ready tails being none of the PCBs concerned. *)
Definition cleanup_okb (k : kernel) (p : nat) (ls lr lw : list nat) : bool :=
  let pcbs := K.pcbs k in
  let busy := p :: ls ++ lr ++ lw in
  match pcbs !! p with
  | Some pc =>
      match P.blocked_queues pc with
      | qs :: qr :: qw :: _ =>
          queueb pcbs qs ls && queueb pcbs qr lr && queueb pcbs qw lw
      | _ => false
      end
  | None => false
  end
  && nodupb busy
  && forallb (wakeableb pcbs) (ls ++ lr ++ lw)
  && forallb (fun pc => slot_ok pcbs (P.next pc)) pcbs
  && Nat.eqb (length (K.ready_queues k)) 4
  && forallb (tail_okb pcbs busy) (K.ready_queues k)
  && slot_ok pcbs (Q.tail (K.stopped_queue k))
  && receive_any_okb k busy.

(** The queues of PCB [p], by index. *)
Definition queues_of (ls lr lw : list nat) (b : nat) : list nat :=
  match b with
  | O => ls
  | S O => lr
  | S (S O) => lw
  | _ => []
  end.

Definition set_queue (ql : nat -> list nat) (b : nat) (l : list nat)
    (b' : nat) : list nat :=
  if Nat.eqb b' b then l else ql b'.

(** A PCB without its links. *)
Definition unlinked (pc : pcb_t) : pcb_t := P.set_next None (P.set_prev None pc).

(** The invariant of [cleanup] while it empties the queues of [p]: [ql]
    gives what is left in each queue, [woken] the PCBs already made ready
    and the result code each was given. *)
Record cleanup_inv (k : kernel) (p : nat) (ql : nat -> list nat)
    (woken : list (nat * Z)) : Prop := mk_cleanup_inv {
  inv_queues :
    exists pcp, K.pcbs k !! p = Some pcp
      /\ forall b, (b < 3)%nat ->
           exists q, P.blocked_queues pcp !! b = Some q
                     /\ queueb (K.pcbs k) q (ql b) = true;
  inv_nodup : forall b, NoDup (ql b) /\ p ∉ ql b;
  inv_disjoint : forall b b' y, b <> b' -> y ∈ ql b -> y ∉ ql b';
  inv_wakeable : forall b y, y ∈ ql b -> wakeableb (K.pcbs k) y = true;
  inv_links :
    forall y pc, K.pcbs k !! y = Some pc -> slot_ok (K.pcbs k) (P.next pc) = true;
  inv_ready_length : length (K.ready_queues k) = 4%nat;
  inv_ready_tail :
    forall i q t, K.ready_queues k !! i = Some q -> Q.tail q = Some t ->
      (t < length (K.pcbs k))%nat /\ t <> p /\ forall b, t ∉ ql b;
  inv_woken :
    forall y c, (y, c) ∈ woken ->
      y <> p /\ (forall b, y ∉ ql b)
      /\ exists pc, K.pcbs k !! y = Some pc
                    /\ P.state pc = READY /\ P.result_code pc = c;
  inv_stopped_tail : slot_ok (K.pcbs k) (Q.tail (K.stopped_queue k)) = true;
  inv_receive_any :
    last_receiver_test k = true ->
    exists h, Q.head (K.receive_any_queue k) = Some h
      /\ h <> p /\ (forall b, h ∉ ql b) /\ (forall c, (h, c) ∉ woken)
      /\ wakeableb (K.pcbs k) h = true
      /\ forall i q, K.ready_queues k !! i = Some q -> Q.tail q <> Some h
}.

(** The PCBs of [l] in the order a loop wakes them, each with the result
    code [code], put in front of [woken]. *)
Definition woken_with (code : Z) (l : list nat) (woken : list (nat * Z))
    : list (nat * Z) :=
  foldl (fun w y => (y, code) :: w) woken l.

(** State [k] after PCB [i] has installed the handler [h] for signal [n]. *)
Definition with_handler (i : nat) (n : nat) (h : Z) (k : kernel) : kernel :=
  K.set_pcbs
    (alter (fun pc => P.set_signal_table (<[n := h]> (P.signal_table pc)) pc)
           i (K.pcbs k))
    k.

(** ** Process queues as lists

    A [Queue] is a doubly-linked list threaded through the [prev] and
    [next] fields of the PCBs. *)

(** The queue a [Queue *] points to. *)
Definition queue_at (k : kernel) (r : queue_ref) : option Queue :=
  match r with
  | ReadyQ i => K.ready_queues k !! i
  | StoppedQ => Some (K.stopped_queue k)
  | ReceiveAnyQ => Some (K.receive_any_queue k)
  | BlockedQ (Some p) b =>
      match K.pcbs k !! p with
      | Some pc => P.blocked_queues pc !! b
      | None => None
      end
  | BlockedQ None _ => None
  end.

(** The two links of PCB [y]. *)
Definition links (k : kernel) (y : nat) : option (pcb_ptr * pcb_ptr) :=
  (fun pc => (P.prev pc, P.next pc)) <$> K.pcbs k !! y.

(** Following [next] from [first] visits exactly [l] and ends at [last];
    each PCB points back to the one before it, the first one to [prev]. *)
Fixpoint linkedb (k : kernel) (prev first : pcb_ptr) (l : list nat)
    (last : pcb_ptr) : bool :=
  match l with
  | [] => is_null first && ptr_eqb last prev
  | x :: l' =>
      ptr_eqb first (Some x)
      && match links k x with
         | Some (pv, nx) => ptr_eqb pv prev && linkedb k (Some x) nx l' last
         | None => false
         end
  end.

(** Queue [r] holds the PCBs [l], head first. *)
Definition holdsb (k : kernel) (r : queue_ref) (l : list nat) : bool :=
  match queue_at k r with
  | Some q =>
      (Q.size q =? Z.of_nat (length l)) && (Q.size q <=? INT_MAX)
      && linkedb k None (Q.head q) l (Q.tail q) && nodupb l
  | None => false
  end.

Definition same_queue (r r' : queue_ref) : bool :=
  match r, r' with
  | ReadyQ i, ReadyQ j => Nat.eqb i j
  | StoppedQ, StoppedQ => true
  | ReceiveAnyQ, ReceiveAnyQ => true
  | BlockedQ p b, BlockedQ p' b' => ptr_eqb p p' && Nat.eqb b b'
  | _, _ => false
  end.

(** The lists share no PCB. *)
Definition disjointb (l l' : list nat) : bool :=
  forallb (fun y => negb (memb y l')) l.

(** A PCB without its links and its blocked queues: what the queue
    operations never write. *)
Definition payload (pc : pcb_t) : pcb_t :=
  P.set_blocked_queues [] (P.set_next None (P.set_prev None pc)).

(** ** The delta list as a list of wake-up times

    The sleeping PCBs are linked through [next]; the [key] of each is its
    delay relative to the PCB before it.  A list [(x, t)] gives for each
    PCB the number of ticks [t] until it is due. *)

Fixpoint sleepersb (k : kernel) (base : Z) (first : pcb_ptr)
    (l : list (nat * Z)) : bool :=
  match l with
  | [] => is_null first
  | (x, t) :: l' =>
      ptr_eqb first (Some x)
      && match K.pcbs k !! x with
         | Some pc => (P.key pc =? t - base) && sleepersb k t (P.next pc) l'
         | None => false
         end
  end.

(** The times do not decrease from [base] on and are C [int]s. *)
Fixpoint ascendingb (base : Z) (l : list (nat * Z)) : bool :=
  match l with
  | [] => true
  | (_, t) :: l' => (base <=? t) && (t <=? INT_MAX) && ascendingb t l'
  end.

(** The delta list holds the sleepers [l], the first to wake first. *)
Definition sleepsb (k : kernel) (l : list (nat * Z)) : bool :=
  (D.size (K.sleep_queue k) =? Z.of_nat (length l))
  && (D.size (K.sleep_queue k) <=? INT_MAX)
  && sleepersb k 0 (D.head (K.sleep_queue k)) l
  && ascendingb 0 l
  && nodupb (l.*1).

(** Insertion by wake-up time, after the sleepers due at the same time. *)
Fixpoint insert_by_time (x : nat) (d : Z) (l : list (nat * Z))
    : list (nat * Z) :=
  match l with
  | [] => [(x, d)]
  | (y, t) :: l' =>
      if d <? t then (x, d) :: (y, t) :: l'
      else (y, t) :: insert_by_time x d l'
  end.

(** A PCB without its [key] and [next]: what the delta list never
    writes when it inserts. *)
Definition unkeyed (pc : pcb_t) : pcb_t := P.set_key 0 (P.set_next None pc).

(** What the PCB before the insertion point links to: the head of the
    list when there is none. *)
Definition entry (k : kernel) (prev : pcb_ptr) : option pcb_ptr :=
  match prev with
  | None => Some (D.head (K.sleep_queue k))
  | Some p => P.next <$> K.pcbs k !! p
  end.

(** The kernel state outside the PCB store and the delta list. *)
Definition outside_sleep (k : kernel) : kernel :=
  K.set_pcbs [] (K.set_sleep_queue (D.mk 0 None) k).

(** P1 and P2 exist; P1 sleeps for 30 ms, then P2 for 50 ms. *)
Definition k_p1_sleeps : kernel :=
  round (syscall_event SYSSLEEP 1805000 [30] [] 0) k_two_procs.

Definition k_both_sleep : kernel :=
  round (syscall_event SYSSLEEP 1905000 [50] [] 0) k_p1_sleeps.

(** A PCB without its [key] and its links: what the delta list never
    writes when it removes. *)
Definition unkeyed_unlinked (pc : pcb_t) : pcb_t :=
  P.set_key 0 (P.set_next None (P.set_prev None pc)).

(** ** The scheduler *)

(** The kernel state outside the PCB store and the queue headers. *)
Definition outside_queues (k : kernel) : kernel :=
  K.set_pcbs []
    (K.set_ready_queues []
       (K.set_stopped_queue zero_queue
          (K.set_receive_any_queue zero_queue k))).

(** What [ready] makes of a PCB, links and blocked queues apart. *)
Definition made_ready (pc : pcb_t) : pcb_t :=
  P.set_state READY (P.set_blocked_on None (P.set_blocked_queue NONE pc)).

(** Computations that write only the PCB store and the queue headers. *)
Definition keeps_outside {A} (m : M A) : Prop :=
  forall k a k', m k = Ok (a, k') -> outside_queues k' = outside_queues k.

(** ** The sleep device *)

(** Every sleeper of [l] due one tick sooner. *)
Definition sooner (l : list (nat * Z)) : list (nat * Z) :=
  (fun e => (e.1, e.2 - 1)) <$> l.

(** P1 and P2 sleep and two time slices have passed: P1 is due at the
    next tick. *)
Definition k_p1_due : kernel := round timer_event (round timer_event k_both_sleep).

(** ** Signals to blocked processes *)







(** ** The keyboard buffer *)

(** The indices of the circular buffer are within its five cells. *)
Definition kbd_okb (kb : kbd_t) : bool :=
  Nat.eqb (length (KB.kbd_buf kb)) 5
  && (0 <=? KB.kbd_buf_head kb) && (KB.kbd_buf_head kb <? KBD_BUFFER_SIZE)
  && (0 <=? KB.kbd_buf_tail kb) && (KB.kbd_buf_tail kb <? KBD_BUFFER_SIZE).

(** [n] cells of the circular buffer, read from index [i] on. *)
Fixpoint ring_read (buf : list Z) (i : Z) (n : nat) : list Z :=
  match n with
  | O => []
  | S n' => default 0 (buf !! Z.to_nat i)
            :: ring_read buf ((i + 1) mod KBD_BUFFER_SIZE) n'
  end.

(** The characters that wait in the buffer, the oldest first: the cells
    from [kbd_buf_tail] up to [kbd_buf_head]. *)
Definition pending_chars (kb : kbd_t) : list Z :=
  ring_read (KB.kbd_buf kb) (KB.kbd_buf_tail kb)
    (Z.to_nat ((KB.kbd_buf_head kb - KB.kbd_buf_tail kb) mod KBD_BUFFER_SIZE)).

(** ** Process creation *)

(** The initial stack pointer of a process whose stack of [stack] bytes
    starts at [mem_start]: below the return address and the context
    frame. *)
Definition initial_esp (mem_start stack : Z) : Z :=
  wrap32 (wrap32 (wrap32 (mem_start + stack) - 4) - SIZEOF_CONTEXT_FRAME).

(** The stack size [create] allocates for a request of [stack] bytes. *)
Definition stack_size (stack : Z) : Z :=
  if stack <? PROCESS_STACK_SIZE then PROCESS_STACK_SIZE else stack.

(** * Verification *)

Arguments wrap32 : simpl never.
Arguments to_int : simpl never.
Arguments load32 : simpl never.
Arguments store32 : simpl never.
Arguments load8 : simpl never.
Arguments store8 : simpl never.

(** ** Machine words and memory *)

Lemma wrap32_range z : 0 <= wrap32 z < 4294967296.
Proof. unfold wrap32. apply Z.mod_pos_bound. lia. Qed.

Lemma wrap32_small z : 0 <= z < 4294967296 -> wrap32 z = z.
Proof. intros. unfold wrap32. by apply Z.mod_small. Qed.

Lemma wrap32_add_l a c : wrap32 (wrap32 a + c) = wrap32 (a + c).
Proof. unfold wrap32. by rewrite Zplus_mod_idemp_l. Qed.

Lemma wrap32_shift_neq a i j :
  0 <= i < 4294967296 -> 0 <= j < 4294967296 -> i <> j ->
  wrap32 (a + i) <> wrap32 (a + j).
Proof.
  unfold wrap32. intros Hi Hj Hne E.
  pose proof (Z.div_mod (a + i) 4294967296 ltac:(lia)) as D1.
  pose proof (Z.div_mod (a + j) 4294967296 ltac:(lia)) as D2.
  rewrite E in D1.
  assert (i - j = 4294967296 * ((a + i) / 4294967296 - (a + j) / 4294967296)) by lia.
  lia.
Qed.

Lemma load8_store8_eq m a b x :
  wrap32 x = wrap32 a -> load8 (store8 m a b) x = b mod 256.
Proof.
  intros E. unfold load8, store8. rewrite E, Z.eqb_refl.
  apply Z.mod_mod. lia.
Qed.

Lemma load8_store8_ne m a b x :
  wrap32 x <> wrap32 a -> load8 (store8 m a b) x = load8 m x.
Proof.
  intros E. unfold load8, store8.
  destruct (Z.eqb_spec (wrap32 x) (wrap32 a)); [done|reflexivity].
Qed.

Lemma bytes_of_wrap32 v :
  byte_of v 0 + 256 * byte_of v 1 + 65536 * byte_of v 2 + 16777216 * byte_of v 3
  = wrap32 v.
Proof.
  unfold byte_of. pose proof (wrap32_range v) as R.
  set (w := wrap32 v) in *. clearbody w.
  change (256 ^ 0) with 1. change (256 ^ 1) with 256.
  change (256 ^ 2) with 65536. change (256 ^ 3) with 16777216.
  rewrite Z.div_1_r.
  pose proof (Z.div_mod w 256 ltac:(lia)).
  pose proof (Z.div_mod (w / 256) 256 ltac:(lia)).
  pose proof (Z.div_mod (w / 256 / 256) 256 ltac:(lia)).
  rewrite Z.div_div in * by lia.
  change (256 * 256) with 65536 in *.
  pose proof (Z.div_mod (w / 65536 / 256) 256 ltac:(lia)).
  rewrite Z.div_div in * by lia. change (65536 * 256) with 16777216 in *.
  assert (w / 16777216 < 256) by (apply Z.div_lt_upper_bound; lia).
  assert (0 <= w / 16777216) by (apply Z.div_pos; lia).
  rewrite (Z.mod_small (w / 16777216) 256) by lia.
  lia.
Qed.

Lemma byte_of_mod v i : byte_of v i mod 256 = byte_of v i.
Proof. unfold byte_of. apply Z.mod_mod. lia. Qed.


Lemma load8_store32 m a v x :
  load8 (store32 m a v) x =
    if wrap32 x =? wrap32 (a + 3) then byte_of v 3
    else if wrap32 x =? wrap32 (a + 2) then byte_of v 2
    else if wrap32 x =? wrap32 (a + 1) then byte_of v 1
    else if wrap32 x =? wrap32 a then byte_of v 0
    else load8 m x.
Proof.
  unfold store32, load8, store8.
  repeat match goal with
         | |- context [?p =? ?q] => destruct (Z.eqb_spec p q)
         end; try reflexivity; rewrite byte_of_mod; apply byte_of_mod.
Qed.

Lemma load8_store32_other m a v x :
  (forall j, 0 <= j < 4 -> wrap32 x <> wrap32 (a + j)) ->
  load8 (store32 m a v) x = load8 m x.
Proof.
  intros N. rewrite load8_store32.
  pose proof (N 0) as N0. pose proof (N 1) as N1.
  pose proof (N 2) as N2. pose proof (N 3) as N3. rewrite Z.add_0_r in N0.
  destruct (Z.eqb_spec (wrap32 x) (wrap32 (a + 3))); [exfalso; lia|].
  destruct (Z.eqb_spec (wrap32 x) (wrap32 (a + 2))); [exfalso; lia|].
  destruct (Z.eqb_spec (wrap32 x) (wrap32 (a + 1))); [exfalso; lia|].
  destruct (Z.eqb_spec (wrap32 x) (wrap32 a)); [exfalso; lia|].
  reflexivity.
Qed.

Lemma load8_store32_at m a v i :
  0 <= i < 4 -> load8 (store32 m a v) (a + i) = byte_of v i.
Proof.
  intros Hi. rewrite load8_store32.
  assert (N : forall j, 0 <= j < 4 -> i <> j -> wrap32 (a + i) <> wrap32 (a + j))
    by (intros; apply wrap32_shift_neq; lia).
  pose proof (N 0) as N0. pose proof (N 1) as N1.
  pose proof (N 2) as N2. pose proof (N 3) as N3. rewrite Z.add_0_r in N0.
  destruct (Z.eqb_spec (wrap32 (a + i)) (wrap32 (a + 3))) as [E3|F3].
  { destruct (Z.eq_dec i 3) as [-> | ]; [reflexivity | exfalso; lia]. }
  destruct (Z.eqb_spec (wrap32 (a + i)) (wrap32 (a + 2))) as [E2|F2].
  { destruct (Z.eq_dec i 2) as [-> | ]; [reflexivity | exfalso; lia]. }
  destruct (Z.eqb_spec (wrap32 (a + i)) (wrap32 (a + 1))) as [E1|F1].
  { destruct (Z.eq_dec i 1) as [-> | ]; [reflexivity | exfalso; lia]. }
  destruct (Z.eqb_spec (wrap32 (a + i)) (wrap32 a)) as [E0|N'].
  { destruct (Z.eq_dec i 0) as [-> | ]; [reflexivity | exfalso; lia]. }
  exfalso. assert (i = 0 \/ i = 1 \/ i = 2 \/ i = 3) as [-> | [-> | [-> | ->]]] by lia;
    rewrite ?Z.add_0_r in *; congruence.
Qed.

Lemma load32_store32_same m a v : load32 (store32 m a v) a = wrap32 v.
Proof.
  rewrite <- (bytes_of_wrap32 v). unfold load32.
  rewrite <- (Z.add_0_r a) at 2.
  rewrite !load8_store32_at by lia. reflexivity.
Qed.

Lemma load32_store32_off m x c1 c2 v :
  0 <= c1 < 2147483648 -> 0 <= c2 < 2147483648 ->
  c1 + 4 <= c2 \/ c2 + 4 <= c1 ->
  load32 (store32 m (x + c1) v) (x + c2) = load32 m (x + c2).
Proof.
  intros H1 H2 Hd. unfold load32.
  assert (N : forall i j, 0 <= i < 4 -> 0 <= j < 4 ->
              wrap32 (x + c2 + i) <> wrap32 (x + c1 + j)).
  { intros i j Hi Hj. rewrite <- !Z.add_assoc. apply wrap32_shift_neq; lia. }
  rewrite <- (Z.add_0_r (x + c2)) at 1 5.
  rewrite !load8_store32_other by (intros; apply N; lia).
  rewrite Z.add_0_r. reflexivity.
Qed.

Lemma load32_congr m a b : wrap32 a = wrap32 b -> load32 m a = load32 m b.
Proof.
  intros E. unfold load32, load8.
  assert (W : forall i, wrap32 (a + i) = wrap32 (b + i)).
  { intros i. rewrite <- (wrap32_add_l a), <- (wrap32_add_l b). by rewrite E. }
  rewrite !W. rewrite E. reflexivity.
Qed.

Lemma load32_range m a : 0 <= load32 m a < 4294967296.
Proof.
  unfold load32, load8.
  pose proof (Z.mod_pos_bound (m (wrap32 a)) 256 ltac:(lia)).
  pose proof (Z.mod_pos_bound (m (wrap32 (a + 1))) 256 ltac:(lia)).
  pose proof (Z.mod_pos_bound (m (wrap32 (a + 2))) 256 ltac:(lia)).
  pose proof (Z.mod_pos_bound (m (wrap32 (a + 3))) 256 ltac:(lia)).
  lia.
Qed.

Lemma store32_congr m a b v : wrap32 a = wrap32 b -> store32 m a v = store32 m b v.
Proof.
  intros E. unfold store32, store8.
  assert (W : forall i, wrap32 (a + i) = wrap32 (b + i)).
  { intros i. rewrite <- (wrap32_add_l a), <- (wrap32_add_l b). by rewrite E. }
  rewrite !W, E. reflexivity.
Qed.

Lemma to_int_small z : -2147483648 <= z < 2147483648 -> to_int z = z.
Proof.
  intros H. unfold to_int, wrap32.
  destruct (Z.ltb_spec (z mod 4294967296) 2147483648) as [L|L].
  - destruct (Z_lt_le_dec z 0) as [N|N].
    + pose proof (Z.div_mod z 4294967296 ltac:(lia)) as D.
      assert (z / 4294967296 = -1).
      { pose proof (Z.mod_pos_bound z 4294967296 ltac:(lia)). nia. }
      lia.
    + apply Z.mod_small. lia.
  - destruct (Z_lt_le_dec z 0) as [N|N].
    + pose proof (Z.div_mod z 4294967296 ltac:(lia)) as D.
      assert (z / 4294967296 = -1).
      { pose proof (Z.mod_pos_bound z 4294967296 ltac:(lia)). nia. }
      lia.
    + rewrite Z.mod_small in L by lia. lia.
Qed.

Lemma to_int_wrap32 z : to_int (wrap32 z) = to_int z.
Proof.
  unfold to_int, wrap32. by rewrite Z.mod_mod by lia.
Qed.

Lemma to_int_range z : -2147483648 <= to_int z < 2147483648.
Proof.
  unfold to_int. pose proof (wrap32_range z).
  destruct (Z.ltb_spec (wrap32 z) 2147483648); lia.
Qed.

(** ** Stepping through the kernel monad *)

Lemma bind_ok {A B} (m : M A) (f : A -> M B) k a k' :
  m k = Ok (a, k') -> bind m f k = f a k'.
Proof. intros E. unfold bind. by rewrite E. Qed.

Lemma rd_ok k i pc : K.pcbs k !! i = Some pc -> rd (Some i) k = Ok (pc, k).
Proof. intros E. unfold rd. by rewrite E. Qed.

Lemma wr_ok k i pc f :
  K.pcbs k !! i = Some pc ->
  wr (Some i) f k = Ok (tt, K.set_pcbs (<[i := f pc]> (K.pcbs k)) k).
Proof. intros E. unfold wr. by rewrite E. Qed.

Lemma arg_eq i k :
  arg i k = Ok (load32 (K.memory k) (K.args k + 4 * i), k).
Proof. reflexivity. Qed.

Lemma set_result_ok k c pc v :
  K.current_proc k = Some c -> K.pcbs k !! c = Some pc ->
  dispatcher.set_result v k
  = Ok (tt, K.set_pcbs (<[c := P.set_result_code v pc]> (K.pcbs k)) k).
Proof.
  intros Hc Hp. unfold dispatcher.set_result, dispatcher.cur, bind, gets.
  rewrite Hc. by apply wr_ok.
Qed.

Ltac kcbn :=
  cbn [K.pcbs K.ready_queues K.stopped_queue K.receive_any_queue K.sleep_queue
       K.current_proc K.user_proc_count K.args K.memory K.kbd K.layout K.freed
       K.set_pcbs K.set_ready_queues K.set_stopped_queue K.set_receive_any_queue
       K.set_sleep_queue K.set_current_proc K.set_user_proc_count K.set_args
       K.set_memory K.set_kbd K.set_layout K.set_freed
       D.size D.head D.set_size D.set_head
       Q.size Q.head Q.tail Q.set_size Q.set_head Q.set_tail].

Ltac pcbn :=
  cbn [P.pid P.state P.prev P.next P.mem_start P.esp P.result_code P.priority
       P.blocked_on P.blocked_queue P.blocked_queues P.ipc_args P.key P.cpuTime
       P.signal_table P.pending_signals P.last_signal_delivered P.fd_table
       P.set_pid P.set_state P.set_prev P.set_next P.set_mem_start P.set_esp
       P.set_result_code P.set_priority P.set_blocked_on P.set_blocked_queue
       P.set_blocked_queues P.set_ipc_args P.set_key P.set_cpuTime
       P.set_signal_table P.set_pending_signals P.set_last_signal_delivered
       P.set_fd_table].

Ltac munfold :=
  unfold bind, ret, gets, modify, fail, rd, wr, assert, mem_load32, mem_store32,
         mem_store8, mem_store_bytes, mem_load_bytes, mod_kbd,
         deltalist.mod_list, deltalist.inc_size, deltalist.dec_size.

Ltac msimpl :=
  repeat first
    [ progress munfold
    | progress kcbn
    | progress pcbn
    | progress (rewrite ?list_lookup_insert_eq by (rewrite ?length_insert; assumption))
    | match goal with
      | H : ?x = _ |- context [match ?x with _ => _ end] => rewrite H
      end ].

(** ** The delta list's [poll] *)

Lemma poll_last_node (k : kernel) (h : nat) (pc : pcb_t) :
  D.size (K.sleep_queue k) <> 0 ->
  D.head (K.sleep_queue k) = Some h ->
  K.pcbs k !! h = Some pc ->
  P.next pc = None ->
  deltalist.poll k = Ok (Some h, polled_last k h pc).
Proof.
  intros Hs Hh Hp Hn.
  assert (Lp : (h < length (K.pcbs k))%nat) by (by eapply lookup_lt_Some).
  unfold deltalist.poll, deltalist.dec_size, deltalist.mod_list, polled_last.
  unfold bind, gets, modify, ret, rd, wr.
  destruct (Z.eqb_spec (D.size (K.sleep_queue k)) 0) as [E|_]; [done|].
  rewrite Hh. kcbn. rewrite Hp, Hn. kcbn. rewrite Hp, Hn. kcbn. rewrite Hp. kcbn.
  rewrite list_lookup_insert_eq by done.
  by rewrite list_insert_insert_eq.
Qed.

(** C7: on a non-empty delta list whose head has no successor (every
    single-element list), [poll] evaluates [proc->next->key] with
    [proc->next == NULL]: the removal is not guarded.  As the kernel is
    built the statement [proc->next->key += proc->key] then works on the
    word at [NULL + offsetof(pcb_t, key)], address 0x50: [poll] adds the
    key of the head to that word of low memory, and goes on to return the
    head, unlinked, from a list it leaves without a head. *)
Theorem poll_unguarded_on_last_node (k : kernel) (h : nat) (pc : pcb_t) :
  D.size (K.sleep_queue k) <> 0 ->
  D.head (K.sleep_queue k) = Some h ->
  K.pcbs k !! h = Some pc ->
  P.next pc = None ->
  exists k',
    deltalist.poll k = Ok (Some h, k')
    /\ K.memory k'
       = store32 (K.memory k) (NULL + KEY_OFFSET)
                 (load32 (K.memory k) (NULL + KEY_OFFSET) + P.key pc)
    /\ load32 (K.memory k') (NULL + KEY_OFFSET)
       = wrap32 (load32 (K.memory k) (NULL + KEY_OFFSET) + P.key pc)
    /\ K.sleep_queue k'
       = D.mk (wrap32 (D.size (K.sleep_queue k) - 1)) None
    /\ K.pcbs k' = <[h := P.set_next None (P.set_prev None pc)]> (K.pcbs k).
Proof.
  intros Hs Hh Hp Hn. exists (polled_last k h pc).
  split; [by apply poll_last_node|]. split; [reflexivity|].
  split; [apply load32_store32_same|]. split; reflexivity.
Qed.

Lemma poll_unguarded_on_last_node_witness :
  exists k',
    deltalist.poll k_one_sleeper = Ok (Some 0%nat, k')
    /\ K.memory k'
       = store32 (K.memory k_one_sleeper) (NULL + KEY_OFFSET)
                 (load32 (K.memory k_one_sleeper) (NULL + KEY_OFFSET)
                  + P.key (default zero_pcb (K.pcbs k_one_sleeper !! 0%nat)))
    /\ load32 (K.memory k') (NULL + KEY_OFFSET)
       = wrap32 (load32 (K.memory k_one_sleeper) (NULL + KEY_OFFSET)
                 + P.key (default zero_pcb (K.pcbs k_one_sleeper !! 0%nat)))
    /\ K.sleep_queue k'
       = D.mk (wrap32 (D.size (K.sleep_queue k_one_sleeper) - 1)) None
    /\ K.pcbs k'
       = <[0%nat := P.set_next None
                      (P.set_prev None
                         (default zero_pcb (K.pcbs k_one_sleeper !! 0%nat)))]>
           (K.pcbs k_one_sleeper).
Proof.
  apply (poll_unguarded_on_last_node k_one_sleeper 0
           (default zero_pcb (K.pcbs k_one_sleeper !! 0%nat))).
  - vm_compute. lia.
  - vm_compute. reflexivity.
  - vm_compute. reflexivity.
  - vm_compute. reflexivity.
Defined.

(** In a kernel that has just booted the word at 0x50 holds what the
    delta-list self-test of [initproc] left there: the test polls its list
    down to the last node, whose wake-up time is 20.  With the root
    process as the only sleeper, due in three ticks, [poll] makes it 23. *)
Lemma poll_last_node_after_boot :
  load32 (K.memory k_boot) (NULL + KEY_OFFSET) = 20
  /\ load32 (K.memory k_one_sleeper) (NULL + KEY_OFFSET) = 20
  /\ load32 (K.memory (run deltalist.poll k_one_sleeper)) (NULL + KEY_OFFSET) = 23.
Proof. vm_compute. repeat split. Qed.

(** ** [syssleep(0)] *)

Lemma arg0_eq (k : kernel) :
  arg 0 k = Ok (load32 (K.memory k) (K.args k), k).
Proof.
  unfold arg, bind, gets, mem_load32. cbn. by rewrite Z.add_0_r.
Qed.

(** C10: when [syssleep] is called with 0 milliseconds the handler leaves
    the whole kernel state as it is (the caller is not blocked, the delta
    list is not touched, [result_code] is not written), so the value the
    caller gets back on resumption is the [result_code] left by its
    previous kernel interaction, whatever that is. *)
Theorem syssleep_zero_keeps_result_code (k : kernel) (c : nat) (pc : pcb_t) :
  load32 (K.memory k) (K.args k) = 0 ->
  K.current_proc k = Some c ->
  K.pcbs k !! c = Some pc ->
  dispatcher.service_syssleep k = Ok (tt, k)
  /\ (dispatcher.service_syssleep ;;;
      cp <- dispatcher.cur ;; dispatcher.resume_value cp) k
     = Ok (P.result_code pc, k).
Proof.
  intros Ha Hc Hp.
  assert (E : dispatcher.service_syssleep k = Ok (tt, k)).
  { unfold dispatcher.service_syssleep, bind. by rewrite arg0_eq, Ha. }
  split; [exact E|].
  unfold bind at 1. rewrite E.
  unfold dispatcher.cur, dispatcher.resume_value, bind, gets, rd, ret.
  by rewrite Hc, Hp.
Qed.

Lemma syssleep_zero_keeps_result_code_witness :
  dispatcher.service_syssleep k_sleep_zero = Ok (tt, k_sleep_zero)
  /\ (dispatcher.service_syssleep ;;;
      cp <- dispatcher.cur ;; dispatcher.resume_value cp) k_sleep_zero
     = Ok (33, k_sleep_zero).
Proof.
  assert (E : P.result_code (default zero_pcb (K.pcbs k_sleep_zero !! 0%nat)) = 33)
    by (vm_compute; reflexivity).
  rewrite <- E.
  eapply (syssleep_zero_keeps_result_code k_sleep_zero 0
            (default zero_pcb (K.pcbs k_sleep_zero !! 0%nat))).
  - vm_compute. reflexivity.
  - vm_compute. reflexivity.
  - vm_compute. reflexivity.
Defined.

(** ** Signal handler installation *)

Lemma sighandler_ok k c pc s h old_p e :
  K.current_proc k = Some c ->
  K.pcbs k !! c = Some pc ->
  0 <= s < 31 ->
  P.signal_table pc !! Z.to_nat s = Some e ->
  h = 0 \/ kmem.valid_ptr (K.layout k) h = true ->
  kmem.valid_ptr (K.layout k) old_p = true ->
  load32 (K.memory k) (K.args k) = s ->
  load32 (K.memory k) (K.args k + 4) = h ->
  load32 (K.memory k) (K.args k + 8) = old_p ->
  dispatcher.service_syssighandler k
  = Ok (tt, K.set_pcbs
              (<[c := P.set_result_code 0
                        (P.set_signal_table (<[Z.to_nat s := h]> (P.signal_table pc)) pc)]>
                 (K.pcbs k))
              (K.set_memory (store32 (K.memory k) old_p e) k)).
Proof.
  intros Hc Hp Hs He Hh Ho A0 A1 A2.
  unfold dispatcher.service_syssighandler.
  rewrite (bind_ok _ _ _ _ _ (arg_eq 0 k)). rewrite Z.mul_0_r, Z.add_0_r, A0.
  rewrite (bind_ok _ _ _ _ _ (arg_eq 1 k)). change (4 * 1) with 4. rewrite A1.
  rewrite (bind_ok _ _ _ _ _ (arg_eq 2 k)). change (4 * 2) with 8. rewrite A2.
  unfold bind at 1. unfold gets at 1.
  rewrite (to_int_small s) by lia.
  destruct (Z.ltb_spec s 0); [lia|].
  change (SIGNAL_TABLE_SIZE - 1) with 31.
  destruct (Z.leb_spec 31 s); [lia|]. cbn [orb].
  assert (V : negb (h =? 0) && negb (kmem.valid_ptr (K.layout k) h) = false).
  { destruct Hh as [-> | ->]; [reflexivity|]. by rewrite andb_false_r. }
  rewrite V, Ho. cbn [negb].
  unfold dispatcher.cur, bind, gets. rewrite Hc. rewrite (rd_ok _ _ _ Hp), He.
  unfold mem_store32, modify.
  unfold wr. cbn [K.pcbs K.set_memory]. rewrite Hp.
  unfold dispatcher.set_result, dispatcher.cur, bind, gets.
  cbn [K.current_proc K.set_pcbs K.set_memory]. rewrite Hc.
  unfold wr. cbn [K.pcbs K.set_pcbs].
  rewrite list_lookup_insert_eq by (by eapply lookup_lt_Some).
  rewrite list_insert_insert_eq. reflexivity.
Qed.

(** C9: for a signal [s] in 0..30 and a handler [h] that is null or a
    valid pointer, [sighandler(s, h, &old)] followed by
    [sighandler(s, old, &h2)] (the process passes the value the kernel
    stored in [old]) returns 0 both times, leaves the signal table as it
    was before the first call, and stores [h] in [h2].  The entry found
    in the table is a 32-bit word that is null or a valid pointer, as it
    is for every entry the kernel has installed. *)
Theorem sighandler_roundtrip (k : kernel) (c : nat) (pc : pcb_t)
    (s h e old_p h2_p : Z) :
  K.current_proc k = Some c ->
  K.pcbs k !! c = Some pc ->
  0 <= s < 31 ->
  P.signal_table pc !! Z.to_nat s = Some e ->
  0 <= e < 4294967296 ->
  e = 0 \/ kmem.valid_ptr (K.layout k) e = true ->
  h = 0 \/ kmem.valid_ptr (K.layout k) h = true ->
  kmem.valid_ptr (K.layout k) old_p = true ->
  kmem.valid_ptr (K.layout k) h2_p = true ->
  load32 (K.memory k) (K.args k) = s ->
  load32 (K.memory k) (K.args k + 4) = h ->
  load32 (K.memory k) (K.args k + 8) = old_p ->
  exists k1 pc1,
    dispatcher.service_syssighandler k = Ok (tt, k1)
    /\ K.pcbs k1 !! c = Some pc1
    /\ P.result_code pc1 = 0
    /\ P.signal_table pc1 !! Z.to_nat s = Some h
    /\ load32 (K.memory k1) old_p = e
    /\ forall (m2 : mem) (a2 : Z),
         load32 m2 a2 = s ->
         load32 m2 (a2 + 4) = load32 (K.memory k1) old_p ->
         load32 m2 (a2 + 8) = h2_p ->
         exists k2 pc2,
           dispatcher.service_syssighandler (K.set_args a2 (K.set_memory m2 k1))
             = Ok (tt, k2)
           /\ K.pcbs k2 !! c = Some pc2
           /\ P.result_code pc2 = 0
           /\ P.signal_table pc2 = P.signal_table pc
           /\ load32 (K.memory k2) h2_p = h.
Proof.
  intros Hc Hp Hs He Re Ve Vh Vo V2 A0 A1 A2.
  assert (Lc : (c < length (K.pcbs k))%nat) by (by eapply lookup_lt_Some).
  assert (Ls : (Z.to_nat s < length (P.signal_table pc))%nat)
    by (by eapply lookup_lt_Some).
  assert (Rh : 0 <= h < 4294967296) by (rewrite <- A1; apply load32_range).
  eexists _, _. split; [by apply (sighandler_ok k c pc s h old_p e)|].
  cbn [K.pcbs K.set_pcbs K.memory K.set_memory].
  rewrite list_lookup_insert_eq by done.
  split; [reflexivity|]. split; [reflexivity|].
  cbn [P.signal_table P.set_result_code P.set_signal_table].
  split; [by rewrite list_lookup_insert_eq|].
  rewrite load32_store32_same, (wrap32_small e) by done.
  split; [reflexivity|].
  intros m2 a2 B0 B1 B2.
  eexists _, _. split.
  { eapply (sighandler_ok _ c
              (P.set_result_code 0
                 (P.set_signal_table (<[Z.to_nat s := h]> (P.signal_table pc)) pc))
              s e h2_p h); cbn; try done.
    - by apply list_lookup_insert_eq.
    - by apply list_lookup_insert_eq. }
  cbn [K.pcbs K.set_pcbs K.memory K.set_memory K.set_args].
  rewrite list_lookup_insert_eq by (by rewrite length_insert).
  split; [reflexivity|]. split; [reflexivity|].
  cbn [P.signal_table P.set_result_code P.set_signal_table].
  split.
  - rewrite list_insert_insert_eq. by apply list_insert_id.
  - rewrite load32_store32_same. by apply wrap32_small.
Qed.

Lemma sighandler_roundtrip_witness :
  exists k1 pc1,
    dispatcher.service_syssighandler k_sighandler = Ok (tt, k1)
    /\ K.pcbs k1 !! 0%nat = Some pc1
    /\ P.result_code pc1 = 0
    /\ P.signal_table pc1 !! Z.to_nat 5 = Some 24700
    /\ load32 (K.memory k1) 1805100 = 0
    /\ forall (m2 : mem) (a2 : Z),
         load32 m2 a2 = 5 ->
         load32 m2 (a2 + 4) = load32 (K.memory k1) 1805100 ->
         load32 m2 (a2 + 8) = 1805104 ->
         exists k2 pc2,
           dispatcher.service_syssighandler (K.set_args a2 (K.set_memory m2 k1))
             = Ok (tt, k2)
           /\ K.pcbs k2 !! 0%nat = Some pc2
           /\ P.result_code pc2 = 0
           /\ P.signal_table pc2
              = P.signal_table (default zero_pcb (K.pcbs k_sighandler !! 0%nat))
           /\ load32 (K.memory k2) 1805104 = 24700.
Proof.
  apply (sighandler_roundtrip k_sighandler 0
           (default zero_pcb (K.pcbs k_sighandler !! 0%nat))
           5 24700 0 1805100 1805104).
  - vm_compute. reflexivity.
  - vm_compute. reflexivity.
  - lia.
  - vm_compute. reflexivity.
  - lia.
  - left. reflexivity.
  - right. vm_compute. reflexivity.
  - vm_compute. reflexivity.
  - vm_compute. reflexivity.
  - vm_compute. reflexivity.
  - vm_compute. reflexivity.
  - vm_compute. reflexivity.
Defined.

(** ** Signal delivery *)

Lemma is_signal_bit_set_spec bits s :
  0 <= s -> signal.is_signal_bit_set bits s = if Z.testbit bits s then 1 else 0.
Proof.
  intros Hs. unfold signal.is_signal_bit_set.
  rewrite Z.land_comm. change 1 with (Z.ones 1) at 1.
  rewrite Z.land_ones by lia. change (2 ^ 1) with 2.
  rewrite <- Z.bit0_mod, Z.shiftr_spec by lia. rewrite Z.add_0_l.
  by destruct (Z.testbit bits s).
Qed.

Lemma scan_pending_spec fuel bits s :
  -1 <= s <= 31 -> s + 1 < Z.of_nat fuel ->
  (forall t, s < t <= 31 -> Z.testbit bits t = false) ->
  (signal.scan_pending fuel bits s = -1 /\ none_pending bits)
  \/ highest_pending bits (signal.scan_pending fuel bits s).
Proof.
  revert s. induction fuel as [|n IH]; intros s Hs Hf Hhi; [lia|].
  cbn [signal.scan_pending].
  destruct (Z.eqb_spec s (-1)) as [->|Hne].
  - rewrite andb_false_r. left. split; [reflexivity|].
    intros t Ht. apply Hhi. lia.
  - cbn [negb]. rewrite andb_true_r, is_signal_bit_set_spec by lia.
    destruct (Z.testbit bits s) eqn:Eb.
    + right. cbn. repeat split; try lia; done.
    + cbn. apply IH; [lia|lia|].
      intros t Ht. destruct (Z.eq_dec t s) as [->|]; [done|apply Hhi; lia].
Qed.

Lemma testbit_to_int_pow2 s t :
  0 <= s <= 31 -> 0 <= t <= 31 ->
  Z.testbit (to_int (Z.shiftl 1 s)) t = (t =? s).
Proof.
  intros Hs Ht. rewrite Z.shiftl_1_l.
  destruct (Z.eq_dec s 31) as [->|Hne].
  - change (to_int (2 ^ 31)) with (- 2 ^ 31).
    rewrite Z.bits_opp by lia. change (Z.pred (2 ^ 31)) with (Z.ones 31).
    destruct (Z.eqb_spec t 31) as [->|Hn].
    + by rewrite Z.ones_spec_high by lia.
    + by rewrite Z.ones_spec_low by lia.
  - rewrite to_int_small.
    + rewrite Z.pow2_bits_eqb by lia. by rewrite Z.eqb_sym.
    + split; [pose proof (Z.pow_pos_nonneg 2 s); lia|].
      change 2147483648 with (2 ^ 31). apply Z.pow_lt_mono_r; lia.
Qed.

Lemma clear_signal_bit_spec bits s t :
  0 <= s <= 31 -> 0 <= t <= 31 ->
  Z.testbit (signal.clear_signal_bit bits s) t
  = if t =? s then false else Z.testbit bits t.
Proof.
  intros Hs Ht. unfold signal.clear_signal_bit.
  rewrite Z.land_spec, Z.lnot_spec, testbit_to_int_pow2 by lia.
  destruct (t =? s); cbn; [apply andb_false_r|apply andb_true_r].
Qed.

Lemma set_signal_bit_spec bits s t :
  0 <= s <= 31 -> 0 <= t <= 31 ->
  Z.testbit (signal.set_signal_bit bits s) t
  = if t =? s then true else Z.testbit bits t.
Proof.
  intros Hs Ht. unfold signal.set_signal_bit.
  rewrite Z.lor_spec, testbit_to_int_pow2 by lia.
  destruct (t =? s); cbn; [apply orb_true_r|apply orb_false_r].
Qed.

Lemma highest_pending_unique bits s r :
  highest_pending bits s -> highest_pending bits r -> r = s.
Proof.
  intros (Hs & Bs & Us) (Hr & Br & Ur).
  destruct (Z.lt_trichotomy r s) as [L|[E|L]]; [|done|].
  - rewrite Ur in Bs by lia. done.
  - rewrite Us in Br by lia. done.
Qed.

Lemma scan_pending_highest bits s :
  highest_pending bits s -> signal.scan_pending 33 bits 31 = s.
Proof.
  intros H. destruct (scan_pending_spec 33 bits 31) as [[_ N]|Hh]; [lia|lia|lia| |].
  - destruct H as (Hs & Bs & _). rewrite N in Bs by lia. done.
  - by eapply highest_pending_unique.
Qed.

Lemma scan_pending_none bits :
  none_pending bits -> signal.scan_pending 33 bits 31 = -1.
Proof.
  intros N. destruct (scan_pending_spec 33 bits 31) as [[E _]|Hh]; [lia|lia|lia|done|].
  destruct Hh as (Hs & Bs & _). rewrite N in Bs by lia. done.
Qed.

Lemma handle_pending_signals_deliver k p pc s handler :
  K.pcbs k !! p = Some pc ->
  highest_pending (P.pending_signals pc) s ->
  P.last_signal_delivered pc < s ->
  P.signal_table pc !! Z.to_nat s = Some handler ->
  signal.handle_pending_signals (Some p) k
  = Ok (tt,
        K.set_pcbs
          (<[p := P.set_last_signal_delivered s
                    (P.set_esp (wrap32 (P.esp pc - 64))
                       (P.set_pending_signals
                          (signal.clear_signal_bit (P.pending_signals pc) s) pc))]>
             (K.pcbs k))
          (K.set_memory
             (signal_frame (K.layout k) (K.memory k) (wrap32 (P.esp pc - 64))
                handler (P.esp pc) (P.last_signal_delivered pc) (P.result_code pc))
             k)).
Proof.
  intros Hp Hh Hl Ht.
  assert (Lp : (p < length (K.pcbs k))%nat) by (by eapply lookup_lt_Some).
  unfold signal.handle_pending_signals.
  rewrite (bind_ok _ _ _ _ _ (rd_ok _ _ _ Hp)).
  change (SIGNAL_TABLE_SIZE - 1) with 31.
  rewrite (scan_pending_highest _ _ Hh).
  destruct Hh as (Hs & _ & _).
  destruct (Z.eqb_spec s (-1)); [lia|]. cbn [negb].
  destruct (Z.ltb_spec (P.last_signal_delivered pc) s); [|lia].
  change SIZEOF_SIGNAL_DELIVERY_CONTEXT with 64.
  unfold bind, wr, mem_store_bytes, mem_store32, modify, gets.
  cbn [K.pcbs K.set_pcbs K.memory K.set_memory K.layout].
  rewrite Hp. cbn [K.pcbs K.set_pcbs K.memory K.set_memory K.layout].
  rewrite !list_lookup_insert_eq by (rewrite ?length_insert; done).
  cbn [rd K.pcbs K.set_pcbs K.memory K.set_memory K.layout].
  rewrite !list_lookup_insert_eq by (rewrite ?length_insert; done).
  cbn [P.signal_table P.set_esp P.set_pending_signals].
  rewrite Ht.
  cbn [K.pcbs K.set_pcbs K.memory K.set_memory K.layout].
  rewrite !list_lookup_insert_eq by (rewrite ?length_insert; done).
  rewrite !list_insert_insert_eq. reflexivity.
Qed.

Lemma signal_frame_loads ly m x h o l r :
  load32 (signal_frame ly m x h o l r) (x + 48) = wrap32 h
  /\ load32 (signal_frame ly m x h o l r) (x + 52) = wrap32 o
  /\ load32 (signal_frame ly m x h o l r) (x + 56) = wrap32 l
  /\ load32 (signal_frame ly m x h o l r) (x + 60) = wrap32 r.
Proof.
  unfold signal_frame. repeat split.
  - rewrite !(load32_store32_off _ x _ 48) by lia. apply load32_store32_same.
  - rewrite !(load32_store32_off _ x _ 52) by lia. apply load32_store32_same.
  - rewrite !(load32_store32_off _ x _ 56) by lia. apply load32_store32_same.
  - apply load32_store32_same.
Qed.

Lemma sigreturn_ok k p pc :
  K.current_proc k = Some p ->
  K.pcbs k !! p = Some pc ->
  let old_sp := load32 (K.memory k) (K.args k) in
  dispatcher.service_syssigreturn k
  = Ok (tt, K.set_pcbs
              (<[p := P.set_last_signal_delivered
                        (to_int (load32 (K.memory k) (old_sp - 8)))
                        (P.set_result_code
                           (to_int (load32 (K.memory k) (old_sp - 4)))
                           (P.set_esp old_sp pc))]> (K.pcbs k)) k).
Proof.
  intros Hc Hp old_sp.
  assert (Lp : (p < length (K.pcbs k))%nat) by (by eapply lookup_lt_Some).
  unfold dispatcher.service_syssigreturn.
  rewrite (bind_ok _ _ _ _ _ (arg_eq 0 k)). rewrite Z.mul_0_r, Z.add_0_r.
  fold old_sp.
  unfold dispatcher.cur, mem_load32, bind, gets, wr.
  rewrite Hc, Hp.
  cbn [K.pcbs K.set_pcbs K.memory].
  rewrite ?list_lookup_insert_eq by (rewrite ?length_insert; done).
  cbn [K.pcbs K.set_pcbs K.memory].
  rewrite ?list_lookup_insert_eq by (rewrite ?length_insert; done).
  rewrite ?list_insert_insert_eq. reflexivity.
Qed.

(** C4: before a resumption [handle_pending_signals] delivers at most one
    signal: the highest-numbered pending signal [s], and only when
    [s > last_signal_delivered].  It clears pending bit [s] (and no other
    bit), moves the stack pointer down by one trampoline frame that holds
    the handler, the old stack pointer, the old [last_signal_delivered]
    and the old [result_code], and sets [last_signal_delivered] to [s];
    [sigreturn] on the old stack pointer restores the two saved values.
    Hence a delivery always raises [last_signal_delivered]: while the
    handler of signal [k] runs, no signal [s <= k] is dispatched. *)
Theorem signal_delivery_and_return (k : kernel) (p : nat) (pc : pcb_t) :
  K.pcbs k !! p = Some pc ->
  length (P.signal_table pc) = 32%nat ->
  -2147483648 <= P.result_code pc < 2147483648 ->
  -1 <= P.last_signal_delivered pc <= 31 ->
  0 <= P.esp pc < 4294967296 ->
  (* nothing is delivered unless the highest pending signal beats the
     last one delivered *)
  ((none_pending (P.pending_signals pc)
    \/ exists s, highest_pending (P.pending_signals pc) s
                 /\ s <= P.last_signal_delivered pc) ->
   signal.handle_pending_signals (Some p) k = Ok (tt, k))
  (* otherwise exactly that signal is delivered through a frame *)
  /\ (forall s,
        highest_pending (P.pending_signals pc) s ->
        P.last_signal_delivered pc < s ->
        exists k' pc' handler,
          signal.handle_pending_signals (Some p) k = Ok (tt, k')
          /\ K.pcbs k' !! p = Some pc'
          /\ P.signal_table pc !! Z.to_nat s = Some handler
          /\ (forall t, 0 <= t <= 31 ->
                Z.testbit (P.pending_signals pc') t
                = if t =? s then false else Z.testbit (P.pending_signals pc) t)
          /\ P.last_signal_delivered pc' = s
          /\ P.esp pc' = wrap32 (P.esp pc - 64)
          /\ load32 (K.memory k') (P.esp pc' + 48) = wrap32 handler
          /\ load32 (K.memory k') (P.esp pc' + 52) = P.esp pc
          /\ to_int (load32 (K.memory k') (P.esp pc' + 56))
             = P.last_signal_delivered pc
          /\ to_int (load32 (K.memory k') (P.esp pc' + 60)) = P.result_code pc
          (* sigreturn on the context pointer of the frame restores the
             values saved in it *)
          /\ forall k2 pc2,
               K.current_proc k2 = Some p ->
               K.pcbs k2 !! p = Some pc2 ->
               load32 (K.memory k2) (K.args k2) = P.esp pc ->
               load32 (K.memory k2) (P.esp pc - 8)
                 = load32 (K.memory k') (P.esp pc - 8) ->
               load32 (K.memory k2) (P.esp pc - 4)
                 = load32 (K.memory k') (P.esp pc - 4) ->
               exists k3 pc3,
                 dispatcher.service_syssigreturn k2 = Ok (tt, k3)
                 /\ K.pcbs k3 !! p = Some pc3
                 /\ P.esp pc3 = P.esp pc
                 /\ P.last_signal_delivered pc3 = P.last_signal_delivered pc
                 /\ P.result_code pc3 = P.result_code pc)
  (* so a delivery always raises last_signal_delivered *)
  /\ (forall k' pc',
        signal.handle_pending_signals (Some p) k = Ok (tt, k') ->
        K.pcbs k' !! p = Some pc' ->
        k' = k \/ P.last_signal_delivered pc < P.last_signal_delivered pc').
Proof.
  intros Hp Hlen Hrc Hlast Hesp.
  assert (Lp : (p < length (K.pcbs k))%nat) by (by eapply lookup_lt_Some).
  assert (Nothing :
    (none_pending (P.pending_signals pc)
     \/ exists s, highest_pending (P.pending_signals pc) s
                  /\ s <= P.last_signal_delivered pc) ->
    signal.handle_pending_signals (Some p) k = Ok (tt, k)).
  { intros H. unfold signal.handle_pending_signals.
    rewrite (bind_ok _ _ _ _ _ (rd_ok _ _ _ Hp)).
    change (SIGNAL_TABLE_SIZE - 1) with 31.
    destruct H as [N|(s & Hh & Hle)].
    - by rewrite (scan_pending_none _ N).
    - rewrite (scan_pending_highest _ _ Hh).
      destruct (Z.eqb_spec s (-1)); [done|]. cbn [negb].
      destruct (Z.ltb_spec (P.last_signal_delivered pc) s); [lia|done]. }
  assert (Deliver : forall s,
    highest_pending (P.pending_signals pc) s ->
    P.last_signal_delivered pc < s ->
    exists handler, P.signal_table pc !! Z.to_nat s = Some handler
      /\ signal.handle_pending_signals (Some p) k
         = Ok (tt,
        K.set_pcbs
          (<[p := P.set_last_signal_delivered s
                    (P.set_esp (wrap32 (P.esp pc - 64))
                       (P.set_pending_signals
                          (signal.clear_signal_bit (P.pending_signals pc) s) pc))]>
             (K.pcbs k))
          (K.set_memory
             (signal_frame (K.layout k) (K.memory k) (wrap32 (P.esp pc - 64))
                handler (P.esp pc) (P.last_signal_delivered pc) (P.result_code pc))
             k))).
  { intros s Hh Hl.
    destruct (lookup_lt_is_Some_2 (P.signal_table pc) (Z.to_nat s)) as [handler Ht].
    { destruct Hh as (Hs & _). lia. }
    exists handler. split; [done|]. by apply handle_pending_signals_deliver. }
  split; [exact Nothing|]. split.
  - intros s Hh Hl. destruct (Deliver s Hh Hl) as (handler & Ht & E).
    pose proof (signal_frame_loads (K.layout k) (K.memory k)
                  (wrap32 (P.esp pc - 64)) handler (P.esp pc)
                  (P.last_signal_delivered pc) (P.result_code pc))
      as (L48 & L52 & L56 & L60).
    eexists _, _, handler. split; [exact E|].
    cbn [K.pcbs K.set_pcbs K.memory K.set_memory].
    rewrite list_lookup_insert_eq by done.
    split; [reflexivity|]. split; [done|].
    cbn [P.pending_signals P.set_last_signal_delivered P.set_esp
         P.set_pending_signals P.last_signal_delivered P.esp].
    split. { intros t Ht'. destruct Hh as (Hs & _). by apply clear_signal_bit_spec. }
    split; [reflexivity|]. split; [reflexivity|].
    rewrite L48, L52, L56, L60.
    split; [reflexivity|]. split; [by apply wrap32_small|].
    split; [rewrite to_int_wrap32; apply to_int_small; lia|].
    split; [rewrite to_int_wrap32; by apply to_int_small|].
    intros k2 pc2 Hc2 Hp2 Ha M8 M4.
    eexists _, _. split; [by apply (sigreturn_ok k2 p pc2)|].
    cbn [K.pcbs K.set_pcbs].
    rewrite list_lookup_insert_eq by (by eapply lookup_lt_Some).
    split; [reflexivity|].
    cbn [P.esp P.last_signal_delivered P.result_code P.set_last_signal_delivered
         P.set_result_code P.set_esp].
    rewrite Ha, M8, M4.
    assert (W : forall c d, d = 64 - c ->
                wrap32 (P.esp pc - d) = wrap32 (wrap32 (P.esp pc - 64) + c)).
    { intros c d ->. rewrite wrap32_add_l. f_equal. lia. }
    rewrite (load32_congr _ (P.esp pc - 8) (wrap32 (P.esp pc - 64) + 56)) by (by apply W).
    rewrite (load32_congr _ (P.esp pc - 4) (wrap32 (P.esp pc - 64) + 60)) by (by apply W).
    rewrite L56, L60, !to_int_wrap32. rewrite !to_int_small by lia. done.
  - intros k' pc' E Hp'.
    destruct (scan_pending_spec 33 (P.pending_signals pc) 31) as [[_ N]|Hh];
      [lia|lia|lia| |].
    + left. rewrite Nothing in E by (by left). congruence.
    + set (s := signal.scan_pending 33 (P.pending_signals pc) 31) in *.
      destruct (Z.lt_ge_cases (P.last_signal_delivered pc) s) as [L|G].
      * right. destruct (Deliver s Hh L) as (handler & _ & E').
        rewrite E' in E. injection E as <-.
        cbn [K.pcbs K.set_pcbs] in Hp'.
        rewrite list_lookup_insert_eq in Hp' by done.
        injection Hp' as <-. done.
      * left. rewrite Nothing in E by (right; exists s; split; [done|lia]).
        congruence.
Qed.

Lemma signal_delivery_and_return_witness :
  (* nothing is delivered unless the highest pending signal beats the
     last one delivered *)
  ((none_pending (P.pending_signals pc_sig)
    \/ exists s, highest_pending (P.pending_signals pc_sig) s
                 /\ s <= P.last_signal_delivered pc_sig) ->
   signal.handle_pending_signals (Some 0%nat) k_sig_pending = Ok (tt, k_sig_pending))
  (* otherwise exactly that signal is delivered through a frame *)
  /\ (forall s,
        highest_pending (P.pending_signals pc_sig) s ->
        P.last_signal_delivered pc_sig < s ->
        exists k' pc' handler,
          signal.handle_pending_signals (Some 0%nat) k_sig_pending = Ok (tt, k')
          /\ K.pcbs k' !! 0%nat = Some pc'
          /\ P.signal_table pc_sig !! Z.to_nat s = Some handler
          /\ (forall t, 0 <= t <= 31 ->
                Z.testbit (P.pending_signals pc') t
                = if t =? s then false else Z.testbit (P.pending_signals pc_sig) t)
          /\ P.last_signal_delivered pc' = s
          /\ P.esp pc' = wrap32 (P.esp pc_sig - 64)
          /\ load32 (K.memory k') (P.esp pc' + 48) = wrap32 handler
          /\ load32 (K.memory k') (P.esp pc' + 52) = P.esp pc_sig
          /\ to_int (load32 (K.memory k') (P.esp pc' + 56))
             = P.last_signal_delivered pc_sig
          /\ to_int (load32 (K.memory k') (P.esp pc' + 60)) = P.result_code pc_sig
          (* sigreturn on the context pointer of the frame restores the
             values saved in it *)
          /\ forall k2 pc2,
               K.current_proc k2 = Some 0%nat ->
               K.pcbs k2 !! 0%nat = Some pc2 ->
               load32 (K.memory k2) (K.args k2) = P.esp pc_sig ->
               load32 (K.memory k2) (P.esp pc_sig - 8)
                 = load32 (K.memory k') (P.esp pc_sig - 8) ->
               load32 (K.memory k2) (P.esp pc_sig - 4)
                 = load32 (K.memory k') (P.esp pc_sig - 4) ->
               exists k3 pc3,
                 dispatcher.service_syssigreturn k2 = Ok (tt, k3)
                 /\ K.pcbs k3 !! 0%nat = Some pc3
                 /\ P.esp pc3 = P.esp pc_sig
                 /\ P.last_signal_delivered pc3 = P.last_signal_delivered pc_sig
                 /\ P.result_code pc3 = P.result_code pc_sig)
  (* so a delivery always raises last_signal_delivered *)
  /\ (forall k' pc',
        signal.handle_pending_signals (Some 0%nat) k_sig_pending = Ok (tt, k') ->
        K.pcbs k' !! 0%nat = Some pc' ->
        k' = k_sig_pending \/ P.last_signal_delivered pc_sig < P.last_signal_delivered pc').
Proof.
  apply (signal_delivery_and_return k_sig_pending 0 pc_sig).
  - vm_compute. reflexivity.
  - vm_compute. reflexivity.
  - vm_compute. split; [discriminate|reflexivity].
  - vm_compute. split; discriminate.
  - vm_compute. split; [discriminate|reflexivity].
Defined.

(** ** Message passing: the copied word *)

Lemma strncpy_word_low_byte_zero (v : Z) :
  byte_of v 0 = 0 ->
  strncpy_bytes (bytes_of_word v) (Z.to_nat BUFFER_SIZE) = [0; 0; 0; 0].
Proof.
  intros E. unfold bytes_of_word. rewrite E. reflexivity.
Qed.

Lemma strncpy_word_exact (v : Z) :
  byte_of v 0 <> 0 -> byte_of v 1 <> 0 -> byte_of v 2 <> 0 ->
  strncpy_bytes (bytes_of_word v) (Z.to_nat BUFFER_SIZE) = bytes_of_word v.
Proof.
  intros H0 H1 H2. unfold bytes_of_word. cbn.
  destruct (Z.eqb_spec (byte_of v 0) 0); [done|].
  destruct (Z.eqb_spec (byte_of v 1) 0); [done|].
  destruct (Z.eqb_spec (byte_of v 2) 0); [done|].
  by destruct (Z.eqb_spec (byte_of v 3) 0) as [->|].
Qed.

(** C1 (the code departs from the claim): the word 256 = 0x00000100 has a
    zero low byte.  In each of the four rendezvous (send to a receiver
    blocked on a matching recv, send to a receiver blocked on
    receive-any, recv from a blocked sender, receive-any with a queued
    sender) both parties are released with result 0 and the receiver's
    [from_pid] cell holds the sender's pid 33, but the receiver's buffer
    holds 0, not 256: the copy is done by [strncpy], which stops at the
    first zero byte. *)
Theorem ipc_word_with_zero_byte_not_transferred :
  (proc_view (k_recv_then_send 256) 0 = Some (33, RUNNING, NONE, 0)
   /\ proc_view (k_recv_then_send 256) 1 = Some (34, READY, NONE, 0)
   /\ recv_cells (k_recv_then_send 256) = (33, 0))
  /\ (proc_view (k_recv_any_then_send 256) 0 = Some (33, RUNNING, NONE, 0)
      /\ proc_view (k_recv_any_then_send 256) 1 = Some (34, READY, NONE, 0)
      /\ recv_cells (k_recv_any_then_send 256) = (33, 0))
  /\ (proc_view (k_send_then_recv 256) 0 = Some (33, READY, NONE, 0)
      /\ proc_view (k_send_then_recv 256) 1 = Some (34, RUNNING, NONE, 0)
      /\ recv_cells (k_send_then_recv 256) = (33, 0))
  /\ (proc_view (k_send_then_recv_any 256) 0 = Some (33, READY, NONE, 0)
      /\ proc_view (k_send_then_recv_any 256) 1 = Some (34, RUNNING, NONE, 0)
      /\ recv_cells (k_send_then_recv_any 256) = (33, 0)).
Proof. vm_compute. repeat split. Qed.

(** Words without such a zero byte do arrive, e.g. the 0xAA of the FIFO
    scenario. *)
Lemma ipc_word_without_zero_byte_transferred :
  recv_cells (k_recv_then_send 170) = (33, 170)
  /\ recv_cells (k_send_then_recv_any 170) = (33, 170).
Proof. vm_compute. repeat split. Qed.

(** ** Keyboard reads *)

(** Once the EOF flag is set, [kbdread] returns 0 and changes nothing. *)
Lemma kbdread_after_eof (k : kernel) (proc : pcb_ptr) (buf buflen : Z) :
  KB.eof_flag (K.kbd k) <> 0 ->
  kbd.kbdread proc buf buflen k = Ok (0, k).
Proof.
  intros H. unfold kbd.kbdread, bind, gets.
  by destruct (Z.eqb_spec (KB.eof_flag (K.kbd k)) 0).
Qed.

(** C5 (the code departs from the claim): with 'a' and the EOF character
    already buffered, [read(fd, buf, 10)] copies 'a' and consumes the
    EOF (flag set, keyboard hardware disabled), but [kbdread] compares
    the count 1 with the requested 10 and returns -2: the caller is
    blocked on READ instead of getting 1.  The same happens with 'a' and
    a newline buffered. *)
Theorem sysread_buffered_terminator_blocks :
  (result (di_calls.di_read (Some 0%nat) 0 1806000 10) k_read_entry_eof = Some (-2)
   /\ proc_view (run dispatcher.service_sysread k_read_entry_eof) 0
      = Some (33, BLOCKED, READ, 0)
   /\ K.current_proc (run dispatcher.service_sysread k_read_entry_eof)
      = Some IDLE_SLOT
   /\ load8 (K.memory (run dispatcher.service_sysread k_read_entry_eof)) 1806000 = 97
   /\ KB.chars_transferred (K.kbd (run dispatcher.service_sysread k_read_entry_eof)) = 1
   /\ KB.eof_flag (K.kbd (run dispatcher.service_sysread k_read_entry_eof)) = 1
   /\ KB.hw_enabled (K.kbd (run dispatcher.service_sysread k_read_entry_eof)) = false)
  /\ (result (di_calls.di_read (Some 0%nat) 0 1806000 10) k_read_entry_newline
      = Some (-2)
      /\ proc_view (run dispatcher.service_sysread k_read_entry_newline) 0
         = Some (33, BLOCKED, READ, 0)
      /\ load8 (K.memory (run dispatcher.service_sysread k_read_entry_newline)) 1806001
         = 10).
Proof. vm_compute. repeat split. Qed.


(** ** Reading the executable checks *)

Lemma bind_assoc {A B C} (m : M A) (f : A -> M B) (g : B -> M C) k :
  bind (bind m f) g k = bind m (fun a => bind (f a) g) k.
Proof. unfold bind. by destruct (m k) as [[a k1]|e]. Qed.

(** Looking a slot up after a series of writes. *)
Ltac lk :=
  repeat first
    [ rewrite list_lookup_insert_eq
        by (rewrite ?length_insert; eapply lookup_lt_Some; eassumption)
    | rewrite list_lookup_insert_ne by congruence ].

Ltac lk_in H :=
  repeat first
    [ rewrite list_lookup_insert_eq in H
        by (rewrite ?length_insert; eapply lookup_lt_Some; eassumption)
    | rewrite list_lookup_insert_ne in H by congruence ].

Lemma ptr_eqb_eq a b : ptr_eqb a b = true <-> a = b.
Proof.
  destruct a as [i|], b as [j|]; cbn; split; try done.
  - intros H. apply Nat.eqb_eq in H. by subst.
  - intros [= ->]. apply Nat.eqb_refl.
Qed.

Lemma slot_ok_lookup (pcbs : list pcb_t) (n : nat) :
  slot_ok pcbs (Some n) = true -> exists pc, pcbs !! n = Some pc.
Proof.
  cbn. intros H. apply Nat.ltb_lt in H.
  destruct (lookup_lt_is_Some_2 pcbs n H) as [pc Hpc]. eauto.
Qed.

Lemma slot_ok_length pcbs pcbs' t :
  length pcbs' = length pcbs -> slot_ok pcbs' t = slot_ok pcbs t.
Proof. intros E. destruct t; cbn; by rewrite ?E. Qed.

Lemma memb_spec x l : memb x l = true <-> x ∈ l.
Proof.
  unfold memb. rewrite existsb_exists. split.
  - intros (y & Hy & E). apply Nat.eqb_eq in E. subst. by apply list_elem_of_In.
  - intros H. exists x. split; [by apply list_elem_of_In|apply Nat.eqb_refl].
Qed.

Lemma memb_false x l : negb (memb x l) = true -> x ∉ l.
Proof.
  intros H Hx. apply memb_spec in Hx. rewrite Hx in H. done.
Qed.

Lemma nodupb_spec l : nodupb l = true -> NoDup l.
Proof.
  induction l as [|x l IH]; cbn; intros H; [constructor|].
  apply andb_true_iff in H as [H1 H2].
  apply NoDup_cons_2; [by apply memb_false|by apply IH].
Qed.

Lemma forallb_lookup {A} (f : A -> bool) (l : list A) i x :
  forallb f l = true -> l !! i = Some x -> f x = true.
Proof.
  intros H Hx. rewrite forallb_forall in H. apply H.
  apply list_elem_of_In, list_elem_of_lookup. eauto.
Qed.

Lemma forallb_elem {A} (f : A -> bool) (l : list A) x :
  forallb f l = true -> x ∈ l -> f x = true.
Proof.
  intros H Hx. rewrite forallb_forall in H. apply H. by apply list_elem_of_In.
Qed.

(** * The lists of the kernel and the scheduler *)

(** ** queue.c *)

Lemma links_Some k y pv nx :
  links k y = Some (pv, nx) ->
  exists pc, K.pcbs k !! y = Some pc /\ P.prev pc = pv /\ P.next pc = nx.
Proof.
  unfold links. destruct (K.pcbs k !! y) as [pc|]; [|done].
  intros [= <- <-]. eauto.
Qed.

Lemma links_lookup k y pc :
  K.pcbs k !! y = Some pc -> links k y = Some (P.prev pc, P.next pc).
Proof. unfold links. by intros ->. Qed.

Lemma links_lt k y : (y < length (K.pcbs k))%nat -> exists l, links k y = Some l.
Proof.
  intros H. destruct (lookup_lt_is_Some_2 _ _ H) as [pc Hpc].
  rewrite (links_lookup k y pc Hpc). eauto.
Qed.

Lemma same_queue_refl r : same_queue r r = true.
Proof.
  destruct r as [i| | |p b]; cbn; rewrite ?Nat.eqb_refl; try done.
  destruct p; cbn; by rewrite ?Nat.eqb_refl.
Qed.

Lemma same_queue_neq r r' : same_queue r r' = false -> r <> r'.
Proof. intros H ->. by rewrite same_queue_refl in H. Qed.

Lemma getq_at k r q : queue_at k r = Some q -> getq r k = Ok (q, k).
Proof.
  destruct r as [i| | |[p|] b]; cbn; try done.
  - by intros ->.
  - by intros [= <-].
  - by intros [= <-].
  - unfold bind, rd, ret. destruct (K.pcbs k !! p) as [pc|]; [|done]. by intros ->.
Qed.

(** A write that touches neither the blocked queues nor the payload. *)
Lemma wr_link_view k y pc f :
  K.pcbs k !! y = Some pc ->
  P.blocked_queues (f pc) = P.blocked_queues pc ->
  payload (f pc) = payload pc ->
  exists k',
    wr (Some y) f k = Ok (tt, k')
    /\ (forall r, queue_at k' r = queue_at k r)
    /\ length (K.pcbs k') = length (K.pcbs k)
    /\ links k' y = Some (P.prev (f pc), P.next (f pc))
    /\ (forall z, z <> y -> links k' z = links k z)
    /\ (forall z, payload <$> K.pcbs k' !! z = payload <$> K.pcbs k !! z).
Proof.
  intros Hy Hbq Hpl. rewrite (wr_ok k y pc f Hy). eexists. split; [reflexivity|].
  assert (Hlt : (y < length (K.pcbs k))%nat) by (by eapply lookup_lt_Some).
  split_and!.
  - intros [i| | |[p|] b]; try done. cbn.
    destruct (decide (p = y)) as [->|Hne].
    + by rewrite list_lookup_insert_eq, Hy, Hbq.
    + by rewrite list_lookup_insert_ne.
  - cbn. by rewrite length_insert.
  - unfold links. cbn. by rewrite list_lookup_insert_eq.
  - intros z Hz. unfold links. cbn. by rewrite list_lookup_insert_ne.
  - intros z. cbn. destruct (decide (z = y)) as [->|Hne].
    + by rewrite list_lookup_insert_eq, Hy, ?Hpl by done; cbn; rewrite ?Hpl.
    + by rewrite list_lookup_insert_ne.
Qed.

Lemma wr_prev_view k y v :
  (y < length (K.pcbs k))%nat ->
  exists k',
    wr (Some y) (P.set_prev v) k = Ok (tt, k')
    /\ (forall r, queue_at k' r = queue_at k r)
    /\ length (K.pcbs k') = length (K.pcbs k)
    /\ links k' y = (fun l => (v, l.2)) <$> links k y
    /\ (forall z, z <> y -> links k' z = links k z)
    /\ (forall z, payload <$> K.pcbs k' !! z = payload <$> K.pcbs k !! z).
Proof.
  intros H. destruct (lookup_lt_is_Some_2 _ _ H) as [pc Hpc].
  destruct (wr_link_view k y pc (P.set_prev v) Hpc eq_refl eq_refl)
    as (k' & E & F1 & F2 & F3 & F4 & F5).
  exists k'. split_and!; try done. by rewrite F3, (links_lookup k y pc Hpc).
Qed.

Lemma wr_next_view k y v :
  (y < length (K.pcbs k))%nat ->
  exists k',
    wr (Some y) (P.set_next v) k = Ok (tt, k')
    /\ (forall r, queue_at k' r = queue_at k r)
    /\ length (K.pcbs k') = length (K.pcbs k)
    /\ links k' y = (fun l => (l.1, v)) <$> links k y
    /\ (forall z, z <> y -> links k' z = links k z)
    /\ (forall z, payload <$> K.pcbs k' !! z = payload <$> K.pcbs k !! z).
Proof.
  intros H. destruct (lookup_lt_is_Some_2 _ _ H) as [pc Hpc].
  destruct (wr_link_view k y pc (P.set_next v) Hpc eq_refl eq_refl)
    as (k' & E & F1 & F2 & F3 & F4 & F5).
  exists k'. split_and!; try done. by rewrite F3, (links_lookup k y pc Hpc).
Qed.

Lemma ptr_eqb_false a b : ptr_eqb a b = false -> a <> b.
Proof. intros H E. apply ptr_eqb_eq in E. congruence. Qed.

(** An update of the queue structure itself. *)
Lemma modq_view k r q f :
  queue_at k r = Some q ->
  exists k',
    modq r f k = Ok (tt, k')
    /\ queue_at k' r = Some (f q)
    /\ (forall r', same_queue r r' = false -> queue_at k' r' = queue_at k r')
    /\ length (K.pcbs k') = length (K.pcbs k)
    /\ (forall z, links k' z = links k z)
    /\ (forall z, payload <$> K.pcbs k' !! z = payload <$> K.pcbs k !! z).
Proof.
  destruct r as [i| | |[p|] b]; cbn; try done.
  - intros Hq. rewrite Hq. eexists. split; [reflexivity|]. cbn.
    split_and!; try done.
    + apply list_lookup_insert_eq. by eapply lookup_lt_Some.
    + intros [j| | |[p'|] b']; cbn; try done. intros Hne.
      apply Nat.eqb_neq in Hne. by rewrite list_lookup_insert_ne.
  - intros [= <-]. eexists. split; [reflexivity|]. cbn.
    split_and!; try done. by intros [j| | |[p'|] b'].
  - intros [= <-]. eexists. split; [reflexivity|]. cbn.
    split_and!; try done. by intros [j| | |[p'|] b'].
  - destruct (K.pcbs k !! p) as [pc|] eqn:Hp; [|done]. intros Hq.
    unfold bind, rd, wr. rewrite Hp, Hq, Hp.
    assert (Hlt : (p < length (K.pcbs k))%nat) by (by eapply lookup_lt_Some).
    eexists. split; [reflexivity|]. cbn.
    split_and!.
    + rewrite list_lookup_insert_eq by done. cbn.
      apply list_lookup_insert_eq. by eapply lookup_lt_Some.
    + intros [j| | |[p'|] b']; cbn; try done. intros Hne.
      destruct (decide (p' = p)) as [->|Hpp].
      * rewrite list_lookup_insert_eq, Hp by done. cbn.
        rewrite Nat.eqb_refl in Hne. cbn in Hne. apply Nat.eqb_neq in Hne.
        by rewrite list_lookup_insert_ne.
      * by rewrite list_lookup_insert_ne.
    + by rewrite length_insert.
    + intros z. unfold links. cbn. destruct (decide (z = p)) as [->|Hne].
      * by rewrite list_lookup_insert_eq, Hp.
      * by rewrite list_lookup_insert_ne.
    + intros z. destruct (decide (z = p)) as [->|Hne].
      * by rewrite list_lookup_insert_eq, Hp.
      * by rewrite list_lookup_insert_ne.
Qed.

Lemma linkedb_ext k k' l : forall prev first last,
  (forall y, y ∈ l -> links k' y = links k y) ->
  linkedb k' prev first l last = linkedb k prev first l last.
Proof.
  induction l as [|x l IH]; intros prev first last H; [done|]. cbn.
  rewrite (H x) by left. destruct (links k x) as [[pv nx]|]; [|done].
  rewrite IH; [done|]. intros y Hy. apply H. by right.
Qed.

Lemma linkedb_cons k prev first x l last :
  linkedb k prev first (x :: l) last = true ->
  first = Some x
  /\ exists nx, links k x = Some (prev, nx) /\ linkedb k (Some x) nx l last = true.
Proof.
  cbn. intros H. apply andb_true_iff in H as [H1 H2]. apply ptr_eqb_eq in H1.
  split; [done|]. destruct (links k x) as [[pv nx]|]; [|done].
  apply andb_true_iff in H2 as [H2 H3]. apply ptr_eqb_eq in H2. subst. eauto.
Qed.

Lemma linkedb_nil k prev first last :
  linkedb k prev first [] last = true -> first = None /\ last = prev.
Proof.
  cbn. intros H. apply andb_true_iff in H as [H1 H2]. apply ptr_eqb_eq in H2.
  by destruct first.
Qed.

Lemma linkedb_cons_intro k prev x nx l last :
  links k x = Some (prev, nx) -> linkedb k (Some x) nx l last = true ->
  linkedb k prev (Some x) (x :: l) last = true.
Proof.
  intros H1 H2. cbn. rewrite H1, H2, Nat.eqb_refl.
  by rewrite (proj2 (ptr_eqb_eq prev prev) eq_refl).
Qed.

(** The last pointer of a non-empty list is its last PCB, whose [next] is
    null. *)
Lemma linkedb_last k l : forall prev first last,
  linkedb k prev first l last = true -> l <> [] ->
  exists t pv, last = Some t /\ t ∈ l /\ links k t = Some (pv, None)
               /\ List.last l t = t.
Proof.
  induction l as [|x l IH]; intros prev first last H Hne; [done|].
  apply linkedb_cons in H as (-> & nx & Hx & H).
  destruct l as [|y l].
  - apply linkedb_nil in H as [-> ->]. exists x, prev.
    split_and!; try done. left.
  - destruct (IH (Some x) nx last H ltac:(done)) as (t & pv & -> & Ht & Hl & Hlast).
    exists t, pv. split_and!; try done. by right.
Qed.

Lemma linkedb_tail_None k l prev first :
  linkedb k prev first l None = true -> prev = None -> l = [].
Proof.
  intros H _. destruct l as [|x l]; [done|].
  destruct (linkedb_last k (x :: l) prev first None H ltac:(done))
    as (t & pv & ? & _); done.
Qed.

Lemma linkedb_snoc k k' x t l : forall prev first,
  linkedb k prev first l (Some t) = true -> l <> [] -> NoDup l ->
  (forall y, y ∈ l -> y <> t -> links k' y = links k y) ->
  (forall pv, links k t = Some (pv, None) -> links k' t = Some (pv, Some x)) ->
  links k' x = Some (Some t, None) ->
  linkedb k' prev first (l ++ [x]) (Some x) = true.
Proof.
  induction l as [|y l IH]; intros prev first H Hne Hnd Hs Ht Hx; [done|].
  apply linkedb_cons in H as (-> & nx & Hy & H).
  pose proof (NoDup_cons_1_1 _ _ Hnd) as Hyl.
  pose proof (NoDup_cons_1_2 _ _ Hnd) as Hnd'.
  destruct l as [|z l].
  - apply linkedb_nil in H as [-> [= ->]].
    cbn [app]. apply (linkedb_cons_intro k' prev y (Some x)); [by apply Ht|].
    apply (linkedb_cons_intro k' (Some y) x None); [done|].
    cbn. by rewrite Nat.eqb_refl.
  - destruct (linkedb_last k (z :: l) _ _ _ H ltac:(done)) as (t' & pv & [= <-] & Hin & _).
    assert (y <> t) by (intros ->; done).
    change ((y :: z :: l) ++ [x]) with (y :: ((z :: l) ++ [x])).
    apply (linkedb_cons_intro k' prev y nx).
    + rewrite Hs; [done|left|done].
    + apply IH; try done. intros w Hw Hwt. apply Hs; [by right|done].
Qed.

Lemma memb_false_iff x l : memb x l = false <-> x ∉ l.
Proof.
  split.
  - intros H Hx. apply memb_spec in Hx. congruence.
  - intros H. destruct (memb x l) eqn:E; [|done]. by apply memb_spec in E.
Qed.

Lemma nodupb_iff l : nodupb l = true <-> NoDup l.
Proof.
  split; [apply nodupb_spec|]. induction 1 as [|x l Hx _ IH]; [done|].
  cbn. rewrite IH. by rewrite (proj2 (memb_false_iff x l) Hx).
Qed.

Lemma disjointb_spec l l' y :
  disjointb l l' = true -> y ∈ l -> y ∉ l'.
Proof.
  unfold disjointb. intros H Hy.
  apply memb_false. exact (forallb_elem _ _ _ H Hy).
Qed.

Lemma holdsb_spec k r l :
  holdsb k r l = true ->
  exists q, queue_at k r = Some q
    /\ Q.size q = Z.of_nat (length l) /\ Q.size q <= INT_MAX
    /\ linkedb k None (Q.head q) l (Q.tail q) = true /\ NoDup l.
Proof.
  unfold holdsb. destruct (queue_at k r) as [q|]; [|done]. intros H.
  apply andb_true_iff in H as [H H4]. apply andb_true_iff in H as [H H3].
  apply andb_true_iff in H as [H1 H2].
  apply Z.eqb_eq in H1. apply Z.leb_le in H2. apply nodupb_spec in H4. eauto 6.
Qed.

Lemma holdsb_intro k r q l :
  queue_at k r = Some q ->
  Q.size q = Z.of_nat (length l) -> Q.size q <= INT_MAX ->
  linkedb k None (Q.head q) l (Q.tail q) = true -> NoDup l ->
  holdsb k r l = true.
Proof.
  intros Hq H1 H2 H3 H4. unfold holdsb. rewrite Hq, H3.
  apply Z.eqb_eq in H1. apply Z.leb_le in H2. apply nodupb_iff in H4.
  by rewrite H1, H2, H4.
Qed.

(** A queue whose structure and whose PCBs' links are untouched holds what
    it held. *)
Lemma holdsb_stable k k' r l :
  queue_at k' r = queue_at k r ->
  (forall y, y ∈ l -> links k' y = links k y) ->
  holdsb k' r l = holdsb k r l.
Proof.
  intros Hq Hl. unfold holdsb. rewrite Hq.
  destruct (queue_at k r) as [q|]; [|done]. by rewrite (linkedb_ext k k').
Qed.

Lemma enqueue_holds (k : kernel) (r : queue_ref) (l : list nat) (x : nat) :
  holdsb k r l = true ->
  Z.of_nat (length l) < INT_MAX ->
  (x < length (K.pcbs k))%nat ->
  memb x l = false ->
  exists k',
    queue.enqueue r (Some x) k = Ok (tt, k')
    /\ holdsb k' r (l ++ [x]) = true
    /\ (forall r' l',
          same_queue r r' = false -> holdsb k r' l' = true ->
          memb x l' = false -> disjointb l l' = true ->
          holdsb k' r' l' = true)
    /\ (forall z, z <> x -> z ∉ l -> links k' z = links k z)
    /\ (forall z, payload <$> K.pcbs k' !! z = payload <$> K.pcbs k !! z).
Proof.
  intros H Hmax Hx Hxl. apply memb_false_iff in Hxl.
  apply holdsb_spec in H as (q & Hq & Hsz & _ & Hl & Hnd).
  unfold INT_MAX in Hmax.
  unfold queue.enqueue. cbn [is_null negb assert].
  rewrite (bind_ok _ _ _ _ _ eq_refl).
  rewrite (bind_ok _ _ _ _ _ (getq_at k r q Hq)).
  assert (Hnd' : NoDup (l ++ [x])).
  { apply list.NoDup_app. split_and!; [done| |apply NoDup_singleton].
    intros y Hy Hy'. apply list_elem_of_singleton in Hy'. by subst. }
  assert (Hlen : Z.of_nat (length (l ++ [x])) = Q.size q + 1).
  { rewrite length_app. cbn. lia. }
  destruct (Q.tail q) as [t|] eqn:Htail.
  - (* the queue has a tail *)
    assert (Hne : l <> []).
    { intros ->. apply linkedb_nil in Hl as [_ ?]. done. }
    destruct (linkedb_last k l _ _ _ Hl Hne) as (t' & pv & [= <-] & Htl & Hlt & _).
    destruct (links_Some _ _ _ _ Hlt) as (pct & Hpct & _ & _).
    assert (Htx : t <> x) by (intros ->; done).
    destruct (wr_prev_view k x (Some t) Hx) as (k1 & E1 & Q1 & L1 & X1 & O1 & P1).
    destruct (links_lt k x Hx) as [[pvx nxx] Hlx]. rewrite Hlx in X1. cbn in X1.
    destruct (links_Some _ _ _ _ X1) as (pcx1 & Hpcx1 & Hpv1 & _).
    assert (Ht1 : (t < length (K.pcbs k1))%nat)
      by (rewrite L1; by eapply lookup_lt_Some).
    destruct (wr_next_view k1 t (Some x) Ht1) as (k2 & E2 & Q2 & L2 & X2 & O2 & P2).
    rewrite (O1 t Htx), Hlt in X2. cbn in X2.
    assert (Hx2 : (x < length (K.pcbs k2))%nat) by congruence.
    destruct (wr_next_view k2 x None Hx2) as (k3 & E3 & Q3 & L3 & X3 & O3 & P3).
    rewrite (O2 x ltac:(done)), X1 in X3. cbn in X3.
    assert (Hq3 : queue_at k3 r = Some q) by (by rewrite Q3, Q2, Q1).
    destruct (modq_view k3 r q (Q.set_tail (Some x)) Hq3)
      as (k4 & E4 & Q4 & R4 & L4 & X4 & P4).
    destruct (modq_view k4 r _ inc_size Q4) as (k5 & E5 & Q5 & R5 & L5 & X5 & P5).
    assert (Einner :
      (wr (Some x) (P.set_prev (Some t)) ;;;
       pc <- rd (Some x) ;;
       wr (P.prev pc) (P.set_next (Some x)) ;;;
       wr (Some x) (P.set_next None) ;;;
       modq r (Q.set_tail (Some x))) k = Ok (tt, k4)).
    { rewrite (bind_ok _ _ _ _ _ E1).
      rewrite (bind_ok _ _ _ _ _ (rd_ok k1 x pcx1 Hpcx1)). rewrite Hpv1.
      rewrite (bind_ok _ _ _ _ _ E2). by rewrite (bind_ok _ _ _ _ _ E3). }
    rewrite (bind_ok _ _ _ _ _ Einner). exists k5. split; [done|].
    assert (Hlk : forall y, y <> x -> y <> t -> links k5 y = links k y).
    { intros y Hyx Hyt. by rewrite X5, X4, O3, O2, O1. }
    split_and!.
    + apply (holdsb_intro k5 r _ _ Q5); try done.
      * cbn. rewrite wrap32_small; lia.
      * cbn. unfold INT_MAX. rewrite wrap32_small; lia.
      * cbn. apply (linkedb_snoc k k5 x t l); try done.
        -- intros y Hy Hyt. apply Hlk; [|done]. by intros ->.
        -- intros pv' Hpv'. rewrite X5, X4, (O3 t Htx), X2.
           rewrite Hlt in Hpv'. by injection Hpv' as <-.
        -- by rewrite X5, X4, X3.
    + intros r' l' Hr' Hh' Hxl' Hdj. rewrite <- Hh'. apply holdsb_stable.
      * by rewrite R5, R4, Q3, Q2, Q1.
      * intros y Hy. apply Hlk.
        -- intros ->. by apply memb_false_iff in Hxl'.
        -- intros ->. by apply (disjointb_spec l l' t).
    + intros z Hzx Hzl. apply Hlk; [done|]. by intros ->.
    + intros z. by rewrite P5, P4, P3, P2, P1.
  - (* the queue is empty *)
    apply linkedb_tail_None in Hl as ->; [|done].
    destruct (wr_prev_view k x None Hx) as (k1 & E1 & Q1 & L1 & X1 & O1 & P1).
    destruct (links_lt k x Hx) as [[pvx nxx] Hlx]. rewrite Hlx in X1. cbn in X1.
    assert (Hx1 : (x < length (K.pcbs k1))%nat) by congruence.
    destruct (wr_next_view k1 x None Hx1) as (k2 & E2 & Q2 & L2 & X2 & O2 & P2).
    rewrite X1 in X2. cbn in X2.
    assert (Hq2 : queue_at k2 r = Some q) by (by rewrite Q2, Q1).
    destruct (modq_view k2 r q (Q.set_head (Some x)) Hq2)
      as (k3 & E3 & Q3 & R3 & L3 & X3 & P3).
    destruct (modq_view k3 r _ (Q.set_tail (Some x)) Q3)
      as (k4 & E4 & Q4 & R4 & L4 & X4 & P4).
    destruct (modq_view k4 r _ inc_size Q4) as (k5 & E5 & Q5 & R5 & L5 & X5 & P5).
    assert (Einner :
      (wr (Some x) (P.set_prev None) ;;;
       wr (Some x) (P.set_next None) ;;;
       modq r (Q.set_head (Some x)) ;;;
       modq r (Q.set_tail (Some x))) k = Ok (tt, k4)).
    { rewrite (bind_ok _ _ _ _ _ E1). rewrite (bind_ok _ _ _ _ _ E2).
      by rewrite (bind_ok _ _ _ _ _ E3). }
    rewrite (bind_ok _ _ _ _ _ Einner). exists k5. split; [done|].
    split_and!.
    + apply (holdsb_intro k5 r _ _ Q5); try done.
      * cbn. cbn in Hsz. rewrite wrap32_small; lia.
      * cbn. unfold INT_MAX. rewrite wrap32_small; lia.
      * cbn. rewrite X5, X4, X3, X2. cbn. by rewrite Nat.eqb_refl.
    + intros r' l' Hr' Hh' Hxl' Hdj. rewrite <- Hh'. apply holdsb_stable.
      * by rewrite R5, R4, R3, Q2, Q1.
      * intros y Hy. rewrite X5, X4, X3, O2, O1; try done;
          intros ->; by apply memb_false_iff in Hxl'.
    + intros z Hzx _. by rewrite X5, X4, X3, O2, O1.
    + intros z. by rewrite P5, P4, P3, P2, P1.
Qed.

(** X1. [enqueue] appends: when queue [r] holds the PCBs [l] and [x] is a
    PCB of the store that is not in it, [enqueue] returns and the queue
    holds [l] followed by [x]; every other queue that shares no PCB with
    [l] and does not contain [x] holds what it held, the links of the PCBs
    other than [x] and those of [l] stay as they are, and no PCB changes
    outside its links and blocked queues.  The size of the queue is a C
    [int], so [l] has fewer than [INT_MAX] PCBs. *)
Theorem enqueue_appends (k : kernel) (r : queue_ref) (l : list nat) (x : nat) :
  holdsb k r l = true ->
  Z.of_nat (length l) < INT_MAX ->
  (x < length (K.pcbs k))%nat ->
  memb x l = false ->
  exists k',
    queue.enqueue r (Some x) k = Ok (tt, k')
    /\ holdsb k' r (l ++ [x]) = true
    /\ (forall r' l',
          same_queue r r' = false -> holdsb k r' l' = true ->
          memb x l' = false -> disjointb l l' = true ->
          holdsb k' r' l' = true)
    /\ (forall z, z <> x -> z ∉ l -> links k' z = links k z)
    /\ (forall z, payload <$> K.pcbs k' !! z = payload <$> K.pcbs k !! z).
Proof. exact (enqueue_holds k r l x). Qed.

Lemma enqueue_appends_witness :
  exists k',
    queue.enqueue StoppedQ (Some 0%nat) k_boot = Ok (tt, k')
    /\ holdsb k' StoppedQ (seq 1 31 ++ [0%nat]) = true
    /\ (forall r' l',
          same_queue StoppedQ r' = false -> holdsb k_boot r' l' = true ->
          memb 0 l' = false -> disjointb (seq 1 31) l' = true ->
          holdsb k' r' l' = true)
    /\ (forall z, z <> 0%nat -> z ∉ seq 1 31 -> links k' z = links k_boot z)
    /\ (forall z, payload <$> K.pcbs k' !! z = payload <$> K.pcbs k_boot !! z).
Proof.
  apply (enqueue_appends k_boot StoppedQ (seq 1 31) 0).
  - vm_compute. reflexivity.
  - vm_compute. reflexivity.
  - vm_compute. lia.
  - vm_compute. reflexivity.
Defined.

Lemma linkedb_reprev k k' pv pv' n l last :
  linkedb k pv (Some n) (n :: l) last = true ->
  links k' n = (fun p => (pv', p.2)) <$> links k n ->
  (forall y, y ∈ l -> links k' y = links k y) ->
  linkedb k' pv' (Some n) (n :: l) last = true.
Proof.
  intros H Hn Hl. apply linkedb_cons in H as (_ & nx & Hx & H).
  rewrite Hx in Hn. cbn in Hn.
  apply (linkedb_cons_intro k' pv' n nx); [done|].
  by rewrite (linkedb_ext k k').
Qed.

Lemma dequeue_holds (k : kernel) (r : queue_ref) (l : list nat) :
  holdsb k r l = true ->
  match l with
  | [] => queue.dequeue r k = Ok (None, k)
  | x :: l' =>
      exists k',
        queue.dequeue r k = Ok (Some x, k')
        /\ holdsb k' r l' = true
        /\ links k' x = Some (None, None)
        /\ (forall r' l'',
              same_queue r r' = false -> holdsb k r' l'' = true ->
              disjointb l l'' = true -> holdsb k' r' l'' = true)
        /\ (forall z, payload <$> K.pcbs k' !! z = payload <$> K.pcbs k !! z)
  end.
Proof.
  intros H. apply holdsb_spec in H as (q & Hq & Hsz & Hmax & Hl & Hnd).
  unfold INT_MAX in Hmax. unfold queue.dequeue.
  rewrite (bind_ok _ _ _ _ _ (getq_at k r q Hq)).
  destruct l as [|x l].
  { cbn in Hsz. by rewrite Hsz. }
  cbn [length] in Hsz.
  destruct (Z.eqb_spec (Q.size q) 0) as [|_]; [lia|]. cbv zeta.
  apply linkedb_cons in Hl as (Hh & nx & Hlx & Hl). rewrite Hh.
  destruct (links_Some _ _ _ _ Hlx) as (pcx & Hpcx & Hpv & Hnx).
  rewrite (bind_ok _ _ _ _ _ (rd_ok k x pcx Hpcx)). rewrite Hpv, Hnx.
  pose proof (NoDup_cons_1_1 _ _ Hnd) as Hxl.
  pose proof (NoDup_cons_1_2 _ _ Hnd) as Hnd'.
  assert (Hx : (x < length (K.pcbs k))%nat) by (by eapply lookup_lt_Some).
  destruct (modq_view k r q (Q.set_head nx) Hq) as (k1 & E1 & Q1 & R1 & L1 & X1 & P1).
  rewrite (bind_ok _ _ _ _ _ E1).
  destruct l as [|n l].
  - (* [x] was the only PCB *)
    cbn [length] in Hsz.
    apply linkedb_nil in Hl as [-> Ht].
    destruct (modq_view k1 r _ (Q.set_tail None) Q1) as (k2 & E2 & Q2 & R2 & L2 & X2 & P2).
    rewrite (bind_ok _ _ _ _ _ E2).
    destruct (wr_prev_view k2 x None ltac:(congruence)) as (k3 & E3 & Q3 & L3 & X3 & O3 & P3).
    rewrite (bind_ok _ _ _ _ _ E3).
    destruct (wr_next_view k3 x None ltac:(congruence)) as (k4 & E4 & Q4 & L4 & X4 & O4 & P4).
    rewrite (bind_ok _ _ _ _ _ E4).
    assert (Hq4 : queue_at k4 r = Some (Q.set_tail None (Q.set_head None q)))
      by (by rewrite Q4, Q3).
    destruct (modq_view k4 r _ dec_size Hq4) as (k5 & E5 & Q5 & R5 & L5 & X5 & P5).
    rewrite (bind_ok _ _ _ _ _ E5). exists k5. split; [done|].
    split_and!.
    + apply (holdsb_intro k5 r _ _ Q5); try done.
      * cbn. rewrite wrap32_small; lia.
      * cbn. unfold INT_MAX. rewrite wrap32_small; lia.
    + rewrite X5, X4, X3, X2, X1, Hlx. done.
    + intros r' l'' Hr' Hh' Hdj. rewrite <- Hh'. apply holdsb_stable.
      * by rewrite R5, Q4, Q3, R2, R1.
      * intros y Hy.
        assert (y <> x) by (intros ->; by apply (disjointb_spec [x] l'' x Hdj); [left|]).
        by rewrite X5, O4, O3, X2, X1.
    + intros z. by rewrite P5, P4, P3, P2, P1.
  - (* [n] follows [x] *)
    cbn [length] in Hsz.
    pose proof Hl as Hl0.
    apply linkedb_cons in Hl as ([= ->] & nn & Hln & Hl).
    assert (Hnx' : n <> x) by (intros ->; apply Hxl; left).
    assert (Hn1 : (n < length (K.pcbs k1))%nat).
    { rewrite L1. destruct (links_Some _ _ _ _ Hln) as (pcn & Hpcn & _).
      by eapply lookup_lt_Some. }
    destruct (wr_prev_view k1 n None Hn1) as (k2 & E2 & Q2 & L2 & X2 & O2 & P2).
    rewrite (bind_ok _ _ _ _ _ E2).
    destruct (wr_prev_view k2 x None ltac:(congruence)) as (k3 & E3 & Q3 & L3 & X3 & O3 & P3).
    rewrite (bind_ok _ _ _ _ _ E3).
    destruct (wr_next_view k3 x None ltac:(congruence)) as (k4 & E4 & Q4 & L4 & X4 & O4 & P4).
    rewrite (bind_ok _ _ _ _ _ E4).
    assert (Hq4 : queue_at k4 r = Some (Q.set_head (Some n) q))
      by (by rewrite Q4, Q3, Q2).
    destruct (modq_view k4 r _ dec_size Hq4) as (k5 & E5 & Q5 & R5 & L5 & X5 & P5).
    rewrite (bind_ok _ _ _ _ _ E5). exists k5. split; [done|].
    assert (Hlk : forall y, y <> x -> y <> n -> links k5 y = links k y).
    { intros y Hyx Hyn. by rewrite X5, O4, O3, O2, X1. }
    split_and!.
    + apply (holdsb_intro k5 r _ _ Q5); try done.
      * cbn [Q.size dec_size Q.set_size Q.set_head length].
        cbn [length] in Hsz. rewrite wrap32_small; lia.
      * cbn. unfold INT_MAX. rewrite wrap32_small; lia.
      * cbn [Q.head Q.tail dec_size Q.set_size Q.set_head].
        apply (linkedb_reprev k k5 (Some x) None n l); [done| |].
        -- by rewrite X5, O4, O3, X2, X1.
        -- intros y Hy. apply Hlk.
           ++ intros ->. apply Hxl. by right.
           ++ intros ->. by apply (NoDup_cons_1_1 _ _ Hnd').
    + rewrite X5, X4, X3, (O2 x ltac:(done)), X1, Hlx. done.
    + intros r' l'' Hr' Hh' Hdj. rewrite <- Hh'. apply holdsb_stable.
      * by rewrite R5, Q4, Q3, Q2, R1.
      * intros y Hy. apply Hlk.
        -- intros ->. by apply (disjointb_spec _ l'' x Hdj); [left|].
        -- intros ->. by apply (disjointb_spec _ l'' n Hdj); [right; left|].
    + intros z. by rewrite P5, P4, P3, P2, P1.
Qed.

(** X2. [dequeue] pops the head: on a queue that holds no PCB it returns
    null and changes nothing; on a queue that holds [x] followed by [l] it
    returns [x] with both links null and the queue holds [l]; every other
    queue that shares no PCB with it holds what it held, and no PCB changes
    outside its links and blocked queues. *)
Theorem dequeue_pops (k : kernel) (r : queue_ref) (l : list nat) :
  holdsb k r l = true ->
  match l with
  | [] => queue.dequeue r k = Ok (None, k)
  | x :: l' =>
      exists k',
        queue.dequeue r k = Ok (Some x, k')
        /\ holdsb k' r l' = true
        /\ links k' x = Some (None, None)
        /\ (forall r' l'',
              same_queue r r' = false -> holdsb k r' l'' = true ->
              disjointb l l'' = true -> holdsb k' r' l'' = true)
        /\ (forall z, payload <$> K.pcbs k' !! z = payload <$> K.pcbs k !! z)
  end.
Proof. exact (dequeue_holds k r l). Qed.

Lemma dequeue_pops_witness :
  exists k',
    queue.dequeue StoppedQ k_boot = Ok (Some 1%nat, k')
    /\ holdsb k' StoppedQ (seq 2 30) = true
    /\ links k' 1 = Some (None, None)
    /\ (forall r' l'',
          same_queue StoppedQ r' = false -> holdsb k_boot r' l'' = true ->
          disjointb (seq 1 31) l'' = true -> holdsb k' r' l'' = true)
    /\ (forall z, payload <$> K.pcbs k' !! z = payload <$> K.pcbs k_boot !! z).
Proof.
  apply (dequeue_pops k_boot StoppedQ (seq 1 31)). vm_compute. reflexivity.
Defined.

(** Where a PCB of the list sits: its [prev] is the PCB before it (or what
    the first PCB points back to), its [next] the PCB after it. *)
Lemma linkedb_at k x l2 : forall l1 prev first last,
  linkedb k prev first (l1 ++ x :: l2) last = true ->
  exists px nx,
    links k x = Some (px, nx)
    /\ ((l1 = [] /\ px = prev) \/ (exists p, px = Some p /\ p ∈ l1))
    /\ nx = head l2
    /\ linkedb k (Some x) nx l2 last = true.
Proof.
  induction l1 as [|z l1 IH]; intros prev first last H.
  - cbn [app] in H. apply linkedb_cons in H as (_ & nx & Hx & H).
    exists prev, nx. split_and!; try done; [by left|].
    destruct l2 as [|n l2].
    + by apply linkedb_nil in H as [-> _].
    + by apply linkedb_cons in H as (-> & _).
  - cbn [app] in H. apply linkedb_cons in H as (_ & nz & Hz & H).
    destruct (IH _ _ _ H) as (px & nx & Hx & Hp & Hn & Hl).
    exists px, nx. split_and!; try done. right.
    destruct Hp as [[-> ->]|(p & -> & Hp)].
    + exists z. split; [done|left].
    + exists p. split; [done|by right].
Qed.

Lemma linkedb_remove k k' x px nx l2 : forall l1 prev first last,
  linkedb k prev first (l1 ++ x :: l2) last = true ->
  NoDup (l1 ++ x :: l2) ->
  (forall z, prev = Some z -> z ∉ l1 ++ x :: l2) ->
  links k x = Some (px, nx) ->
  (forall n nn, nx = Some n -> links k n = Some (Some x, nn) ->
                links k' n = Some (px, nn)) ->
  (forall p pp, px = Some p -> p ∈ l1 -> links k p = Some (pp, Some x) ->
                links k' p = Some (pp, nx)) ->
  (forall y, y ∈ l1 ++ l2 -> Some y <> px -> Some y <> nx ->
             links k' y = links k y) ->
  linkedb k' prev (match l1 with [] => nx | _ => first end) (l1 ++ l2)
          (match l2 with [] => px | _ => last end) = true.
Proof.
  induction l1 as [|z l1 IH]; intros prev first last H Hnd Hprev Hx Hn Hp Ho.
  - cbn [app] in *. apply linkedb_cons in H as (_ & nx0 & Hx0 & H).
    rewrite Hx in Hx0. injection Hx0 as -> <-.
    pose proof (NoDup_cons_1_1 _ _ Hnd) as Hxl.
    pose proof (NoDup_cons_1_2 _ _ Hnd) as Hnd2.
    destruct l2 as [|n l2].
    + apply linkedb_nil in H as [-> _]. cbn.
      by rewrite (proj2 (ptr_eqb_eq prev prev) eq_refl).
    + pose proof H as H0. apply linkedb_cons in H as (-> & nn & Hln & H).
      apply (linkedb_cons_intro k' prev n nn); [by eapply Hn|].
      rewrite (linkedb_ext k k'); [done|]. intros y Hy. apply Ho.
      * by right.
      * intros E. apply (Hprev y); [done|]. right. by right.
      * intros [= ->]. by apply (NoDup_cons_1_1 _ _ Hnd2).
  - cbn [app] in *. apply linkedb_cons in H as (-> & nz & Hz & H).
    pose proof (NoDup_cons_1_1 _ _ Hnd) as Hzl.
    pose proof (NoDup_cons_1_2 _ _ Hnd) as Hnd2.
    destruct (linkedb_at k x l2 l1 _ _ _ H) as (px' & nx' & Hx' & Hpin & Hnin & _).
    rewrite Hx in Hx'. injection Hx' as <- <-.
    assert (IH' := IH (Some z) nz last H Hnd2).
    assert (Hz' : links k' z
                  = Some (prev, match l1 with [] => nx | _ => nz end)).
    { destruct l1 as [|w l1].
      - destruct Hpin as [[_ ->]|(p & _ & Hp')]; [|by apply elem_of_nil in Hp'].
        cbn [app] in H. apply linkedb_cons in H as (-> & _).
        apply (Hp z prev); [done|left|done].
      - rewrite Ho; [done|left| |].
        + destruct Hpin as [[? _]|(p & -> & Hp')]; [done|].
          intros [= ->]. apply Hzl. apply elem_of_app. by left.
        + rewrite Hnin. destruct l2 as [|n l2]; [done|]. cbn.
          intros [= ->]. apply Hzl. apply elem_of_app. right. right. left. }
    apply (linkedb_cons_intro k' prev z _ _ _ Hz').
    apply IH'; try done.
    + intros z' [= <-]. done.
    + intros p pp Hpx Hpl. apply Hp; [done|by right].
    + intros y Hy. apply Ho. by right.
Qed.

(** The two re-linking steps of [remove]. *)
Lemma relink_pred k r q (px nx : pcb_ptr) :
  queue_at k r = Some q -> slot_ok (K.pcbs k) px = true ->
  exists k',
    (match px with
     | Some _ => wr px (P.set_next nx)
     | None => modq r (Q.set_head nx)
     end) k = Ok (tt, k')
    /\ queue_at k' r = Some (match px with Some _ => q | None => Q.set_head nx q end)
    /\ (forall r', same_queue r r' = false -> queue_at k' r' = queue_at k r')
    /\ length (K.pcbs k') = length (K.pcbs k)
    /\ (forall p, px = Some p -> links k' p = (fun l => (l.1, nx)) <$> links k p)
    /\ (forall z, Some z <> px -> links k' z = links k z)
    /\ (forall z, payload <$> K.pcbs k' !! z = payload <$> K.pcbs k !! z).
Proof.
  intros Hq Hs. destruct px as [p|].
  - cbn in Hs. apply Nat.ltb_lt in Hs.
    destruct (wr_next_view k p nx Hs) as (k' & E & F1 & F2 & F3 & F4 & F5).
    exists k'. split_and!; try done.
    + by rewrite F1.
    + by intros p' [= <-].
    + intros z Hz. apply F4. congruence.
  - destruct (modq_view k r q (Q.set_head nx) Hq) as (k' & E & F1 & F2 & F3 & F4 & F5).
    exists k'. split_and!; done.
Qed.

Lemma relink_succ k r q (px nx : pcb_ptr) :
  queue_at k r = Some q -> slot_ok (K.pcbs k) nx = true ->
  exists k',
    (match nx with
     | Some _ => wr nx (P.set_prev px)
     | None => modq r (Q.set_tail px)
     end) k = Ok (tt, k')
    /\ queue_at k' r = Some (match nx with Some _ => q | None => Q.set_tail px q end)
    /\ (forall r', same_queue r r' = false -> queue_at k' r' = queue_at k r')
    /\ length (K.pcbs k') = length (K.pcbs k)
    /\ (forall n, nx = Some n -> links k' n = (fun l => (px, l.2)) <$> links k n)
    /\ (forall z, Some z <> nx -> links k' z = links k z)
    /\ (forall z, payload <$> K.pcbs k' !! z = payload <$> K.pcbs k !! z).
Proof.
  intros Hq Hs. destruct nx as [n|].
  - cbn in Hs. apply Nat.ltb_lt in Hs.
    destruct (wr_prev_view k n px Hs) as (k' & E & F1 & F2 & F3 & F4 & F5).
    exists k'. split_and!; try done.
    + by rewrite F1.
    + by intros p' [= <-].
    + intros z Hz. apply F4. congruence.
  - destruct (modq_view k r q (Q.set_tail px) Hq) as (k' & E & F1 & F2 & F3 & F4 & F5).
    exists k'. split_and!; done.
Qed.

Lemma linkedb_elem k l : forall prev first last y,
  linkedb k prev first l last = true -> y ∈ l ->
  (y < length (K.pcbs k))%nat.
Proof.
  induction l as [|x l IH]; intros prev first last y H Hy.
  - by apply elem_of_nil in Hy.
  - apply linkedb_cons in H as (_ & nx & Hx & H).
    apply elem_of_cons in Hy as [->|Hy]; [|by eapply IH].
    destruct (links_Some _ _ _ _ Hx) as (pc & Hpc & _). by eapply lookup_lt_Some.
Qed.

Lemma remove_holds (k : kernel) (r : queue_ref) (l1 : list nat) (x : nat)
    (l2 : list nat) :
  holdsb k r (l1 ++ x :: l2) = true ->
  exists k',
    queue.remove r (Some x) k = Ok (tt, k')
    /\ holdsb k' r (l1 ++ l2) = true
    /\ links k' x = Some (None, None)
    /\ (forall r' l',
          same_queue r r' = false -> holdsb k r' l' = true ->
          disjointb (l1 ++ x :: l2) l' = true -> holdsb k' r' l' = true)
    /\ (forall z, payload <$> K.pcbs k' !! z = payload <$> K.pcbs k !! z).
Proof.
  intros H. apply holdsb_spec in H as (q & Hq & Hsz & Hmax & Hl & Hnd).
  unfold INT_MAX in Hmax. rewrite length_app in Hsz. cbn [length] in Hsz.
  destruct (linkedb_at k x l2 l1 _ _ _ Hl) as (px & nx & Hlx & Hpin & Hnin & Hl2).
  destruct (links_Some _ _ _ _ Hlx) as (pcx & Hpcx & Hpv & Hnx).
  assert (Hx : (x < length (K.pcbs k))%nat) by (by eapply lookup_lt_Some).
  assert (Hxl1 : x ∉ l1).
  { intros Hin. apply list.NoDup_app in Hnd as (_ & Hd & _).
    apply (Hd x Hin). left. }
  assert (Hxl2 : x ∉ l2).
  { apply list.NoDup_app in Hnd as (_ & _ & Hd). by apply NoDup_cons_1_1 in Hd. }
  assert (Hdj12 : forall y, y ∈ l1 -> y ∉ l2).
  { intros y Hy Hy'. apply list.NoDup_app in Hnd as (_ & Hd & _).
    apply (Hd y Hy). by right. }
  assert (Hpx : forall p, px = Some p -> p ∈ l1).
  { intros p ->. destruct Hpin as [[_ ?]|(p' & [= <-] & ?)]; done. }
  assert (Hnx' : forall n, nx = Some n -> n ∈ l2).
  { intros n ->. destruct l2 as [|n' l2]; [done|]. injection Hnin as ->. left. }
  assert (Hspx : slot_ok (K.pcbs k) px = true).
  { destruct px as [p|]; [|done]. cbn. apply Nat.ltb_lt.
    eapply (linkedb_elem k _ _ _ _ p Hl). apply elem_of_app. left. by apply Hpx. }
  assert (Hsnx : slot_ok (K.pcbs k) nx = true).
  { destruct nx as [n|]; [|done]. cbn. apply Nat.ltb_lt.
    eapply (linkedb_elem k _ _ _ _ n Hl). apply elem_of_app. right. right.
    by apply Hnx'. }
  assert (Hxpx : Some x <> px) by (intros E; by apply Hxl1, Hpx).
  assert (Hxnx : Some x <> nx) by (intros E; by apply Hxl2, Hnx').
  unfold queue.remove. cbn [is_null negb assert].
  rewrite (bind_ok _ _ _ _ _ eq_refl).
  rewrite (bind_ok _ _ _ _ _ (getq_at k r q Hq)).
  destruct (Z.eqb_spec (Q.size q) 0) as [|_]; [lia|]. cbn [negb assert].
  rewrite (bind_ok _ _ _ _ _ eq_refl).
  rewrite (bind_ok _ _ _ _ _ (rd_ok k x pcx Hpcx)). rewrite Hpv, Hnx.
  destruct (relink_pred k r q px nx Hq Hspx) as (k1 & E1 & Q1 & R1 & L1 & X1 & O1 & P1).
  rewrite (bind_ok _ _ _ _ _ E1).
  assert (Hlx1 : links k1 x = Some (px, nx)) by (by rewrite O1).
  destruct (links_Some _ _ _ _ Hlx1) as (pcx1 & Hpcx1 & Hpv1 & Hnx1).
  rewrite (bind_ok _ _ _ _ _ (rd_ok k1 x pcx1 Hpcx1)). rewrite Hpv1, Hnx1.
  destruct (relink_succ k1 r _ px nx Q1 ltac:(by rewrite (slot_ok_length (K.pcbs k))))
    as (k2 & E2 & Q2 & R2 & L2 & X2 & O2 & P2).
  rewrite (bind_ok _ _ _ _ _ E2).
  destruct (wr_prev_view k2 x None ltac:(congruence)) as (k3 & E3 & Q3 & L3 & X3 & O3 & P3).
  rewrite (bind_ok _ _ _ _ _ E3).
  destruct (wr_next_view k3 x None ltac:(congruence)) as (k4 & E4 & Q4 & L4 & X4 & O4 & P4).
  rewrite (bind_ok _ _ _ _ _ E4).
  assert (Hq4 : queue_at k4 r = _) by (rewrite Q4, Q3; exact Q2).
  destruct (modq_view k4 r _ dec_size Hq4) as (k5 & E5 & Q5 & R5 & L5 & X5 & P5).
  exists k5. split; [done|].
  assert (Hlk : forall y, y <> x -> links k5 y = links k2 y).
  { intros y Hy. by rewrite X5, O4, O3. }
  split_and!.
  - apply (holdsb_intro k5 r _ _ Q5).
    + cbn [Q.size dec_size Q.set_size]. rewrite length_app.
      replace (Q.size (match nx with Some _ => _ | None => _ end)) with (Q.size q)
        by (by destruct nx, px).
      rewrite wrap32_small; lia.
    + cbn [Q.size dec_size Q.set_size]. unfold INT_MAX.
      replace (Q.size (match nx with Some _ => _ | None => _ end)) with (Q.size q)
        by (by destruct nx, px).
      rewrite wrap32_small; lia.
    + assert (Hhead : Q.head (dec_size
                (match nx with
                 | Some _ => match px with Some _ => q | None => Q.set_head nx q end
                 | None => Q.set_tail px
                             (match px with Some _ => q | None => Q.set_head nx q end)
                 end))
              = match l1 with [] => nx | _ => Q.head q end).
      { destruct Hpin as [[-> ->]|(p & -> & Hp)].
        - by destruct nx.
        - destruct l1; [by apply elem_of_nil in Hp|]. by destruct nx. }
      assert (Htail : Q.tail (dec_size
                (match nx with
                 | Some _ => match px with Some _ => q | None => Q.set_head nx q end
                 | None => Q.set_tail px
                             (match px with Some _ => q | None => Q.set_head nx q end)
                 end))
              = match l2 with [] => px | _ => Q.tail q end).
      { rewrite Hnin. destruct l2; cbn; by destruct px. }
      rewrite Hhead, Htail.
      apply (linkedb_remove k k5 x px nx l2 l1 None (Q.head q) (Q.tail q));
        try done.
      * intros n nn -> Hn. rewrite Hlk by congruence.
        rewrite (X2 n eq_refl), O1 by (intros E; apply (Hdj12 n); [by apply Hpx|by apply Hnx']).
        by rewrite Hn.
      * intros p pp -> Hp Hlp. rewrite Hlk by congruence.
        rewrite O2 by (intros E; apply (Hdj12 p); [done|by apply Hnx']).
        by rewrite (X1 p eq_refl), Hlp.
      * intros y Hy Hyp Hyn. rewrite Hlk, O2, O1; try done.
        intros ->. apply elem_of_app in Hy as [?|?]; done.
    + apply list.NoDup_app in Hnd as (N1 & N2 & N3). apply list.NoDup_app.
      split_and!; [done| |by apply NoDup_cons_1_2 in N3].
      intros y Hy Hy'. apply (N2 y Hy). by right.
  - by rewrite X5, X4, X3, O2, Hlx1.
  - intros r' l' Hr' Hh' Hdj. rewrite <- Hh'. apply holdsb_stable.
    + by rewrite R5, Q4, Q3, R2, R1.
    + intros y Hy.
      assert (Hyl : y ∉ l1 ++ x :: l2).
      { intros Hin. by apply (disjointb_spec _ l' y Hdj). }
      assert (y <> x) by (intros ->; apply Hyl, elem_of_app; right; left).
      rewrite Hlk, O2, O1; try done.
      * intros E. apply Hyl, elem_of_app. left. by apply Hpx.
      * intros E. apply Hyl, elem_of_app. right. right. by apply Hnx'.
  - intros z. by rewrite P5, P4, P3, P2, P1.
Qed.

(** X3. [remove] unlinks a PCB wherever it is: when queue [r] holds [l1],
    [x], [l2] in this order, [remove] returns, [x] has both links null and
    the queue holds [l1] followed by [l2]; every other queue that shares no
    PCB with it holds what it held, and no PCB changes outside its links
    and blocked queues. *)
Theorem remove_unlinks (k : kernel) (r : queue_ref) (l1 : list nat) (x : nat)
    (l2 : list nat) :
  holdsb k r (l1 ++ x :: l2) = true ->
  exists k',
    queue.remove r (Some x) k = Ok (tt, k')
    /\ holdsb k' r (l1 ++ l2) = true
    /\ links k' x = Some (None, None)
    /\ (forall r' l',
          same_queue r r' = false -> holdsb k r' l' = true ->
          disjointb (l1 ++ x :: l2) l' = true -> holdsb k' r' l' = true)
    /\ (forall z, payload <$> K.pcbs k' !! z = payload <$> K.pcbs k !! z).
Proof. exact (remove_holds k r l1 x l2). Qed.

Lemma remove_unlinks_witness :
  exists k',
    queue.remove StoppedQ (Some 5%nat) k_boot = Ok (tt, k')
    /\ holdsb k' StoppedQ (seq 1 4 ++ seq 6 26) = true
    /\ links k' 5 = Some (None, None)
    /\ (forall r' l',
          same_queue StoppedQ r' = false -> holdsb k_boot r' l' = true ->
          disjointb (seq 1 4 ++ 5%nat :: seq 6 26) l' = true ->
          holdsb k' r' l' = true)
    /\ (forall z, payload <$> K.pcbs k' !! z = payload <$> K.pcbs k_boot !! z).
Proof.
  apply (remove_unlinks k_boot StoppedQ (seq 1 4) 5 (seq 6 26)).
  vm_compute. reflexivity.
Defined.

Lemma last_default (l : list nat) (d : nat) :
  l <> [] -> list.last l = Some (List.last l d).
Proof.
  induction l as [|a [|b l] IH]; intros H; [done|done|].
  change (list.last (a :: b :: l)) with (list.last (b :: l)).
  change (List.last (a :: b :: l) d) with (List.last (b :: l) d).
  by apply IH.
Qed.

Lemma observers_holds (k : kernel) (r : queue_ref) (l : list nat) :
  holdsb k r l = true ->
  queue.size r k = Ok (Z.of_nat (length l), k)
  /\ queue.is_empty r k = Ok (match l with [] => true | _ => false end, k)
  /\ queue.peek_tail r k = Ok (list.last l, k).
Proof.
  intros H. apply holdsb_spec in H as (q & Hq & Hsz & Hmax & Hl & Hnd).
  unfold queue.size, queue.is_empty, queue.peek_tail.
  rewrite !(bind_ok _ _ _ _ _ (getq_at k r q Hq)). unfold ret.
  unfold INT_MAX in Hmax. split_and!.
  - rewrite to_int_small; [by rewrite Hsz|lia].
  - rewrite Hsz. by destruct l.
  - rewrite Hsz. destruct l as [|a l]; [done|].
    destruct (linkedb_last k (a :: l) _ _ _ Hl ltac:(done))
      as (t & pv & Ht & _ & _ & Hlast).
    rewrite Ht, (last_default (a :: l) t ltac:(done)), Hlast.
    destruct (Z.eqb_spec (Z.of_nat (length (a :: l))) 0) as [E|_]; [|done].
    cbn [length] in E. lia.
Qed.

(** X4. The observers read the queue off its header: on a queue that holds
    the PCBs [l], [size] returns the length of [l], [is_empty] tells whether
    [l] is empty and [peek_tail] returns the last PCB of [l], or null when
    there is none; none of them changes the state. *)
Theorem observers_read_the_queue (k : kernel) (r : queue_ref) (l : list nat) :
  holdsb k r l = true ->
  queue.size r k = Ok (Z.of_nat (length l), k)
  /\ queue.is_empty r k = Ok (match l with [] => true | _ => false end, k)
  /\ queue.peek_tail r k = Ok (list.last l, k).
Proof. exact (observers_holds k r l). Qed.

Lemma observers_read_the_queue_witness :
  queue.size StoppedQ k_boot = Ok (Z.of_nat (length (seq 1 31)), k_boot)
  /\ queue.is_empty StoppedQ k_boot
     = Ok (match seq 1 31 with [] => true | _ => false end, k_boot)
  /\ queue.peek_tail StoppedQ k_boot = Ok (list.last (seq 1 31), k_boot).
Proof.
  apply (observers_read_the_queue k_boot StoppedQ (seq 1 31)).
  vm_compute. reflexivity.
Defined.

(** ** deltalist.c *)

Lemma sleepersb_cons k base first x t l :
  sleepersb k base first ((x, t) :: l) = true ->
  first = Some x
  /\ exists pc, K.pcbs k !! x = Some pc /\ P.key pc = t - base
                /\ sleepersb k t (P.next pc) l = true.
Proof.
  cbn. intros H. apply andb_true_iff in H as [H1 H2]. apply ptr_eqb_eq in H1.
  split; [done|]. destruct (K.pcbs k !! x) as [pc|]; [|done].
  apply andb_true_iff in H2 as [H2 H3]. apply Z.eqb_eq in H2. eauto.
Qed.

Lemma sleepersb_cons_intro k base x t l pc :
  K.pcbs k !! x = Some pc -> P.key pc = t - base ->
  sleepersb k t (P.next pc) l = true ->
  sleepersb k base (Some x) ((x, t) :: l) = true.
Proof.
  intros H1 H2 H3. cbn. rewrite H1, H3, Nat.eqb_refl.
  apply Z.eqb_eq in H2. by rewrite H2.
Qed.

Lemma sleepersb_ext k k' l : forall base first,
  (forall y, y ∈ l.*1 -> K.pcbs k' !! y = K.pcbs k !! y) ->
  sleepersb k' base first l = sleepersb k base first l.
Proof.
  induction l as [|[x t] l IH]; intros base first H; [done|]. cbn.
  rewrite (H x) by left. destruct (K.pcbs k !! x) as [pc|]; [|done].
  rewrite IH; [done|]. intros y Hy. apply H. by right.
Qed.

Lemma ascendingb_cons base x t l :
  ascendingb base ((x, t) :: l) = true ->
  base <= t <= INT_MAX /\ ascendingb t l = true.
Proof.
  cbn. intros H. apply andb_true_iff in H as [H H3].
  apply andb_true_iff in H as [H1 H2].
  apply Z.leb_le in H1. apply Z.leb_le in H2. done.
Qed.

Lemma ascendingb_weaken l : forall base base',
  base' <= base -> ascendingb base l = true -> ascendingb base' l = true.
Proof.
  destruct l as [|[x t] l]; intros base base' Hb H; [done|].
  apply ascendingb_cons in H as [H1 H2]. cbn. rewrite H2.
  destruct (Z.leb_spec base' t), (Z.leb_spec t INT_MAX); try done; lia.
Qed.

Lemma insert_by_time_ascending x d l : forall base,
  base <= d <= INT_MAX -> ascendingb base l = true ->
  ascendingb base (insert_by_time x d l) = true.
Proof.
  induction l as [|[y t] l IH]; intros base Hd H.
  - cbn. destruct (Z.leb_spec base d), (Z.leb_spec d INT_MAX); try done; lia.
  - apply ascendingb_cons in H as [H1 H2]. cbn [insert_by_time].
    destruct (Z.ltb_spec d t) as [Hlt|Hge].
    + cbn. rewrite H2.
      destruct (Z.leb_spec base d), (Z.leb_spec d INT_MAX),
               (Z.leb_spec d t), (Z.leb_spec t INT_MAX); try done; lia.
    + cbn. rewrite IH; [|lia|done].
      destruct (Z.leb_spec base t), (Z.leb_spec t INT_MAX); try done; lia.
Qed.

Lemma insert_by_time_fst x d l :
  (insert_by_time x d l).*1 ≡ₚ x :: l.*1.
Proof.
  induction l as [|[y t] l IH]; [done|]. cbn [insert_by_time].
  destruct (d <? t); [done|]. cbn. rewrite IH. apply Permutation_swap.
Qed.

Lemma insert_by_time_length x d l :
  length (insert_by_time x d l) = S (length l).
Proof.
  induction l as [|[y t] l IH]; [done|]. cbn [insert_by_time].
  destruct (d <? t); [done|]. cbn. by rewrite IH.
Qed.

Lemma inc_size_ok k :
  deltalist.inc_size k
  = Ok (tt, K.set_sleep_queue
              (D.set_size (wrap32 (D.size (K.sleep_queue k) + 1)) (K.sleep_queue k)) k).
Proof. reflexivity. Qed.

Lemma mod_list_ok f k :
  deltalist.mod_list f k = Ok (tt, K.set_sleep_queue (f (K.sleep_queue k)) k).
Proof. reflexivity. Qed.

(** The search loop of [insert], from the PCB [prev] on (the head of the
    list when [prev] is null): [base] is the time at which [prev] is due. *)
Lemma insert_loop_spec x delay : forall l k fuel prev curr base,
  entry k prev = Some curr ->
  sleepersb k base curr l = true ->
  ascendingb base l = true -> 0 <= base <= INT_MAX -> 0 <= delay <= INT_MAX ->
  NoDup (l.*1) -> x ∉ l.*1 ->
  (exists pcx, K.pcbs k !! x = Some pcx /\ P.next pcx = None) ->
  (forall p, prev = Some p -> p <> x /\ p ∉ l.*1) ->
  (prev = None -> l <> []) ->
  (length l < fuel)%nat ->
  exists k',
    deltalist.insert_loop fuel (Some x) prev curr (delay - base) k = Ok (tt, k')
    /\ (exists c', entry k' prev = Some c'
                   /\ sleepersb k' base c' (insert_by_time x delay l) = true)
    /\ (forall z, z <> x -> Some z <> prev -> z ∉ l.*1 ->
                  K.pcbs k' !! z = K.pcbs k !! z)
    /\ (forall p, prev = Some p ->
                  P.set_next None <$> K.pcbs k' !! p
                  = P.set_next None <$> K.pcbs k !! p)
    /\ (prev <> None -> D.head (K.sleep_queue k') = D.head (K.sleep_queue k))
    /\ D.size (K.sleep_queue k') = wrap32 (D.size (K.sleep_queue k) + 1)
    /\ outside_sleep k' = outside_sleep k
    /\ (forall z, unkeyed <$> K.pcbs k' !! z = unkeyed <$> K.pcbs k !! z)
    /\ length (K.pcbs k') = length (K.pcbs k).
Proof.
  unfold INT_MAX.
  induction l as [|[y t] l IH];
    intros k fuel prev curr base He Hs Ha Hb Hd Hnd Hxl (pcx & Hx & Hnx) Hp Hpn Hf.
  - (* end of the list: append *)
    destruct fuel as [|fuel]; [cbn in Hf; lia|].
    cbn in Hs. destruct curr; [done|].
    destruct prev as [p|]; [|by destruct Hpn].
    destruct (Hp p eq_refl) as [Hpx _].
    cbn in He. destruct (K.pcbs k !! p) as [pcp|] eqn:Hpcp; [|done].
    cbn [deltalist.insert_loop].
    erewrite bind_ok; [|apply wr_ok; eassumption].
    erewrite bind_ok; [|apply wr_ok; kcbn; lk; eassumption].
    rewrite inc_size_ok. eexists. split; [reflexivity|]. kcbn.
    split_and!.
    + exists (Some x). cbn. lk. split; [done|].
      rewrite Nat.eqb_refl. lk. pcbn. rewrite Hnx. cbn.
      by rewrite Z.eqb_refl.
    + intros z Hzx Hzp _. lk. done.
    + intros p' [= <-]. lk. by rewrite Hpcp.
    + done.
    + done.
    + reflexivity.
    + intros z. destruct (decide (z = p)) as [->|Hzp]; lk; [by rewrite Hpcp|].
      destruct (decide (z = x)) as [->|Hzx]; lk; [by rewrite Hx|done].
    + by rewrite !length_insert.
  - destruct fuel as [|fuel]; [cbn in Hf; lia|].
    apply sleepersb_cons in Hs as (-> & pcy & Hy & Hky & Hs).
    apply ascendingb_cons in Ha as [Ht Ha]. unfold INT_MAX in Ht.
    pose proof (NoDup_cons_1_1 _ _ Hnd) as Hyl.
    pose proof (NoDup_cons_1_2 _ _ Hnd) as Hnd'.
    assert (Hxy : x <> y) by (intros ->; apply Hxl; left).
    assert (Hxl' : x ∉ l.*1) by (intros ?; apply Hxl; by right).
    cbn [deltalist.insert_loop insert_by_time].
    rewrite (bind_ok _ _ _ _ _ (rd_ok k y pcy Hy)). rewrite Hky.
    replace (delay - base <? t - base) with (delay <? t)
      by (destruct (Z.ltb_spec delay t), (Z.ltb_spec (delay - base) (t - base)); lia).
    destruct (Z.ltb_spec delay t) as [Hlt|Hge].
    + (* insert before [y] *)
      erewrite bind_ok; [|apply wr_ok; eassumption].
      destruct prev as [p|].
      * destruct (Hp p eq_refl) as [Hpx Hpl].
        assert (Hpy : p <> y) by (intros ->; apply Hpl; left).
        cbn in He. destruct (K.pcbs k !! p) as [pcp|] eqn:Hpcp; [|done].
        erewrite bind_ok; [|apply wr_ok; kcbn; lk; eassumption].
        erewrite bind_ok; [|apply wr_ok; kcbn; lk; reflexivity].
        erewrite bind_ok; [|apply rd_ok; kcbn; lk; eassumption].
        erewrite bind_ok; [|apply wr_ok; kcbn; lk; eassumption].
        rewrite inc_size_ok. eexists. split; [reflexivity|]. kcbn.
        split_and!.
        -- exists (Some x). cbn [entry]. kcbn. lk. split; [done|].
           eapply sleepersb_cons_intro; [kcbn; lk; reflexivity|done|]. pcbn.
           eapply sleepersb_cons_intro; [kcbn; lk; reflexivity| |].
           ++ pcbn. rewrite Hky. rewrite to_int_small; lia.
           ++ pcbn. rewrite <- Hs. apply sleepersb_ext. intros z Hz. kcbn.
              assert (z <> y) by (intros ->; done).
              assert (z <> x) by (intros ->; done).
              assert (z <> p) by (intros ->; apply Hpl; by right).
              lk. done.
        -- intros z Hzx Hzp Hzl.
           assert (z <> y) by (intros ->; apply Hzl; left).
           assert (z <> p) by congruence. lk. done.
        -- intros p' [= <-]. lk. by rewrite Hpcp.
        -- done.
        -- done.
        -- reflexivity.
        -- intros z. destruct (decide (z = y)) as [->|Hzy]; lk; [by rewrite Hy|].
           destruct (decide (z = x)) as [->|Hzx]; lk; [by rewrite Hx|].
           destruct (decide (z = p)) as [->|Hzp]; lk; [by rewrite Hpcp|done].
        -- by rewrite !length_insert.
      * rewrite (bind_ok _ _ _ _ _ (mod_list_ok _ _)).
        erewrite bind_ok; [|apply wr_ok; kcbn; lk; reflexivity].
        erewrite bind_ok; [|apply rd_ok; kcbn; lk; eassumption].
        erewrite bind_ok; [|apply wr_ok; kcbn; lk; eassumption].
        rewrite inc_size_ok. eexists. split; [reflexivity|]. kcbn.
        split_and!.
        -- exists (Some x). cbn [entry]. kcbn. split; [done|].
           eapply sleepersb_cons_intro; [kcbn; lk; reflexivity|done|]. pcbn.
           eapply sleepersb_cons_intro; [kcbn; lk; reflexivity| |].
           ++ pcbn. rewrite Hky. rewrite to_int_small; lia.
           ++ pcbn. rewrite <- Hs. apply sleepersb_ext. intros z Hz. kcbn.
              assert (z <> y) by (intros ->; done).
              assert (z <> x) by (intros ->; done).
              lk. done.
        -- intros z Hzx Hzp Hzl.
           assert (z <> y) by (intros ->; apply Hzl; left). lk. done.
        -- done.
        -- done.
        -- done.
        -- reflexivity.
        -- intros z. destruct (decide (z = y)) as [->|Hzy]; lk; [by rewrite Hy|].
           destruct (decide (z = x)) as [->|Hzx]; lk; [by rewrite Hx|done].
        -- by rewrite !length_insert.
    + (* go on behind [y] *)
      replace (to_int (delay - base - (t - base))) with (delay - t)
        by (rewrite to_int_small; lia).
      destruct (IH k fuel (Some y) (P.next pcy) t) as
        (k' & E & (c' & He' & Hs') & Ho & Hpk & Hh & Hsz & Hout & Hun & Hlen);
        try done; try lia.
      { cbn. by rewrite Hy. }
      { by exists pcx. }
      { intros p' [= <-]. split; [done|done]. }
      { cbn in Hf. lia. }
      exists k'. split; [done|].
      cbn in He'. destruct (K.pcbs k' !! y) as [pcy'|] eqn:Hy'; [|done].
      injection He' as <-.
      assert (Eky : P.key pcy' = P.key pcy /\ True).
      { specialize (Hpk y eq_refl). rewrite Hy', Hy in Hpk.
        assert (E' : P.set_next None pcy' = P.set_next None pcy) by (cbn in Hpk; congruence).
        split; [exact (f_equal P.key E')|done]. }
      destruct Eky as [Eky _].
      split_and!.
      * exists (Some y). split.
        -- destruct prev as [p|].
           ++ destruct (Hp p eq_refl) as [Hpx Hpl]. cbn. cbn in He.
              rewrite Ho; [done|done| |].
              ** intros [= ->]. apply Hpl. left.
              ** intros Hin. apply Hpl. by right.
           ++ cbn. cbn in He. rewrite Hh; [done|done].
        -- eapply sleepersb_cons_intro; [done|congruence|done].
      * intros z Hzx Hzp Hzl. apply Ho; [done| |].
        -- intros [= ->]. apply Hzl. left.
        -- intros Hin. apply Hzl. by right.
      * intros p ->. destruct (Hp p eq_refl) as [Hpx Hpl]. rewrite Ho; [done|done| |].
        -- intros [= ->]. apply Hpl. left.
        -- intros Hin. apply Hpl. by right.
      * intros _. by apply Hh.
      * done.
      * done.
      * done.
      * done.
Qed.

Lemma sleepsb_spec k l :
  sleepsb k l = true ->
  D.size (K.sleep_queue k) = Z.of_nat (length l)
  /\ D.size (K.sleep_queue k) <= INT_MAX
  /\ sleepersb k 0 (D.head (K.sleep_queue k)) l = true
  /\ ascendingb 0 l = true /\ NoDup (l.*1).
Proof.
  unfold sleepsb. intros H.
  apply andb_true_iff in H as [H H5]. apply andb_true_iff in H as [H H4].
  apply andb_true_iff in H as [H H3]. apply andb_true_iff in H as [H1 H2].
  apply Z.eqb_eq in H1. apply Z.leb_le in H2. apply nodupb_spec in H5. done.
Qed.

Lemma sleepsb_intro k l :
  D.size (K.sleep_queue k) = Z.of_nat (length l) ->
  D.size (K.sleep_queue k) <= INT_MAX ->
  sleepersb k 0 (D.head (K.sleep_queue k)) l = true ->
  ascendingb 0 l = true -> NoDup (l.*1) ->
  sleepsb k l = true.
Proof.
  intros H1 H2 H3 H4 H5. unfold sleepsb. rewrite H3, H4.
  apply Z.eqb_eq in H1. apply Z.leb_le in H2. apply nodupb_iff in H5.
  by rewrite H1, H2, H5.
Qed.

(** X5. [insert] keeps the delta list ordered by wake-up time: when the
    list holds the sleepers [l] and PCB [x], which is on no list, is
    inserted with a delay of [delay] ticks, [insert] returns and the list
    holds [l] with [x] added behind every sleeper due within [delay] ticks;
    the other sleepers stay due when they were.  Only [key] and [next]
    fields and the list itself are written. *)
Theorem insert_by_wake_time (k : kernel) (l : list (nat * Z)) (x : nat)
    (delay : Z) :
  sleepsb k l = true ->
  Z.of_nat (length l) < INT_MAX ->
  0 <= delay <= INT_MAX ->
  memb x (l.*1) = false ->
  P.next <$> K.pcbs k !! x = Some None ->
  exists k',
    deltalist.insert (Some x) delay k = Ok (tt, k')
    /\ sleepsb k' (insert_by_time x delay l) = true
    /\ outside_sleep k' = outside_sleep k
    /\ (forall z, unkeyed <$> K.pcbs k' !! z = unkeyed <$> K.pcbs k !! z).
Proof.
  intros H Hlen Hd Hxl Hx. apply memb_false_iff in Hxl.
  apply sleepsb_spec in H as (Hsz & Hmax & Hs & Ha & Hnd).
  destruct (K.pcbs k !! x) as [pcx|] eqn:Hpcx; [|done]. injection Hx as Hnx.
  assert (Hnd' : NoDup ((insert_by_time x delay l).*1)).
  { rewrite insert_by_time_fst. by apply NoDup_cons_2. }
  assert (Ha' : ascendingb 0 (insert_by_time x delay l) = true).
  { apply insert_by_time_ascending; [unfold INT_MAX in *; lia|done]. }
  unfold deltalist.insert. cbn [is_null negb assert].
  rewrite (bind_ok _ _ _ _ _ eq_refl).
  destruct (Z.leb_spec 0 delay) as [_|]; [|lia]. cbn [assert].
  rewrite (bind_ok _ _ _ _ _ eq_refl).
  rewrite (bind_ok _ _ _ _ _ (rd_ok k x pcx Hpcx)). rewrite Hnx. cbn [is_null assert].
  rewrite (bind_ok _ _ _ _ _ eq_refl).
  rewrite (bind_ok _ _ _ _ _ (eq_refl : gets K.sleep_queue k = Ok (_, k))).
  unfold INT_MAX in *.
  destruct (D.head (K.sleep_queue k)) as [h|] eqn:Hh.
  - destruct (insert_loop_spec x delay l k (S (Z.to_nat (D.size (K.sleep_queue k))))
                None (Some h) 0)
      as (k' & E & (c' & He' & Hs') & _ & _ & _ & Hsz' & Hout & Hun & _);
      try done; try (unfold INT_MAX; lia).
    { cbn. by rewrite Hh. }
    { by exists pcx. }
    { intros _ ->. done. }
    rewrite Z.sub_0_r in E. exists k'. split; [done|].
    cbn in He'. injection He' as <-.
    split_and!; try done. apply sleepsb_intro; try done.
    + rewrite Hsz', insert_by_time_length, wrap32_small; lia.
    + unfold INT_MAX. rewrite Hsz', wrap32_small; lia.
  - destruct l as [|[y t] l]; [|by apply sleepersb_cons in Hs as [? _]].
    erewrite bind_ok; [|apply wr_ok; eassumption].
    rewrite (bind_ok _ _ _ _ _ (mod_list_ok _ _)). rewrite inc_size_ok.
    eexists. split; [reflexivity|]. split_and!.
    + apply sleepsb_intro; try done; kcbn.
      * cbn in Hsz. rewrite Hsz. reflexivity.
      * cbn in Hsz. rewrite Hsz. done.
      * cbn. rewrite Nat.eqb_refl. lk. pcbn. rewrite Hnx, Z.sub_0_r, Z.eqb_refl. done.
    + reflexivity.
    + intros z. cbn. destruct (decide (z = x)) as [->|Hzx]; lk; [by rewrite Hpcx|done].
Qed.

Lemma insert_by_wake_time_witness :
  exists k',
    deltalist.insert (Some 1%nat) 5 k_p1_sleeps = Ok (tt, k')
    /\ sleepsb k' [(0%nat, 3); (1%nat, 5)] = true
    /\ outside_sleep k' = outside_sleep k_p1_sleeps
    /\ (forall z, unkeyed <$> K.pcbs k' !! z = unkeyed <$> K.pcbs k_p1_sleeps !! z).
Proof.
  apply (insert_by_wake_time k_p1_sleeps [(0%nat, 3)] 1 5).
  - vm_compute. reflexivity.
  - vm_compute. reflexivity.
  - unfold INT_MAX. lia.
  - vm_compute. reflexivity.
  - vm_compute. reflexivity.
Defined.

Lemma dec_size_ok k :
  deltalist.dec_size k
  = Ok (tt, K.set_sleep_queue
              (D.set_size (wrap32 (D.size (K.sleep_queue k) - 1)) (K.sleep_queue k)) k).
Proof. reflexivity. Qed.

Lemma ascendingb_range base l y t :
  ascendingb base l = true -> (y, t) ∈ l -> base <= t <= INT_MAX.
Proof.
  revert base. induction l as [|[z u] l IH]; intros base Ha Hy.
  - by apply elem_of_nil in Hy.
  - apply ascendingb_cons in Ha as [H1 H2].
    apply elem_of_cons in Hy as [[= -> ->]|Hy]; [done|].
    specialize (IH u H2 Hy). lia.
Qed.

Lemma ascendingb_app_r base l1 x t l2 :
  ascendingb base (l1 ++ (x, t) :: l2) = true ->
  base <= t <= INT_MAX /\ ascendingb t l2 = true.
Proof.
  revert base. induction l1 as [|[z u] l1 IH]; intros base Ha.
  - by apply ascendingb_cons in Ha.
  - cbn [app] in Ha. apply ascendingb_cons in Ha as [H1 H2].
    destruct (IH u H2). split; [lia|done].
Qed.

Lemma ascendingb_remove l1 x t l2 : forall base,
  ascendingb base (l1 ++ (x, t) :: l2) = true ->
  ascendingb base (l1 ++ l2) = true.
Proof.
  induction l1 as [|[z u] l1 IH]; intros base Ha.
  - cbn [app] in *. apply ascendingb_cons in Ha as [H1 H2].
    apply (ascendingb_weaken l2 t base); [lia|done].
  - cbn [app] in *. apply ascendingb_cons in Ha as [H1 H2]. cbn.
    rewrite (IH u H2).
    destruct (Z.leb_spec base u), (Z.leb_spec u INT_MAX); try done; lia.
Qed.

Lemma fst_elem_mid (l1 : list (nat * Z)) x t l2 :
  x ∈ (l1 ++ (x, t) :: l2).*1.
Proof. induction l1 as [|e l1 IH]; cbn; [left|by right]. Qed.

(** The search loop of [delta_remove] behind the PCB [p], which is due at
    time [base]. *)
Lemma delta_remove_loop_spec x t l2 : forall l1 k fuel p pcp base,
  K.pcbs k !! p = Some pcp ->
  sleepersb k base (P.next pcp) (l1 ++ (x, t) :: l2) = true ->
  ascendingb base (l1 ++ (x, t) :: l2) = true -> 0 <= base <= INT_MAX ->
  NoDup ((l1 ++ (x, t) :: l2).*1) -> p ∉ (l1 ++ (x, t) :: l2).*1 ->
  (length l1 < fuel)%nat ->
  exists k',
    deltalist.delta_remove_loop fuel (Some x) (Some p) (P.next pcp) base k
      = Ok (t, k')
    /\ (exists pcp', K.pcbs k' !! p = Some pcp'
                     /\ P.set_next None pcp' = P.set_next None pcp
                     /\ sleepersb k' base (P.next pcp') (l1 ++ l2) = true)
    /\ (forall z, z <> p -> z ∉ (l1 ++ (x, t) :: l2).*1 ->
                  K.pcbs k' !! z = K.pcbs k !! z)
    /\ P.next <$> K.pcbs k' !! x = Some None
    /\ D.head (K.sleep_queue k') = D.head (K.sleep_queue k)
    /\ D.size (K.sleep_queue k') = wrap32 (D.size (K.sleep_queue k) - 1)
    /\ outside_sleep k' = outside_sleep k
    /\ (forall z, unkeyed <$> K.pcbs k' !! z = unkeyed <$> K.pcbs k !! z).
Proof.
  unfold INT_MAX.
  induction l1 as [|[y s] l1 IH];
    intros k fuel p pcp base Hp Hs Ha Hb Hnd Hpl Hf.
  - cbn [app] in *. destruct fuel as [|fuel]; [lia|].
    apply sleepersb_cons in Hs as (Hnp & pcx & Hx & Hkx & Hs).
    apply ascendingb_cons in Ha as [Ht Ha]. unfold INT_MAX in Ht.
    assert (Hpx : p <> x) by (intros ->; apply Hpl; left).
    pose proof (NoDup_cons_1_1 _ _ Hnd) as Hxl.
    pose proof (NoDup_cons_1_2 _ _ Hnd) as Hnd'.
    cbn [deltalist.delta_remove_loop]. rewrite Hnp. cbn [ptr_eqb].
    rewrite Nat.eqb_refl.
    rewrite (bind_ok _ _ _ _ _ (rd_ok k x pcx Hx)).
    erewrite bind_ok; [|apply wr_ok; eassumption].
    rewrite (bind_ok _ _ _ _ _ (dec_size_ok _)).
    erewrite bind_ok; [|apply rd_ok; kcbn; lk; eassumption].
    destruct l2 as [|[n u] l2].
    + cbn in Hs. destruct (P.next pcx) eqn:Hnx; [done|].
      rewrite (bind_ok _ _ _ _ _ eq_refl).
      erewrite bind_ok; [|apply wr_ok; kcbn; lk; eassumption].
      erewrite bind_ok; [|apply rd_ok; kcbn; lk; reflexivity].
      pcbn. rewrite Hkx. unfold ret. eexists.
      split; [f_equal; f_equal; rewrite to_int_small; lia|]. kcbn.
      split_and!.
      * eexists. split; [lk; reflexivity|]. pcbn. done.
      * intros z Hzp Hzl. assert (z <> x) by (intros ->; apply Hzl; left). lk. done.
      * lk. done.
      * done.
      * done.
      * reflexivity.
      * intros z. destruct (decide (z = x)) as [->|Hzx]; lk; [by rewrite Hx|].
        destruct (decide (z = p)) as [->|Hzp]; lk; [by rewrite Hp|done].
    + apply sleepersb_cons in Hs as (Hnx & pcn & Hn & Hkn & Hs).
      apply ascendingb_cons in Ha as [Hu Ha]. unfold INT_MAX in Hu.
      assert (Hnx' : n <> x) by (intros ->; apply Hxl; left).
      assert (Hpn : p <> n) by (intros ->; apply Hpl; right; left).
      rewrite Hnx.
      erewrite bind_ok;
        [|erewrite bind_ok; [|apply rd_ok; kcbn; lk; eassumption];
          apply wr_ok; kcbn; lk; eassumption].
      erewrite bind_ok; [|apply wr_ok; kcbn; lk; eassumption].
      erewrite bind_ok; [|apply rd_ok; kcbn; lk; reflexivity].
      pcbn. rewrite Hkx. unfold ret. eexists.
      split; [f_equal; f_equal; rewrite to_int_small; lia|]. kcbn.
      split_and!.
      * eexists. split; [lk; reflexivity|]. pcbn. split; [done|].
        eapply sleepersb_cons_intro; [kcbn; lk; reflexivity| |].
        -- pcbn. rewrite Hkn, ?Hkx, to_int_small; lia.
        -- pcbn. rewrite <- Hs. apply sleepersb_ext. intros z Hz. kcbn.
           assert (z <> n) by (intros ->; by apply (NoDup_cons_1_1 _ _ Hnd')).
           assert (z <> x) by (intros ->; apply Hxl; by right).
           assert (z <> p) by (intros ->; apply Hpl; right; by right).
           lk. done.
      * intros z Hzp Hzl.
        assert (z <> x) by (intros ->; apply Hzl; left).
        assert (z <> n) by (intros ->; apply Hzl; right; left). lk. done.
      * lk. done.
      * done.
      * done.
      * reflexivity.
      * intros z. destruct (decide (z = x)) as [->|Hzx]; lk; [by rewrite Hx|].
        destruct (decide (z = n)) as [->|Hzn]; lk; [by rewrite Hn|].
        destruct (decide (z = p)) as [->|Hzp]; lk; [by rewrite Hp|done].
  - cbn [app] in *. destruct fuel as [|fuel]; [cbn in Hf; lia|].
    apply sleepersb_cons in Hs as (Hnp & pcy & Hy & Hky & Hs).
    apply ascendingb_cons in Ha as [Hs' Ha]. unfold INT_MAX in Hs'.
    pose proof (NoDup_cons_1_1 _ _ Hnd) as Hyl.
    pose proof (NoDup_cons_1_2 _ _ Hnd) as Hnd'.
    assert (Hyx : y <> x).
    { intros ->. apply Hyl. apply fst_elem_mid. }
    assert (Hpy : p <> y) by (intros ->; apply Hpl; left).
    cbn [deltalist.delta_remove_loop]. rewrite Hnp. cbn [ptr_eqb].
    apply Nat.eqb_neq in Hyx as Hyx'. rewrite Hyx'.
    rewrite (bind_ok _ _ _ _ _ (rd_ok k y pcy Hy)). rewrite Hky.
    replace (to_int (base + (s - base))) with s by (rewrite to_int_small; lia).
    destruct (IH k fuel y pcy s Hy Hs Ha ltac:(unfold INT_MAX; lia) Hnd' Hyl
                ltac:(cbn in Hf; lia))
      as (k' & E & (pcy' & Hy' & Ey & Hs2) & Ho & Hnx & Hh & Hsz & Hout & Hun).
    exists k'. split; [done|].
    assert (Hp' : K.pcbs k' !! p = Some pcp).
    { rewrite Ho; [done|done|]. intros Hin. apply Hpl. by right. }
    split_and!; try done.
    + exists pcp. split; [done|]. split; [done|]. rewrite Hnp.
      eapply sleepersb_cons_intro; [done| |done].
      rewrite <- Hky. exact (f_equal P.key Ey).
    + intros z Hzp Hzl. apply Ho.
      * intros ->. apply Hzl. left.
      * intros Hin. apply Hzl. by right.
Qed.

Lemma unkeyed_unlinked_of (o o' : option pcb_t) :
  unkeyed <$> o' = unkeyed <$> o ->
  unkeyed_unlinked <$> o' = unkeyed_unlinked <$> o.
Proof.
  intros E. destruct o' as [a'|], o as [a|]; try done.
  assert (E' : unkeyed a' = unkeyed a) by (cbn in E; congruence).
  cbn. f_equal. exact (f_equal (P.set_prev None) E').
Qed.

(** [poll] on a list of at least two sleepers: the head is returned with
    its links null and its [key] as it was, and the delay it had left is
    passed on to its successor. *)
Lemma poll_with_successor k x t n u l :
  sleepsb k ((x, t) :: (n, u) :: l) = true ->
  exists k' pcx',
    deltalist.poll k = Ok (Some x, k')
    /\ sleepsb k' ((n, u) :: l) = true
    /\ K.pcbs k' !! x = Some pcx'
    /\ P.next pcx' = None /\ P.prev pcx' = None /\ P.key pcx' = t
    /\ outside_sleep k' = outside_sleep k
    /\ (forall z, unkeyed_unlinked <$> K.pcbs k' !! z
                  = unkeyed_unlinked <$> K.pcbs k !! z)
    /\ (forall z, z <> x -> z <> n -> K.pcbs k' !! z = K.pcbs k !! z).
Proof.
  intros H. apply sleepsb_spec in H as (Hsz & Hmax & Hs & Ha & Hnd).
  unfold INT_MAX in Hmax. cbn [length] in Hsz.
  apply sleepersb_cons in Hs as (Hh & pcx & Hx & Hkx & Hs).
  apply sleepersb_cons in Hs as (Hnx & pcn & Hn & Hkn & Hs).
  apply ascendingb_cons in Ha as [Ht Ha].
  apply ascendingb_cons in Ha as [Hu Ha]. unfold INT_MAX in Ht, Hu.
  pose proof (NoDup_cons_1_1 _ _ Hnd) as Hxl.
  pose proof (NoDup_cons_1_2 _ _ Hnd) as Hnd'.
  assert (Hxn : n <> x) by (intros ->; apply Hxl; left).
  unfold deltalist.poll.
  rewrite (bind_ok _ _ _ _ _ (eq_refl : gets K.sleep_queue k = Ok (_, k))).
  destruct (Z.eqb_spec (D.size (K.sleep_queue k)) 0) as [|_]; [lia|]. cbv zeta.
  rewrite Hh.
  rewrite (bind_ok _ _ _ _ _ (rd_ok k x pcx Hx)).
  rewrite (bind_ok _ _ _ _ _ (mod_list_ok _ _)).
  erewrite bind_ok; [|apply rd_ok; kcbn; eassumption]. rewrite Hnx.
  rewrite bind_assoc.
  erewrite bind_ok; [|apply rd_ok; kcbn; eassumption].
  erewrite bind_ok; [|apply wr_ok; kcbn; eassumption].
  rewrite (bind_ok _ _ _ _ _ (dec_size_ok _)).
  erewrite bind_ok; [|apply wr_ok; kcbn; lk; eassumption].
  erewrite bind_ok; [|apply wr_ok; kcbn; lk; reflexivity].
  unfold ret. eexists _, _. split; [reflexivity|]. kcbn.
  split_and!; first [by (lk; reflexivity)|idtac].
  - apply sleepsb_intro; kcbn.
    + cbn [length]. rewrite wrap32_small; lia.
    + unfold INT_MAX. rewrite wrap32_small; lia.
    + eapply sleepersb_cons_intro; [kcbn; lk; reflexivity| |].
      * pcbn. rewrite Hkn, Hkx, to_int_small; lia.
      * pcbn. rewrite <- Hs. apply sleepersb_ext. intros z Hz. kcbn.
        assert (z <> n) by (intros ->; by apply (NoDup_cons_1_1 _ _ Hnd')).
        assert (z <> x) by (intros ->; apply Hxl; by right).
        lk. done.
    + cbn. rewrite Ha.
      destruct (Z.leb_spec 0 u), (Z.leb_spec u INT_MAX); try done;
        unfold INT_MAX in *; lia.
    + done.
  - pcbn. lia.
  - intros z. destruct (decide (z = x)) as [->|Hzx]; lk; [by rewrite Hx|].
    destruct (decide (z = n)) as [->|Hzn]; lk; [by rewrite Hn|done].
  - intros z Hzx Hzn. by lk.
Qed.

Lemma delta_remove_holds (k : kernel) (l1 : list (nat * Z)) (x : nat)
    (t : Z) (l2 : list (nat * Z)) :
  sleepsb k (l1 ++ (x, t) :: l2) = true ->
  (0 < length l1 + length l2)%nat ->
  exists k',
    deltalist.delta_remove (Some x) k = Ok (t, k')
    /\ sleepsb k' (l1 ++ l2) = true
    /\ P.next <$> K.pcbs k' !! x = Some None
    /\ outside_sleep k' = outside_sleep k
    /\ (forall z, unkeyed_unlinked <$> K.pcbs k' !! z
                  = unkeyed_unlinked <$> K.pcbs k !! z)
    /\ (forall z, z ∉ (l1 ++ (x, t) :: l2).*1 ->
                  K.pcbs k' !! z = K.pcbs k !! z).
Proof.
  intros H Hlen. unfold deltalist.delta_remove. cbn [is_null negb assert].
  rewrite (bind_ok _ _ _ _ _ eq_refl).
  rewrite (bind_ok _ _ _ _ _ (eq_refl : gets K.sleep_queue k = Ok (_, k))).
  pose proof H as H0.
  apply sleepsb_spec in H as (Hsz & Hmax & Hs & Ha & Hnd).
  unfold INT_MAX in Hmax. rewrite length_app in Hsz. cbn [length] in Hsz.
  destruct (Z.eqb_spec (D.size (K.sleep_queue k)) 0) as [|_]; [lia|].
  cbn [negb assert]. rewrite (bind_ok _ _ _ _ _ eq_refl).
  destruct l1 as [|[y s] l1].
  - (* [x] is the head *)
    cbn [app] in *. destruct l2 as [|[n u] l2]; [cbn in Hlen; lia|].
    destruct (poll_with_successor k x t n u l2 H0)
      as (k' & pcx' & E & Hs' & Hx' & Hnx & _ & Hkx & Hout & Hun & Hoth).
    apply sleepersb_cons in Hs as (-> & _). cbn [ptr_eqb]. rewrite Nat.eqb_refl.
    rewrite (bind_ok _ _ _ _ _ E).
    rewrite (bind_ok _ _ _ _ _ (rd_ok k' x pcx' Hx')). rewrite Hkx.
    exists k'. split; [done|]. split_and!; try done; [by rewrite Hx', <- Hnx|].
    intros z Hz. apply Hoth; intros ->; apply Hz; [left|right; left].
  - (* [x] is behind the head [y] *)
    cbn [app] in *. cbn [length] in Hsz.
    apply sleepersb_cons in Hs as (Hh & pcy & Hy & Hky & Hs).
    apply ascendingb_cons in Ha as [Hs' Ha].
    pose proof (NoDup_cons_1_1 _ _ Hnd) as Hyl.
    pose proof (NoDup_cons_1_2 _ _ Hnd) as Hnd'.
    assert (Hyx : y <> x) by (intros ->; apply Hyl; apply fst_elem_mid).
    rewrite Hh. cbn [ptr_eqb]. apply Nat.eqb_neq in Hyx as Hyx'. rewrite Hyx'.
    rewrite (bind_ok _ _ _ _ _ (rd_ok k y pcy Hy)). rewrite Hky, Z.sub_0_r.
    assert (Hb : 0 <= s <= INT_MAX) by done.
    assert (Hf : (length l1 < S (Z.to_nat (D.size (K.sleep_queue k))))%nat)
      by lia.
    destruct (delta_remove_loop_spec x t l2 l1 k
                (S (Z.to_nat (D.size (K.sleep_queue k)))) y pcy s Hy Hs Ha
                Hb Hnd' Hyl Hf)
      as (k' & E & (pcy' & Hy' & Ey & Hs2) & Ho & Hnx & Hhd & Hsz' & Hout & Hun).
    exists k'. split; [done|]. split_and!; try done.
    + apply sleepsb_intro.
      * rewrite Hsz'. cbn [app length]. rewrite length_app, wrap32_small; lia.
      * unfold INT_MAX. rewrite Hsz', wrap32_small; lia.
      * rewrite Hhd, Hh. eapply sleepersb_cons_intro; [done| |done].
        rewrite <- Hky. exact (f_equal P.key Ey).
      * change ((y, s) :: l1 ++ l2) with (((y, s) :: l1) ++ l2).
        apply (ascendingb_remove ((y, s) :: l1) x t l2). cbn [app]. cbn.
        rewrite Ha. destruct (Z.leb_spec 0 s), (Z.leb_spec s INT_MAX); try done; lia.
      * change (NoDup (y :: (l1 ++ l2).*1)).
        change (y ∉ (l1 ++ (x, t) :: l2).*1) in Hyl.
        change (NoDup ((l1 ++ (x, t) :: l2).*1)) in Hnd'.
        rewrite fmap_app in *. rewrite fmap_cons in Hyl, Hnd'.
        apply NoDup_cons_2.
        -- intros Hin. apply Hyl. apply elem_of_app in Hin as [?|?];
             apply elem_of_app; [by left|right; by right].
        -- apply list.NoDup_app in Hnd' as (M1 & M2 & M3). apply list.NoDup_app.
           split_and!; [done| |by apply NoDup_cons_1_2 in M3].
           intros z Hz Hz'. apply (M2 z Hz). by right.
    + intros z. by apply unkeyed_unlinked_of.
    + intros z Hz. apply Ho; [intros ->; apply Hz; left|].
      intros Hz'. apply Hz. by right.
Qed.

(** X6. [delta_remove] takes a sleeper out and reports when it was due:
    when the list holds [l1], then [x] due in [t] ticks, then [l2], and [x]
    is not the only sleeper, [delta_remove] returns [t], the list holds
    [l1] followed by [l2] with every sleeper due when it was, and [x] has
    no successor.  Only [key] and link fields and the list itself are
    written. *)
Theorem delta_remove_reports_time (k : kernel) (l1 : list (nat * Z)) (x : nat)
    (t : Z) (l2 : list (nat * Z)) :
  sleepsb k (l1 ++ (x, t) :: l2) = true ->
  (0 < length l1 + length l2)%nat ->
  exists k',
    deltalist.delta_remove (Some x) k = Ok (t, k')
    /\ sleepsb k' (l1 ++ l2) = true
    /\ P.next <$> K.pcbs k' !! x = Some None
    /\ outside_sleep k' = outside_sleep k
    /\ (forall z, unkeyed_unlinked <$> K.pcbs k' !! z
                  = unkeyed_unlinked <$> K.pcbs k !! z).
Proof.
  intros H Hlen.
  destruct (delta_remove_holds k l1 x t l2 H Hlen) as (k' & ? & ? & ? & ? & ? & _).
  by exists k'.
Qed.

Lemma delta_remove_reports_time_witness :
  exists k',
    deltalist.delta_remove (Some 1%nat) k_both_sleep = Ok (5, k')
    /\ sleepsb k' ([(0%nat, 3)] ++ []) = true
    /\ P.next <$> K.pcbs k' !! 1%nat = Some None
    /\ outside_sleep k' = outside_sleep k_both_sleep
    /\ (forall z, unkeyed_unlinked <$> K.pcbs k' !! z
                  = unkeyed_unlinked <$> K.pcbs k_both_sleep !! z).
Proof.
  apply (delta_remove_reports_time k_both_sleep [(0%nat, 3)] 1 5 []).
  - vm_compute. reflexivity.
  - cbn. lia.
Defined.

(** ** disp.c: the scheduler *)

(** A write that leaves a PCB's links and blocked queues alone leaves
    every queue as it is. *)
Lemma wr_field_view k y pc f :
  K.pcbs k !! y = Some pc ->
  P.blocked_queues (f pc) = P.blocked_queues pc ->
  P.prev (f pc) = P.prev pc -> P.next (f pc) = P.next pc ->
  exists k',
    wr (Some y) f k = Ok (tt, k')
    /\ (forall r, queue_at k' r = queue_at k r)
    /\ length (K.pcbs k') = length (K.pcbs k)
    /\ (forall z, links k' z = links k z)
    /\ K.pcbs k' !! y = Some (f pc)
    /\ (forall z, z <> y -> K.pcbs k' !! z = K.pcbs k !! z)
    /\ outside_queues k' = outside_queues k.
Proof.
  intros Hy Hbq Hp Hn. rewrite (wr_ok k y pc f Hy). eexists.
  split; [reflexivity|].
  assert (Hlt : (y < length (K.pcbs k))%nat) by (by eapply lookup_lt_Some).
  split_and!.
  - intros [i| | |[p|] b]; try done. cbn.
    destruct (decide (p = y)) as [->|Hne].
    + by rewrite list_lookup_insert_eq, Hy, Hbq.
    + by rewrite list_lookup_insert_ne.
  - cbn. by rewrite length_insert.
  - intros z. unfold links. cbn. destruct (decide (z = y)) as [->|Hne].
    + rewrite list_lookup_insert_eq, Hy by done. cbn. by rewrite Hp, Hn.
    + by rewrite list_lookup_insert_ne.
  - cbn. by rewrite list_lookup_insert_eq.
  - intros z Hz. cbn. by rewrite list_lookup_insert_ne.
  - reflexivity.
Qed.

Lemma keeps_bind {A B} (m : M A) (f : A -> M B) :
  keeps_outside m -> (forall a, keeps_outside (f a)) -> keeps_outside (bind m f).
Proof.
  intros Hm Hf k b k' E. unfold bind in E.
  destruct (m k) as [[a k1]|] eqn:E1; [|done].
  rewrite (Hf a _ _ _ E). by eapply Hm.
Qed.

Lemma keeps_ret {A} (a : A) : keeps_outside (ret a).
Proof. intros k b k' E. by injection E as _ <-. Qed.

Lemma keeps_fail {A} e : keeps_outside (@fail A e).
Proof. by intros k b k' E. Qed.

Lemma keeps_assert b : keeps_outside (assert b).
Proof. destruct b; [apply keeps_ret|apply keeps_fail]. Qed.

Lemma keeps_rd p : keeps_outside (rd p).
Proof.
  intros k a k' E. unfold rd in E. destruct p as [i|]; [|done].
  destruct (K.pcbs k !! i); [|done]. by injection E as _ <-.
Qed.

Lemma keeps_wr p f : keeps_outside (wr p f).
Proof.
  intros k a k' E. unfold wr in E. destruct p as [i|]; [|done].
  destruct (K.pcbs k !! i); [|done]. by injection E as _ <-.
Qed.

Lemma keeps_getq r : keeps_outside (getq r).
Proof.
  destruct r as [i| | |p b]; cbn [getq].
  - intros k a k' E. destruct (K.ready_queues k !! i); [|done].
    by injection E as _ <-.
  - intros k a k' E. by injection E as _ <-.
  - intros k a k' E. by injection E as _ <-.
  - apply keeps_bind; [apply keeps_rd|]. intros pc.
    destruct (P.blocked_queues pc !! b); [apply keeps_ret|apply keeps_fail].
Qed.

Lemma keeps_modq r f : keeps_outside (modq r f).
Proof.
  destruct r as [i| | |p b]; cbn [modq].
  - intros k a k' E. destruct (K.ready_queues k !! i); [|done].
    by injection E as _ <-.
  - intros k a k' E. by injection E as _ <-.
  - intros k a k' E. by injection E as _ <-.
  - apply keeps_bind; [apply keeps_rd|]. intros pc.
    destruct (P.blocked_queues pc !! b); [apply keeps_wr|apply keeps_fail].
Qed.

Ltac keeps_step :=
  lazymatch goal with
  | |- keeps_outside (bind _ _) => apply keeps_bind; [|intros ?]
  | |- keeps_outside (ret _) => apply keeps_ret
  | |- keeps_outside (fail _) => apply keeps_fail
  | |- keeps_outside (assert _) => apply keeps_assert
  | |- keeps_outside (rd _) => apply keeps_rd
  | |- keeps_outside (wr _ _) => apply keeps_wr
  | |- keeps_outside (getq _) => apply keeps_getq
  | |- keeps_outside (modq _ _) => apply keeps_modq
  | |- keeps_outside (if ?b then _ else _) => destruct b
  | |- keeps_outside (match ?x with _ => _ end) => destruct x
  end.

Lemma keeps_enqueue r p : keeps_outside (queue.enqueue r p).
Proof. unfold queue.enqueue. repeat keeps_step. Qed.

Lemma keeps_dequeue r : keeps_outside (queue.dequeue r).
Proof. unfold queue.dequeue. repeat keeps_step. Qed.

Lemma keeps_remove r p : keeps_outside (queue.remove r p).
Proof. unfold queue.remove. repeat keeps_step. Qed.

Lemma array_index_ok n i k :
  (i < n)%nat -> array_index (Z.of_nat n) (Z.of_nat i) k = Ok (i, k).
Proof.
  intros H. unfold array_index.
  destruct (Z.leb_spec 0 (Z.of_nat i)); [|lia].
  destruct (Z.ltb_spec (Z.of_nat i) (Z.of_nat n)); [|lia].
  cbn. by rewrite Nat2Z.id.
Qed.

(** [ready] appends a process to the ready queue of its priority. *)
Lemma ready_holds k x pc i l :
  K.pcbs k !! x = Some pc -> P.pid pc <> IDLE_PROC_PID ->
  P.priority pc = Z.of_nat i -> (i < 4)%nat ->
  holdsb k (ReadyQ i) l = true -> Z.of_nat (length l) < INT_MAX ->
  memb x l = false ->
  exists k',
    disp.ready (Some x) k = Ok (tt, k')
    /\ holdsb k' (ReadyQ i) (l ++ [x]) = true
    /\ (forall r' l',
          same_queue (ReadyQ i) r' = false -> holdsb k r' l' = true ->
          memb x l' = false -> disjointb l l' = true ->
          holdsb k' r' l' = true)
    /\ (forall z, z <> x -> z ∉ l -> links k' z = links k z)
    /\ payload <$> K.pcbs k' !! x = Some (made_ready (payload pc))
    /\ (forall z, z <> x ->
          payload <$> K.pcbs k' !! z = payload <$> K.pcbs k !! z)
    /\ outside_queues k' = outside_queues k.
Proof.
  intros Hx Hpid Hpr Hi Hq Hlen Hxl. unfold disp.ready.
  rewrite (bind_ok _ _ _ _ _ (rd_ok k x pc Hx)).
  destruct (Z.eqb_spec (P.pid pc) IDLE_PROC_PID) as [|_]; [done|].
  cbn [negb].
  destruct (wr_field_view k x pc (P.set_blocked_on None) Hx eq_refl eq_refl eq_refl)
    as (k1 & E1 & Q1 & L1 & K1 & X1 & O1 & U1).
  rewrite (bind_ok _ _ _ _ _ E1).
  destruct (wr_field_view k1 x _ (P.set_blocked_queue NONE) X1 eq_refl eq_refl
              eq_refl) as (k2 & E2 & Q2 & L2 & K2 & X2 & O2 & U2).
  rewrite (bind_ok _ _ _ _ _ E2).
  destruct (wr_field_view k2 x _ (P.set_state READY) X2 eq_refl eq_refl eq_refl)
    as (k3 & E3 & Q3 & L3 & K3 & X3 & O3 & U3).
  rewrite (bind_ok _ _ _ _ _ E3).
  rewrite (bind_ok _ _ _ _ _ (rd_ok k3 x _ X3)). pcbn. rewrite Hpr.
  change NUM_PRIORITIES with (Z.of_nat 4).
  rewrite (bind_ok _ _ _ _ _ (array_index_ok 4 i k3 Hi)).
  assert (S3 : forall r l', holdsb k3 r l' = holdsb k r l').
  { intros r l'. rewrite (holdsb_stable k2 k3), (holdsb_stable k1 k2).
    - by apply holdsb_stable.
    - done.
    - intros; apply K2.
    - done.
    - intros; apply K3. }
  assert (Hq3 : holdsb k3 (ReadyQ i) l = true) by (by rewrite S3).
  assert (Hlt : (x < length (K.pcbs k3))%nat).
  { rewrite L3, L2, L1. by eapply lookup_lt_Some. }
  destruct (enqueue_holds k3 (ReadyQ i) l x Hq3 Hlen Hlt Hxl)
    as (k' & E & H1 & H2 & H4 & H3).
  exists k'. split; [done|]. split_and!.
  - done.
  - intros r' l' Hr Hh Hm Hd. apply H2; try done. by rewrite S3.
  - intros z Hzx Hzl. by rewrite H4, K3, K2, K1.
  - rewrite H3, X3. done.
  - intros z Hz. by rewrite H3, O3, O2, O1.
  - rewrite (keeps_enqueue _ _ _ _ _ E). by rewrite U3, U2.
Qed.

(** The scan of [next] passes the empty queues. *)
Lemma next_scan_skips k i p k1 : forall n j,
  (j <= i)%nat -> (i < j + n)%nat ->
  (forall j', (j <= j' < i)%nat -> holdsb k (ReadyQ j') [] = true) ->
  queue.is_empty (ReadyQ i) k = Ok (false, k) ->
  queue.dequeue (ReadyQ i) k = Ok (Some p, k1) ->
  disp.next_scan n j k = Ok (Some p, k1).
Proof.
  induction n as [|n IH]; intros j Hj Hn He Hne Hd; [lia|].
  cbn [disp.next_scan]. destruct (decide (j = i)) as [->|Hji].
  - rewrite (bind_ok _ _ _ _ _ Hne). cbn [negb].
    by rewrite (bind_ok _ _ _ _ _ Hd).
  - assert (Hej : holdsb k (ReadyQ j) [] = true) by (apply He; lia).
    destruct (observers_holds k (ReadyQ j) [] Hej) as (_ & E & _).
    rewrite (bind_ok _ _ _ _ _ E). cbn [negb].
    rewrite (bind_ok _ _ _ _ _ (eq_refl : ret (None : pcb_ptr) k = Ok (None, k))).
    apply IH; try done; try lia. intros j' Hj'. apply He. lia.
Qed.

Lemma next_scan_none k : forall n j,
  (forall j', (j <= j' < j + n)%nat -> holdsb k (ReadyQ j') [] = true) ->
  disp.next_scan n j k = Ok (None, k).
Proof.
  induction n as [|n IH]; intros j He; [done|]. cbn [disp.next_scan].
  assert (Hej : holdsb k (ReadyQ j) [] = true) by (apply He; lia).
  destruct (observers_holds k (ReadyQ j) [] Hej) as (_ & E & _).
  rewrite (bind_ok _ _ _ _ _ E). cbn [negb].
  rewrite (bind_ok _ _ _ _ _ (eq_refl : ret (None : pcb_ptr) k = Ok (None, k))).
  apply IH. intros j' Hj'. apply He. lia.
Qed.

(** [next] takes the head of the first ready queue that holds a process. *)
Lemma next_holds k i x l :
  (i < 4)%nat ->
  (forall j, (j < i)%nat -> holdsb k (ReadyQ j) [] = true) ->
  holdsb k (ReadyQ i) (x :: l) = true ->
  exists k' pc,
    disp.next k = Ok (Some x, k')
    /\ holdsb k' (ReadyQ i) l = true
    /\ (forall r' l',
          same_queue (ReadyQ i) r' = false -> holdsb k r' l' = true ->
          disjointb (x :: l) l' = true -> holdsb k' r' l' = true)
    /\ links k' x = Some (None, None)
    /\ K.pcbs k !! x = Some pc
    /\ payload <$> K.pcbs k' !! x = Some (P.set_state RUNNING (payload pc))
    /\ (forall z, z <> x ->
          payload <$> K.pcbs k' !! z = payload <$> K.pcbs k !! z)
    /\ outside_queues k' = outside_queues k.
Proof.
  intros Hi He Hq. unfold disp.next.
  destruct (observers_holds k (ReadyQ i) (x :: l) Hq) as (_ & Hne & _).
  pose proof (dequeue_holds k (ReadyQ i) (x :: l) Hq)
    as (k1 & E1 & H1 & Lx & F1 & P1).
  rewrite (bind_ok _ _ _ _ _
             (next_scan_skips k i x k1 4 0 ltac:(lia) ltac:(lia)
                ltac:(intros; apply He; lia) Hne E1)).
  cbn [is_null].
  destruct (links_Some _ _ _ _ Lx) as (pc1 & X1 & Hp1 & Hn1).
  destruct (wr_field_view k1 x pc1 (P.set_state RUNNING) X1 eq_refl eq_refl
              eq_refl) as (k' & E & Q' & L' & K' & X' & O' & U').
  rewrite (bind_ok _ _ _ _ _ E).
  assert (Hpx : exists pc, K.pcbs k !! x = Some pc /\ payload pc1 = payload pc).
  { specialize (P1 x). rewrite X1 in P1. destruct (K.pcbs k !! x) as [pc|];
      [|done]. exists pc. split; [done|]. cbn in P1. congruence. }
  destruct Hpx as (pc & Hpc & Hpay).
  exists k', pc. split; [done|]. split_and!.
  - rewrite (holdsb_stable k1 k'); [done|done|]. intros; apply K'.
  - intros r' l' Hr Hh Hd. rewrite (holdsb_stable k1 k'); [|done|intros; apply K'].
    by apply F1.
  - by rewrite K'.
  - done.
  - rewrite X'. cbn. f_equal. rewrite <- Hpay. done.
  - intros z Hz. by rewrite O', P1.
  - rewrite U'. by apply (keeps_dequeue _ _ _ _ E1).
Qed.

Lemma payload_state (o : option pcb_t) (p : pcb_t) :
  payload <$> o = Some p -> P.state <$> o = Some (P.state p).
Proof. destruct o as [pc|]; [|done]. cbn. intros E. by injection E as <-. Qed.

(** X7. [ready] queues a process by its priority: a process that is not the
    idle process, has priority [i] and is on no ready queue is appended to
    ready queue [i], is [READY] and blocked on nothing; every other queue
    that shares no PCB with that queue and does not contain the process
    holds what it held, the links of the PCBs outside that queue stay as
    they are, and nothing else changes. *)
Theorem ready_appends_by_priority (k : kernel) (x : nat) (pc : pcb_t) (i : nat)
    (l : list nat) :
  K.pcbs k !! x = Some pc -> P.pid pc <> IDLE_PROC_PID ->
  P.priority pc = Z.of_nat i -> (i < 4)%nat ->
  holdsb k (ReadyQ i) l = true -> Z.of_nat (length l) < INT_MAX ->
  memb x l = false ->
  exists k',
    disp.ready (Some x) k = Ok (tt, k')
    /\ holdsb k' (ReadyQ i) (l ++ [x]) = true
    /\ (forall r' l',
          same_queue (ReadyQ i) r' = false -> holdsb k r' l' = true ->
          memb x l' = false -> disjointb l l' = true ->
          holdsb k' r' l' = true)
    /\ (forall z, z <> x -> z ∉ l -> links k' z = links k z)
    /\ payload <$> K.pcbs k' !! x = Some (made_ready (payload pc))
    /\ (forall z, z <> x ->
          payload <$> K.pcbs k' !! z = payload <$> K.pcbs k !! z)
    /\ outside_queues k' = outside_queues k.
Proof. exact (ready_holds k x pc i l). Qed.

Lemma ready_appends_by_priority_witness :
  exists k',
    disp.ready (Some 0%nat) k_two_procs = Ok (tt, k')
    /\ holdsb k' (ReadyQ 3) ([1%nat] ++ [0%nat]) = true
    /\ (forall r' l',
          same_queue (ReadyQ 3) r' = false -> holdsb k_two_procs r' l' = true ->
          memb 0 l' = false -> disjointb [1%nat] l' = true ->
          holdsb k' r' l' = true)
    /\ (forall z, z <> 0%nat -> z ∉ [1%nat] -> links k' z = links k_two_procs z)
    /\ payload <$> K.pcbs k' !! 0%nat
       = Some (made_ready (payload (default zero_pcb (K.pcbs k_two_procs !! 0%nat))))
    /\ (forall z, z <> 0%nat ->
          payload <$> K.pcbs k' !! z = payload <$> K.pcbs k_two_procs !! z)
    /\ outside_queues k' = outside_queues k_two_procs.
Proof.
  apply (ready_appends_by_priority k_two_procs 0
           (default zero_pcb (K.pcbs k_two_procs !! 0%nat)) 3 [1%nat]).
  - vm_compute. reflexivity.
  - vm_compute. lia.
  - vm_compute. reflexivity.
  - lia.
  - vm_compute. reflexivity.
  - vm_compute. reflexivity.
  - vm_compute. reflexivity.
Defined.

(** X8. [next] runs the head of the highest-priority ready queue that holds
    a process: when the ready queues before queue [i] are empty and queue
    [i] holds [x] followed by [l], [next] returns [x], marked [RUNNING] and
    with both links null, and queue [i] holds [l]; every other queue that
    shares no PCB with it holds what it held, and nothing else changes. *)
Theorem next_runs_highest_priority (k : kernel) (i : nat) (x : nat)
    (l : list nat) :
  (i < 4)%nat ->
  (forall j, (j < i)%nat -> holdsb k (ReadyQ j) [] = true) ->
  holdsb k (ReadyQ i) (x :: l) = true ->
  exists k' pc,
    disp.next k = Ok (Some x, k')
    /\ holdsb k' (ReadyQ i) l = true
    /\ (forall r' l',
          same_queue (ReadyQ i) r' = false -> holdsb k r' l' = true ->
          disjointb (x :: l) l' = true -> holdsb k' r' l' = true)
    /\ links k' x = Some (None, None)
    /\ K.pcbs k !! x = Some pc
    /\ payload <$> K.pcbs k' !! x = Some (P.set_state RUNNING (payload pc))
    /\ (forall z, z <> x ->
          payload <$> K.pcbs k' !! z = payload <$> K.pcbs k !! z)
    /\ outside_queues k' = outside_queues k.
Proof. exact (next_holds k i x l). Qed.

Lemma next_runs_highest_priority_witness :
  exists k' pc,
    disp.next k_two_procs = Ok (Some 1%nat, k')
    /\ holdsb k' (ReadyQ 3) [] = true
    /\ (forall r' l',
          same_queue (ReadyQ 3) r' = false -> holdsb k_two_procs r' l' = true ->
          disjointb [1%nat] l' = true -> holdsb k' r' l' = true)
    /\ links k' 1 = Some (None, None)
    /\ K.pcbs k_two_procs !! 1%nat = Some pc
    /\ payload <$> K.pcbs k' !! 1%nat = Some (P.set_state RUNNING (payload pc))
    /\ (forall z, z <> 1%nat ->
          payload <$> K.pcbs k' !! z = payload <$> K.pcbs k_two_procs !! z)
    /\ outside_queues k' = outside_queues k_two_procs.
Proof.
  apply (next_runs_highest_priority k_two_procs 3 1 []).
  - lia.
  - intros j Hj.
    destruct j as [|[|[|j]]]; [vm_compute; reflexivity..|lia].
  - vm_compute. reflexivity.
Defined.

(** X9. The idle process runs only when no process is ready: when the four
    ready queues are empty, [next] returns the idle process and marks it
    [RUNNING]; nothing else changes. *)
Theorem next_runs_idle_when_none_ready (k : kernel) (pc : pcb_t) :
  (forall j, (j < 4)%nat -> holdsb k (ReadyQ j) [] = true) ->
  K.pcbs k !! IDLE_SLOT = Some pc ->
  disp.next k
  = Ok (Some IDLE_SLOT,
        K.set_pcbs (<[IDLE_SLOT := P.set_state RUNNING pc]> (K.pcbs k)) k).
Proof.
  intros He Hpc. unfold disp.next.
  rewrite (bind_ok _ _ _ _ _
             (next_scan_none k 4 0 ltac:(intros; apply He; lia))).
  cbn [is_null]. rewrite (bind_ok _ _ _ _ _ (wr_ok k _ pc _ Hpc)). done.
Qed.

Lemma next_runs_idle_when_none_ready_witness :
  disp.next k_one_sleeper
  = Ok (Some IDLE_SLOT,
        K.set_pcbs (<[IDLE_SLOT := P.set_state RUNNING
                        (default zero_pcb (K.pcbs k_one_sleeper !! IDLE_SLOT))]>
                      (K.pcbs k_one_sleeper)) k_one_sleeper).
Proof.
  apply (next_runs_idle_when_none_ready k_one_sleeper).
  - intros j Hj.
    destruct j as [|[|[|[|j]]]]; [vm_compute; reflexivity..|lia].
  - vm_compute. reflexivity.
Defined.

(** X10. [yield] is round robin within a priority: when the current process
    [x] has priority [i], the ready queues before queue [i] are empty and
    queue [i] holds [l], the process that runs next is the first of [l]
    followed by [x], queue [i] holds the rest in this order, the new
    current process is [RUNNING] and [x], when another process runs, is
    [READY]. *)
Theorem yield_round_robin (k : kernel) (x : nat) (pc : pcb_t) (i : nat)
    (l : list nat) :
  K.current_proc k = Some x ->
  K.pcbs k !! x = Some pc -> P.pid pc <> IDLE_PROC_PID ->
  P.priority pc = Z.of_nat i -> (i < 4)%nat ->
  (forall j, (j < i)%nat -> holdsb k (ReadyQ j) [] = true) ->
  holdsb k (ReadyQ i) l = true -> Z.of_nat (length l) < INT_MAX ->
  memb x l = false ->
  exists k' y l',
    l ++ [x] = y :: l'
    /\ dispatcher.yield k = Ok (tt, k')
    /\ K.current_proc k' = Some y
    /\ holdsb k' (ReadyQ i) l' = true
    /\ P.state <$> K.pcbs k' !! y = Some RUNNING
    /\ (y <> x -> P.state <$> K.pcbs k' !! x = Some READY)
    /\ (forall z, z <> x -> z <> y ->
          payload <$> K.pcbs k' !! z = payload <$> K.pcbs k !! z).
Proof.
  intros Hc Hx Hpid Hpr Hi He Hq Hlen Hxl.
  destruct (ready_holds k x pc i l Hx Hpid Hpr Hi Hq Hlen Hxl)
    as (k1 & E1 & Q1 & F1 & _ & X1 & O1 & U1).
  assert (Hyl : exists y l', l ++ [x] = y :: l').
  { destruct l as [|a l]; [by exists x, []|by exists a, (l ++ [x])]. }
  destruct Hyl as (y & l' & Hyl). rewrite Hyl in Q1.
  assert (He1 : forall j, (j < i)%nat -> holdsb k1 (ReadyQ j) [] = true).
  { intros j Hj. apply F1; [|by apply He|done|].
    - cbn. apply Nat.eqb_neq. lia.
    - unfold disjointb. apply forallb_forall. by intros. }
  destruct (next_holds k1 i y l' Hi He1 Q1)
    as (k2 & pcy & E2 & Q2 & F2 & L2 & Y1 & Y2 & O2 & U2).
  exists (K.set_current_proc (Some y) k2), y, l'.
  split; [done|]. split_and!.
  - unfold dispatcher.yield, dispatcher.cur, dispatcher.set_cur.
    rewrite (bind_ok _ _ _ _ _ (eq_refl : gets K.current_proc k = Ok (_, k))).
    rewrite Hc, (bind_ok _ _ _ _ _ E1), (bind_ok _ _ _ _ _ E2). done.
  - done.
  - by rewrite (holdsb_stable k2).
  - kcbn. by rewrite (payload_state _ _ Y2).
  - intros Hne. kcbn.
    assert (E : payload <$> K.pcbs k2 !! x = Some (made_ready (payload pc)))
      by (by rewrite O2, X1).
    by rewrite (payload_state _ _ E).
  - intros z Hzx Hzy. kcbn. by rewrite O2, O1.
Qed.

Lemma yield_round_robin_witness :
  exists k' y l',
    [1%nat] ++ [0%nat] = y :: l'
    /\ dispatcher.yield k_two_procs = Ok (tt, k')
    /\ K.current_proc k' = Some y
    /\ holdsb k' (ReadyQ 3) l' = true
    /\ P.state <$> K.pcbs k' !! y = Some RUNNING
    /\ (y <> 0%nat -> P.state <$> K.pcbs k' !! 0%nat = Some READY)
    /\ (forall z, z <> 0%nat -> z <> y ->
          payload <$> K.pcbs k' !! z = payload <$> K.pcbs k_two_procs !! z).
Proof.
  apply (yield_round_robin k_two_procs 0
           (default zero_pcb (K.pcbs k_two_procs !! 0%nat)) 3 [1%nat]).
  - vm_compute. reflexivity.
  - vm_compute. reflexivity.
  - vm_compute. lia.
  - vm_compute. reflexivity.
  - lia.
  - intros j Hj.
    destruct j as [|[|[|j]]]; [vm_compute; reflexivity..|lia].
  - vm_compute. reflexivity.
  - vm_compute. reflexivity.
  - vm_compute. reflexivity.
Defined.

(** ** sleep.c *)

Lemma sleepersb_sooner k l : forall base first,
  sleepersb k (base - 1) first (sooner l) = sleepersb k base first l.
Proof.
  induction l as [|[x t] l IH]; intros base first; [done|].
  cbn [sooner fmap list_fmap sleepersb fst snd].
  destruct (K.pcbs k !! x) as [pc|]; [|done].
  fold (sooner l). rewrite IH.
  by replace (t - 1 - (base - 1)) with (t - base) by lia.
Qed.

Lemma ascendingb_sooner l : forall base,
  base <= INT_MAX -> 
  ascendingb base l = true -> ascendingb (base - 1) (sooner l) = true.
Proof.
  induction l as [|[x t] l IH]; intros base Hb H; [done|].
  apply ascendingb_cons in H as [Ht H].
  cbn [sooner fmap list_fmap ascendingb fst snd].
  fold (sooner l). rewrite (IH t) by (lia || done).
  destruct (Z.leb_spec (base - 1) (t - 1)), (Z.leb_spec (t - 1) INT_MAX);
    try done; lia.
Qed.

Lemma sooner_fst l : (sooner l).*1 = l.*1.
Proof. induction l as [|[x t] l IH]; [done|]. cbn. f_equal. exact IH. Qed.

Lemma sooner_length l : length (sooner l) = length l.
Proof. unfold sooner. by rewrite length_fmap. Qed.

(** The rounds of [tick] stop at a head that is not due. *)
Lemma tick_loop_not_due k fuel x pc :
  K.pcbs k !! x = Some pc -> 0 < P.key pc ->
  sleep.tick_loop (S fuel) (Some x) k = Ok (tt, k).
Proof.
  intros Hx Hk. cbn [sleep.tick_loop].
  rewrite (bind_ok _ _ _ _ _ (rd_ok k x pc Hx)).
  destruct (Z.leb_spec (P.key pc) 0); [lia|done].
Qed.

Lemma delta_peek_head k x t l :
  sleepsb k ((x, t) :: l) = true ->
  deltalist.delta_peek k = Ok (Some x, k).
Proof.
  intros H. apply sleepsb_spec in H as (Hsz & _ & Hs & _).
  apply sleepersb_cons in Hs as (Hh & _). unfold deltalist.delta_peek.
  rewrite (bind_ok _ _ _ _ _ (eq_refl : gets K.sleep_queue k = Ok (_, k))).
  cbn [length] in Hsz.
  destruct (Z.eqb_spec (D.size (K.sleep_queue k)) 0) as [|_]; [lia|].
  by rewrite Hh.
Qed.

(** The head of the list loses one tick. *)
Lemma tick_decrement k x t l :
  sleepsb k ((x, t) :: l) = true -> 1 <= t ->
  exists pc,
    K.pcbs k !! x = Some pc /\ P.key pc = t
    /\ sleepsb (K.set_pcbs (<[x := P.set_key (t - 1) pc]> (K.pcbs k)) k)
               (sooner ((x, t) :: l)) = true.
Proof.
  intros H Ht. apply sleepsb_spec in H as (Hsz & Hmax & Hs & Ha & Hnd).
  apply sleepersb_cons in Hs as (Hh & pc & Hx & Hkx & Hs).
  apply ascendingb_cons in Ha as [Ht' Ha].
  exists pc. split; [done|]. split; [lia|].
  apply sleepsb_intro; kcbn.
  - by rewrite sooner_length.
  - done.
  - rewrite Hh. cbn [sooner fmap list_fmap fst snd].
    fold (sooner l).
    eapply sleepersb_cons_intro; [kcbn; lk; reflexivity|pcbn; lia|]. pcbn.
    rewrite sleepersb_sooner, <- Hs. apply sleepersb_ext. intros y Hy. kcbn.
    assert (y <> x) by (intros ->; by apply (NoDup_cons_1_1 _ _ Hnd)).
    by lk.
  - change 0 with (1 - 1). apply ascendingb_sooner; [unfold INT_MAX; lia|].
    cbn. rewrite Ha.
    destruct (Z.leb_spec 1 t), (Z.leb_spec t INT_MAX); try done; lia.
  - by rewrite sooner_fst.
Qed.

(** X11. A tick at which nobody is due brings every wake-up one tick
    closer: when the first sleeper is due in [t] ticks, [t] more than one,
    [tick] returns, wakes nobody, and the list holds the same sleepers,
    each due one tick sooner.  Only the [key] of the first sleeper is
    written. *)
Theorem tick_brings_wakeups_closer (k : kernel) (x : nat) (t : Z)
    (l : list (nat * Z)) :
  sleepsb k ((x, t) :: l) = true -> 1 < t ->
  exists pc,
    K.pcbs k !! x = Some pc
    /\ sleep.tick k
       = Ok (tt, K.set_pcbs (<[x := P.set_key (P.key pc - 1) pc]> (K.pcbs k)) k)
    /\ sleepsb (K.set_pcbs (<[x := P.set_key (P.key pc - 1) pc]> (K.pcbs k)) k)
               (sooner ((x, t) :: l)) = true.
Proof.
  intros H Ht. destruct (tick_decrement k x t l H ltac:(lia)) as (pc & Hx & Hk & H').
  pose proof H as H0. apply sleepsb_spec in H0 as (_ & _ & _ & Ha & _).
  apply ascendingb_cons in Ha as [Ht' _]. unfold INT_MAX in Ht'.
  exists pc. split; [done|]. rewrite Hk. split; [|done].
  unfold sleep.tick. rewrite (bind_ok _ _ _ _ _ (delta_peek_head k x t l H)).
  rewrite (bind_ok _ _ _ _ _ (rd_ok k x pc Hx)).
  rewrite (bind_ok _ _ _ _ _ (wr_ok k x pc _ Hx)).
  rewrite Hk, to_int_small by lia.
  match goal with |- bind (gets _) _ ?k1 = _ =>
    rewrite (bind_ok _ _ _ _ _ (eq_refl : gets K.sleep_queue k1 = Ok (_, k1)))
  end.
  eapply tick_loop_not_due; [kcbn; lk; reflexivity|pcbn; lia].
Qed.

Lemma tick_brings_wakeups_closer_witness :
  exists pc,
    K.pcbs k_both_sleep !! 0%nat = Some pc
    /\ sleep.tick k_both_sleep
       = Ok (tt, K.set_pcbs (<[0%nat := P.set_key (P.key pc - 1) pc]>
                               (K.pcbs k_both_sleep)) k_both_sleep)
    /\ sleepsb (K.set_pcbs (<[0%nat := P.set_key (P.key pc - 1) pc]>
                              (K.pcbs k_both_sleep)) k_both_sleep)
               (sooner ((0%nat, 3) :: [(1%nat, 5)])) = true.
Proof.
  apply (tick_brings_wakeups_closer k_both_sleep 0 3 [(1%nat, 5)]).
  - vm_compute. reflexivity.
  - lia.
Defined.

Lemma sleepersb_ext_kn k k' l : forall base first,
  (forall y, y ∈ l.*1 ->
     (fun pc => (P.key pc, P.next pc)) <$> K.pcbs k' !! y
     = (fun pc => (P.key pc, P.next pc)) <$> K.pcbs k !! y) ->
  sleepersb k' base first l = sleepersb k base first l.
Proof.
  induction l as [|[x t] l IH]; intros base first H; [done|].
  cbn [sleepersb]. pose proof (H x ltac:(left)) as Hx.
  destruct (K.pcbs k' !! x) as [pc'|], (K.pcbs k !! x) as [pc|]; try done.
  cbn in Hx. injection Hx as -> ->. rewrite IH; [done|].
  intros y Hy. apply H. by right.
Qed.

Lemma key_next_of k k' y :
  links k' y = links k y ->
  payload <$> K.pcbs k' !! y = payload <$> K.pcbs k !! y ->
  (fun pc => (P.key pc, P.next pc)) <$> K.pcbs k' !! y
  = (fun pc => (P.key pc, P.next pc)) <$> K.pcbs k !! y.
Proof.
  unfold links. intros Hl Hp.
  destruct (K.pcbs k' !! y) as [pc'|], (K.pcbs k !! y) as [pc|]; try done.
  cbn in *. assert (El : P.next pc' = P.next pc) by congruence.
  assert (Ep : payload pc' = payload pc) by congruence.
  assert (Ek : P.key pc' = P.key pc) by exact (f_equal P.key Ep).
  by rewrite El, Ek.
Qed.

Lemma disjointb_elem l l' y :
  disjointb l l' = true -> y ∈ l' -> y ∉ l.
Proof. intros H Hy Hy'. by apply (disjointb_spec l l' y H Hy'). Qed.

(** X12. A tick wakes the sleeper that is due: when the first sleeper [x] is
    due at this tick and the second later, [tick] returns, [x] is [READY]
    with result code 0 at the end of the ready queue of its priority, and
    the list holds the other sleepers, each due one tick sooner. *)
Theorem tick_wakes_the_due_sleeper (k : kernel) (x n : nat) (u : Z)
    (l : list (nat * Z)) (pcx : pcb_t) (i : nat) (lq : list nat) :
  sleepsb k ((x, 1) :: (n, u) :: l) = true -> 1 < u ->
  K.pcbs k !! x = Some pcx -> P.pid pcx <> IDLE_PROC_PID ->
  P.priority pcx = Z.of_nat i -> (i < 4)%nat ->
  holdsb k (ReadyQ i) lq = true -> Z.of_nat (length lq) < INT_MAX ->
  disjointb lq (x :: n :: l.*1) = true ->
  exists k',
    sleep.tick k = Ok (tt, k')
    /\ sleepsb k' (sooner ((n, u) :: l)) = true
    /\ holdsb k' (ReadyQ i) (lq ++ [x]) = true
    /\ P.state <$> K.pcbs k' !! x = Some READY
    /\ P.result_code <$> K.pcbs k' !! x = Some 0.
Proof.
  intros H Hu Hx Hpid Hpr Hi Hq Hlen Hdj.
  destruct (tick_decrement k x 1 _ H ltac:(lia)) as (pc & Hx' & Hk & H1).
  assert (pc = pcx) as -> by congruence. clear Hx'.
  set (k1 := K.set_pcbs (<[x := P.set_key (1 - 1) pcx]> (K.pcbs k)) k) in *.
  assert (Hxq : x ∉ lq) by (eapply disjointb_elem; [done|left]).
  assert (Hnq : n ∉ lq) by (eapply disjointb_elem; [done|right; left]).
  assert (Hlq : forall y, y ∈ l.*1 -> y ∉ lq)
    by (intros y Hy; eapply disjointb_elem; [done|by do 2 right]).
  pose proof H as H0. apply sleepsb_spec in H0 as (Hsz & Hmax & _ & _ & Hnd).
  cbn [length] in Hsz. unfold INT_MAX in Hmax.
  cbn [sooner fmap list_fmap fst snd] in H1. fold (sooner l) in H1.
  destruct (poll_with_successor k1 x (1 - 1) n (u - 1) (sooner l) H1)
    as (k2 & pcx2 & E2 & H2 & X2 & Nx2 & Pv2 & Kx2 & Out2 & Un2 & Oth2).
  assert (Hpay2 : unkeyed_unlinked pcx2 = unkeyed_unlinked pcx).
  { specialize (Un2 x). rewrite X2 in Un2. unfold k1 in Un2. cbn [K.pcbs K.set_pcbs] in Un2.
    rewrite list_lookup_insert_eq in Un2 by (by eapply lookup_lt_Some).
    change (Some (unkeyed_unlinked pcx2) = Some (unkeyed_unlinked pcx)) in Un2.
    by apply (inj Some). }
  destruct (wr_field_view k2 x pcx2 (P.set_result_code 0) X2 eq_refl eq_refl
              eq_refl) as (k3 & E3 & Q3 & L3 & K3 & X3 & O3 & U3).
  assert (Hq3 : holdsb k3 (ReadyQ i) lq = true).
  { rewrite (holdsb_stable k2 k3), (holdsb_stable k1 k2), (holdsb_stable k k1);
      try done.
    - intros y Hy. unfold links, k1. kcbn.
      rewrite list_lookup_insert_ne; [done|]. by intros ->.
    - cbn [queue_at].
      by rewrite (f_equal K.ready_queues Out2
                  : K.ready_queues k2 = K.ready_queues k1).
    - intros y Hy. unfold links. rewrite Oth2; [done| |]; by intros ->. }
  destruct (ready_holds k3 x _ i lq X3) as (k4 & E4 & Q4 & _ & Lk4 & X4 & O4 & U4);
    try done.
  { pcbn. by rewrite (f_equal P.pid Hpay2 : P.pid pcx2 = P.pid pcx). }
  { pcbn.
    by rewrite (f_equal P.priority Hpay2 : P.priority pcx2 = P.priority pcx). }
  { by apply memb_false_iff. }
  assert (H4 : sleepsb k4 (sooner ((n, u) :: l)) = true).
  { apply sleepsb_spec in H2 as (Hsz2 & Hmax2 & Hs2 & Ha2 & Hnd2).
    assert (Hsq : K.sleep_queue k4 = K.sleep_queue k2).
    { by rewrite (f_equal K.sleep_queue U4 : K.sleep_queue k4 = K.sleep_queue k3),
         (f_equal K.sleep_queue U3 : K.sleep_queue k3 = K.sleep_queue k2). }
    apply sleepsb_intro; rewrite ?Hsq; try done.
    rewrite <- Hs2. apply sleepersb_ext_kn. intros y Hy.
    assert (Hy' : y ∈ n :: l.*1).
    { change (y ∈ n :: (sooner l).*1) in Hy. by rewrite sooner_fst in Hy. }
    assert (Hyx : y <> x).
    { intros ->. apply (NoDup_cons_1_1 _ _ Hnd). exact Hy'. }
    assert (Hyq : y ∉ lq).
    { apply elem_of_cons in Hy' as [->|Hy']; [done|]. by apply Hlq. }
    rewrite (key_next_of k3 k4 y (Lk4 y Hyx Hyq) (O4 y Hyx)).
    by rewrite O3. }
  exists k4. split_and!; try done.
  - unfold sleep.tick.
    rewrite (bind_ok _ _ _ _ _ (delta_peek_head k x _ _ H)).
    rewrite (bind_ok _ _ _ _ _ (rd_ok k x pcx Hx)).
    rewrite (bind_ok _ _ _ _ _ (wr_ok k x pcx _ Hx)).
    rewrite Hk, to_int_small by lia. fold k1.
    rewrite (bind_ok _ _ _ _ _ (eq_refl : gets K.sleep_queue k1 = Ok (_, k1))).
    change (K.sleep_queue k1) with (K.sleep_queue k). rewrite Hsz.
    rewrite Nat2Z.id. cbn [sleep.tick_loop].
    erewrite bind_ok; [|apply rd_ok; unfold k1; kcbn; lk; reflexivity]. pcbn.
    change (1 - 1 <=? 0) with true. cbv iota.
    rewrite (bind_ok _ _ _ _ _ E2), (bind_ok _ _ _ _ _ E3),
            (bind_ok _ _ _ _ _ E4).
    cbn [sooner fmap list_fmap fst snd] in H4. fold (sooner l) in H4.
    rewrite (bind_ok _ _ _ _ _ (delta_peek_head k4 n _ _ H4)).
    apply sleepsb_spec in H4 as (_ & _ & Hs4 & _).
    apply sleepersb_cons in Hs4 as (_ & pcn & Hn4 & Hkn & _).
    rewrite (bind_ok _ _ _ _ _ (rd_ok k4 n pcn Hn4)).
    destruct (Z.leb_spec (P.key pcn) 0); [lia|done].
  - by rewrite (payload_state _ _ X4).
  - destruct (K.pcbs k4 !! x) as [pc4|]; [|done]. cbn in X4 |- *.
    assert (E : payload pc4 = made_ready (payload (P.set_result_code 0 pcx2)))
      by congruence.
    f_equal. exact (f_equal P.result_code E).
Qed.

Lemma tick_wakes_the_due_sleeper_witness :
  exists k',
    sleep.tick k_p1_due = Ok (tt, k')
    /\ sleepsb k' (sooner ((1%nat, 3) :: [])) = true
    /\ holdsb k' (ReadyQ 3) ([] ++ [0%nat]) = true
    /\ P.state <$> K.pcbs k' !! 0%nat = Some READY
    /\ P.result_code <$> K.pcbs k' !! 0%nat = Some 0.
Proof.
  apply (tick_wakes_the_due_sleeper k_p1_due 0 1 3 []
           (default zero_pcb (K.pcbs k_p1_due !! 0%nat)) 3 []).
  - vm_compute. reflexivity.
  - lia.
  - vm_compute. reflexivity.
  - vm_compute. lia.
  - vm_compute. reflexivity.
  - lia.
  - vm_compute. reflexivity.
  - vm_compute. reflexivity.
  - vm_compute. reflexivity.
Defined.

(** X13. A sleep is rounded up to whole time slices: for a request of
    [milliseconds] (an [unsigned int]), the number of slices covers the
    request and exceeds it by less than one slice. *)
Theorem sleep_rounds_up_to_slices (milliseconds : Z) :
  0 <= milliseconds < 4294967296 ->
  milliseconds <= sleep.ms_to_time_slices milliseconds * TIME_SLICE
               < milliseconds + TIME_SLICE.
Proof.
  intros H. unfold sleep.ms_to_time_slices, TIME_SLICE.
  pose proof (Z.div_mod milliseconds 10 ltac:(lia)) as E.
  pose proof (Z.mod_pos_bound milliseconds 10 ltac:(lia)) as B.
  destruct (Z.eqb_spec (milliseconds mod 10) 0) as [Hz|Hz]; cbn [negb];
    rewrite to_int_small by lia; lia.
Qed.

Lemma sleep_rounds_up_to_slices_witness :
  25 <= sleep.ms_to_time_slices 25 * TIME_SLICE < 25 + TIME_SLICE.
Proof. apply (sleep_rounds_up_to_slices 25). lia. Defined.

(** * Sleeping, signals, PIDs and termination *)

(** ** Sleeping alone *)

Lemma ms_to_time_slices_ceil (ms : Z) :
  0 <= ms < 4294967296 ->
  sleep.ms_to_time_slices ms = (ms + 9) / 10.
Proof.
  intros H. unfold sleep.ms_to_time_slices. change TIME_SLICE with 10.
  pose proof (Z.div_mod ms 10 ltac:(lia)) as D.
  pose proof (Z.mod_pos_bound ms 10 ltac:(lia)) as B.
  assert (E : ms / 10 + (if negb (ms mod 10 =? 0) then 1 else 0) = (ms + 9) / 10).
  { destruct (Z.eqb_spec (ms mod 10) 0) as [E|E]; cbn [negb].
    - apply (Z.div_unique _ _ _ 9); lia.
    - apply (Z.div_unique _ _ _ (ms mod 10 - 1)); lia. }
  rewrite E. apply to_int_small.
  assert (0 <= (ms + 9) / 10) by (apply Z.div_pos; lia).
  assert ((ms + 9) / 10 < 429496731) by (apply Z.div_lt_upper_bound; lia).
  lia.
Qed.

Lemma sleep_on_empty_list k p pc ms :
  K.pcbs k !! p = Some pc ->
  P.next pc = None ->
  D.head (K.sleep_queue k) = None ->
  D.size (K.sleep_queue k) = 0 ->
  0 <= ms < 4294967296 ->
  sleep.sleep (Some p) ms k
  = Ok (tt, K.set_pcbs
              (<[p := P.set_blocked_queue SLEEP
                        (P.set_state BLOCKED (P.set_key ((ms + 9) / 10) pc))]>
                 (K.pcbs k))
              (K.set_sleep_queue (D.mk 1 (Some p)) k)).
Proof.
  intros Hp Hn Hh Hs Hms.
  assert (Lp : (p < length (K.pcbs k))%nat) by (by eapply lookup_lt_Some).
  assert (0 <= (ms + 9) / 10) by (apply Z.div_pos; lia).
  unfold sleep.sleep. rewrite ms_to_time_slices_ceil by done.
  unfold deltalist.insert, deltalist.inc_size, deltalist.mod_list.
  unfold bind, assert, gets, modify, ret, rd, wr. cbn [is_null negb].
  destruct (Z.leb_spec 0 ((ms + 9) / 10)); [|lia].
  rewrite Hp, Hn. cbn [is_null]. rewrite Hh. kcbn. rewrite Hp. kcbn.
  rewrite !list_lookup_insert_eq by (rewrite ?length_insert; done). kcbn.
  rewrite !list_lookup_insert_eq by (rewrite ?length_insert; done).
  rewrite !list_insert_insert_eq. rewrite Hs. reflexivity.
Qed.

(** One tick with a single sleeper whose remaining delay exceeds 1. *)
Lemma tick_sole_sleeper k p pc :
  D.head (K.sleep_queue k) = Some p ->
  D.size (K.sleep_queue k) = 1 ->
  K.pcbs k !! p = Some pc ->
  1 < P.key pc < 2147483648 ->
  sleep.tick k
  = Ok (tt, K.set_pcbs (<[p := P.set_key (P.key pc - 1) pc]> (K.pcbs k)) k).
Proof.
  intros Hh Hs Hp Hk.
  assert (Lp : (p < length (K.pcbs k))%nat) by (by eapply lookup_lt_Some).
  unfold sleep.tick, deltalist.delta_peek. msimpl.
  rewrite Hs. cbn [Z.eqb]. msimpl. rewrite Hs.
  cbn [sleep.tick_loop Z.to_nat Pos.to_nat Pos.iter_op Init.Nat.add]. msimpl.
  rewrite to_int_small by lia.
  destruct (Z.leb_spec (P.key pc - 1) 0); [lia|]. reflexivity.
Qed.

Lemma set_key_same pc : P.set_key (P.key pc - 0) pc = pc.
Proof. destruct pc. cbn. by rewrite Z.sub_0_r. Qed.

Lemma ticks_before_due (p : nat) (j : nat) : forall k pc,
  sole_sleeper p k pc ->
  Z.of_nat j < P.key pc < 2147483648 ->
  exists kj,
    ticks j k = Ok (tt, kj)
    /\ sole_sleeper p kj (P.set_key (P.key pc - Z.of_nat j) pc)
    /\ K.set_pcbs [] kj = K.set_pcbs [] k
    /\ (forall z, z <> p -> K.pcbs kj !! z = K.pcbs k !! z).
Proof.
  induction j as [|j IH]; intros k pc Hs Hk.
  - exists k. cbn [ticks Z.of_nat]. rewrite set_key_same.
    split; [done|]. split; [exact Hs|]. by split.
  - destruct Hs as (Hh & Hz & Hp & Hn & Hst & Hbq).
    assert (Lp : (p < length (K.pcbs k))%nat) by (by eapply lookup_lt_Some).
    cbn [ticks]. unfold bind at 1.
    rewrite (tick_sole_sleeper k p pc) by (done || lia).
    destruct (IH (K.set_pcbs (<[p := P.set_key (P.key pc - 1) pc]> (K.pcbs k)) k)
                 (P.set_key (P.key pc - 1) pc)) as (kj & E & Sj & F & O).
    { repeat split; try done. cbn. by apply list_lookup_insert_eq. }
    { cbn. lia. }
    exists kj. split; [done|]. split_and!.
    + assert (Epc : P.set_key (P.key pc - Z.of_nat (S j)) pc
                    = P.set_key (P.key (P.set_key (P.key pc - 1) pc) - Z.of_nat j)
                                (P.set_key (P.key pc - 1) pc)).
      { unfold P.set_key. cbn [P.key P.pid P.state P.prev P.next P.mem_start
          P.esp P.result_code P.priority P.blocked_on P.blocked_queue
          P.blocked_queues P.ipc_args P.cpuTime P.signal_table
          P.pending_signals P.last_signal_delivered P.fd_table].
        f_equal. lia. }
      rewrite Epc. exact Sj.
    + by rewrite F.
    + intros z Hz'. rewrite O by done. cbn. by rewrite list_lookup_insert_ne.
Qed.

(** The tick on which a single sleeper is due: [poll] takes the last node
    off the list and the sleeper is made ready with result code 0. *)
Lemma tick_sole_sleeper_due k p pc i lq :
  sole_sleeper p k pc ->
  P.key pc = 1 ->
  P.pid pc <> IDLE_PROC_PID ->
  P.priority pc = Z.of_nat i -> (i < 4)%nat ->
  holdsb k (ReadyQ i) lq = true -> Z.of_nat (length lq) < INT_MAX ->
  memb p lq = false ->
  exists k' pc',
    sleep.tick k = Ok (tt, k')
    /\ K.sleep_queue k' = D.mk 0 None
    /\ holdsb k' (ReadyQ i) (lq ++ [p]) = true
    /\ K.pcbs k' !! p = Some pc'
    /\ P.state pc' = READY
    /\ P.result_code pc' = 0
    /\ P.blocked_queue pc' = NONE
    /\ (forall z, z <> p ->
          payload <$> K.pcbs k' !! z = payload <$> K.pcbs k !! z).
Proof.
  intros (Hh & Hs & Hp & Hn & Hst & Hbq) Hk Hpid Hpr Hi Hq Hlen Hpl.
  assert (Lp : (p < length (K.pcbs k))%nat) by (by eapply lookup_lt_Some).
  apply memb_false_iff in Hpl as Hpl'.
  set (pc1 := P.set_key 0 pc).
  set (k1 := K.set_pcbs (<[p := pc1]> (K.pcbs k)) k).
  assert (Hp1 : K.pcbs k1 !! p = Some pc1)
    by (unfold k1; kcbn; by apply list_lookup_insert_eq).
  assert (E1 : deltalist.poll k1 = Ok (Some p, polled_last k1 p pc1)).
  { apply poll_last_node; try done. unfold k1. kcbn. rewrite Hs. lia. }
  set (k2 := polled_last k1 p pc1) in *.
  set (pc2 := P.set_next None (P.set_prev None pc1)).
  assert (Hp2 : K.pcbs k2 !! p = Some pc2).
  { unfold k2, polled_last. kcbn. apply list_lookup_insert_eq.
    unfold k1. kcbn. by rewrite length_insert. }
  destruct (wr_field_view k2 p pc2 (P.set_result_code 0) Hp2 eq_refl eq_refl
              eq_refl) as (k3 & E3 & Q3 & L3 & K3 & X3 & O3 & U3).
  assert (Hq3 : holdsb k3 (ReadyQ i) lq = true).
  { rewrite (holdsb_stable k2 k3), (holdsb_stable k k2); try done.
    intros y Hy. unfold links, k2, polled_last, k1. kcbn.
    rewrite !list_lookup_insert_ne; [done|by intros ->|by intros ->]. }
  destruct (ready_holds k3 p _ i lq X3) as (k4 & E4 & Q4 & _ & _ & X4 & O4 & U4);
    try done.
  assert (Hsq : K.sleep_queue k4 = D.mk 0 None).
  { transitivity (K.sleep_queue k3); [exact (f_equal K.sleep_queue U4)|].
    transitivity (K.sleep_queue k2); [exact (f_equal K.sleep_queue U3)|].
    unfold k2, polled_last, k1. kcbn. by rewrite Hs. }
  destruct (K.pcbs k4 !! p) as [pc4|] eqn:X4'; [|done].
  assert (Epay : payload pc4 = made_ready (payload (P.set_result_code 0 pc2)))
    by (apply (inj Some); exact X4).
  exists k4, pc4. split_and!; try done.
  - assert (Ep : deltalist.delta_peek k = Ok (Some p, k)).
    { unfold deltalist.delta_peek, bind, gets, ret. by rewrite Hs, Hh. }
    assert (Ep4 : deltalist.delta_peek k4 = Ok (None, k4)).
    { unfold deltalist.delta_peek, bind, gets, ret. by rewrite Hsq. }
    unfold sleep.tick. rewrite (bind_ok _ _ _ _ _ Ep).
    rewrite (bind_ok _ _ _ _ _ (rd_ok k p pc Hp)).
    rewrite (bind_ok _ _ _ _ _ (wr_ok k p pc _ Hp)).
    rewrite Hk. change (to_int (1 - 1)) with 0. fold pc1. fold k1.
    rewrite (bind_ok _ _ _ _ _ (eq_refl : gets K.sleep_queue k1 = Ok (_, k1))).
    change (K.sleep_queue k1) with (K.sleep_queue k). rewrite Hs.
    change (S (Z.to_nat 1)) with 2%nat. cbn [sleep.tick_loop].
    rewrite (bind_ok _ _ _ _ _ (rd_ok k1 p pc1 Hp1)).
    change (P.key pc1 <=? 0) with true. cbv iota.
    rewrite (bind_ok _ _ _ _ _ E1), (bind_ok _ _ _ _ _ E3),
            (bind_ok _ _ _ _ _ E4).
    by rewrite (bind_ok _ _ _ _ _ Ep4).
  - exact (f_equal P.state Epay).
  - exact (f_equal P.result_code Epay).
  - exact (f_equal P.blocked_queue Epay).
  - intros z Hz. rewrite O4, O3 by done. unfold k2, polled_last, k1. kcbn.
    by rewrite !list_lookup_insert_ne.
Qed.

Lemma ticks_app (a b : nat) k : ticks (a + b) k = (ticks a ;;; ticks b) k.
Proof.
  revert k. induction a as [|a IH]; intros k; [done|].
  cbn [Nat.add ticks]. unfold bind in *.
  destruct (sleep.tick k) as [[[] k1]|e]; [apply IH|done].
Qed.

(** C6: for [ms > 0] and no other sleeper, [sleep] inserts the caller
    with relative delay [t = ceil (ms / 10)] and marks it Blocked(Sleep);
    the caller stays blocked through the first [t - 1] ticks, its delay
    one less after each; on the [t]-th tick it is taken off the delta
    list, which is then empty, and appended, [READY] and with result code
    0, to the ready queue of its priority. *)
Theorem sleep_sole_sleeper_wakes_when_due (k : kernel) (p : nat) (pc : pcb_t)
    (ms : Z) (i : nat) (lq : list nat) :
  K.pcbs k !! p = Some pc ->
  P.next pc = None ->
  D.head (K.sleep_queue k) = None ->
  D.size (K.sleep_queue k) = 0 ->
  0 < ms < 4294967296 ->
  P.pid pc <> IDLE_PROC_PID ->
  P.priority pc = Z.of_nat i -> (i < 4)%nat ->
  holdsb k (ReadyQ i) lq = true -> Z.of_nat (length lq) < INT_MAX ->
  memb p lq = false ->
  let t := (ms + 9) / 10 in
  10 * (t - 1) < ms <= 10 * t
  /\ exists k1 pc1,
       sleep.sleep (Some p) ms k = Ok (tt, k1)
       /\ K.sleep_queue k1 = D.mk 1 (Some p)
       /\ K.pcbs k1 !! p = Some pc1
       /\ P.key pc1 = t
       /\ P.state pc1 = BLOCKED
       /\ P.blocked_queue pc1 = SLEEP
       /\ (forall j : nat, Z.of_nat j < t ->
             exists kj pcj,
               ticks j k1 = Ok (tt, kj)
               /\ K.sleep_queue kj = D.mk 1 (Some p)
               /\ K.pcbs kj !! p = Some pcj
               /\ P.state pcj = BLOCKED
               /\ P.blocked_queue pcj = SLEEP
               /\ P.key pcj = t - Z.of_nat j)
       /\ exists kt pct,
            ticks (Z.to_nat t) k1 = Ok (tt, kt)
            /\ K.sleep_queue kt = D.mk 0 None
            /\ holdsb kt (ReadyQ i) (lq ++ [p]) = true
            /\ K.pcbs kt !! p = Some pct
            /\ P.state pct = READY
            /\ P.blocked_queue pct = NONE
            /\ P.result_code pct = 0.
Proof.
  intros Hp Hn Hh Hs Hms Hpid Hpr Hi Hq Hlen Hpl t.
  assert (Lp : (p < length (K.pcbs k))%nat) by (by eapply lookup_lt_Some).
  apply memb_false_iff in Hpl as Hpl'.
  assert (Ht : 10 * (t - 1) < ms <= 10 * t).
  { unfold t. pose proof (Z.div_mod (ms + 9) 10 ltac:(lia)).
    pose proof (Z.mod_pos_bound (ms + 9) 10 ltac:(lia)). lia. }
  split; [exact Ht|].
  assert (Hb : 1 <= t < 2147483648) by lia.
  eexists _, _. split; [apply (sleep_on_empty_list k p pc ms); (done || lia)|].
  set (pc1 := P.set_blocked_queue SLEEP (P.set_state BLOCKED (P.set_key ((ms + 9) / 10) pc))).
  set (k1 := K.set_pcbs _ _).
  assert (S1 : sole_sleeper p k1 pc1).
  { unfold k1, pc1. repeat split; try done. cbn. by apply list_lookup_insert_eq. }
  assert (Q1 : holdsb k1 (ReadyQ i) lq = true).
  { rewrite (holdsb_stable k k1); try done.
    intros y Hy. unfold links, k1. kcbn.
    rewrite list_lookup_insert_ne; [done|by intros ->]. }
  split; [reflexivity|]. split; [apply S1|].
  split; [reflexivity|]. split; [reflexivity|]. split; [reflexivity|].
  split.
  - intros j Hj.
    destruct (ticks_before_due p j k1 pc1 S1) as (kj & E & Sj & _).
    { change (P.key pc1) with t. lia. }
    destruct Sj as (Sh & Sz & Sp & _ & Sst & Sbq).
    exists kj, (P.set_key (P.key pc1 - Z.of_nat j) pc1).
    split; [done|]. split_and!; try done.
    destruct (K.sleep_queue kj) as [sz hd]. cbn in Sh, Sz. by subst.
  - assert (Hj : Z.of_nat (Z.to_nat t - 1) < P.key pc1 < 2147483648)
      by (change (P.key pc1) with t; lia).
    destruct (ticks_before_due p (Z.to_nat t - 1) k1 pc1 S1 Hj)
      as (kj & E & Sj & F & O).
    set (pcj := P.set_key (P.key pc1 - Z.of_nat (Z.to_nat t - 1)) pc1) in *.
    assert (Qj : holdsb kj (ReadyQ i) lq = true).
    { rewrite (holdsb_stable k1 kj); try done.
      - cbn [queue_at].
        by rewrite (f_equal K.ready_queues F
                    : K.ready_queues kj = K.ready_queues k1).
      - intros y Hy. unfold links. rewrite O; [done|by intros ->]. }
    destruct (tick_sole_sleeper_due kj p pcj i lq Sj)
      as (kt & pct & Et & Hsq & Qt & Xt & St & Rt & Bt & _); try done.
    { unfold pcj. pcbn. change (P.key pc1) with t. lia. }
    exists kt, pct. split_and!; try done.
    replace (Z.to_nat t) with (Z.to_nat t - 1 + 1)%nat by lia.
    rewrite ticks_app, (bind_ok _ _ _ _ _ E).
    cbn [ticks]. by rewrite (bind_ok _ _ _ _ _ Et).
Qed.

Lemma sleep_sole_sleeper_wakes_when_due_witness :
  10 * (3 - 1) < 30 <= 10 * 3
  /\ exists k1 pc1,
       sleep.sleep (Some 0%nat) 30 k_boot = Ok (tt, k1)
       /\ K.sleep_queue k1 = D.mk 1 (Some 0%nat)
       /\ K.pcbs k1 !! 0%nat = Some pc1
       /\ P.key pc1 = 3
       /\ P.state pc1 = BLOCKED
       /\ P.blocked_queue pc1 = SLEEP
       /\ (forall j : nat, Z.of_nat j < 3 ->
             exists kj pcj,
               ticks j k1 = Ok (tt, kj)
               /\ K.sleep_queue kj = D.mk 1 (Some 0%nat)
               /\ K.pcbs kj !! 0%nat = Some pcj
               /\ P.state pcj = BLOCKED
               /\ P.blocked_queue pcj = SLEEP
               /\ P.key pcj = 3 - Z.of_nat j)
       /\ exists kt pct,
            ticks (Z.to_nat 3) k1 = Ok (tt, kt)
            /\ K.sleep_queue kt = D.mk 0 None
            /\ holdsb kt (ReadyQ 3) ([] ++ [0%nat]) = true
            /\ K.pcbs kt !! 0%nat = Some pct
            /\ P.state pct = READY
            /\ P.blocked_queue pct = NONE
            /\ P.result_code pct = 0.
Proof.
  apply (sleep_sole_sleeper_wakes_when_due k_boot 0 pc_root 30 3 []).
  - vm_compute. reflexivity.
  - vm_compute. reflexivity.
  - vm_compute. reflexivity.
  - vm_compute. reflexivity.
  - lia.
  - vm_compute. lia.
  - vm_compute. reflexivity.
  - lia.
  - vm_compute. reflexivity.
  - vm_compute. reflexivity.
  - vm_compute. reflexivity.
Defined.

(** The same through the dispatch loop: the root process, whose last
    system call returned 33, sleeps 30 ms while the idle process runs; it
    stays blocked through two timer interrupts, and the third wakes it
    with result code 0 and, the idle process giving way, lets it run. *)
Lemma sleep_30ms_third_tick_wakes :
  proc_view k_sleeps_30ms 0 = Some (33, BLOCKED, SLEEP, 33)
  /\ proc_view (round timer_event (round timer_event k_sleeps_30ms)) 0
     = Some (33, BLOCKED, SLEEP, 33)
  /\ result (dispatcher.dispatch_round timer_event)
       (round timer_event (round timer_event k_sleeps_30ms)) = Some tt
  /\ proc_view (round timer_event
                  (round timer_event (round timer_event k_sleeps_30ms))) 0
     = Some (33, RUNNING, NONE, 0)
  /\ K.sleep_queue (round timer_event
                      (round timer_event (round timer_event k_sleeps_30ms)))
     = D.mk 0 None
  /\ K.current_proc (round timer_event
                       (round timer_event (round timer_event k_sleeps_30ms)))
     = Some 0%nat.
Proof. vm_compute. repeat split. Qed.

(** ** Signals to blocked processes *)



Lemma disjointb_intro l l' :
  (forall y, y ∈ l -> y ∉ l') -> disjointb l l' = true.
Proof.
  intros H. unfold disjointb. apply forallb_forall. intros y Hy.
  apply negb_true_iff, memb_false_iff, H. by apply list_elem_of_In.
Qed.

Lemma disjointb_flip l l' : disjointb l l' = true -> disjointb l' l = true.
Proof.
  intros H. apply disjointb_intro. intros y Hy Hy'.
  by apply (disjointb_spec _ _ y H).
Qed.









(** The root process (pid 33) is the only sleeper, with 10 ticks left and
    a handler for signal 5, when P2 calls [syskill(33, 5)]: the call
    returns 0 to P2, the root process is [READY] with result code 100, the
    delta list is empty, and [poll] has added the 10 ticks to the word at
    [NULL + KEY_OFFSET]. *)
Lemma syskill_sole_sleeper_round :
  exists k',
    dispatcher.service_syskill k_kill_sleeper_entry = Ok (tt, k')
    /\ proc_view k' 0 = Some (33, READY, NONE, 100)
    /\ P.result_code <$> K.pcbs k' !! 1%nat = Some 0
    /\ K.sleep_queue k' = D.mk 0 None
    /\ K.ready_queues k' !! 3%nat = Some (Q.mk 1 (Some 0%nat) (Some 0%nat))
    /\ load32 (K.memory k_kill_sleeper_entry) (NULL + KEY_OFFSET) = 20
    /\ load32 (K.memory k') (NULL + KEY_OFFSET) = 30.
Proof. eexists. vm_compute. repeat split. Qed.

(** A signal whose handler is null is ignored, whatever the state of the
    target: [signal] returns 0 and the kernel state is unchanged. *)
Lemma signal_null_handler_ignored k p pc n :
  K.pcbs k !! p = Some pc ->
  0 <= n < SIGNAL_TABLE_SIZE ->
  P.signal_table pc !! Z.to_nat n = Some 0 ->
  signal.signal (Some p) n k = Ok (0, k).
Proof.
  intros Hp Hn Hh. unfold signal.signal. cbn [is_null negb].
  destruct (Z.leb_spec 0 n) as [_|]; [|lia].
  destruct (Z.ltb_spec n SIGNAL_TABLE_SIZE) as [_|]; [|lia]. cbn [andb].
  rewrite (bind_ok _ _ _ _ _ (rd_ok k p pc Hp)). by rewrite Hh.
Qed.

(** P1, P3 and P4 are blocked on P2 as sender, receiver and waiter. With
    a handler installed for signal 5, [signal] makes each of them ready
    with result code -666 and takes it off the queue of P2. *)
Lemma signal_to_blocked_sender_receiver_waiter :
  (let k := with_handler 0 5 24700 k_blocked_on_p2 in
   result (signal.signal (Some 0%nat) 5) k = Some 0
   /\ proc_view (run (signal.signal (Some 0%nat) 5) k) 0
      = Some (33, READY, NONE, -666)
   /\ blocked_queue_of (run (signal.signal (Some 0%nat) 5) k) 1 SENDER
      = Some (Q.mk 0 None None))
  /\ (let k := with_handler 2 5 24700 k_blocked_on_p2 in
      result (signal.signal (Some 2%nat) 5) k = Some 0
      /\ proc_view (run (signal.signal (Some 2%nat) 5) k) 2
         = Some (35, READY, NONE, -666)
      /\ blocked_queue_of (run (signal.signal (Some 2%nat) 5) k) 1 RECEIVER
         = Some (Q.mk 0 None None))
  /\ (let k := with_handler 3 5 24700 k_blocked_on_p2 in
      result (signal.signal (Some 3%nat) 5) k = Some 0
      /\ proc_view (run (signal.signal (Some 3%nat) 5) k) 3
         = Some (36, READY, NONE, -666)
      /\ blocked_queue_of (run (signal.signal (Some 3%nat) 5) k) 1 WAIT
         = Some (Q.mk 0 None None)).
Proof. vm_compute. repeat split. Qed.

(** ** The PID policy *)

Lemma bind_inv {A B} (m : M A) (f : A -> M B) k b k' :
  bind m f k = Ok (b, k') ->
  exists a k1, m k = Ok (a, k1) /\ f a k1 = Ok (b, k').
Proof.
  unfold bind. destruct (m k) as [[a k1]|e]; [|done]. eauto.
Qed.

Lemma same_pids_refl k : same_pids k k.
Proof. done. Qed.

Lemma same_pids_trans k1 k2 k3 :
  same_pids k1 k2 -> same_pids k2 k3 -> same_pids k1 k3.
Proof. unfold same_pids. congruence. Qed.

Lemma same_pids_same_pcbs k k' : K.pcbs k' = K.pcbs k -> same_pids k k'.
Proof. unfold same_pids. by intros ->. Qed.

Lemma same_pids_insert k i pc pc' :
  K.pcbs k !! i = Some pc ->
  P.pid pc' = P.pid pc ->
  same_pids k (K.set_pcbs (<[i := pc']> (K.pcbs k)) k).
Proof.
  intros Hi Hp. unfold same_pids. cbn.
  rewrite list_fmap_insert, Hp. apply list_insert_id.
  by rewrite list_lookup_fmap, Hi.
Qed.

Lemma same_pids_lookup k k' i :
  same_pids k k' -> P.pid <$> (K.pcbs k' !! i) = P.pid <$> (K.pcbs k !! i).
Proof. intros S. rewrite <- !list_lookup_fmap. by rewrite S. Qed.

Lemma same_pids_length k k' :
  same_pids k k' -> length (K.pcbs k') = length (K.pcbs k).
Proof.
  intros S. rewrite <- (length_fmap P.pid (K.pcbs k')), S. apply length_fmap.
Qed.

Lemma pid_policy_same_pids k k' :
  same_pids k k' -> pid_policy k -> pid_policy k'.
Proof.
  intros S (Hl & Hr & Hp).
  assert (L : forall i pc', K.pcbs k' !! i = Some pc' ->
            exists pc, K.pcbs k !! i = Some pc /\ P.pid pc = P.pid pc').
  { intros i pc' Hpc'. pose proof (same_pids_lookup k k' i S) as E.
    rewrite Hpc' in E. cbn in E.
    destruct (K.pcbs k !! i) as [pc|] eqn:E'; [|done]. cbn in E.
    injection E as E. eauto. }
  split; [by rewrite (same_pids_length k k')|]. split.
  - intros i pc' Hpc'. destruct (L i pc' Hpc') as (pc & Hpc & <-). eauto.
  - intros i pc' Hi Hpc'. destruct (L i pc' Hpc') as (pc & Hpc & <-). eauto.
Qed.

Lemma frames_pres {A} (m : M A) : frames m -> pres m.
Proof.
  intros F k a k' H E. eapply pid_policy_same_pids; [|done]. eauto.
Qed.

Lemma frames_ret {A} (a : A) : frames (ret a).
Proof. intros k b k' [= _ <-]. apply same_pids_refl. Qed.

Lemma frames_fail {A} e : frames (@fail A e).
Proof. intros k b k' E. done. Qed.

Lemma frames_bind {A B} (m : M A) (f : A -> M B) :
  frames m -> (forall a, frames (f a)) -> frames (bind m f).
Proof.
  intros Hm Hf k b k' E.
  apply bind_inv in E as (a & k1 & E1 & E2).
  eapply same_pids_trans; [exact (Hm _ _ _ E1)|exact (Hf _ _ _ _ E2)].
Qed.

Lemma pres_bind {A B} (m : M A) (f : A -> M B) :
  pres m -> (forall a, pres (f a)) -> pres (bind m f).
Proof.
  intros Hm Hf k b k' H E.
  apply bind_inv in E as (a & k1 & E1 & E2). eapply Hf; [|exact E2]. eauto.
Qed.

Lemma frames_gets {A} (f : kernel -> A) : frames (gets f).
Proof. intros k b k' [= _ <-]. apply same_pids_refl. Qed.

Lemma frames_assert b : frames (assert b).
Proof. destruct b; [apply frames_ret|apply frames_fail]. Qed.

Lemma frames_modify f : (forall k, K.pcbs (f k) = K.pcbs k) -> frames (modify f).
Proof. intros Hf k b k' [= _ <-]. by apply same_pids_same_pcbs. Qed.

Lemma frames_rd p : frames (rd p).
Proof.
  intros k b k' E. unfold rd in E. destruct p as [i|]; [|done].
  destruct (K.pcbs k !! i); [|done]. injection E as _ <-.
  apply same_pids_refl.
Qed.

Lemma frames_wr p f : (forall pc, P.pid (f pc) = P.pid pc) -> frames (wr p f).
Proof.
  intros Hf k b k' E. unfold wr in E. destruct p as [i|]; [|done].
  destruct (K.pcbs k !! i) as [pc|] eqn:Hi; [|done]. injection E as _ <-.
  apply (same_pids_insert k i pc); [done|]. apply Hf.
Qed.

Lemma frames_getq r : frames (getq r).
Proof.
  destruct r as [i| | |p b]; cbn [getq].
  - intros k a k' E. destruct (K.ready_queues k !! i); [|done].
    injection E as _ <-. apply same_pids_refl.
  - apply frames_gets.
  - apply frames_gets.
  - apply frames_bind; [apply frames_rd|]. intros pc.
    destruct (P.blocked_queues pc !! b); [apply frames_ret|apply frames_fail].
Qed.

Lemma frames_modq r f : frames (modq r f).
Proof.
  destruct r as [i| | |p b]; cbn [modq].
  - intros k a k' E. destruct (K.ready_queues k !! i); [|done].
    injection E as _ <-. by apply same_pids_same_pcbs.
  - by apply frames_modify.
  - by apply frames_modify.
  - apply frames_bind; [apply frames_rd|]. intros pc.
    destruct (P.blocked_queues pc !! b); [|apply frames_fail].
    by apply frames_wr.
Qed.

Create HintDb frames discriminated.

Ltac frames_step :=
  lazymatch goal with
  | |- frames (bind _ _) => apply frames_bind; [|intros ?]
  | |- frames (ret _) => apply frames_ret
  | |- frames (fail _) => apply frames_fail
  | |- frames (gets _) => apply frames_gets
  | |- frames (assert _) => apply frames_assert
  | |- frames (rd _) => apply frames_rd
  | |- frames (wr _ _) => apply frames_wr; intros ?; reflexivity
  | |- frames (modify _) => apply frames_modify; intros ?; reflexivity
  | |- frames (getq _) => apply frames_getq
  | |- frames (modq _ _) => apply frames_modq
  | |- frames (if ?b then _ else _) => destruct b
  | |- frames (match ?x with _ => _ end) => destruct x
  | |- frames (let _ := _ in _) => cbv zeta
  | |- frames _ => solve [eauto with frames]
  end.

Ltac frames_tac := repeat frames_step.

Lemma frames_init_queue q : frames (queue.init_queue q).
Proof. unfold queue.init_queue. frames_tac. Qed.
Lemma frames_enqueue q p : frames (queue.enqueue q p).
Proof. unfold queue.enqueue. frames_tac. Qed.
Lemma frames_dequeue q : frames (queue.dequeue q).
Proof. unfold queue.dequeue. frames_tac. Qed.
Lemma frames_remove q p : frames (queue.remove q p).
Proof. unfold queue.remove. frames_tac. Qed.
Lemma frames_peek_tail q : frames (queue.peek_tail q).
Proof. unfold queue.peek_tail. frames_tac. Qed.
Lemma frames_is_empty q : frames (queue.is_empty q).
Proof. unfold queue.is_empty. frames_tac. Qed.
Lemma frames_size q : frames (queue.size q).
Proof. unfold queue.size. frames_tac. Qed.
#[local] Hint Resolve frames_init_queue frames_enqueue frames_dequeue frames_remove
  frames_peek_tail frames_is_empty frames_size : frames.

Lemma frames_mod_list f : frames (deltalist.mod_list f).
Proof. unfold deltalist.mod_list. frames_tac. Qed.
#[local] Hint Resolve frames_mod_list : frames.
Lemma frames_dl_inc_size : frames deltalist.inc_size.
Proof. unfold deltalist.inc_size. frames_tac. Qed.
Lemma frames_dl_dec_size : frames deltalist.dec_size.
Proof. unfold deltalist.dec_size. frames_tac. Qed.
#[local] Hint Resolve frames_dl_inc_size frames_dl_dec_size : frames.
Lemma frames_init_delta_list : frames deltalist.init_delta_list.
Proof. unfold deltalist.init_delta_list. frames_tac. Qed.
Lemma frames_insert_loop fuel : forall proc prev curr delay,
  frames (deltalist.insert_loop fuel proc prev curr delay).
Proof.
  induction fuel as [|n IH]; intros; cbn [deltalist.insert_loop]; frames_tac.
Qed.
#[local] Hint Resolve frames_init_delta_list frames_insert_loop : frames.
Lemma frames_insert proc delay : frames (deltalist.insert proc delay).
Proof. unfold deltalist.insert. frames_tac. Qed.
Lemma frames_poll : frames deltalist.poll.
Proof. unfold deltalist.poll. frames_tac. Qed.
Lemma frames_delta_peek : frames deltalist.delta_peek.
Proof. unfold deltalist.delta_peek. frames_tac. Qed.
Lemma frames_delta_remove_loop fuel : forall proc prev curr acc,
  frames (deltalist.delta_remove_loop fuel proc prev curr acc).
Proof.
  induction fuel as [|n IH]; intros; cbn [deltalist.delta_remove_loop]; frames_tac.
Qed.
#[local] Hint Resolve frames_insert frames_poll frames_delta_peek
  frames_delta_remove_loop : frames.
Lemma frames_delta_remove proc : frames (deltalist.delta_remove proc).
Proof. unfold deltalist.delta_remove. frames_tac. Qed.
#[local] Hint Resolve frames_delta_remove : frames.

Lemma frames_for_loop_from body n : forall i,
  (forall j, frames (body j)) -> frames (for_loop_from i n body).
Proof.
  induction n as [|n IH]; intros i Hb; cbn [for_loop_from]; frames_tac.
Qed.
Lemma frames_for_loop body n :
  (forall j, frames (body j)) -> frames (for_loop n body).
Proof. apply frames_for_loop_from. Qed.
Lemma frames_array_index n i : frames (array_index n i).
Proof. unfold array_index. frames_tac. Qed.
Lemma frames_mem_load32 a : frames (mem_load32 a).
Proof. unfold mem_load32. frames_tac. Qed.
Lemma frames_mem_store32 a v : frames (mem_store32 a v).
Proof. unfold mem_store32. frames_tac. Qed.
Lemma frames_mem_store8 a v : frames (mem_store8 a v).
Proof. unfold mem_store8. frames_tac. Qed.
Lemma frames_mem_store_bytes a v : frames (mem_store_bytes a v).
Proof. unfold mem_store_bytes. frames_tac. Qed.
Lemma frames_mem_load_bytes a n : frames (mem_load_bytes a n).
Proof. unfold mem_load_bytes. frames_tac. Qed.
#[local] Hint Resolve frames_array_index frames_mem_load32 frames_mem_store32
  frames_mem_store8 frames_mem_store_bytes frames_mem_load_bytes : frames.
Lemma frames_arg i : frames (arg i).
Proof. unfold arg. frames_tac. Qed.
Lemma frames_mod_kbd f : frames (mod_kbd f).
Proof. unfold mod_kbd. frames_tac. Qed.
Lemma frames_kfree p : frames (kmem.kfree p).
Proof. unfold kmem.kfree. frames_tac. Qed.
#[local] Hint Resolve frames_arg frames_mod_kbd frames_kfree : frames.

(** disp.c, first part *)
Lemma frames_only_process : frames disp.only_process.
Proof. unfold disp.only_process. frames_tac. Qed.
Lemma frames_ready p : frames (disp.ready p).
Proof. unfold disp.ready. frames_tac. Qed.
Lemma frames_get_pcb pid : frames (disp.get_pcb pid).
Proof. unfold disp.get_pcb. frames_tac. Qed.
Lemma frames_next_scan n : forall i, frames (disp.next_scan n i).
Proof. induction n as [|n IH]; intros i; cbn [disp.next_scan]; frames_tac. Qed.
#[local] Hint Resolve frames_only_process frames_ready frames_get_pcb
  frames_next_scan : frames.
Lemma frames_next : frames disp.next.
Proof. unfold disp.next. frames_tac. Qed.
Lemma frames_stop p : frames (disp.stop p).
Proof. unfold disp.stop. frames_tac. Qed.
Lemma frames_unblock p c : frames (disp.unblock p c).
Proof. unfold disp.unblock. frames_tac. Qed.
Lemma frames_enqueue_blocked_queue p q b : frames (disp.enqueue_blocked_queue p q b).
Proof. unfold disp.enqueue_blocked_queue. frames_tac. Qed.
Lemma frames_remove_from_blocked_queue p q b :
  frames (disp.remove_from_blocked_queue p q b).
Proof. unfold disp.remove_from_blocked_queue. frames_tac. Qed.
Lemma frames_remove_from_receive_any_queue p :
  frames (disp.remove_from_receive_any_queue p).
Proof. unfold disp.remove_from_receive_any_queue. frames_tac. Qed.
#[local] Hint Resolve frames_next frames_stop frames_unblock
  frames_enqueue_blocked_queue frames_remove_from_blocked_queue
  frames_remove_from_receive_any_queue : frames.

(** msg.c, sleep.c, signal.c *)
Lemma frames_strncpy_to d s : frames (msg.strncpy_to d s).
Proof. unfold msg.strncpy_to. frames_tac. Qed.
#[local] Hint Resolve frames_strncpy_to : frames.
Lemma frames_send s r n : frames (msg.send s r n).
Proof. unfold msg.send. frames_tac. Qed.
Lemma frames_copy_from_sender s b : frames (msg.copy_from_sender s b).
Proof. unfold msg.copy_from_sender. frames_tac. Qed.
#[local] Hint Resolve frames_send frames_copy_from_sender : frames.
Lemma frames_recv r s f b : frames (msg.recv r s f b).
Proof. unfold msg.recv. frames_tac. Qed.
Lemma frames_ksleepinit : frames sleep.ksleepinit.
Proof. unfold sleep.ksleepinit. frames_tac. Qed.
Lemma frames_sleep p ms : frames (sleep.sleep p ms).
Proof. unfold sleep.sleep. frames_tac. Qed.
Lemma frames_tick_loop fuel : forall p, frames (sleep.tick_loop fuel p).
Proof. induction fuel as [|n IH]; intros; cbn [sleep.tick_loop]; frames_tac. Qed.
#[local] Hint Resolve frames_recv frames_ksleepinit frames_sleep frames_tick_loop
  : frames.
Lemma frames_tick : frames sleep.tick.
Proof. unfold sleep.tick. frames_tac. Qed.
Lemma frames_unblock_on_signal p : frames (signal.unblock_on_signal p).
Proof. unfold signal.unblock_on_signal. frames_tac. Qed.
#[local] Hint Resolve frames_tick frames_unblock_on_signal : frames.
Lemma frames_signal p n : frames (signal.signal p n).
Proof. unfold signal.signal. frames_tac. Qed.
Lemma frames_handle_pending_signals p : frames (signal.handle_pending_signals p).
Proof. unfold signal.handle_pending_signals. frames_tac. Qed.
#[local] Hint Resolve frames_signal frames_handle_pending_signals : frames.

(** kbd.c, di_calls.c *)
Lemma frames_set_state_bits f : frames (kbd.set_state_bits f).
Proof. unfold kbd.set_state_bits. frames_tac. Qed.
#[local] Hint Resolve frames_set_state_bits : frames.
Lemma frames_kbtoa c : frames (kbd.kbtoa c).
Proof. unfold kbd.kbtoa. frames_tac. Qed.
Lemma frames_flush_kbd_buf : frames kbd.flush_kbd_buf.
Proof.
  unfold kbd.flush_kbd_buf. frames_tac. apply frames_for_loop. intros j. frames_tac.
Qed.
#[local] Hint Resolve frames_kbtoa frames_flush_kbd_buf : frames.
Lemma frames_kbd_reset : frames kbd.kbd_reset.
Proof. unfold kbd.kbd_reset. frames_tac. Qed.
Lemma frames_disable_keyboard_hardware : frames kbd.disable_keyboard_hardware.
Proof. unfold kbd.disable_keyboard_hardware. frames_tac. Qed.
#[local] Hint Resolve frames_kbd_reset frames_disable_keyboard_hardware : frames.
Lemma frames_handle_eof : frames kbd.handle_eof.
Proof. unfold kbd.handle_eof. frames_tac. Qed.
Lemma frames_copy_char_to_read_buf c : frames (kbd.copy_char_to_read_buf c).
Proof. unfold kbd.copy_char_to_read_buf. frames_tac. Qed.
#[local] Hint Resolve frames_handle_eof frames_copy_char_to_read_buf : frames.
Lemma frames_transfer_loop fuel : frames (kbd.transfer_loop fuel).
Proof. induction fuel as [|n IH]; cbn [kbd.transfer_loop]; frames_tac. Qed.
#[local] Hint Resolve frames_transfer_loop : frames.
Lemma frames_transfer_to_read_buf : frames kbd.transfer_to_read_buf.
Proof. unfold kbd.transfer_to_read_buf. frames_tac. Qed.
#[local] Hint Resolve frames_transfer_to_read_buf : frames.
Lemma frames_kbdinit : frames kbd.kbdinit.
Proof. unfold kbd.kbdinit. frames_tac. Qed.
Lemma frames_kbdopen p d : frames (kbd.kbdopen p d).
Proof. unfold kbd.kbdopen. frames_tac. Qed.
Lemma frames_kbdclose p : frames (kbd.kbdclose p).
Proof. unfold kbd.kbdclose. frames_tac. Qed.
Lemma frames_kbdwrite p b l : frames (kbd.kbdwrite p b l).
Proof. unfold kbd.kbdwrite. frames_tac. Qed.
Lemma frames_kbdread p b l : frames (kbd.kbdread p b l).
Proof. unfold kbd.kbdread. frames_tac. Qed.
Lemma frames_kbdioctl_change_eof a : frames (kbd.kbdioctl_change_eof a).
Proof. unfold kbd.kbdioctl_change_eof. frames_tac. Qed.
#[local] Hint Resolve frames_kbdinit frames_kbdopen frames_kbdclose frames_kbdwrite
  frames_kbdread frames_kbdioctl_change_eof : frames.
Lemma frames_kbdioctl p c a : frames (kbd.kbdioctl p c a).
Proof. unfold kbd.kbdioctl. frames_tac. Qed.
Lemma frames_finish_read : frames kbd.finish_read.
Proof. unfold kbd.finish_read. frames_tac. Qed.
Lemma frames_is_kbd_buf_full : frames kbd.is_kbd_buf_full.
Proof. unfold kbd.is_kbd_buf_full. frames_tac. Qed.
#[local] Hint Resolve frames_kbdioctl frames_finish_read frames_is_kbd_buf_full
  : frames.
Lemma frames_write_to_kbd_buf c : frames (kbd.write_to_kbd_buf c).
Proof. unfold kbd.write_to_kbd_buf. frames_tac. Qed.
#[local] Hint Resolve frames_write_to_kbd_buf : frames.
Lemma frames_kbd_isr s d : frames (kbd.kbd_isr s d).
Proof. unfold kbd.kbd_isr. frames_tac. Qed.
Lemma frames_kdiinit : frames di_calls.kdiinit.
Proof. unfold di_calls.kdiinit. frames_tac. Qed.
Lemma frames_is_valid_fd p fd : frames (di_calls.is_valid_fd p fd).
Proof. unfold di_calls.is_valid_fd. frames_tac. Qed.
#[local] Hint Resolve frames_kbd_isr frames_kdiinit frames_is_valid_fd : frames.
Lemma frames_di_open p d : frames (di_calls.di_open p d).
Proof. unfold di_calls.di_open. frames_tac. Qed.
Lemma frames_di_close p d : frames (di_calls.di_close p d).
Proof. unfold di_calls.di_close. frames_tac. Qed.
Lemma frames_di_write p a b c : frames (di_calls.di_write p a b c).
Proof. unfold di_calls.di_write. frames_tac. Qed.
Lemma frames_di_read p a b c : frames (di_calls.di_read p a b c).
Proof. unfold di_calls.di_read. frames_tac. Qed.
Lemma frames_di_ioctl p a b c : frames (di_calls.di_ioctl p a b c).
Proof. unfold di_calls.di_ioctl. frames_tac. Qed.
#[local] Hint Resolve frames_di_open frames_di_close frames_di_write frames_di_read
  frames_di_ioctl : frames.

(** disp.c, second part *)
Lemma frames_cur : frames dispatcher.cur.
Proof. unfold dispatcher.cur. frames_tac. Qed.
Lemma frames_set_cur p : frames (dispatcher.set_cur p).
Proof. unfold dispatcher.set_cur. frames_tac. Qed.
#[local] Hint Resolve frames_cur frames_set_cur : frames.
Lemma frames_set_result v : frames (dispatcher.set_result v).
Proof. unfold dispatcher.set_result. frames_tac. Qed.
Lemma frames_contextswitch ev : frames (dispatcher.contextswitch ev).
Proof. unfold dispatcher.contextswitch. frames_tac. Qed.
Lemma frames_yield : frames dispatcher.yield.
Proof. unfold dispatcher.yield. frames_tac. Qed.
#[local] Hint Resolve frames_set_result frames_contextswitch frames_yield : frames.
Lemma frames_service_sysputs : frames dispatcher.service_sysputs.
Proof. unfold dispatcher.service_sysputs. frames_tac. Qed.
Lemma frames_service_syskill : frames dispatcher.service_syskill.
Proof. unfold dispatcher.service_syskill. frames_tac. Qed.
Lemma frames_service_syssetprio : frames dispatcher.service_syssetprio.
Proof. unfold dispatcher.service_syssetprio. frames_tac. Qed.
Lemma frames_service_syssend : frames dispatcher.service_syssend.
Proof. unfold dispatcher.service_syssend. frames_tac. Qed.
Lemma frames_service_sysrecv : frames dispatcher.service_sysrecv.
Proof. unfold dispatcher.service_sysrecv. frames_tac. Qed.
Lemma frames_service_syssleep : frames dispatcher.service_syssleep.
Proof. unfold dispatcher.service_syssleep. frames_tac. Qed.
Lemma frames_cpu_times_loop n : forall i ps c,
  frames (dispatcher.cpu_times_loop i n ps c).
Proof.
  induction n as [|n IH]; intros; cbn [dispatcher.cpu_times_loop]; frames_tac.
Qed.
#[local] Hint Resolve frames_cpu_times_loop : frames.
Lemma frames_get_cpu_times ps : frames (dispatcher.get_cpu_times ps).
Proof. unfold dispatcher.get_cpu_times. frames_tac. Qed.
#[local] Hint Resolve frames_get_cpu_times : frames.
Lemma frames_service_sysgetcputimes : frames dispatcher.service_sysgetcputimes.
Proof. unfold dispatcher.service_sysgetcputimes. frames_tac. Qed.
Lemma frames_service_syssighandler : frames dispatcher.service_syssighandler.
Proof. unfold dispatcher.service_syssighandler. frames_tac. Qed.
Lemma frames_service_syssigreturn : frames dispatcher.service_syssigreturn.
Proof. unfold dispatcher.service_syssigreturn. frames_tac. Qed.
Lemma frames_service_syswait : frames dispatcher.service_syswait.
Proof. unfold dispatcher.service_syswait. frames_tac. Qed.
Lemma frames_service_sysopen : frames dispatcher.service_sysopen.
Proof. unfold dispatcher.service_sysopen. frames_tac. Qed.
Lemma frames_service_sysclose : frames dispatcher.service_sysclose.
Proof. unfold dispatcher.service_sysclose. frames_tac. Qed.
Lemma frames_service_syswrite : frames dispatcher.service_syswrite.
Proof. unfold dispatcher.service_syswrite. frames_tac. Qed.
Lemma frames_service_sysread : frames dispatcher.service_sysread.
Proof. unfold dispatcher.service_sysread. frames_tac. Qed.
Lemma frames_service_sysioctl : frames dispatcher.service_sysioctl.
Proof. unfold dispatcher.service_sysioctl. frames_tac. Qed.
Lemma frames_drain fuel : forall q c, frames (dispatcher.drain fuel q c).
Proof. induction fuel as [|n IH]; intros; cbn [dispatcher.drain]; frames_tac. Qed.
#[local] Hint Resolve frames_drain : frames.
Lemma frames_drain_queue q c : frames (dispatcher.drain_queue q c).
Proof. unfold dispatcher.drain_queue. frames_tac. Qed.
#[local] Hint Resolve frames_drain_queue : frames.
Lemma frames_cleanup p : frames (dispatcher.cleanup p).
Proof. unfold dispatcher.cleanup. frames_tac. Qed.
#[local] Hint Resolve frames_cleanup : frames.
Lemma frames_cleanup_current_process_and_next :
  frames dispatcher.cleanup_current_process_and_next.
Proof. unfold dispatcher.cleanup_current_process_and_next. frames_tac. Qed.
Lemma frames_service_timer : frames dispatcher.service_timer.
Proof. unfold dispatcher.service_timer. frames_tac. Qed.
#[local] Hint Resolve frames_service_sysputs frames_service_syskill
  frames_service_syssetprio frames_service_syssend frames_service_sysrecv
  frames_service_syssleep frames_service_sysgetcputimes
  frames_service_syssighandler frames_service_syssigreturn
  frames_service_syswait frames_service_sysopen frames_service_sysclose
  frames_service_syswrite frames_service_sysread frames_service_sysioctl
  frames_cleanup_current_process_and_next frames_service_timer : frames.

(** ** Slot reuse *)

Lemma reuse_pid_code (old : Z) :
  - INT_MAX - 1 <= old <= INT_MAX -> 1 <= new_pid_code old ->
  new_pid_code old = reuse_pid old /\ new_pid_code old <= INT_MAX.
Proof.
  unfold new_pid_code, INT_MAX, PCB_TABLE_SIZE, reuse_pid, INT_MAX.
  intros H. cbv zeta.
  destruct (Z.leb_spec (old + 32) 2147483647) as [L|L].
  - rewrite to_int_small by lia.
    destruct (Z.ltb_spec (old + 32) 1) as [N|N]; [|lia].
    intros H1. pose proof (Z.rem_nonpos old 32 ltac:(lia) ltac:(lia)). lia.
  - assert (E : to_int (old + 32) = old + 32 - 4294967296).
    { unfold to_int, wrap32. rewrite Z.mod_small by lia.
      destruct (Z.ltb_spec (old + 32) 2147483648); lia. }
    rewrite E. destruct (Z.ltb_spec (old + 32 - 4294967296) 1); [|lia].
    intros _. rewrite Z.rem_mod_nonneg by lia.
    pose proof (Z.mod_pos_bound old 32 ltac:(lia)). lia.
Qed.

Lemma reuse_pid_policy (old : Z) (i : nat) :
  1 <= old <= INT_MAX -> (old - 1) mod 32 = Z.of_nat i ->
  1 <= reuse_pid old ->
  (reuse_pid old - 1) mod 32 = Z.of_nat i.
Proof.
  unfold reuse_pid, INT_MAX. intros H M.
  destruct (Z.leb_spec (old + 32) 2147483647) as [L|L]; intros H1.
  - rewrite <- M.
    replace (old + 32 - 1) with (old - 1 + 1 * 32) by lia.
    apply Z.mod_add. lia.
  - pose proof (Z.mod_pos_bound old 32 ltac:(lia)) as B.
    rewrite <- M.
    rewrite (Z.mod_small (old mod 32 - 1)) by lia.
    pose proof (Z.div_mod old 32 ltac:(lia)) as D.
    apply (Z.mod_unique _ _ (old / 32)); lia.
Qed.

(** What [get_unused_pcb] does to the PIDs: nothing when no slot is free;
    otherwise the slot taken from the stopped queue gets the PID computed
    by the code from its previous PID, and every other PID stays. *)
Lemma get_unused_pcb_pids k r k' :
  disp.get_unused_pcb k = Ok (r, k') ->
  (r = None /\ same_pids k k')
  \/ exists p old,
       r = Some p
       /\ K.pcbs k !! p = Some old
       /\ 1 <= new_pid_code (P.pid old)
       /\ P.pid <$> K.pcbs k'
          = <[p := new_pid_code (P.pid old)]> (P.pid <$> K.pcbs k).
Proof.
  intros E. unfold disp.get_unused_pcb in E.
  apply bind_inv in E as (e & k0 & E0 & E).
  assert (k0 = k) as ->.
  { unfold queue.is_empty, bind, getq, gets, ret in E0. by injection E0 as _ <-. }
  destruct e.
  { injection E as <- <-. left. split; [done|]. apply same_pids_refl. }
  right.
  apply bind_inv in E as (u & k1 & E1 & E).
  pose proof (frames_dequeue _ _ _ _ E1) as S1.
  apply bind_inv in E as (pc & k1' & E2 & E).
  unfold rd in E2. destruct u as [p|]; [|done].
  destruct (K.pcbs k1 !! p) as [pc1|] eqn:Hp1; [|done].
  injection E2 as <- <-.
  fold (new_pid_code (P.pid pc1)) in E.
  apply bind_inv in E as ([] & k2 & E3 & E).
  unfold assert in E3.
  destruct (Z.leb_spec 1 (new_pid_code (P.pid pc1))) as [Hassert|]; [|done].
  injection E3 as <-.
  apply bind_inv in E as ([] & k3 & E4 & E).
  unfold wr in E4. rewrite Hp1 in E4. injection E4 as <-.
  assert (F : r = Some p
              /\ same_pids (K.set_pcbs (<[p := P.set_pid (new_pid_code (P.pid pc1)) pc1]>
                                          (K.pcbs k1)) k1) k').
  { revert E. generalize (K.set_pcbs (<[p := P.set_pid (new_pid_code (P.pid pc1)) pc1]>
                                          (K.pcbs k1)) k1). intros k3 E.
    match type of E with
    | ?m _ = _ => assert (Ft : frames m) by frames_tac
    end.
    split; [|exact (Ft _ _ _ E)].
    repeat (apply bind_inv in E as (? & ? & _ & E)). by injection E as <- _. }
  destruct F as [-> F].
  pose proof (same_pids_lookup k k1 p S1) as Ep. rewrite Hp1 in Ep. cbn in Ep.
  destruct (K.pcbs k !! p) as [old|] eqn:Hold; [|done]. cbn in Ep.
  injection Ep as Ep.
  exists p, old. rewrite <- Ep. split; [done|]. split; [done|]. split; [done|].
  unfold same_pids in F, S1. rewrite F. cbn.
  rewrite list_fmap_insert. cbn. by rewrite S1.
Qed.

Lemma pres_get_unused_pcb : pres disp.get_unused_pcb.
Proof.
  intros k r k' Hpol E.
  destruct (get_unused_pcb_pids _ _ _ E) as [[_ S]|(p & old & _ & Hold & H1 & Ek')].
  { by eapply pid_policy_same_pids. }
  destruct Hpol as (Hl & Hr & Hp).
  destruct (reuse_pid_code (P.pid old) (Hr p old Hold) H1) as [Er Hmax].
  assert (L : forall i pc', K.pcbs k' !! i = Some pc' ->
            (i = p /\ P.pid pc' = new_pid_code (P.pid old))
            \/ (i <> p /\ exists pc, K.pcbs k !! i = Some pc /\ P.pid pc = P.pid pc')).
  { intros i pc' Hpc'.
    assert (Epid : (P.pid <$> K.pcbs k') !! i = Some (P.pid pc'))
      by (by rewrite list_lookup_fmap, Hpc').
    rewrite Ek' in Epid.
    destruct (decide (p = i)) as [->|Hne].
    - rewrite list_lookup_insert_eq in Epid
        by (rewrite length_fmap; by eapply lookup_lt_Some).
      injection Epid as <-. by left.
    - rewrite list_lookup_insert_ne in Epid by done.
      rewrite list_lookup_fmap in Epid.
      destruct (K.pcbs k !! i) as [pc|] eqn:E'; [|done]. cbn in Epid.
      injection Epid as Epid. right. eauto. }
  split.
  { rewrite <- (length_fmap P.pid), Ek', length_insert. by rewrite length_fmap. }
  split.
  - intros i pc' Hpc'.
    destruct (L i pc' Hpc') as [[-> ->]|(_ & pc & Hpc & <-)]; [|eauto].
    unfold INT_MAX in *. lia.
  - intros i pc' Hi Hpc'.
    destruct (L i pc' Hpc') as [[-> ->]|(_ & pc & Hpc & <-)]; [|eauto].
    split; [done|]. destruct (Hp p old Hi Hold) as [R M]. rewrite Er.
    apply reuse_pid_policy; [|done|by rewrite <- Er].
    pose proof (Hr p old Hold). lia.
Qed.

Create HintDb pres discriminated.
#[local] Hint Resolve pres_get_unused_pcb : pres.

Ltac pres_step :=
  lazymatch goal with
  | |- pres (bind _ _) => apply pres_bind; [|intros ?]
  | |- pres (if ?b then _ else _) => destruct b
  | |- pres (match ?x with _ => _ end) => destruct x
  | |- pres (let _ := _ in _) => cbv zeta
  | |- pres _ =>
      first [ solve [eauto with pres] | apply frames_pres; solve [frames_tac] ]
  end.

Ltac pres_tac := repeat pres_step.

Lemma pres_create f s kz : pres (create.create f s kz).
Proof. unfold create.create, create.init_context_frame. pres_tac. Qed.
#[local] Hint Resolve pres_create : pres.

Lemma pres_service_syscreate kz : pres (dispatcher.service_syscreate kz).
Proof. unfold dispatcher.service_syscreate. pres_tac. Qed.
#[local] Hint Resolve pres_service_syscreate : pres.


(** The idle PCB (slot 32) is outside the table: giving it PID 0 keeps the
    policy. *)
Lemma pres_wr_idle_pid : pres (wr (Some IDLE_SLOT) (P.set_pid 0)).
Proof.
  intros k b k' (Hl & Hr & Hp) E. unfold wr in E.
  destruct (K.pcbs k !! IDLE_SLOT) as [pc|] eqn:Hi; [|done]. injection E as _ <-.
  split; cbn; [by rewrite length_insert|]. split.
  - intros i pc' Hpc'. destruct (decide (i = IDLE_SLOT)) as [->|Hne].
    + rewrite list_lookup_insert_eq in Hpc' by (by eapply lookup_lt_Some).
      injection Hpc' as <-. cbn. unfold INT_MAX. lia.
    + rewrite list_lookup_insert_ne in Hpc' by done. eauto.
  - intros i pc' Hi' Hpc'.
    rewrite list_lookup_insert_ne in Hpc' by (unfold IDLE_SLOT; lia). eauto.
Qed.
#[local] Hint Resolve pres_wr_idle_pid : pres.
















(** ** The reuse rule and [get_pcb] *)







(** After boot the root process has PID 33 in slot 0, and the next slot
    handed out is slot 1, whose PID goes from 2 to 34. *)
Lemma get_unused_pcb_after_boot :
  result disp.get_unused_pcb k_boot = Some (Some 1%nat)
  /\ P.pid <$> K.pcbs k_boot !! 1%nat = Some 2
  /\ P.pid <$> K.pcbs (run disp.get_unused_pcb k_boot) !! 1%nat = Some 34
  /\ result (disp.get_pcb 33) k_boot = Some (Some 0%nat)
  /\ result (disp.get_pcb 2) k_boot = Some None.
Proof. vm_compute. repeat split. Qed.

(** The largest PID of slot 0 wraps to 1; the largest PID of slot 31 would
    wrap to 0, which the assertion of [get_unused_pcb] refuses. *)
Lemma reuse_pid_wraps :
  reuse_pid 2147483617 = 1 /\ reuse_pid 2147483616 = 0.
Proof. vm_compute. split; reflexivity. Qed.

(** A state in which slot 31 has used up its PIDs and is the only stopped
    slot: [get_unused_pcb] stops at its assertion instead of storing 0. *)
Lemma get_unused_pcb_asserts_on_last_pid :
  disp.get_unused_pcb
    (K.set_stopped_queue (Q.mk 1 (Some 31%nat) (Some 31%nat))
       (K.set_pcbs (alter (P.set_pid 2147483616) 31%nat (K.pcbs k_boot)) k_boot))
  = Fault AssertFail.
Proof. vm_compute. reflexivity. Qed.


(** The rounds in which the last sleeper leaves the delta list return like
    any other: the root process calls [sysgetpid] and [syssleep(30)], and
    the state after the third time slice, in which it has been woken with
    result 0 and runs again, is reachable. *)
Lemma reachable_after_lone_sleep :
  reachable k_slept_30ms
  /\ K.sleep_queue k_slept_30ms = D.mk 0 None
  /\ proc_view k_slept_30ms 0 = Some (33, RUNNING, NONE, 0)
  /\ pid_policyb k_slept_30ms = true.
Proof.
  split; [|by vm_compute].
  assert (R0 : reachable k_boot).
  { apply (reach_boot ly0 m0 24576 1700000 1800000). vm_compute. reflexivity. }
  unfold k_slept_30ms, k_sleeps_30ms.
  repeat (match goal with
          | |- reachable (round ?ev ?k) =>
              apply (reach_round k ev (round ev k)); [|vm_compute; reflexivity]
          end).
  exact R0.
Qed.

(** ** Process termination *)

Lemma getq_blocked_ok k p b pcp q :
  K.pcbs k !! p = Some pcp -> P.blocked_queues pcp !! b = Some q ->
  getq (BlockedQ (Some p) b) k = Ok (q, k).
Proof. intros Hp Hq. unfold getq, bind, rd, ret. by rewrite Hp, Hq. Qed.

Lemma modq_blocked_ok k p b pcp q f :
  K.pcbs k !! p = Some pcp -> P.blocked_queues pcp !! b = Some q ->
  modq (BlockedQ (Some p) b) f k
  = Ok (tt, K.set_pcbs
              (<[p := P.set_blocked_queues (<[b := f q]> (P.blocked_queues pcp)) pcp]>
                 (K.pcbs k)) k).
Proof. intros Hp Hq. unfold modq, bind, rd, wr. by rewrite Hp, Hq, Hp. Qed.

Lemma getq_ready_ok k i q :
  K.ready_queues k !! i = Some q -> getq (ReadyQ i) k = Ok (q, k).
Proof. intros Hq. unfold getq. by rewrite Hq. Qed.

Lemma modq_ready_ok k i q f :
  K.ready_queues k !! i = Some q ->
  modq (ReadyQ i) f k
  = Ok (tt, K.set_ready_queues (<[i := f q]> (K.ready_queues k)) k).
Proof. intros Hq. unfold modq. by rewrite Hq. Qed.

(** [dequeue] on a queue of blocked processes whose head is [x]: [x] is
    returned without its links, the queue of [p] loses its head, and every
    other PCB keeps everything but its [prev] pointer. *)
Lemma dequeue_blocked_spec k p b pcp q x pcx :
  K.pcbs k !! p = Some pcp -> P.blocked_queues pcp !! b = Some q ->
  Q.size q <> 0 -> Q.head q = Some x ->
  K.pcbs k !! x = Some pcx -> x <> p ->
  slot_ok (K.pcbs k) (P.next pcx) = true ->
  P.next pcx <> Some p -> P.next pcx <> Some x ->
  exists k' q',
    queue.dequeue (BlockedQ (Some p) b) k = Ok (Some x, k')
    /\ K.ready_queues k' = K.ready_queues k
    /\ K.stopped_queue k' = K.stopped_queue k
    /\ K.receive_any_queue k' = K.receive_any_queue k
    /\ K.user_proc_count k' = K.user_proc_count k
    /\ length (K.pcbs k') = length (K.pcbs k)
    /\ K.pcbs k' !! p
       = Some (P.set_blocked_queues (<[b := q']> (P.blocked_queues pcp)) pcp)
    /\ Q.size q' = wrap32 (Q.size q - 1) /\ Q.head q' = P.next pcx
    /\ K.pcbs k' !! x = Some (unlinked pcx)
    /\ forall y, y <> p -> y <> x ->
         P.set_prev None <$> K.pcbs k' !! y = P.set_prev None <$> K.pcbs k !! y.
Proof.
  intros Hp Hq Hsz Hh Hx Hxp Hn Hnp Hnx.
  assert (Hbl : (b < length (P.blocked_queues pcp))%nat) by (by eapply lookup_lt_Some).
  unfold queue.dequeue.
  rewrite (bind_ok _ _ _ _ _ (getq_blocked_ok k p b pcp q Hp Hq)).
  destruct (Z.eqb_spec (Q.size q) 0) as [|_]; [done|].
  cbv zeta. rewrite Hh.
  rewrite (bind_ok _ _ _ _ _ (rd_ok k x pcx Hx)).
  rewrite (bind_ok _ _ _ _ _ (modq_blocked_ok k p b pcp q _ Hp Hq)).
  destruct (P.next pcx) as [n|] eqn:Hnext.
  - destruct (slot_ok_lookup _ _ Hn) as [pcn Hpcn].
    assert (n <> p) by congruence. assert (n <> x) by congruence.
    erewrite bind_ok; [|apply wr_ok; kcbn; lk; eassumption].
    erewrite bind_ok; [|apply wr_ok; kcbn; lk; eassumption].
    erewrite bind_ok; [|apply wr_ok; kcbn; lk; reflexivity].
    erewrite bind_ok;
      [|eapply modq_blocked_ok; [kcbn; lk; reflexivity|pcbn; apply list_lookup_insert_eq; by rewrite ?length_insert]].
    unfold ret. eexists _, (dec_size (Q.set_head (Some n) q)).
    split; [reflexivity|]. kcbn.
    split_and!; try done; try (by rewrite !length_insert);
      try (lk; pcbn; rewrite ?list_insert_insert_eq; reflexivity).
    intros y Hyp Hyx. lk. destruct (decide (y = n)) as [->|Hyn]; lk; [|done].
    rewrite Hpcn. reflexivity.
  - erewrite bind_ok;
      [|eapply modq_blocked_ok; [kcbn; lk; reflexivity|pcbn; apply list_lookup_insert_eq; by rewrite ?length_insert]].
    erewrite bind_ok; [|apply wr_ok; kcbn; lk; eassumption].
    erewrite bind_ok; [|apply wr_ok; kcbn; lk; reflexivity].
    erewrite bind_ok;
      [|eapply modq_blocked_ok; [kcbn; lk; reflexivity|pcbn; apply list_lookup_insert_eq; by rewrite ?length_insert]].
    unfold ret.
    eexists _, (dec_size (Q.set_tail (P.prev pcx) (Q.set_head None q))).
    split; [reflexivity|]. kcbn.
    split_and!; try done; try (by rewrite !length_insert);
      try (lk; pcbn; rewrite ?list_insert_insert_eq; reflexivity).
    intros y Hyp Hyx. lk. done.
Qed.

(** [unblock] of a PCB that can be woken: it gets the result code, is made
    ready and becomes the tail of the ready queue of its priority; the only
    other PCB written is the previous tail, whose [next] now points to it. *)
Lemma unblock_spec k x code pcx rq :
  K.pcbs k !! x = Some pcx ->
  P.pid pcx <> IDLE_PROC_PID -> 0 <= P.priority pcx < NUM_PRIORITIES ->
  K.ready_queues k !! Z.to_nat (P.priority pcx) = Some rq ->
  (forall t, Q.tail rq = Some t -> (t < length (K.pcbs k))%nat /\ t <> x) ->
  exists k' rq' pc',
    disp.unblock (Some x) code k = Ok (tt, k')
    /\ K.stopped_queue k' = K.stopped_queue k
    /\ K.receive_any_queue k' = K.receive_any_queue k
    /\ K.user_proc_count k' = K.user_proc_count k
    /\ length (K.pcbs k') = length (K.pcbs k)
    /\ K.ready_queues k' = <[Z.to_nat (P.priority pcx) := rq']> (K.ready_queues k)
    /\ Q.tail rq' = Some x
    /\ K.pcbs k' !! x = Some pc'
    /\ P.state pc' = READY /\ P.result_code pc' = code /\ P.next pc' = None
    /\ P.pid pc' = P.pid pcx /\ P.priority pc' = P.priority pcx
    /\ P.blocked_queues pc' = P.blocked_queues pcx
    /\ forall y, y <> x ->
         K.pcbs k' !! y
         = if decide (Q.tail rq = Some y)
           then P.set_next (Some x) <$> K.pcbs k !! y
           else K.pcbs k !! y.
Proof.
  intros Hx Hpid Hprio Hrq Ht.
  unfold disp.unblock, disp.ready.
  erewrite bind_ok; [|apply wr_ok; eassumption].
  erewrite bind_ok; [|apply rd_ok; kcbn; lk; reflexivity].
  pcbn. destruct (Z.eqb_spec (P.pid pcx) IDLE_PROC_PID) as [|_]; [done|]. cbn [negb].
  erewrite bind_ok; [|apply wr_ok; kcbn; lk; reflexivity].
  erewrite bind_ok; [|apply wr_ok; kcbn; lk; reflexivity].
  erewrite bind_ok; [|apply wr_ok; kcbn; lk; reflexivity].
  erewrite bind_ok; [|apply rd_ok; kcbn; lk; reflexivity].
  pcbn. unfold array_index.
  destruct (Z.leb_spec 0 (P.priority pcx)) as [_|]; [|lia].
  destruct (Z.ltb_spec (P.priority pcx) NUM_PRIORITIES) as [_|]; [|lia].
  cbn [andb]. rewrite (bind_ok _ _ _ _ _ eq_refl).
  unfold queue.enqueue. cbn [is_null negb assert].
  rewrite (bind_ok _ _ _ _ _ eq_refl).
  erewrite bind_ok; [|apply getq_ready_ok; kcbn; eassumption].
  destruct (Q.tail rq) as [t|] eqn:Htail.
  - destruct (Ht t eq_refl) as [Htl Htx].
    destruct (lookup_lt_is_Some_2 _ _ Htl) as [pct Hpct].
    erewrite bind_ok; [|erewrite bind_ok; [|apply wr_ok; kcbn; lk; reflexivity];
                        erewrite bind_ok; [|apply rd_ok; kcbn; lk; reflexivity]; pcbn;
                        erewrite bind_ok; [|apply wr_ok; kcbn; lk; eassumption];
                        erewrite bind_ok; [|apply wr_ok; kcbn; lk; reflexivity];
                        apply modq_ready_ok; kcbn; eassumption].
    erewrite modq_ready_ok by (kcbn; apply list_lookup_insert_eq; by eapply lookup_lt_Some).
    eexists _, _, (P.set_next None (P.set_prev (Some t) (P.set_state READY (P.set_blocked_queue NONE (P.set_blocked_on None (P.set_result_code code pcx)))))).
    split; [reflexivity|]. kcbn.
    split_and!; try done; try (by rewrite !length_insert);
      try (by rewrite list_insert_insert_eq); try (lk; reflexivity).
    intros y Hy. lk. case_decide as Hd.
    + injection Hd as <-. lk. by rewrite Hpct.
    + lk. done.
  - erewrite bind_ok; [|erewrite bind_ok; [|apply wr_ok; kcbn; lk; reflexivity];
                        erewrite bind_ok; [|apply wr_ok; kcbn; lk; reflexivity];
                        erewrite bind_ok; [|apply modq_ready_ok; kcbn; eassumption];
                        apply modq_ready_ok; kcbn;
                        apply list_lookup_insert_eq; by eapply lookup_lt_Some].
    erewrite modq_ready_ok
      by (kcbn; apply list_lookup_insert_eq; rewrite ?length_insert;
          by eapply lookup_lt_Some).
    eexists _, _, (P.set_next None (P.set_prev None (P.set_state READY (P.set_blocked_queue NONE (P.set_blocked_on None (P.set_result_code code pcx)))))).
    split; [reflexivity|]. kcbn.
    split_and!; try done; try (by rewrite !length_insert);
      try (by rewrite !list_insert_insert_eq); try (lk; reflexivity).
    intros y Hy. lk. by case_decide.
Qed.

(** *** Reading the checks *)

Lemma chainb_cons pcbs first x l :
  chainb pcbs first (x :: l) = true ->
  first = Some x
  /\ exists pc, pcbs !! x = Some pc /\ chainb pcbs (P.next pc) l = true.
Proof.
  cbn. intros H. apply andb_true_iff in H as [H1 H2].
  apply ptr_eqb_eq in H1. split; [done|].
  destruct (pcbs !! x) as [pc|]; [eauto|done].
Qed.

Lemma chainb_head pcbs first l : chainb pcbs first l = true -> first = head l.
Proof.
  destruct l as [|x l].
  - cbn. by destruct first.
  - intros H. by apply chainb_cons in H as [-> _].
Qed.

Lemma chainb_ext pcbs pcbs' l : forall first,
  (forall y, y ∈ l -> P.next <$> pcbs' !! y = P.next <$> pcbs !! y) ->
  chainb pcbs' first l = chainb pcbs first l.
Proof.
  induction l as [|x l IH]; intros first H; [done|]. cbn.
  pose proof (H x ltac:(left)) as Hx.
  destruct (pcbs' !! x) as [pc'|], (pcbs !! x) as [pc|]; try done.
  injection Hx as ->. rewrite IH; [done|].
  intros y Hy. apply H. by right.
Qed.

Lemma queueb_spec pcbs q l :
  queueb pcbs q l = true ->
  Q.size q = Z.of_nat (length l) /\ Q.size q <= INT_MAX
  /\ chainb pcbs (Q.head q) l = true.
Proof.
  unfold queueb. intros H. apply andb_true_iff in H as [H H3].
  apply andb_true_iff in H as [H1 H2].
  apply Z.eqb_eq in H1. apply Z.leb_le in H2. done.
Qed.

Lemma queueb_intro pcbs q l :
  Q.size q = Z.of_nat (length l) -> Q.size q <= INT_MAX ->
  chainb pcbs (Q.head q) l = true -> queueb pcbs q l = true.
Proof.
  unfold queueb. intros H1 H2 ->.
  apply Z.eqb_eq in H1. apply Z.leb_le in H2. by rewrite H1, H2.
Qed.

Lemma wakeableb_spec pcbs x :
  wakeableb pcbs x = true <->
  exists pc, pcbs !! x = Some pc
             /\ P.pid pc <> IDLE_PROC_PID /\ 0 <= P.priority pc < NUM_PRIORITIES.
Proof.
  unfold wakeableb. split.
  - destruct (pcbs !! x) as [pc|]; [|done]. intros H.
    apply andb_true_iff in H as [H H3]. apply andb_true_iff in H as [H1 H2].
    exists pc. split; [done|].
    apply Z.leb_le in H2. apply Z.ltb_lt in H3.
    destruct (Z.eqb_spec (P.pid pc) IDLE_PROC_PID); [done|]. done.
  - intros (pc & -> & H1 & H2 & H3).
    apply Z.leb_le in H2. apply Z.ltb_lt in H3. rewrite H2, H3.
    by destruct (Z.eqb_spec (P.pid pc) IDLE_PROC_PID).
Qed.

Lemma fmap_eq_Some_r {A B} (f : A -> B) (o o' : option A) a :
  f <$> o' = f <$> o -> o = Some a -> exists a', o' = Some a' /\ f a' = f a.
Proof.
  intros E ->. destruct o' as [a'|]; [|done]. exists a'. split; [done|].
  cbn in E. congruence.
Qed.

Lemma fmap_eq_Some_l {A B} (f : A -> B) (o o' : option A) a' :
  f <$> o' = f <$> o -> o' = Some a' -> exists a, o = Some a /\ f a' = f a.
Proof.
  intros E ->. destruct o as [a|]; [|done]. exists a. split; [done|].
  cbn in E. congruence.
Qed.

Lemma unlinked_of_prev (o o' : option pcb_t) :
  P.set_prev None <$> o' = P.set_prev None <$> o -> unlinked <$> o' = unlinked <$> o.
Proof.
  intros E. destruct o' as [a'|], o as [a|]; try done.
  assert (E' : P.set_prev None a' = P.set_prev None a) by (cbn in E; congruence).
  cbn. unfold unlinked. by rewrite E'.
Qed.

Lemma unlinked_set_next v (o : option pcb_t) :
  unlinked <$> (P.set_next v <$> o) = unlinked <$> o.
Proof. by destruct o. Qed.

Lemma wakeableb_ext pcbs pcbs' y :
  unlinked <$> pcbs' !! y = unlinked <$> pcbs !! y ->
  wakeableb pcbs' y = wakeableb pcbs y.
Proof.
  unfold wakeableb. intros E.
  destruct (pcbs' !! y) as [a'|], (pcbs !! y) as [a|]; try done.
  assert (E' : unlinked a' = unlinked a) by (cbn in E; congruence).
  assert (P.pid a' = P.pid a) as -> by exact (f_equal P.pid E').
  assert (P.priority a' = P.priority a) as -> by exact (f_equal P.priority E').
  done.
Qed.

Lemma set_queue_eq ql b l : set_queue ql b l b = l.
Proof. unfold set_queue. by rewrite Nat.eqb_refl. Qed.

Lemma set_queue_ne ql b l b' : b' <> b -> set_queue ql b l b' = ql b'.
Proof. unfold set_queue. intros H. apply Nat.eqb_neq in H. by rewrite H. Qed.

Lemma set_queue_elem ql b x l b' y :
  ql b = x :: l -> y ∈ set_queue ql b l b' -> y ∈ ql b'.
Proof.
  intros E. destruct (decide (b' = b)) as [->|Hne].
  - rewrite set_queue_eq, E. by right.
  - by rewrite set_queue_ne.
Qed.

Lemma next_of_prev (o o' : option pcb_t) :
  P.set_prev None <$> o' = P.set_prev None <$> o -> P.next <$> o' = P.next <$> o.
Proof.
  intros E. destruct o' as [a'|], o as [a|]; try done.
  assert (E' : P.set_prev None a' = P.set_prev None a) by (cbn in E; congruence).
  cbn. f_equal. exact (f_equal P.next E').
Qed.

(** *** One round of a wake-up loop *)

Lemma wake_one k p ql woken b x l code :
  cleanup_inv k p ql woken -> (b < 3)%nat -> ql b = x :: l ->
  exists k1 k2,
    queue.dequeue (BlockedQ (Some p) b) k = Ok (Some x, k1)
    /\ disp.unblock (Some x) code k1 = Ok (tt, k2)
    /\ cleanup_inv k2 p (set_queue ql b l) ((x, code) :: woken).
Proof.
  intros [Hq Hnd Hdj Hwk Hlk Hrl Hrt Hwo Hst Hra] Hb Eb.
  destruct Hq as (pcp & Hp & Hqs).
  destruct (Hqs b Hb) as (q & Hbq & Hqb).
  rewrite Eb in Hqb. apply queueb_spec in Hqb as (Hsz & Hmax & Hch).
  apply chainb_cons in Hch as (Hh & pcx & Hx & Hch).
  destruct (Hnd b) as [Hndb Hpb]. rewrite Eb in Hndb, Hpb.
  pose proof (NoDup_cons_1_1 _ _ Hndb) as Hxl.
  pose proof (NoDup_cons_1_2 _ _ Hndb) as Hndl.
  assert (Hxp : x <> p) by (intros ->; apply Hpb; left).
  assert (Hpl : p ∉ l) by (intros ?; apply Hpb; by right).
  pose proof (chainb_head _ _ _ Hch) as Hnx.
  assert (Hnp : P.next pcx <> Some p).
  { rewrite Hnx. intros E. apply Hpl. destruct l; [done|]. injection E as ->. left. }
  assert (Hnxx : P.next pcx <> Some x).
  { rewrite Hnx. intros E. apply Hxl. destruct l; [done|]. injection E as ->. left. }
  cbn [length] in Hsz. unfold INT_MAX in Hmax.
  assert (Hsz0 : Q.size q <> 0) by lia.
  destruct (dequeue_blocked_spec k p b pcp q x pcx Hp Hbq Hsz0 Hh Hx Hxp
              (Hlk x pcx Hx) Hnp Hnxx)
    as (k1 & q' & E1 & R1 & S1 & A1 & U1 & L1 & P1 & Z1 & H1 & X1 & O1).
  assert (Hxin : x ∈ ql b) by (rewrite Eb; left).
  destruct (proj1 (wakeableb_spec _ _) (Hwk b x Hxin)) as (pcx0 & Hx0 & Hpid & Hprio).
  rewrite Hx in Hx0. injection Hx0 as <-.
  destruct (lookup_lt_is_Some_2 (K.ready_queues k) (Z.to_nat (P.priority pcx)))
    as [rq Hrq].
  { rewrite Hrl. unfold NUM_PRIORITIES in Hprio. lia. }
  assert (Hrq1 : K.ready_queues k1 !! Z.to_nat (P.priority (unlinked pcx)) = Some rq)
    by (by rewrite R1).
  assert (Htl : forall t, Q.tail rq = Some t ->
                  (t < length (K.pcbs k1))%nat /\ t <> x).
  { intros t Ht. destruct (Hrt _ _ _ Hrq Ht) as (Hlt & _ & Hno).
    rewrite L1. split; [done|]. intros ->. by apply (Hno b). }
  destruct (unblock_spec k1 x code (unlinked pcx) rq X1 Hpid Hprio Hrq1 Htl)
    as (k2 & rq' & pc' & E2 & S2 & A2 & U2 & L2 & R2 & T2 & X2
        & St & Rc & Nx & Pid & Pri & Bq & O2).
  cbn [unlinked P.priority P.pid P.set_next P.set_prev] in R2, Pid, Pri.
  exists k1, k2. split; [done|]. split; [done|].
  assert (Hfresh : forall b' y, y ∈ set_queue ql b l b' ->
                     y ∈ ql b' /\ y <> x /\ y <> p).
  { intros b' y Hy. pose proof (set_queue_elem ql b x l b' y Eb Hy) as Hy'.
    split; [done|]. split.
    - destruct (decide (b' = b)) as [->|Hne].
      + rewrite set_queue_eq in Hy. by intros ->.
      + intros ->. by apply (Hdj b b' x).
    - intros ->. by apply (Hnd b'). }
  assert (Hnotail : forall b' y, y ∈ ql b' -> Q.tail rq <> Some y).
  { intros b' y Hy Ht. destruct (Hrt _ _ _ Hrq Ht) as (_ & _ & Hno).
    by apply (Hno b'). }
  assert (Stab1 : forall y, y <> x -> y <> p ->
            unlinked <$> K.pcbs k2 !! y = unlinked <$> K.pcbs k !! y).
  { intros y Hyx Hyp. rewrite (O2 y Hyx).
    case_decide; rewrite ?unlinked_set_next; apply unlinked_of_prev, O1; done. }
  assert (Stab2 : forall y, y <> x -> y <> p -> Q.tail rq <> Some y ->
            P.set_prev None <$> K.pcbs k2 !! y = P.set_prev None <$> K.pcbs k !! y).
  { intros y Hyx Hyp Hyt. rewrite (O2 y Hyx). case_decide; [done|]. by apply O1. }
  assert (Stabn : forall b' y, y ∈ set_queue ql b l b' ->
            P.next <$> K.pcbs k2 !! y = P.next <$> K.pcbs k !! y).
  { intros b' y Hy. destruct (Hfresh b' y Hy) as (Hy' & Hyx & Hyp).
    apply next_of_prev, Stab2; try done. by apply (Hnotail b'). }
  assert (Hp2 : K.pcbs k2 !! p
                = Some (P.set_blocked_queues (<[b := q']> (P.blocked_queues pcp)) pcp)).
  { rewrite (O2 p) by done. case_decide as Ht; [|done].
    destruct (Hrt _ _ _ Hrq Ht) as (_ & Hne & _). done. }
  assert (Hlen : length (K.pcbs k2) = length (K.pcbs k)) by congruence.
  assert (Hil : (Z.to_nat (P.priority pcx) < length (K.ready_queues k))%nat)
    by (by eapply lookup_lt_Some).
  constructor.
  - eexists. split; [exact Hp2|]. intros b' Hb'. pcbn.
    destruct (decide (b' = b)) as [->|Hne].
    + exists q'. split; [by apply list_lookup_insert_eq; eapply lookup_lt_Some|].
      rewrite set_queue_eq. apply queueb_intro.
      * rewrite Z1, wrap32_small; lia.
      * unfold INT_MAX. rewrite Z1, wrap32_small; lia.
      * rewrite H1, <- Hch. apply chainb_ext. intros y Hy. apply (Stabn b).
        by rewrite set_queue_eq.
    + destruct (Hqs b' Hb') as (qb & Hqb1 & Hqb2).
      exists qb. split; [by rewrite list_lookup_insert_ne|].
      rewrite set_queue_ne by done.
      apply queueb_spec in Hqb2 as (F1 & F2 & F3).
      apply queueb_intro; try done. rewrite <- F3. apply chainb_ext.
      intros y Hy. apply (Stabn b'). by rewrite set_queue_ne.
  - intros b'. destruct (decide (b' = b)) as [->|Hne].
    + by rewrite set_queue_eq.
    + rewrite set_queue_ne by done. apply Hnd.
  - intros b1 b2 y Hne Hy1 Hy2.
    apply (Hdj b1 b2 y Hne); by eapply set_queue_elem.
  - intros b' y Hy. destruct (Hfresh b' y Hy) as (Hy' & Hyx & Hyp).
    rewrite (wakeableb_ext (K.pcbs k)); [by eapply Hwk|]. by apply Stab1.
  - intros y pc2 Hy. rewrite (slot_ok_length (K.pcbs k)) by done.
    destruct (decide (y = x)) as [->|Hyx].
    { rewrite X2 in Hy. injection Hy as <-. by rewrite Nx. }
    rewrite (O2 y Hyx) in Hy. case_decide as Ht.
    { destruct (K.pcbs k1 !! y) as [pc1|]; [|done]. injection Hy as <-. pcbn.
      cbn. apply Nat.ltb_lt. by eapply lookup_lt_Some. }
    destruct (decide (y = p)) as [->|Hyp].
    { rewrite P1 in Hy. injection Hy as <-. pcbn. by eapply Hlk. }
    destruct (fmap_eq_Some_l _ _ _ _ (O1 y Hyp Hyx) Hy) as (pc & Hpc & E).
    replace (P.next pc2) with (P.next pc) by exact (f_equal P.next (eq_sym E)).
    by eapply Hlk.
  - by rewrite R2, length_insert, R1.
  - intros i q0 t Hi Ht. rewrite Hlen. rewrite R2, R1 in Hi.
    destruct (decide (i = Z.to_nat (P.priority pcx))) as [->|Hne].
    + rewrite list_lookup_insert_eq in Hi by done. injection Hi as <-.
      rewrite T2 in Ht. injection Ht as <-.
      split; [by eapply lookup_lt_Some|]. split; [done|].
      intros b' Hx'. by destruct (Hfresh b' x Hx') as (_ & ? & _).
    + rewrite list_lookup_insert_ne in Hi by done.
      destruct (Hrt _ _ _ Hi Ht) as (F1 & F2 & F3). split; [done|]. split; [done|].
      intros b' Ht'. apply (F3 b'). by eapply set_queue_elem.
  - intros y c Hy. apply elem_of_cons in Hy as [[= -> ->]|Hy].
    + split; [done|]. split.
      * intros b' Hx'. by destruct (Hfresh b' x Hx') as (_ & ? & _).
      * eauto.
    + destruct (Hwo y c Hy) as (Hyp & Hyq & pc & Hpc & F1 & F2).
      split; [done|]. split.
      * intros b' Hy'. apply (Hyq b'). by eapply set_queue_elem.
      * assert (Hyx : y <> x) by (intros ->; by apply (Hyq b)).
        destruct (fmap_eq_Some_r _ _ _ _ (Stab1 y Hyx Hyp) Hpc) as (pc2 & Hpc2 & E).
        exists pc2. split; [done|].
        rewrite <- F1, <- F2. split.
        -- exact (f_equal P.state E).
        -- exact (f_equal P.result_code E).
  - by rewrite S2, S1, (slot_ok_length (K.pcbs k)).
  - intros Htest.
    assert (Htest' : last_receiver_test k = true).
    { unfold last_receiver_test in *. by rewrite <- U1, <- U2, <- A1, <- A2. }
    destruct (Hra Htest') as (h & Hh1 & Hhp & Hhq & Hhw & Hhk & Hht).
    exists h. split; [by rewrite A2, A1|]. split; [done|].
    assert (Hhx : h <> x) by (intros ->; by apply (Hhq b)).
    split; [|split; [|split]].
    + intros b' Hh'. apply (Hhq b'). by eapply set_queue_elem.
    + intros c Hc. apply elem_of_cons in Hc as [[= ? ?]|Hc]; [done|].
      by apply (Hhw c).
    + rewrite (wakeableb_ext (K.pcbs k)); [done|]. by apply Stab1.
    + intros i q0 Hi. rewrite R2, R1 in Hi.
      destruct (decide (i = Z.to_nat (P.priority pcx))) as [->|Hne].
      * rewrite list_lookup_insert_eq in Hi by done. injection Hi as <-.
        rewrite T2. congruence.
      * rewrite list_lookup_insert_ne in Hi by done. by eapply Hht.
Qed.

(** *** A wake-up loop *)

Lemma dequeue_blocked_empty k p b pcp q :
  K.pcbs k !! p = Some pcp -> P.blocked_queues pcp !! b = Some q ->
  Q.size q = 0 ->
  queue.dequeue (BlockedQ (Some p) b) k = Ok (None, k).
Proof.
  intros Hp Hq Hsz. unfold queue.dequeue.
  rewrite (bind_ok _ _ _ _ _ (getq_blocked_ok k p b pcp q Hp Hq)).
  by rewrite Hsz.
Qed.

Lemma set_queue_twice ql b l l' b' :
  set_queue (set_queue ql b l) b l' b' = set_queue ql b l' b'.
Proof. unfold set_queue. by destruct (Nat.eqb b' b). Qed.

Lemma drain_spec p b code l : forall k ql woken fuel,
  cleanup_inv k p ql woken -> (b < 3)%nat -> ql b = l ->
  (length l < fuel)%nat ->
  exists k' ql',
    dispatcher.drain fuel (BlockedQ (Some p) b) code k = Ok (tt, k')
    /\ (forall b', ql' b' = set_queue ql b [] b')
    /\ cleanup_inv k' p ql' (woken_with code l woken).
Proof.
  induction l as [|x l IH]; intros k ql woken fuel Hinv Hb Eb Hfuel.
  - destruct fuel as [|fuel]; [cbn in Hfuel; lia|]. cbn [dispatcher.drain].
    destruct (inv_queues _ _ _ _ Hinv) as (pcp & Hp & Hqs).
    destruct (Hqs b Hb) as (q & Hbq & Hqb). rewrite Eb in Hqb.
    apply queueb_spec in Hqb as (Hsz & _ & _).
    rewrite (bind_ok _ _ _ _ _ (dequeue_blocked_empty k p b pcp q Hp Hbq Hsz)).
    exists k, ql. split; [done|]. split; [|done].
    intros b'. unfold set_queue. destruct (Nat.eqb_spec b' b) as [->|]; done.
  - destruct fuel as [|fuel]; [cbn in Hfuel; lia|]. cbn [dispatcher.drain].
    destruct (wake_one k p ql woken b x l code Hinv Hb Eb) as (k1 & k2 & E1 & E2 & Hinv2).
    rewrite (bind_ok _ _ _ _ _ E1). rewrite (bind_ok _ _ _ _ _ E2).
    destruct (IH k2 (set_queue ql b l) ((x, code) :: woken) fuel Hinv2 Hb
                (set_queue_eq ql b l) ltac:(cbn in Hfuel; lia))
      as (k' & ql' & E' & Hql' & Hinv').
    exists k', ql'. split; [done|]. split; [|done].
    intros b'. by rewrite Hql', set_queue_twice.
Qed.

Lemma cleanup_inv_ext k p ql ql' woken :
  (forall b, ql' b = ql b) -> cleanup_inv k p ql woken -> cleanup_inv k p ql' woken.
Proof.
  intros E [Hq Hnd Hdj Hwk Hlk Hrl Hrt Hwo Hst Hra].
  constructor; try done.
  - destruct Hq as (pcp & Hp & Hqs). exists pcp. split; [done|].
    intros b Hb. rewrite E. by apply Hqs.
  - intros b. rewrite E. apply Hnd.
  - intros b b' y. rewrite !E. apply Hdj.
  - intros b y. rewrite E. apply Hwk.
  - intros i q t Hi Ht. destruct (Hrt i q t Hi Ht) as (F1 & F2 & F3).
    split; [done|]. split; [done|]. intros b. rewrite E. apply F3.
  - intros y c Hy. destruct (Hwo y c Hy) as (F1 & F2 & F3).
    split; [done|]. split; [|done]. intros b. rewrite E. apply F2.
  - intros Ht. destruct (Hra Ht) as (h & F1 & F2 & F3 & F4).
    exists h. split; [done|]. split; [done|]. split; [|done].
    intros b. rewrite E. apply F3.
Qed.

Lemma drain_queue_spec p b code k ql woken :
  cleanup_inv k p ql woken -> (b < 3)%nat ->
  exists k',
    dispatcher.drain_queue (BlockedQ (Some p) b) code k = Ok (tt, k')
    /\ cleanup_inv k' p (set_queue ql b []) (woken_with code (ql b) woken).
Proof.
  intros Hinv Hb. unfold dispatcher.drain_queue.
  destruct (inv_queues _ _ _ _ Hinv) as (pcp & Hp & Hqs).
  destruct (Hqs b Hb) as (q & Hbq & Hqb).
  apply queueb_spec in Hqb as (Hsz & _ & _).
  rewrite (bind_ok _ _ _ _ _ (getq_blocked_ok k p b pcp q Hp Hbq)).
  destruct (drain_spec p b code (ql b) k ql woken (S (Z.to_nat (Q.size q)))
              Hinv Hb eq_refl ltac:(lia)) as (k' & ql' & E & Hql & Hinv').
  exists k'. split; [done|]. by apply (cleanup_inv_ext k' p ql').
Qed.

(** *** The end of [cleanup] *)

(** [stop]: the PCB is marked stopped and appended to the stopped queue;
    the only other PCB written is the previous tail of that queue. *)
Lemma stop_spec k p pcp :
  K.pcbs k !! p = Some pcp ->
  slot_ok (K.pcbs k) (Q.tail (K.stopped_queue k)) = true ->
  exists k' pc',
    disp.stop (Some p) k = Ok (tt, k')
    /\ K.ready_queues k' = K.ready_queues k
    /\ K.receive_any_queue k' = K.receive_any_queue k
    /\ K.user_proc_count k' = to_int (K.user_proc_count k - 1)
    /\ length (K.pcbs k') = length (K.pcbs k)
    /\ K.pcbs k' !! p = Some pc'
    /\ P.state pc' = STOPPED /\ P.next pc' = None
    /\ P.blocked_queues pc' = P.blocked_queues pcp
    /\ forall y, y <> p ->
         K.pcbs k' !! y
         = if decide (Q.tail (K.stopped_queue k) = Some y)
           then P.set_next (Some p) <$> K.pcbs k !! y
           else K.pcbs k !! y.
Proof.
  intros Hp Ht.
  unfold disp.stop, queue.enqueue, bind, wr, rd, modq, getq, gets, modify,
         assert, ret.
  cbn [is_null negb]. rewrite Hp. kcbn.
  destruct (Q.tail (K.stopped_queue k)) as [t|] eqn:Htail.
  2: { repeat (progress (lk; kcbn; pcbn)).
       eexists _, _. split; [reflexivity|]. kcbn.
       split_and!;
         first [by (lk; reflexivity)|done|by rewrite !length_insert|idtac].
       intros y Hy. lk. by case_decide. }
  destruct (slot_ok_lookup _ _ Ht) as [pct Hpct].
  repeat (progress (lk; kcbn; pcbn)).
  destruct (decide (t = p)) as [->|Hne].
  - repeat (progress (lk; kcbn; pcbn)).
    eexists _, _. split; [reflexivity|]. kcbn.
    split_and!;
      first [by (lk; reflexivity)|done|by rewrite !length_insert|idtac].
    intros y Hy. lk. case_decide; [congruence|done].
  - repeat (progress (lk; kcbn; pcbn; rewrite ?Hpct)).
    eexists _, _. split; [reflexivity|]. kcbn.
    split_and!;
      first [by (lk; reflexivity)|done|by rewrite !length_insert|idtac].
    intros y Hy. lk. case_decide as Hd.
    + injection Hd as <-. lk. by rewrite Hpct.
    + lk. done.
Qed.

(** [dequeue] on the receive-any queue. *)
Lemma dequeue_receive_any_spec k h pch :
  Q.size (K.receive_any_queue k) <> 0 ->
  Q.head (K.receive_any_queue k) = Some h ->
  K.pcbs k !! h = Some pch ->
  slot_ok (K.pcbs k) (P.next pch) = true ->
  exists k',
    queue.dequeue ReceiveAnyQ k = Ok (Some h, k')
    /\ K.ready_queues k' = K.ready_queues k
    /\ length (K.pcbs k') = length (K.pcbs k)
    /\ K.pcbs k' !! h = Some (unlinked pch)
    /\ forall y, y <> h ->
         P.set_prev None <$> K.pcbs k' !! y = P.set_prev None <$> K.pcbs k !! y.
Proof.
  intros Hsz Hh Hpch Hn.
  unfold queue.dequeue, bind, wr, rd, modq, getq, gets, modify, ret.
  destruct (Z.eqb_spec (Q.size (K.receive_any_queue k)) 0) as [|_]; [done|].
  cbv zeta. rewrite Hh, Hpch. kcbn.
  destruct (P.next pch) as [n|] eqn:Hnext.
  - destruct (slot_ok_lookup _ _ Hn) as [pcn Hpcn].
    destruct (decide (n = h)) as [->|Hne].
    + repeat (progress (lk; kcbn; pcbn; rewrite ?Hpch)).
      eexists. split; [reflexivity|]. kcbn.
      split_and!;
        first [by (lk; reflexivity)|done|by rewrite !length_insert|idtac].
      intros y Hy. lk. done.
    + repeat (progress (lk; kcbn; pcbn; rewrite ?Hpch, ?Hpcn)).
      eexists. split; [reflexivity|]. kcbn.
      split_and!;
        first [by (lk; reflexivity)|done|by rewrite !length_insert|idtac].
      intros y Hy. lk. destruct (decide (y = n)) as [->|Hyn]; lk; [|done].
      by rewrite Hpcn.
  - repeat (progress (lk; kcbn; pcbn; rewrite ?Hpch)).
    eexists. split; [reflexivity|]. kcbn.
    split_and!;
      first [by (lk; reflexivity)|done|by rewrite !length_insert|idtac].
    intros y Hy. lk. done.
Qed.

Lemma elem_woken_with code l : forall woken y c,
  (y, c) ∈ woken_with code l woken <-> (y ∈ l /\ c = code) \/ (y, c) ∈ woken.
Proof.
  unfold woken_with. induction l as [|x l IH]; intros woken y c; cbn.
  - split; [by right|]. intros [[H _]|H]; [|done]. by apply elem_of_nil in H.
  - rewrite IH. rewrite elem_of_cons, (elem_of_cons l).
    split.
    + intros [[H ->]|[[= -> ->]|H]]; eauto.
    + intros [[[->|H] ->]|H]; eauto.
Qed.

Lemma last_receiver_block (rest : M unit) k :
  (o <- disp.only_process ;;
   sz <- (if o then queue.size ReceiveAnyQ else ret 0) ;;
   (if o && (sz =? 1) then
      blocked_receive_any <- queue.dequeue ReceiveAnyQ ;;
      disp.unblock blocked_receive_any (-10)
    else ret tt) ;;;
   rest) k
  = if (K.user_proc_count k =? 1)
       && (to_int (Q.size (K.receive_any_queue k)) =? 1)
    then ((blocked_receive_any <- queue.dequeue ReceiveAnyQ ;;
           disp.unblock blocked_receive_any (-10)) ;;; rest) k
    else rest k.
Proof.
  unfold disp.only_process, queue.size.
  unfold bind at 1 2 3. unfold gets at 1. unfold ret at 1.
  destruct (K.user_proc_count k =? 1); cbn [andb].
  - unfold bind at 1 2. unfold getq, gets at 1. unfold ret at 1.
    by destruct (to_int (Q.size (K.receive_any_queue k)) =? 1).
  - reflexivity.
Qed.

Lemma to_int_one_nonzero z : to_int z = 1 -> z <> 0.
Proof. intros H ->. vm_compute in H. done. Qed.

(** [cleanup] from the invariant: it returns, the PCBs of the sender and
    receiver queues are ready with result code -1, those of the waiter
    queue with 0, and the three queues are empty. *)
Lemma cleanup_from_inv k p ql :
  cleanup_inv k p ql [] ->
  exists k',
    dispatcher.cleanup (Some p) k = Ok (tt, k')
    /\ (forall y, y ∈ ql 0%nat ++ ql 1%nat ->
          exists pc, K.pcbs k' !! y = Some pc
                     /\ P.state pc = READY /\ P.result_code pc = -1)
    /\ (forall y, y ∈ ql 2%nat ->
          exists pc, K.pcbs k' !! y = Some pc
                     /\ P.state pc = READY /\ P.result_code pc = 0)
    /\ exists pc, K.pcbs k' !! p = Some pc
         /\ forall b, (b < 3)%nat ->
              exists q, P.blocked_queues pc !! b = Some q
                        /\ Q.size q = 0 /\ Q.head q = None.
Proof.
  intros Hinv. unfold dispatcher.cleanup. cbn [bq_index].
  destruct (drain_queue_spec p 0 (-1) k ql [] Hinv ltac:(lia)) as (k1 & E1 & Hinv1).
  rewrite (bind_ok _ _ _ _ _ E1).
  destruct (drain_queue_spec p 1 (-1) k1 _ _ Hinv1 ltac:(lia)) as (k2 & E2 & Hinv2).
  rewrite (bind_ok _ _ _ _ _ E2).
  destruct (drain_queue_spec p 2 0 k2 _ _ Hinv2 ltac:(lia)) as (k3 & E3 & Hinv3).
  rewrite (bind_ok _ _ _ _ _ E3).
  clear E1 E2 E3 Hinv Hinv1 Hinv2.
  unfold set_queue in Hinv3. cbn [Nat.eqb] in Hinv3.
  set (W := woken_with 0 (ql 2%nat)
              (woken_with (-1) (ql 1%nat) (woken_with (-1) (ql 0%nat) []))) in *.
  destruct Hinv3 as [Hq Hnd Hdj Hwk Hlk Hrl Hrt Hwo Hst Hra].
  destruct Hq as (pcp & Hp & Hqs).
  destruct (stop_spec k3 p pcp Hp Hst)
    as (k4 & pc4 & E4 & R4 & A4 & U4 & L4 & P4 & St4 & N4 & B4 & O4).
  rewrite (bind_ok _ _ _ _ _ E4).
  rewrite last_receiver_block.
  assert (Stab4 : forall y, y <> p ->
            unlinked <$> K.pcbs k4 !! y = unlinked <$> K.pcbs k3 !! y).
  { intros y Hy. rewrite (O4 y Hy). case_decide; by rewrite ?unlinked_set_next. }
  assert (Final : forall kf,
            length (K.pcbs kf) = length (K.pcbs k3) ->
            (forall y, y <> p -> (exists c, (y, c) ∈ W) ->
               unlinked <$> K.pcbs kf !! y = unlinked <$> K.pcbs k3 !! y) ->
            (exists pcf, K.pcbs kf !! p = Some pcf
                         /\ P.blocked_queues pcf = P.blocked_queues pcp
                         /\ P.mem_start pcf = P.mem_start pcf) ->
            exists k',
              (pc <- rd (Some p) ;; kmem.kfree (P.mem_start pc)) kf = Ok (tt, k')
              /\ (forall y, y ∈ ql 0%nat ++ ql 1%nat ->
                    exists pc, K.pcbs k' !! y = Some pc
                               /\ P.state pc = READY /\ P.result_code pc = -1)
              /\ (forall y, y ∈ ql 2%nat ->
                    exists pc, K.pcbs k' !! y = Some pc
                               /\ P.state pc = READY /\ P.result_code pc = 0)
              /\ exists pc, K.pcbs k' !! p = Some pc
                   /\ forall b, (b < 3)%nat ->
                        exists q, P.blocked_queues pc !! b = Some q
                                  /\ Q.size q = 0 /\ Q.head q = None).
  { intros kf Hlen Hstab (pcf & Hpf & Hbq & _).
    rewrite (bind_ok _ _ _ _ _ (rd_ok kf p pcf Hpf)).
    unfold kmem.kfree, modify. eexists. split; [reflexivity|]. kcbn.
    assert (Hw : forall y c, (y, c) ∈ W ->
              exists pc, K.pcbs kf !! y = Some pc
                         /\ P.state pc = READY /\ P.result_code pc = c).
    { intros y c Hy. destruct (Hwo y c Hy) as (Hyp & _ & pc & Hpc & F1 & F2).
      assert (Hs : unlinked <$> K.pcbs kf !! y = unlinked <$> K.pcbs k3 !! y).
      { apply Hstab; [done|]. by exists c. }
      destruct (fmap_eq_Some_r _ _ _ _ Hs Hpc) as (pc2 & Hpc2 & E).
      exists pc2. split; [done|]. rewrite <- F1, <- F2. split.
      - exact (f_equal P.state E).
      - exact (f_equal P.result_code E). }
    split_and!.
    - intros y Hy. apply Hw. unfold W. rewrite !elem_woken_with.
      apply elem_of_app in Hy as [Hy|Hy]; eauto 6.
    - intros y Hy. apply Hw. unfold W. rewrite !elem_woken_with. eauto.
    - exists pcf. split; [done|]. intros b Hb. rewrite Hbq.
      destruct (Hqs b Hb) as (q & Hq1 & Hq2). exists q. split; [done|].
      apply queueb_spec in Hq2 as (F1 & _ & F3).
      destruct b as [|[|[|b]]]; [| | |lia]; cbn in F1, F3;
        (split; [done|by destruct (Q.head q)]). }
  destruct ((K.user_proc_count k4 =? 1)
            && (to_int (Q.size (K.receive_any_queue k4)) =? 1)) eqn:Htest.
  2: { apply Final; [done| |eauto].
       intros y Hy _. by apply Stab4. }
  assert (Htest3 : last_receiver_test k3 = true).
  { unfold last_receiver_test. by rewrite <- U4, <- A4. }
  destruct (Hra Htest3) as (h & Hh1 & Hhp & Hhq & Hhw & Hhk & Hht).
  apply wakeableb_spec in Hhk as (pch3 & Hpch3 & Hpid & Hprio).
  destruct (fmap_eq_Some_r _ _ _ _ (Stab4 h Hhp) Hpch3) as (pch4 & Hpch4 & Eh).
  assert (Hsz : Q.size (K.receive_any_queue k4) <> 0).
  { apply andb_true_iff in Htest as [_ Hs]. apply Z.eqb_eq in Hs.
    by apply to_int_one_nonzero. }
  assert (Hn4 : slot_ok (K.pcbs k4) (P.next pch4) = true).
  { rewrite (slot_ok_length (K.pcbs k3)) by done.
    rewrite (O4 h Hhp) in Hpch4. case_decide.
    - rewrite Hpch3 in Hpch4. injection Hpch4 as <-. pcbn. cbn.
      apply Nat.ltb_lt. by eapply lookup_lt_Some.
    - rewrite Hpch3 in Hpch4. injection Hpch4 as <-. by eapply Hlk. }
  rewrite <- A4 in Hh1.
  destruct (dequeue_receive_any_spec k4 h pch4 Hsz Hh1 Hpch4 Hn4)
    as (k5 & E5 & R5 & L5 & X5 & O5).
  assert (Hpid4 : P.pid (unlinked pch4) <> IDLE_PROC_PID).
  { replace (P.pid (unlinked pch4)) with (P.pid pch3); [done|].
    exact (f_equal P.pid (eq_sym Eh)). }
  assert (Hprio4 : P.priority (unlinked pch4) = P.priority pch3)
    by exact (f_equal P.priority Eh).
  destruct (lookup_lt_is_Some_2 (K.ready_queues k3) (Z.to_nat (P.priority pch3)))
    as [rq Hrq].
  { rewrite Hrl. unfold NUM_PRIORITIES in Hprio. lia. }
  assert (Hrq5 : K.ready_queues k5 !! Z.to_nat (P.priority (unlinked pch4)) = Some rq)
    by (by rewrite R5, R4, Hprio4).
  assert (Htl : forall t, Q.tail rq = Some t ->
                  (t < length (K.pcbs k5))%nat /\ t <> h).
  { intros t Ht. destruct (Hrt _ _ _ Hrq Ht) as (Hlt & _ & _).
    rewrite L5, L4. split; [done|]. intros ->. by apply (Hht _ _ Hrq). }
  destruct (unblock_spec k5 h (-10) (unlinked pch4) rq X5 Hpid4
              ltac:(by rewrite Hprio4) Hrq5 Htl)
    as (k6 & rq' & pc6 & E6 & _ & _ & _ & L6 & _ & _ & X6 & _ & _ & _ & _ & _ & _ & O6).
  unfold bind at 1. unfold bind at 1. rewrite E5, E6.
  assert (Stab6 : forall y, y <> h ->
            unlinked <$> K.pcbs k6 !! y = unlinked <$> K.pcbs k4 !! y).
  { intros y Hy. rewrite (O6 y Hy).
    case_decide; rewrite ?unlinked_set_next; by apply unlinked_of_prev, O5. }
  apply Final.
  - congruence.
  - intros y Hyp Hyw.
    assert (Hyh : y <> h). { intros ->. destruct Hyw as [c Hc]. by apply (Hhw c). }
    rewrite Stab6 by done. by apply Stab4.
  - destruct (fmap_eq_Some_r _ _ _ _ (Stab6 p ltac:(done)) P4) as (pcf & Hpf & E).
    exists pcf. split; [done|]. split; [|done]. rewrite <- B4.
    exact (f_equal P.blocked_queues E).
Qed.

(** *** From the check to the invariant *)

Lemma in_queues_of ls lr lw b y :
  y ∈ queues_of ls lr lw b -> y ∈ ls ++ lr ++ lw.
Proof.
  destruct b as [|[|[|b]]]; cbn; intros H; rewrite !elem_of_app; eauto.
  by apply elem_of_nil in H.
Qed.

Lemma cleanup_okb_inv k p ls lr lw :
  cleanup_okb k p ls lr lw = true ->
  cleanup_inv k p (queues_of ls lr lw) [].
Proof.
  unfold cleanup_okb. cbv zeta. intros H.
  repeat (apply andb_true_iff in H as [H ?]).
  destruct (K.pcbs k !! p) as [pcp|] eqn:Hp; [|done].
  destruct (P.blocked_queues pcp) as [|qs [|qr [|qw bqs]]] eqn:Hbq; try done.
  repeat (apply andb_true_iff in H as [H ?]).
  match goal with H : nodupb _ = true |- _ => apply nodupb_spec in H as Hnd end.
  pose proof (NoDup_cons_1_1 _ _ Hnd) as Hpn.
  pose proof (NoDup_cons_1_2 _ _ Hnd) as Hnd'.
  apply list.NoDup_app in Hnd' as (Hs & Hsd & Hnd').
  apply list.NoDup_app in Hnd' as (Hr & Hrd & Hw).
  constructor.
  - exists pcp. split; [done|]. intros b Hb. rewrite Hbq.
    destruct b as [|[|[|b]]]; [| | |lia];
      (eexists; split; [reflexivity|]; cbn [queues_of]);
      first [assumption
            |unfold queueb; repeat (apply andb_true_iff; split); assumption].
  - intros b. split.
    + destruct b as [|[|[|b]]]; cbn; try done. constructor.
    + intros Hy. apply Hpn. by eapply in_queues_of.
  - intros b b' y Hne Hy Hy'.
    destruct b as [|[|[|b]]], b' as [|[|[|b']]]; cbn in Hy, Hy';
      try done; try (by apply elem_of_nil in Hy); try (by apply elem_of_nil in Hy').
    + apply (Hsd y Hy). rewrite elem_of_app. by left.
    + apply (Hsd y Hy). rewrite elem_of_app. by right.
    + apply (Hsd y Hy'). rewrite elem_of_app. by left.
    + by apply (Hrd y Hy).
    + apply (Hsd y Hy'). rewrite elem_of_app. by right.
    + by apply (Hrd y Hy').
  - intros b y Hy. eapply forallb_elem; [eassumption|]. by eapply in_queues_of.
  - intros y pc Hy.
    match goal with
    | H : forallb (fun pc => slot_ok _ _) _ = true |- _ =>
        exact (forallb_lookup _ _ y pc H Hy)
    end.
  - by apply Nat.eqb_eq.
  - intros i q t Hi Ht.
    match goal with
    | H : forallb (tail_okb _ _) _ = true |- _ =>
        pose proof (forallb_lookup _ _ i q H Hi) as Hq
    end.
    unfold tail_okb in Hq. rewrite Ht in Hq.
    apply andb_true_iff in Hq as [Hl Hm]. apply Nat.ltb_lt in Hl.
    apply memb_false in Hm. split; [done|]. split.
    + intros ->. apply Hm. left.
    + intros b Hb. apply Hm. right. by eapply in_queues_of.
  - intros y c Hy. by apply elem_of_nil in Hy.
  - done.
  - intros Ht.
    match goal with
    | H : receive_any_okb _ _ = true |- _ => rename H into Hra
    end.
    unfold receive_any_okb in Hra. rewrite Ht in Hra.
    destruct (Q.head (K.receive_any_queue k)) as [h|]; [|done].
    apply andb_true_iff in Hra as [Hra Htl].
    apply andb_true_iff in Hra as [Hm Hwk]. apply memb_false in Hm.
    exists h. split; [done|]. split_and!.
    + intros ->. apply Hm. left.
    + intros b Hb. apply Hm. right. by eapply in_queues_of.
    + intros c Hc. by apply elem_of_nil in Hc.
    + done.
    + intros i q Hi Hq. pose proof (forallb_lookup _ _ i q Htl Hi) as F.
      cbv beta in F. rewrite Hq in F. cbn in F. by rewrite Nat.eqb_refl in F.
Qed.

(** C2, amended. When [cleanup] runs for PCB [p] in a state whose queues
    are well formed, with [ls], [lr] and [lw] the PCBs in the sender,
    receiver and waiter queues of [p], it returns; afterwards every PCB of
    [ls] and [lr] is ready with result code -1, every PCB of [lw] is ready
    with result code 0, and the three queues of [p] are empty. *)
Theorem cleanup_wakes_blocked_processes (k : kernel) (p : nat)
    (ls lr lw : list nat) :
  cleanup_okb k p ls lr lw = true ->
  exists k',
    dispatcher.cleanup (Some p) k = Ok (tt, k')
    /\ (forall y, y ∈ ls ++ lr ->
          exists pc, K.pcbs k' !! y = Some pc
                     /\ P.state pc = READY /\ P.result_code pc = -1)
    /\ (forall y, y ∈ lw ->
          exists pc, K.pcbs k' !! y = Some pc
                     /\ P.state pc = READY /\ P.result_code pc = 0)
    /\ exists pc, K.pcbs k' !! p = Some pc
         /\ forall b, (b < 3)%nat ->
              exists q, P.blocked_queues pc !! b = Some q
                        /\ Q.size q = 0 /\ Q.head q = None.
Proof.
  intros H. exact (cleanup_from_inv k p (queues_of ls lr lw) (cleanup_okb_inv _ _ _ _ _ H)).
Qed.

Lemma cleanup_wakes_blocked_processes_witness :
  exists k',
    dispatcher.cleanup (Some 1%nat) k_blocked_on_p2 = Ok (tt, k')
    /\ (forall y, y ∈ [0%nat] ++ [2%nat] ->
          exists pc, K.pcbs k' !! y = Some pc
                     /\ P.state pc = READY /\ P.result_code pc = -1)
    /\ (forall y, y ∈ [3%nat] ->
          exists pc, K.pcbs k' !! y = Some pc
                     /\ P.state pc = READY /\ P.result_code pc = 0)
    /\ exists pc, K.pcbs k' !! 1%nat = Some pc
         /\ forall b, (b < 3)%nat ->
              exists q, P.blocked_queues pc !! b = Some q
                        /\ Q.size q = 0 /\ Q.head q = None.
Proof.
  apply (cleanup_wakes_blocked_processes k_blocked_on_p2 1 [0%nat] [2%nat] [3%nat]).
  vm_compute. reflexivity.
Defined.

(** *** The waiter of a terminating process *)

Lemma k_blocked_on_p2_reachable : reachable k_blocked_on_p2.
Proof.
  unfold k_blocked_on_p2, k_four_procs, k_two_procs.
  repeat lazymatch goal with
         | |- reachable (round ?ev ?k) =>
             apply (reach_round k ev); [|vm_compute; reflexivity]
         end.
  apply (reach_boot ly0 m0 24576 1700000 1800000). vm_compute. reflexivity.
Qed.

(** C2, counterexample. In a reachable state P4 (slot 3) is the only
    process in the waiter queue of P2 (slot 1); [cleanup] for P2 makes it
    ready with result code 0, not -1, and so does the whole round that
    serves P2's [sysstop]. *)
Lemma cleanup_wakes_waiter_with_zero :
  blocked_queue_of k_blocked_on_p2 1 WAIT
    = Some (Q.mk 1 (Some 3%nat) (Some 3%nat))
  /\ proc_view k_blocked_on_p2 3 = Some (36, BLOCKED, WAIT, 0)
  /\ (exists k' pc,
        dispatcher.cleanup (Some 1%nat) k_blocked_on_p2 = Ok (tt, k')
        /\ K.pcbs k' !! 3%nat = Some pc
        /\ P.state pc = READY /\ P.result_code pc = 0
        /\ P.result_code pc <> -1)
  /\ proc_view (round (syscall_event SYSSTOP 1905000 [] [] 0) k_blocked_on_p2) 3
     = Some (36, READY, NONE, 0).
Proof.
  split; [vm_compute; reflexivity|]. split; [vm_compute; reflexivity|].
  split; [|vm_compute; reflexivity].
  exists (run (dispatcher.cleanup (Some 1%nat)) k_blocked_on_p2),
         (default zero_pcb
            (K.pcbs (run (dispatcher.cleanup (Some 1%nat)) k_blocked_on_p2) !! 3%nat)).
  split; [vm_compute; reflexivity|]. split; [vm_compute; reflexivity|].
  split; [vm_compute; reflexivity|]. split; [vm_compute; reflexivity|].
  vm_compute. discriminate.
Qed.


(** * Devices and process creation *)

(** ** di_calls.c and the keyboard's open and close *)

Lemma first_free_fd_free t : forall n fd,
  (di_calls.first_free_fd t fd n < fd + n)%nat ->
  (fd + n <= length t)%nat ->
  t !! di_calls.first_free_fd t fd n = Some None.
Proof.
  induction n as [|n IH]; intros fd Hlt Hlen; cbn [di_calls.first_free_fd] in *.
  - lia.
  - destruct (t !! fd) as [[d|]|] eqn:E.
    + apply IH; lia.
    + done.
    + apply lookup_ge_None in E. lia.
Qed.

Lemma first_free_fd_range t : forall n fd,
  (fd <= di_calls.first_free_fd t fd n <= fd + n)%nat.
Proof.
  induction n as [|n IH]; intros fd; cbn [di_calls.first_free_fd]; [lia|].
  destruct (t !! fd) as [[d|]|]; [|lia..]. specialize (IH (S fd)). lia.
Qed.

Lemma kbd_reset_ok k :
  exists kb, kbd.kbd_reset k = Ok (tt, K.set_kbd kb k)
             /\ KB.kbd_proc kb = KB.kbd_proc (K.kbd k).
Proof.
  destruct k as [pcbs rq sq raq slq cp upc ar me kb ly fr].
  destruct kb as [buf hd tl rb rbl ct rf eo ef ec kp ks hw].
  eexists. split; [lazy; reflexivity|reflexivity].
Qed.

(** While a process holds the keyboard every [di_open] fails. *)
Lemma di_open_busy k q dev owner :
  KB.kbd_proc (K.kbd k) = Some owner -> (q < length (K.pcbs k))%nat ->
  di_calls.di_open (Some q) dev k = Ok (-1, k).
Proof.
  intros Ho Hq. destruct (lookup_lt_is_Some_2 _ _ Hq) as [pcq Hpcq].
  unfold di_calls.di_open.
  destruct ((0 <=? dev) && (dev <? DEVICE_TABLE_SIZE)); [|done].
  rewrite (bind_ok _ _ _ _ _ (rd_ok k q pcq Hpcq)). cbv zeta.
  destruct (_ =? FD_TABLE_SIZE); [done|].
  assert (E : kbd.kbdopen (Some q) dev k = Ok (-1, k)).
  { unfold kbd.kbdopen.
    rewrite (bind_ok _ _ _ _ _ (eq_refl : gets K.kbd k = Ok (_, k))).
    by rewrite Ho. }
  by rewrite (bind_ok _ _ _ _ _ E).
Qed.

(** X14. An opened device can be closed again, and the keyboard has one
    owner: when the keyboard is free and the process has a free
    descriptor, [di_open] returns the first free descriptor, which is then
    valid; until it is closed every other [di_open] returns -1 and changes
    nothing; [di_close] on the descriptor returns 0, after which the
    keyboard is free and the PCB store is what it was before the open. *)
Theorem open_close_round_trip (k : kernel) (p : nat) (pc : pcb_t)
    (device_no : Z) :
  K.pcbs k !! p = Some pc ->
  0 <= device_no < DEVICE_TABLE_SIZE ->
  KB.kbd_proc (K.kbd k) = None ->
  length (P.fd_table pc) = 4%nat ->
  (di_calls.first_free_fd (P.fd_table pc) 0 4 < 4)%nat ->
  exists k1 k2,
    di_calls.di_open (Some p) device_no k
    = Ok (Z.of_nat (di_calls.first_free_fd (P.fd_table pc) 0 4), k1)
    /\ di_calls.is_valid_fd (Some p)
         (Z.of_nat (di_calls.first_free_fd (P.fd_table pc) 0 4)) k1
       = Ok (true, k1)
    /\ KB.kbd_proc (K.kbd k1) = Some p
    /\ (forall q dev, (q < length (K.pcbs k))%nat ->
          di_calls.di_open (Some q) dev k1 = Ok (-1, k1))
    /\ di_calls.di_close (Some p)
         (Z.of_nat (di_calls.first_free_fd (P.fd_table pc) 0 4)) k1
       = Ok (0, k2)
    /\ KB.kbd_proc (K.kbd k2) = None
    /\ K.pcbs k2 = K.pcbs k.
Proof.
  intros Hp Hdev Hfree Hlen Hfd.
  set (fd := di_calls.first_free_fd (P.fd_table pc) 0 4) in *.
  pose proof (first_free_fd_free (P.fd_table pc) 4 0 Hfd ltac:(lia)) as Hslot.
  fold fd in Hslot.
  assert (Hopen : exists k1,
    di_calls.di_open (Some p) device_no k = Ok (Z.of_nat fd, k1)
    /\ KB.kbd_proc (K.kbd k1) = Some p
    /\ K.pcbs k1
       = <[p := P.set_fd_table (<[fd := Some (Z.to_nat device_no)]> (P.fd_table pc))
                 pc]> (K.pcbs k)).
  { unfold di_calls.di_open.
    destruct (Z.leb_spec 0 device_no) as [_|]; [|lia].
    destruct (Z.ltb_spec device_no DEVICE_TABLE_SIZE) as [_|]; [|lia].
    cbn [andb]. rewrite (bind_ok _ _ _ _ _ (rd_ok k p pc Hp)). cbv zeta.
    change (Z.to_nat FD_TABLE_SIZE) with 4%nat. fold fd.
    destruct (Z.eqb_spec (Z.of_nat fd) FD_TABLE_SIZE) as [E|_];
      [unfold FD_TABLE_SIZE in E; lia|].
    assert (Eo : exists kb, kbd.kbdopen (Some p) device_no k
                            = Ok (0, K.set_kbd kb k)
                            /\ KB.kbd_proc kb = Some p).
    { unfold kbd.kbdopen.
      rewrite (bind_ok _ _ _ _ _ (eq_refl : gets K.kbd k = Ok (_, k))).
      rewrite Hfree. cbn [is_null negb].
      destruct (kbd_reset_ok k) as (kb & Er & _).
      rewrite (bind_ok _ _ _ _ _ Er).
      destruct k as [pcbs rq sq raq slq cp upc ar me kb0 ly fr].
      destruct kb as [buf hd tl rb rbl ct rf eo ef ec kp ks hw].
      eexists. split; [lazy; reflexivity|reflexivity]. }
    destruct Eo as (kb & Eo & Hkp).
    rewrite (bind_ok _ _ _ _ _ Eo). cbn [Z.eqb negb].
    rewrite (bind_ok _ _ _ _ _ (wr_ok (K.set_kbd kb k) p pc _ Hp)).
    eexists. split; [reflexivity|]. split; [exact Hkp|reflexivity]. }
  destruct Hopen as (k1 & E1 & Ho1 & Hp1).
  assert (Hp1' : K.pcbs k1 !! p
                 = Some (P.set_fd_table
                           (<[fd := Some (Z.to_nat device_no)]> (P.fd_table pc)) pc)).
  { rewrite Hp1. apply list_lookup_insert_eq. by eapply lookup_lt_Some. }
  assert (Hvalid : di_calls.is_valid_fd (Some p) (Z.of_nat fd) k1 = Ok (true, k1)).
  { unfold di_calls.is_valid_fd.
    destruct (Z.leb_spec 0 (Z.of_nat fd)) as [_|]; [|lia].
    destruct (Z.ltb_spec (Z.of_nat fd) FD_TABLE_SIZE) as [_|];
      [|unfold FD_TABLE_SIZE in *; lia].
    cbn [andb]. rewrite (bind_ok _ _ _ _ _ (rd_ok k1 p _ Hp1')). pcbn.
    rewrite Nat2Z.id, list_lookup_insert_eq by lia. done. }
  assert (Hclose : exists k2,
    di_calls.di_close (Some p) (Z.of_nat fd) k1 = Ok (0, k2)
    /\ KB.kbd_proc (K.kbd k2) = None /\ K.pcbs k2 = K.pcbs k).
  { unfold di_calls.di_close. rewrite (bind_ok _ _ _ _ _ Hvalid).
    assert (Ec : exists kb, kbd.kbdclose (Some p) k1 = Ok (0, K.set_kbd kb k1)
                            /\ KB.kbd_proc kb = None).
    { unfold kbd.kbdclose, kbd.disable_keyboard_hardware.
      destruct (kbd_reset_ok k1) as (kb & Er & _).
      rewrite (bind_ok _ _ _ _ _ Er). clear.
      destruct k1 as [pcbs rq sq raq slq cp upc ar me kb0 ly fr].
      destruct kb as [buf hd tl rb rbl ct rf eo ef ec kp ks hw].
      eexists. split; [lazy; reflexivity|reflexivity]. }
    destruct Ec as (kb & Ec & Hkp).
    rewrite (bind_ok _ _ _ _ _ Ec). cbn [Z.eqb negb].
    rewrite (bind_ok _ _ _ _ _ (wr_ok (K.set_kbd kb k1) p _ _ Hp1')).
    eexists. split; [reflexivity|]. split; [exact Hkp|]. kcbn.
    rewrite Hp1, list_insert_insert_eq. pcbn.
    rewrite Nat2Z.id, list_insert_insert_eq, (list_insert_id _ _ _ Hslot).
    destruct pc. apply list_insert_id. exact Hp. }
  destruct Hclose as (k2 & E2 & Ho2 & Hp2).
  exists k1, k2. split_and!; try done.
  intros q dev Hq. apply (di_open_busy k1 q dev p Ho1).
  by rewrite Hp1, length_insert.
Qed.

Lemma open_close_round_trip_witness :
  exists k1 k2,
    di_calls.di_open (Some 0%nat) 1 k_boot
    = Ok (Z.of_nat (di_calls.first_free_fd
                      (P.fd_table (default zero_pcb (K.pcbs k_boot !! 0%nat))) 0 4),
          k1)
    /\ di_calls.is_valid_fd (Some 0%nat)
         (Z.of_nat (di_calls.first_free_fd
                      (P.fd_table (default zero_pcb (K.pcbs k_boot !! 0%nat))) 0 4))
         k1
       = Ok (true, k1)
    /\ KB.kbd_proc (K.kbd k1) = Some 0%nat
    /\ (forall q dev, (q < length (K.pcbs k_boot))%nat ->
          di_calls.di_open (Some q) dev k1 = Ok (-1, k1))
    /\ di_calls.di_close (Some 0%nat)
         (Z.of_nat (di_calls.first_free_fd
                      (P.fd_table (default zero_pcb (K.pcbs k_boot !! 0%nat))) 0 4))
         k1
       = Ok (0, k2)
    /\ KB.kbd_proc (K.kbd k2) = None
    /\ K.pcbs k2 = K.pcbs k_boot.
Proof.
  apply (open_close_round_trip k_boot 0
           (default zero_pcb (K.pcbs k_boot !! 0%nat)) 1).
  - vm_compute. reflexivity.
  - unfold DEVICE_TABLE_SIZE. lia.
  - vm_compute. reflexivity.
  - vm_compute. reflexivity.
  - vm_compute. lia.
Defined.

(** ** kbd.c *)

Lemma kbd_okb_spec kb :
  kbd_okb kb = true ->
  length (KB.kbd_buf kb) = 5%nat
  /\ 0 <= KB.kbd_buf_head kb < 5 /\ 0 <= KB.kbd_buf_tail kb < 5.
Proof.
  unfold kbd_okb, KBD_BUFFER_SIZE. intros H.
  repeat (apply andb_true_iff in H as [H ?]).
  apply Nat.eqb_eq in H.
  repeat match goal with
         | H : (_ <=? _) = true |- _ => apply Z.leb_le in H
         | H : (_ <? _) = true |- _ => apply Z.ltb_lt in H
         end.
  repeat split; assumption.
Qed.

Lemma five_cases (i : Z) :
  0 <= i < 5 -> i = 0 \/ i = 1 \/ i = 2 \/ i = 3 \/ i = 4.
Proof. lia. Qed.

(** X15. The keyboard buffer keeps four characters, in arrival order: a
    character written while fewer than four wait is added behind them; a
    character written while four wait is dropped.  Nothing but the buffer
    changes. *)
Theorem keyboard_buffer_keeps_four (k : kernel) (c : Z) :
  kbd_okb (K.kbd k) = true ->
  exists kb',
    kbd.write_to_kbd_buf c k = Ok (tt, K.set_kbd kb' k)
    /\ kbd_okb kb' = true
    /\ pending_chars kb'
       = (if (length (pending_chars (K.kbd k)) <? 4)%nat
          then pending_chars (K.kbd k) ++ [c]
          else pending_chars (K.kbd k))
    /\ (length (pending_chars kb') <= 4)%nat.
Proof.
  intros H. destruct (kbd_okb_spec _ H) as (Hlen & Hh & Ht).
  destruct k as [pcbs rq sq raq slq cp upc ar me kb ly fr]. cbn [K.kbd] in *.
  destruct kb as [buf hd tl rb rbl ct rf eo ef ec kp ks hw]. cbn in Hlen, Hh, Ht.
  destruct buf as [|b0 [|b1 [|b2 [|b3 [|b4 [|]]]]]]; try done.
  apply five_cases in Hh. apply five_cases in Ht.
  destruct Hh as [->|[->|[->|[->| ->]]]], Ht as [->|[->|[->|[->| ->]]]];
    (eexists; split; [reflexivity|]; split; [reflexivity|];
     split; [reflexivity|vm_compute; lia]).
Qed.

Lemma keyboard_buffer_keeps_four_witness :
  exists kb',
    kbd.write_to_kbd_buf 98 k_typed_a_newline
    = Ok (tt, K.set_kbd kb' k_typed_a_newline)
    /\ kbd_okb kb' = true
    /\ pending_chars kb'
       = (if (length (pending_chars (K.kbd k_typed_a_newline)) <? 4)%nat
          then pending_chars (K.kbd k_typed_a_newline) ++ [98]
          else pending_chars (K.kbd k_typed_a_newline))
    /\ (length (pending_chars kb') <= 4)%nat.
Proof.
  apply (keyboard_buffer_keeps_four k_typed_a_newline 98).
  vm_compute. reflexivity.
Defined.

(** ** disp.c and create.c: process creation *)

Lemma holdsb_same k k' r l :
  K.pcbs k' = K.pcbs k -> K.ready_queues k' = K.ready_queues k ->
  K.stopped_queue k' = K.stopped_queue k ->
  K.receive_any_queue k' = K.receive_any_queue k ->
  holdsb k' r l = holdsb k r l.
Proof.
  intros H1 H2 H3 H4. apply holdsb_stable.
  - destruct r as [i| | |[p|] b]; cbn [queue_at]; by rewrite ?H1, ?H2, ?H3, ?H4.
  - intros y _. unfold links. by rewrite H1.
Qed.

Lemma clear_signal_table_all (t : list Z) (v : Z) :
  length t = 32%nat ->
  <[31%nat := v]> (disp.clear_signal_table t) = replicate 31 0 ++ [v].
Proof.
  intros H. do 32 (destruct t as [|? t]; [done|]).
  destruct t; [reflexivity|done].
Qed.

Lemma clear_fd_table_all (t : list (option nat)) :
  length t = 4%nat ->
  foldl (fun t i => <[i := None]> t) t (seq 0 4) = replicate 4 None.
Proof.
  intros H. do 4 (destruct t as [|? t]; [done|]).
  destruct t; [reflexivity|done].
Qed.

(** [get_unused_pcb] takes the head of the stopped queue and resets it. *)
Lemma get_unused_pcb_holds k x l pcx :
  holdsb k StoppedQ (x :: l) = true ->
  K.pcbs k !! x = Some pcx ->
  1 <= new_pid_code (P.pid pcx) ->
  length (P.signal_table pcx) = 32%nat -> length (P.fd_table pcx) = 4%nat ->
  exists k' pcx',
    disp.get_unused_pcb k = Ok (Some x, k')
    /\ holdsb k' StoppedQ l = true
    /\ (forall r' l',
          same_queue StoppedQ r' = false -> holdsb k r' l' = true ->
          disjointb (x :: l) l' = true -> holdsb k' r' l' = true)
    /\ links k' x = Some (None, None)
    /\ K.pcbs k' !! x = Some pcx'
    /\ payload pcx'
       = P.set_fd_table (replicate 4 None)
           (P.set_last_signal_delivered (-1)
              (P.set_pending_signals 0
                 (P.set_signal_table
                    (replicate 31 0 ++ [sysstop_addr (K.layout k)])
                    (P.set_cpuTime 0
                       (P.set_pid (new_pid_code (P.pid pcx)) (payload pcx))))))
    /\ (forall z, z <> x ->
          payload <$> K.pcbs k' !! z = payload <$> K.pcbs k !! z)
    /\ outside_queues k' = outside_queues k.
Proof.
  intros Hq Hx Hpid Hst Hfd.
  destruct (observers_holds k StoppedQ (x :: l) Hq) as (_ & Hne & _).
  pose proof (dequeue_holds k StoppedQ (x :: l) Hq)
    as (k1 & E1 & H1 & Lx & F1 & P1).
  destruct (links_Some _ _ _ _ Lx) as (pc1 & X1 & Hp1 & Hn1).
  assert (Hpay : payload pc1 = payload pcx).
  { specialize (P1 x). rewrite X1, Hx in P1.
    change (Some (payload pc1) = Some (payload pcx)) in P1.
    by apply (inj Some). }
  assert (Hpid1 : P.pid pc1 = P.pid pcx) by exact (f_equal P.pid Hpay).
  assert (Hst1 : P.signal_table pc1 = P.signal_table pcx)
    by exact (f_equal P.signal_table Hpay).
  assert (Hfd1 : P.fd_table pc1 = P.fd_table pcx)
    by exact (f_equal P.fd_table Hpay).
  set (pc2 := P.set_pid (new_pid_code (P.pid pcx)) pc1).
  destruct (wr_field_view k1 x pc1 (P.set_pid (new_pid_code (P.pid pcx))) X1
              eq_refl eq_refl eq_refl) as (k2 & E2 & Q2 & L2 & K2 & X2 & O2 & U2).
  fold pc2 in X2. set (pc3 := P.set_cpuTime 0 pc2).
  destruct (wr_field_view k2 x pc2 (P.set_cpuTime 0) X2 eq_refl eq_refl eq_refl)
    as (k3 & E3 & Q3 & L3 & K3 & X3 & O3 & U3).
  fold pc3 in X3.
  set (f4 := fun pc => P.set_signal_table
                 (<[31%nat := sysstop_addr (K.layout k3)]>
                    (disp.clear_signal_table (P.signal_table pc))) pc).
  destruct (wr_field_view k3 x pc3 f4 X3 eq_refl eq_refl eq_refl)
    as (k4 & E4 & Q4 & L4 & K4 & X4 & O4 & U4).
  destruct (wr_field_view k4 x (f4 pc3) (P.set_pending_signals 0) X4 eq_refl
              eq_refl eq_refl) as (k5 & E5 & Q5 & L5 & K5 & X5 & O5 & U5).
  set (pc5 := P.set_pending_signals 0 (f4 pc3)) in *.
  destruct (wr_field_view k5 x pc5 (P.set_last_signal_delivered (-1)) X5 eq_refl
              eq_refl eq_refl) as (k6 & E6 & Q6 & L6 & K6 & X6 & O6 & U6).
  set (pc6 := P.set_last_signal_delivered (-1) pc5) in *.
  set (f7 := fun pc => P.set_fd_table
                 (foldl (fun t i => <[i := None]> t) (P.fd_table pc) (seq 0 4)) pc).
  destruct (wr_field_view k6 x pc6 f7 X6 eq_refl eq_refl eq_refl)
    as (k7 & E7 & Q7 & L7 & K7 & X7 & O7 & U7).
  assert (S7 : forall r l', holdsb k7 r l' = holdsb k1 r l').
  { intros r l'.
    rewrite (holdsb_stable k6 k7), (holdsb_stable k5 k6), (holdsb_stable k4 k5),
      (holdsb_stable k3 k4), (holdsb_stable k2 k3), (holdsb_stable k1 k2);
      done. }
  assert (Hly : K.layout k3 = K.layout k).
  { transitivity (K.layout k2); [exact (f_equal K.layout U3)|].
    transitivity (K.layout k1); [exact (f_equal K.layout U2)|].
    exact (f_equal K.layout (keeps_dequeue _ _ _ _ E1)). }
  eexists k7, _. split_and!.
  - unfold disp.get_unused_pcb.
    rewrite (bind_ok _ _ _ _ _ Hne), (bind_ok _ _ _ _ _ E1).
    rewrite (bind_ok _ _ _ _ _ (rd_ok k1 x pc1 X1)). cbv zeta.
    fold (new_pid_code (P.pid pc1)). rewrite Hpid1.
    destruct (Z.leb_spec 1 (new_pid_code (P.pid pcx))) as [_|]; [|lia].
    cbn [assert]. rewrite (bind_ok _ _ _ _ _ eq_refl).
    rewrite (bind_ok _ _ _ _ _ E2), (bind_ok _ _ _ _ _ E3).
    rewrite (bind_ok _ _ _ _ _
               (eq_refl : gets (fun k => sysstop_addr (K.layout k)) k3
                          = Ok (_, k3))).
    rewrite (bind_ok _ _ _ _ _ E4), (bind_ok _ _ _ _ _ E5),
            (bind_ok _ _ _ _ _ E6), (bind_ok _ _ _ _ _ E7). reflexivity.
  - by rewrite S7.
  - intros r' l' Hr Hh Hd. rewrite S7. by apply F1.
  - by rewrite K7, K6, K5, K4, K3, K2.
  - exact X7.
  - unfold f7, pc6, pc5, f4, pc3, pc2. pcbn. rewrite Hst1, Hfd1, Hly.
    rewrite (clear_signal_table_all _ _ Hst).
    rewrite (clear_fd_table_all _ Hfd).
    change (payload (P.set_fd_table ?a (P.set_last_signal_delivered ?b
              (P.set_pending_signals ?c (P.set_signal_table ?d
                 (P.set_cpuTime ?e (P.set_pid ?f pc1)))))))
      with (P.set_fd_table a (P.set_last_signal_delivered b
              (P.set_pending_signals c (P.set_signal_table d
                 (P.set_cpuTime e (P.set_pid f (payload pc1))))))).
    by rewrite Hpay.
  - intros z Hz. by rewrite O7, O6, O5, O4, O3, O2, P1.
  - rewrite U7, U6, U5, U4, U3, U2. by apply (keeps_dequeue _ _ _ _ E1).
Qed.

Lemma load32_store_bytes4_off m x c b0 b1 b2 b3 :
  4 <= c < 2147483648 ->
  load32 (store_bytes m x [b0; b1; b2; b3]) (x + c) = load32 m (x + c).
Proof.
  intros Hc. unfold load32. cbn [store_bytes].
  assert (N : forall i j, 0 <= i < 4 -> 0 <= j < 4 ->
                wrap32 (x + c + i) <> wrap32 (x + j)).
  { intros i j Hi Hj. rewrite <- Z.add_assoc. apply wrap32_shift_neq; lia. }
  assert (L : forall i, 0 <= i < 4 ->
    load8 (store8 (store8 (store8 (store8 m x b0) (x + 1) b1) (x + 1 + 1) b2)
                  (x + 1 + 1 + 1) b3) (x + c + i) = load8 m (x + c + i)).
  { intros i Hi. rewrite !load8_store8_ne; [done|..].
    all: first
      [ apply N; lia
      | replace (x + 1 + 1 + 1) with (x + 3) by lia; apply N; lia
      | replace (x + 1 + 1) with (x + 2) by lia; apply N; lia
      | pose proof (N i 0 Hi ltac:(lia)) as N0; by rewrite Z.add_0_r in N0 ]. }
  rewrite <- (Z.add_0_r (x + c)) at 1 5.
  by rewrite !L by lia.
Qed.

Lemma mem_store32_ok a v k :
  mem_store32 a v k = Ok (tt, K.set_memory (store32 (K.memory k) a v) k).
Proof. reflexivity. Qed.

(** The initial stack of a process, as [create] writes it. *)
Lemma initial_stack_loads m x ss func cs :
  let m' := store32 (store32 (store32 (store32
              (store_bytes (store32 m (x + 44) ss) x [0; 0; 0; 0])
              (x + 8) (x + 4)) (x + 32) func) (x + 36) cs) (x + 40) EFLAGS in
  load32 m' (x + 8) = wrap32 (x + 4)
  /\ load32 m' (x + 32) = wrap32 func
  /\ load32 m' (x + 36) = wrap32 cs
  /\ load32 m' (x + 40) = EFLAGS
  /\ load32 m' (x + 44) = wrap32 ss.
Proof.
  cbv zeta. split_and!.
  - rewrite !load32_store32_off by lia. apply load32_store32_same.
  - rewrite !load32_store32_off by lia. apply load32_store32_same.
  - rewrite !load32_store32_off by lia. apply load32_store32_same.
  - by rewrite load32_store32_same.
  - rewrite !load32_store32_off by lia.
    rewrite load32_store_bytes4_off by lia. apply load32_store32_same.
Qed.

(** X16. [get_unused_pcb] hands out the head of the stopped queue, reset:
    when the stopped queue holds [x] followed by [l], it returns [x] with
    the PID the reuse rule gives, no CPU time, no pending signal, no
    handler but [sysstop] for signal 31 and no open descriptor; the stopped
    queue holds [l], every other queue that shares no PCB with it holds
    what it held, and nothing else changes. *)
Theorem unused_pcb_is_reset (k : kernel) (x : nat) (l : list nat)
    (pcx : pcb_t) :
  holdsb k StoppedQ (x :: l) = true ->
  K.pcbs k !! x = Some pcx ->
  1 <= new_pid_code (P.pid pcx) ->
  length (P.signal_table pcx) = 32%nat -> length (P.fd_table pcx) = 4%nat ->
  exists k' pcx',
    disp.get_unused_pcb k = Ok (Some x, k')
    /\ holdsb k' StoppedQ l = true
    /\ (forall r' l',
          same_queue StoppedQ r' = false -> holdsb k r' l' = true ->
          disjointb (x :: l) l' = true -> holdsb k' r' l' = true)
    /\ links k' x = Some (None, None)
    /\ K.pcbs k' !! x = Some pcx'
    /\ payload pcx'
       = P.set_fd_table (replicate 4 None)
           (P.set_last_signal_delivered (-1)
              (P.set_pending_signals 0
                 (P.set_signal_table
                    (replicate 31 0 ++ [sysstop_addr (K.layout k)])
                    (P.set_cpuTime 0
                       (P.set_pid (new_pid_code (P.pid pcx)) (payload pcx))))))
    /\ (forall z, z <> x ->
          payload <$> K.pcbs k' !! z = payload <$> K.pcbs k !! z)
    /\ outside_queues k' = outside_queues k.
Proof. exact (get_unused_pcb_holds k x l pcx). Qed.

Lemma unused_pcb_is_reset_witness :
  exists k' pcx',
    disp.get_unused_pcb k_boot = Ok (Some 1%nat, k')
    /\ holdsb k' StoppedQ (seq 2 30) = true
    /\ (forall r' l',
          same_queue StoppedQ r' = false -> holdsb k_boot r' l' = true ->
          disjointb (1%nat :: seq 2 30) l' = true -> holdsb k' r' l' = true)
    /\ links k' 1 = Some (None, None)
    /\ K.pcbs k' !! 1%nat = Some pcx'
    /\ payload pcx'
       = P.set_fd_table (replicate 4 None)
           (P.set_last_signal_delivered (-1)
              (P.set_pending_signals 0
                 (P.set_signal_table
                    (replicate 31 0 ++ [sysstop_addr (K.layout k_boot)])
                    (P.set_cpuTime 0
                       (P.set_pid
                          (new_pid_code
                             (P.pid (default zero_pcb (K.pcbs k_boot !! 1%nat))))
                          (payload (default zero_pcb (K.pcbs k_boot !! 1%nat))))))))
    /\ (forall z, z <> 1%nat ->
          payload <$> K.pcbs k' !! z = payload <$> K.pcbs k_boot !! z)
    /\ outside_queues k' = outside_queues k_boot.
Proof.
  apply (unused_pcb_is_reset k_boot 1 (seq 2 30)
           (default zero_pcb (K.pcbs k_boot !! 1%nat))).
  - vm_compute. reflexivity.
  - vm_compute. reflexivity.
  - apply Z.leb_le. vm_compute. reflexivity.
  - vm_compute. reflexivity.
  - vm_compute. reflexivity.
Defined.

(** X17. [create] sets up a process that starts at [func] and returns into
    [sysstop]: when [func] is a valid pointer, the allocator has given the
    stack at [mem_start] and the stopped queue holds [x] followed by [l],
    [create] returns 1; [x] has the PID of the reuse rule, priority 3, is
    [READY] at the end of ready queue 3, and its stack pointer is 48 bytes
    below the end of the stack; the context frame at the stack pointer
    resumes at [func] with the kernel's code segment and [EFLAGS], and the
    word above the frame, where [func] finds its return address, holds
    [sysstop]; the count of user processes grows by one. *)
Theorem create_sets_up_process (k : kernel) (func stack mem_start : Z)
    (x : nat) (l : list nat) (pcx : pcb_t) (lq : list nat) :
  kmem.valid_ptr (K.layout k) func = true ->
  mem_start <> 0 ->
  holdsb k StoppedQ (x :: l) = true ->
  K.pcbs k !! x = Some pcx ->
  1 <= new_pid_code (P.pid pcx) ->
  length (P.signal_table pcx) = 32%nat -> length (P.fd_table pcx) = 4%nat ->
  holdsb k (ReadyQ 3) lq = true -> Z.of_nat (length lq) < INT_MAX ->
  disjointb (x :: l) lq = true ->
  exists k' pc',
    create.create func stack mem_start k = Ok (1, k')
    /\ holdsb k' StoppedQ l = true
    /\ holdsb k' (ReadyQ 3) (lq ++ [x]) = true
    /\ K.pcbs k' !! x = Some pc'
    /\ P.pid pc' = new_pid_code (P.pid pcx)
    /\ P.state pc' = READY
    /\ P.priority pc' = INIT_PRIORITY
    /\ P.mem_start pc' = mem_start
    /\ P.esp pc' = initial_esp mem_start (stack_size stack)
    /\ load32 (K.memory k') (P.esp pc' + 32) = wrap32 func
    /\ load32 (K.memory k') (P.esp pc' + 36)
       = wrap32 (code_segment (K.layout k))
    /\ load32 (K.memory k') (P.esp pc' + 40) = EFLAGS
    /\ load32 (K.memory k') (P.esp pc' + 44)
       = wrap32 (sysstop_addr (K.layout k))
    /\ K.user_proc_count k' = to_int (K.user_proc_count k + 1).
Proof.
  intros Hv Hm Hq Hx Hpid Hst Hfd Hrq Hlen Hdj.
  assert (Hxq : x ∉ lq) by (apply (disjointb_spec _ _ x Hdj); left).
  destruct (get_unused_pcb_holds k x l pcx Hq Hx Hpid Hst Hfd)
    as (k1 & pc1 & E1 & Q1 & F1 & Lk1 & X1 & Pay1 & O1 & U1).
  assert (R1 : holdsb k1 (ReadyQ 3) lq = true) by (by apply F1).
  set (esp := initial_esp mem_start (stack_size stack)).
  set (ra := wrap32 (wrap32 (mem_start + stack_size stack) - 4)).
  assert (Hra : wrap32 ra = wrap32 (esp + 44)).
  { unfold esp, initial_esp, SIZEOF_CONTEXT_FRAME. fold ra.
    rewrite wrap32_add_l. f_equal. lia. }
  destruct (wr_field_view k1 x pc1 (P.set_mem_start mem_start) X1 eq_refl eq_refl
              eq_refl) as (k2 & E2 & Q2 & L2 & K2 & X2 & O2 & U2).
  destruct (wr_field_view k2 x _ (P.set_priority INIT_PRIORITY) X2 eq_refl
              eq_refl eq_refl) as (k3 & E3 & Q3 & L3 & K3 & X3 & O3 & U3).
  set (ss := sysstop_addr (K.layout k)).
  set (k4 := K.set_memory (store32 (K.memory k3) (esp + 44) ss) k3).
  destruct (wr_field_view k4 x _ (P.set_esp esp) X3 eq_refl eq_refl eq_refl)
    as (k5 & E5 & Q5 & L5 & K5 & X5 & O5 & U5).
  set (m6 := store32 (store32 (store32 (store32
               (store_bytes (K.memory k5) esp [0; 0; 0; 0])
               (esp + 8) (esp + 4)) (esp + 32) func)
               (esp + 36) (code_segment (K.layout k))) (esp + 40) EFLAGS).
  set (k6 := K.set_memory m6 k5).
  assert (Hly : forall kk, outside_queues kk = outside_queues k ->
                           K.layout kk = K.layout k)
    by (intros kk E; exact (f_equal K.layout E)).
  assert (Hly5 : K.layout k5 = K.layout k).
  { transitivity (K.layout k4); [exact (f_equal K.layout U5)|].
    change (K.layout k4) with (K.layout k3).
    transitivity (K.layout k2); [exact (f_equal K.layout U3)|].
    transitivity (K.layout k1); [exact (f_equal K.layout U2)|]. by apply Hly. }
  assert (Hm5 : K.memory k5 = store32 (K.memory k) (esp + 44) ss).
  { transitivity (K.memory k4); [exact (f_equal K.memory U5)|].
    unfold k4. kcbn. f_equal.
    transitivity (K.memory k2); [exact (f_equal K.memory U3)|].
    transitivity (K.memory k1); [exact (f_equal K.memory U2)|].
    exact (f_equal K.memory U1). }
  assert (R6 : holdsb k6 (ReadyQ 3) lq = true).
  { rewrite (holdsb_same k5 k6), (holdsb_stable k4 k5), (holdsb_same k3 k4),
      (holdsb_stable k2 k3), (holdsb_stable k1 k2); done. }
  assert (S6 : holdsb k6 StoppedQ l = true).
  { rewrite (holdsb_same k5 k6), (holdsb_stable k4 k5), (holdsb_same k3 k4),
      (holdsb_stable k2 k3), (holdsb_stable k1 k2); done. }
  destruct (ready_holds k6 x _ 3 lq X5) as (k7 & E7 & Q7 & F7 & Lk7 & X7 & O7 & U7);
    try done; try lia.
  { pcbn. rewrite (f_equal P.pid Pay1 : P.pid pc1 = _). pcbn.
    unfold IDLE_PROC_PID. lia. }
  { by apply memb_false_iff. }
  assert (S7 : holdsb k7 StoppedQ l = true).
  { apply F7; try done.
    - apply memb_false_iff. intros Hxl.
      apply holdsb_spec in Hq as (_ & _ & _ & _ & _ & Hnd).
      by apply (NoDup_cons_1_1 _ _ Hnd).
    - apply disjointb_intro. intros y Hy Hyl.
      apply (disjointb_spec _ _ y Hdj); [by right|done]. }
  destruct (K.pcbs k7 !! x) as [pc7|] eqn:X7'; [|done].
  assert (Epay : payload pc7
    = made_ready (payload (P.set_esp esp (P.set_priority INIT_PRIORITY
                             (P.set_mem_start mem_start pc1)))))
    by (apply (inj Some); exact X7).
  set (k8 := K.set_user_proc_count (to_int (K.user_proc_count k7 + 1)) k7).
  assert (Hm7 : K.memory k7 = m6) by exact (f_equal K.memory U7).
  assert (Hesp : P.esp pc7 = esp) by exact (f_equal P.esp Epay).
  destruct (initial_stack_loads (K.memory k) esp ss func
              (code_segment (K.layout k))) as (_ & M32 & M36 & M40 & M44).
  exists k8, pc7. split_and!.
  - unfold create.create.
    rewrite (bind_ok _ _ _ _ _ (eq_refl : gets K.layout k = Ok (_, k))).
    rewrite Hv. cbn [negb]. cbv zeta.
    destruct (Z.eqb_spec mem_start 0) as [|_]; [done|].
    rewrite (bind_ok _ _ _ _ _ E1). cbn [is_null].
    rewrite (bind_ok _ _ _ _ _ E2), (bind_ok _ _ _ _ _ E3).
    fold (stack_size stack). fold ra. fold ss.
    rewrite (bind_ok _ _ _ _ _ (mem_store32_ok ra ss k3)).
    rewrite (store32_congr _ ra (esp + 44)) by exact Hra.
    fold k4. fold (initial_esp mem_start (stack_size stack)). fold esp.
    change (wrap32 (ra - SIZEOF_CONTEXT_FRAME)) with esp.
    rewrite (bind_ok _ _ _ _ _ E5).
    assert (E6 : create.init_context_frame esp func true k5 = Ok (tt, k6)).
    { unfold create.init_context_frame. munfold. unfold modify. kcbn.
      unfold k6, m6. by rewrite Hly5. }
    rewrite (bind_ok _ _ _ _ _ E6), (bind_ok _ _ _ _ _ E7). done.
  - by rewrite (holdsb_same k7 k8).
  - by rewrite (holdsb_same k7 k8).
  - exact X7'.
  - transitivity (P.pid pc1); [exact (f_equal P.pid Epay)|].
    exact (f_equal P.pid Pay1).
  - exact (f_equal P.state Epay).
  - exact (f_equal P.priority Epay).
  - exact (f_equal P.mem_start Epay).
  - exact Hesp.
  - rewrite Hesp. unfold k8. kcbn. by rewrite Hm7, <- M32, <- Hm5.
  - rewrite Hesp. unfold k8. kcbn. by rewrite Hm7, <- M36, <- Hm5.
  - rewrite Hesp. unfold k8. kcbn. by rewrite Hm7, <- M40, <- Hm5.
  - rewrite Hesp. unfold k8. kcbn. by rewrite Hm7, <- M44, <- Hm5.
  - unfold k8. kcbn. f_equal. f_equal.
    transitivity (K.user_proc_count k6); [exact (f_equal K.user_proc_count U7)|].
    change (K.user_proc_count k6) with (K.user_proc_count k5).
    transitivity (K.user_proc_count k4); [exact (f_equal K.user_proc_count U5)|].
    change (K.user_proc_count k4) with (K.user_proc_count k3).
    transitivity (K.user_proc_count k2); [exact (f_equal K.user_proc_count U3)|].
    transitivity (K.user_proc_count k1); [exact (f_equal K.user_proc_count U2)|].
    exact (f_equal K.user_proc_count U1).
Qed.

Lemma create_sets_up_process_witness :
  exists k' pc',
    create.create 24600 8192 1900000 k_boot = Ok (1, k')
    /\ holdsb k' StoppedQ (seq 2 30) = true
    /\ holdsb k' (ReadyQ 3) ([] ++ [1%nat]) = true
    /\ K.pcbs k' !! 1%nat = Some pc'
    /\ P.pid pc'
       = new_pid_code (P.pid (default zero_pcb (K.pcbs k_boot !! 1%nat)))
    /\ P.state pc' = READY
    /\ P.priority pc' = INIT_PRIORITY
    /\ P.mem_start pc' = 1900000
    /\ P.esp pc' = initial_esp 1900000 (stack_size 8192)
    /\ load32 (K.memory k') (P.esp pc' + 32) = wrap32 24600
    /\ load32 (K.memory k') (P.esp pc' + 36)
       = wrap32 (code_segment (K.layout k_boot))
    /\ load32 (K.memory k') (P.esp pc' + 40) = EFLAGS
    /\ load32 (K.memory k') (P.esp pc' + 44)
       = wrap32 (sysstop_addr (K.layout k_boot))
    /\ K.user_proc_count k' = to_int (K.user_proc_count k_boot + 1).
Proof.
  apply (create_sets_up_process k_boot 24600 8192 1900000 1 (seq 2 30)
           (default zero_pcb (K.pcbs k_boot !! 1%nat)) []).
  - vm_compute. reflexivity.
  - lia.
  - vm_compute. reflexivity.
  - vm_compute. reflexivity.
  - apply Z.leb_le. vm_compute. reflexivity.
  - vm_compute. reflexivity.
  - vm_compute. reflexivity.
  - vm_compute. reflexivity.
  - vm_compute. reflexivity.
  - vm_compute. reflexivity.
Defined.
